(* ===== verification/_CoqProject ===== *)
-Q . S2P
Prelude.v
Enums.v
Geometry.v
RenderCall.v
GL.v
Scene.v
Traversal.v
Renderer.v
Fetch.v
Shadows.v
Shading.v
PostFX.v
Deferred.v
Application.v
Frame.v
Legacy.v
LegacyShading.v
LegacyFrame.v
Resize.v
Probes.v
Gui.v
Main.v
