(* ===== verification/Prelude.v ===== *)
(** * A verification development of the GTR scene renderer (Graphics-Engine)

    The program verified here is the C++ renderer of the repository:
    [src/src/scene.{h,cpp}] (entities, lights, irradiance grid, scene load),
    [src/src/rendercall.{h,cpp}] (the draw record and its ordering),
    [src/src/renderer.{h,cpp}] (the orchestrator: scene traversal, light
    fetch, shadow maps and atlas, forward multi/single pass, deferred
    pipeline, SSAO, post-processing chain) and [src/src/application.cpp]
    (the GUI and key handlers that reconfigure the renderer).
    [src/renderer.cpp] is an older copy of the renderer that the build does
    not use; it is modelled on its own state ([Legacy], [LegacyShading],
    [LegacyFrame]) and related to the current code by simulation.

    ** How the parts interact, and how they are modelled

    Per frame the application calls [Renderer::renderToFBO], which runs
    [renderScene] (clear, [fetchSceneEntities], the shadow pass of the light
    mode, then the forward [renderCalls] or [renderDeferred]) and then the
    post-processing chain.  [fetchSceneEntities] walks the scene's entities
    and, through [getCallsFromPrefab]/[getCallsFromNode], the prefab node
    trees, rebuilding the draw list [calls] (sorted by [operator<]), the
    light list and the other per-frame fields; every pass reads them.  The
    GUI handlers of the application write the renderer's configuration
    between frames.

    Every operation is a function in the state-error monad [M] of this
    file: [M S A := S -> Fault + A * S].  The state is [Renderer.World]:
    the renderer's fields (record [Renderer.Renderer]), the scene (entities
    addressed by index: a C++ pointer to an entity is [Renderer.Ptr]), the
    prefab node store, [Application::instance]'s quality and window size,
    and the trace of GPU commands submitted so far.  A null dereference or
    an out-of-bounds write of the C++ code, or a call on an object after
    its explicit destructor call, is a [Fault] value, never a
    silent default.  What OpenGL does with the trace is the state machine
    [GL.gl_step]; the pass theorems are stated on [GL.draws_from], the
    draws with the GL state each is made in.  The mathematics library,
    meshes, materials and cameras are the class [Geometry.Geometry]: every
    theorem holds for every instance, and the witnesses run on the
    one-dimensional instance [Geometry.World1].  Floats are exact
    rationals [Q]; integers are [Z] or [nat].

    ** Files, in dependency order (see [_CoqProject])
    - [Prelude]: this header; [Fault], the monad [M] with its notation in
      [gfx_scope], the loop combinators for C++ [for] loops, the tactics
      [mstep]/[mrun]/[mstep_in] (run a statement symbolically) and
      [vm_refl]; frame conditions [mpres R m] with the hint database
      [mpres] and the tactic [mpres_solve]; shared list and [Q] lemmas and
      the hint database [gfx]; simulations [msim P h m' m] (running [m']
      on the image [h s] of a state gives the image of [m]'s outcome) and
      invariants [minv P m], with the hint database [msim] and the tactic
      [msim_solve].
    - [Enums]: the enums of scene.h, renderer.h, material.h and
      application.h with decidable equality and their integer codes.
    - [Geometry]: the opaque collaborators as a class, and [World1].
    - [RenderCall]: [RenderCall] and its [operator<]; [std::sort] as the
      contract [CallSorter] (a class) with a merge-sort instance.
    - [GL]: the command vocabulary [GLCmd] and the state machine.
    - [Scene]: entities as a record with a tagged variant, their
      constructors and [configure], [Scene::load], [lightBounding],
      [uploadLightParams].
    - [Traversal]: [getCallsFromPrefab]/[getCallsFromNode] on the node
      store with the [getGlobalMatrix(true)] cache.
    - [Renderer]: the renderer's state, [World], the field setters, the
      frame relations [grows] and [r_agree].
    - [Fetch]: [fetchSceneEntities].
    - [Shadows]: [updateLight], [shadowMapping], [renderToAtlas] and the
      shadow branch of [renderScene].
    - [Shading]: [renderMeshWithMaterial], [renderMultiPass],
      [renderSinglePass], [renderSkybox], [renderCalls].
    - [PostFX]: the post-processing half of [renderToFBO], [applyBloom].
    - [Deferred]: [renderDeferred], [renderGBuffers], [renderDecals],
      [SSAO::apply], [passDeferredUniforms], [renderMultiPassSphere],
      [volumetricDirectional], [renderProbes], [renderReflectionProbes].
    - [Application]: the quality, render-mode and light-mode combos, the
      depth-viewport checkbox and label, [onKeyDown], the debug views
      [renderAtlas] and [renderShadowmaps], and the event system
      [app_step] with its reachable states.
    - [Frame]: [renderScene] and [renderToFBO], the frame composed of all
      of the above, with the debug view [showGbuffers].
    - [Legacy]: the older renderer's state [LState] (the current [World]
      with the fields of the older header), its traversal, collection of
      calls and lights, and its shadow pass with its own [renderToAtlas].
    - [LegacyShading]: its [renderMeshWithMaterial], [renderMultiPass],
      [renderSinglePass], [renderForward], [renderMultiPassSphere].
    - [LegacyFrame]: its [renderDeferred] with [SSAO::apply] and
      [showGbuffers], [renderScene], the constructors and
      [CubemapFromHDRE].
    - [Resize]: [Application::onResize] and the render targets it
      rebuilds, each [FBO*] member as an object lifetime (fresh, alive with
      its textures' sizes and formats, destroyed), with the allocations of
      the [Renderer] constructor and [renderGBuffers].
    - [Probes]: the probe bakes [updateProbes] (grid update, the probe
      texture created once, the probe loop, the upload), [extractProbe]
      (six faces rendered into [irr_fbo] and read back) and
      [updateReflectionProbes] (six faces into each probe's cubemap, then
      its mipmaps); [cubemapFaceNormals] and [computeSH] are parameters.
    - [Gui]: one frame of [Application::renderDebugGUI] (application.cpp
      256-400): every widget as the value the user gave it in the frame
      ([PanelInput]), its write to the renderer, the SSAO reset, the bakes
      the irradiance and reflection boxes run, the four-float
      [ColorEdit4] writes into the three-float scene colours, and the
      entity list with each entity's [renderInMenu] (scene.cpp) and the
      selection.
    - [Main]: the application's loop as a step relation [main_step] on
      [MainState] (the application, [render_wireframe], [mouse_locked],
      [cam_speed]): a frame is [Application::render] ([renderToFBO]) and
      then [renderDebugGUI]; keys go to [onKeyDown] (the bakes of keys [4]
      and [5] included), mouse events to [onMouseButtonDown] and
      [onMouseWheel]; [main_reachable] is the states a run reaches from
      the constructors ([Renderer_new]: [Renderer::Renderer] and
      [SSAO::SSAO]).
    Each file's header lists its theorems.

    ** What the theorems show (groups)
    - ordering of the draw list: [operator<] is a strict weak order, a
      sorted list is back to front within an alpha mode, and any sort
      meeting the contract gives the same keys (a refinement of the sort
      contract by every instance);
    - traversal and fetch: termination with enough fuel, the exact calls
      produced, the light list and shadow count after the fetch;
    - scene: probe layout of an irradiance grid (a round trip between
      index and lattice point), shadow FBO ownership, the random lights'
      bounds;
    - shadows: texel snapping of directional lights, the atlas cells (the
      scissor and the viewport of each light) and their overflow beyond
      four lights, the null shadow FBO of a point
      light that casts shadows;
    - shading: the multi-pass draws and their blending, the 100-light bound
      of the single pass (the declared [max_lights], where its comment
      says 10), the null probe of reflections;
    - deferred: the G-buffer partition of the calls, one light volume per
      light, the SSAO feedback loop, the frame's mutation of [lights];
    - the frame: with the volumetric pass on, a deferred frame of a scene
      without a visible directional light always faults (a composition of
      the fetch, the shadow pass and the deferred passes, through the
      frame conditions of each);
    - post-processing: the order of the passes and their targets, the blur
      feedback loop, the blur loop in closed form, motion blur reading the
      previous frame's matrix;
    - application: each handler on every branch, faults included, and the
      mode invariant of every reachable state (rule induction over runs),
      and that every mode pair the invariant allows can be reached from
      any state without a fault (liveness of the combos);
    - probe bakes: what [updateProbes] stores into the grid and uploads,
      and its read past [sh_data] when the texture was sized for a larger
      grid; the faces and mipmaps of [updateReflectionProbes] (both by
      induction on the loops, with the renders of [renderCalls] as a
      hypothesis on the calls), and the reflection bake's feedback: a
      visible call whose probe is the probe being baked samples the
      cubemap whose face is the render target;
    - the debug panel: [ssao->blur] only with [ssao->plus] after a frame
      (composed from the frame conditions of the combos, the bakes and
      each block of the panel), and [ColorEdit4]'s alpha written into the
      next member (the ambient light's red channel, a light's intensity);
    - the loop: the panel's combos are a run of the combo events of
      [Application.app_step] (a refinement), and every reachable state of
      the loop keeps the modes the combos allow and [ssao->blur] only with
      [ssao->plus] (rule induction, through the frame conditions of the
      whole frame, the panel and the bakes); [cam_speed] once zero stays
      zero; from the constructors, a scene without an irradiance grid
      keeps [grid] uninitialised through every run, so that key [4]
      reads it;
    - the older copy: its traversal simulates the current one, its
      collection refines the current fetch in forward mode (a simulation
      through [msim]), its atlas is sized by [ceil(sqrt(shadow_count))]
      with disjoint cells but overflows with point lights, its deferred
      pass reads [lights.back()] of an empty list and otherwise pops the
      last light, and its single pass dereferences a null atlas;
    - resize: what [onResize] does to every target (the SSAO target keeps
      its old size, the illumination buffer drops to half float), and that
      from every reachable state it reuses the [decals_fbo] it has just
      destroyed ([UseAfterDestroy]).

    ** Bounds and fuel
    The only recursion that is not structural is the node traversal, which
    follows child pointers: [Traversal.getCallsFromNode] takes fuel, and
    [getCallsFromPrefab_ok] shows that fuel at least the height of the
    visible tree is enough (it never faults, and produces every call);
    [Fetch.prefabs_ok] lifts this to every prefab of the scene.  The older
    copy's traversal takes the same fuel, and [getCallsFromNode_strip]
    holds for every fuel, so it inherits this bound.  The event
    [Application.EvFetch] carries the fuel of its fetch, and a frame of
    the loop ([Main.EvFrame]) the fuel of its [renderToFBO]; the bakes
    loop over the probes and the six faces, structurally.  Machine bounds
    that matter are kept: the 100-entry light arrays of the single pass
    ([max_lights]), the 2x2 atlas, [int] indices as [nat] with their
    bounds checked ([OutOfBounds]).

    ** Not modelled
    - the ImGui layout, the camera and its motion ([update], the camera
      part of [onMouseWheel], key [f]), the shader and scene reloads (keys
      [F5], [F6]), the gizmo, window plumbing; the loop of main.cpp (not
      under [src/]) is modelled from the handlers it calls;
    - asset loading (meshes, textures, shaders, HDRE cubemaps), the shader
      programs themselves, and the framework classes ([FBO], [Texture],
      [Shader], [Mesh]) beyond the commands the renderer submits;
    - the pixels the bakes read back and [computeSH]: a face's image is
      the list of commands drawn into its target, and the SH vector a
      function of the six images ([updatecoeffs] is declared and never
      defined);
    - the camera menu of the debug panel and the prefab's node menu
      (prefab.cpp), and the fourth float [ColorEdit4] writes past
      [ambient_light] into the camera;
    - in the older copy, the SSAO sample generation
      ([generateSpherePoints], not under [src/]): the samples are a field
      of [LState]. *)

From stdpp Require Export base list decidable sets gmap strings.
From Stdlib Require Export QArith Qabs Qround Qcanon ZArith Lia Lqa.

(** Numerals and comparisons default to [nat]; [Z] and [Q] are explicit. *)
Open Scope nat_scope.

Declare Scope gfx_scope.
Delimit Scope gfx_scope with gfx.
Open Scope gfx_scope.

(** ** Undefined behaviour of the C++ code, as values *)

(** A C++ operation that the source performs without a guard and that
    crashes or is undefined: dereferencing a null pointer, or writing past
    the end of a fixed-size array.  The string names the expression.
    [OutOfFuel] is not a behaviour of the program: it is what a model
    bounded by fuel returns when the fuel runs out, and the termination
    theorems show it does not happen with the fuel they give. *)
Inductive Fault :=
| NullDeref (what : string)
| OutOfBounds (what : string)
| UseAfterDestroy (what : string)   (** a member call on an object after its explicit destructor call *)
| OutOfFuel.

#[export] Instance Fault_eq_dec : EqDecision Fault.
Proof. solve_decision. Defined.

(** ** A state-error monad for the renderer's imperative code *)

Definition M (S A : Type) : Type := S -> Fault + (A * S).

Definition mret {S A} (a : A) : M S A := fun s => inr (a, s).
Definition mbind {S A B} (m : M S A) (k : A -> M S B) : M S B :=
  fun s => match m s with
           | inl f => inl f
           | inr (a, s') => k a s'
           end.
Definition mfail {S A} (f : Fault) : M S A := fun _ => inl f.
Definition mget {S} : M S S := fun s => inr (s, s).
Definition mput {S} (s : S) : M S unit := fun _ => inr (tt, s).
Definition mmodify {S} (f : S -> S) : M S unit := fun s => inr (tt, f s).

Notation "x <- m ;; k" := (mbind m (fun x => k))
  (at level 62, m at next level, right associativity) : gfx_scope.
Notation "m ;;; k" := (mbind m (fun _ => k))
  (at level 62, right associativity) : gfx_scope.

(** A C++ [for] over the elements of a [std::vector], in order. *)
Fixpoint mfor_each {S X} (xs : list X) (body : X -> M S unit) : M S unit :=
  match xs with
  | [] => mret tt
  | x :: xs' => body x ;;; mfor_each xs' body
  end.

(** [for (int i = 0; i < n; ++i) body(i)], with the index. *)
Definition mfor_range {S} (n : nat) (body : nat -> M S unit) : M S unit :=
  mfor_each (seq 0 n) body.

(** Run to the final state, when no fault happens. *)
Definition mexec {S A} (m : M S A) (s : S) : option S :=
  match m s with inr (_, s') => Some s' | inl _ => None end.

(** ** Monad laws and loop lemmas *)

Lemma mbind_ret_l {S A B} (a : A) (k : A -> M S B) s :
  mbind (mret a) k s = k a s.
Proof. reflexivity. Qed.

Lemma mbind_assoc {S A B C} (m : M S A) (k : A -> M S B) (h : B -> M S C) s :
  mbind (mbind m k) h s = mbind m (fun a => mbind (k a) h) s.
Proof. unfold mbind. by destruct (m s) as [|[]]. Qed.

Lemma mfor_each_app {S X} (xs ys : list X) (body : X -> M S unit) s :
  mfor_each (xs ++ ys) body s = mbind (mfor_each xs body) (fun _ => mfor_each ys body) s.
Proof.
  revert s. induction xs as [|x xs IH]; intros s; simpl; [done|].
  rewrite mbind_assoc. unfold mbind in *.
  destruct (body x s) as [|[[] s2]]; [done|]. apply IH.
Qed.

(** A sequence that succeeds ran both parts successfully. *)
Lemma mbind_inr_inv {S A B} (m : M S A) (k : A -> M S B) s b s' :
  mbind m k s = inr (b, s') -> exists a s1, m s = inr (a, s1) /\ k a s1 = inr (b, s').
Proof. unfold mbind. destruct (m s) as [|[a s1]]; [discriminate|eauto]. Qed.

Lemma mbind_fail {S A B} (m : M S A) (k : A -> M S B) s f :
  m s = inl f -> mbind m k s = inl f.
Proof. unfold mbind. by intros ->. Qed.

Lemma mbind_step {S A B} (m : M S A) (k : A -> M S B) s a s' :
  m s = inr (a, s') -> mbind m k s = k a s'.
Proof. unfold mbind. by intros ->. Qed.

(** A loop whose every iteration leaves the state unchanged. *)
Lemma mfor_each_skip {S X} (xs : list X) (body : X -> M S unit) s :
  (forall x, x ∈ xs -> body x s = inr (tt, s)) -> mfor_each xs body s = inr (tt, s).
Proof.
  induction xs as [|x xs IH]; intros Hb; [done|]. cbn. unfold mbind.
  rewrite Hb by set_solver. apply IH. intros y Hy. apply Hb. set_solver.
Qed.

(** A loop whose body never faults and preserves an invariant of the state
    preserves it, and never faults. *)
Lemma mfor_each_inv {S X} (P : S -> Prop) (xs : list X) (body : X -> M S unit) s :
  P s ->
  (forall x s1, x ∈ xs -> P s1 -> exists s2, body x s1 = inr (tt, s2) /\ P s2) ->
  exists s', mfor_each xs body s = inr (tt, s') /\ P s'.
Proof.
  revert s. induction xs as [|x xs IH]; intros s Hs Hb; simpl.
  - by exists s.
  - destruct (Hb x s) as (s2 & Hx & Hs2); [set_solver|done|].
    unfold mbind. rewrite Hx. apply IH; [done|].
    intros y s1 Hy. apply Hb. set_solver.
Qed.

(** What a loop does to a projection of the state, when each iteration
    acts on it as a pure step. *)
Lemma mfor_each_proj {S X P} (proj : S -> P) (step : X -> P -> P) (xs : list X)
    (body : X -> M S unit) s s' :
  (forall x s1 s2, x ∈ xs -> body x s1 = inr (tt, s2) -> proj s2 = step x (proj s1)) ->
  mfor_each xs body s = inr (tt, s') -> proj s' = foldl (fun p x => step x p) (proj s) xs.
Proof.
  revert s. induction xs as [|x xs IH]; intros s Hb Hrun; simpl in *.
  - by injection Hrun as ->.
  - unfold mbind in Hrun. destruct (body x s) as [|[[] s1]] eqn:Hx; [discriminate|].
    rewrite (IH s1); [by rewrite (Hb x s s1) by (by left || done)| |done].
    intros y t1 t2 Hy. apply Hb. by right.
Qed.

Lemma default_last_cons {A} (d x : A) l : default d (last (x :: l)) = default x (last l).
Proof.
  destruct l as [|y l]; [done|]. change (last (x :: y :: l)) with (last (y :: l)).
  destruct (last (y :: l)) eqn:E; [done|]. by apply last_None in E.
Qed.

(** The pairs of [zip (seq s n) xs] are the indexed elements of [xs]. *)
Lemma zip_seq_elem {A} (xs : list A) s i x :
  (i, x) ∈ zip (seq s (length xs)) xs -> s <= i /\ xs !! (i - s) = Some x.
Proof.
  revert s. induction xs as [|y xs IH]; intros s; cbn [length seq zip]; [set_solver|].
  rewrite elem_of_cons. intros [[= -> ->]|Hin].
  - by rewrite Nat.sub_diag.
  - destruct (IH (S s) Hin) as [Hs Hl]. split; [lia|].
    replace (i - s) with (S (i - S s)) by lia. done.
Qed.

(** ** Rationals: the C++ [float] comparisons as booleans *)

Definition Qltb (a b : Q) : bool := negb (Qle_bool b a).

Lemma Qltb_spec (a b : Q) : Qltb a b = true <-> (a < b)%Q.
Proof.
  unfold Qltb. rewrite negb_true_iff. split; intros H.
  - apply Qnot_le_lt. intros H'. apply Qle_bool_iff in H'. congruence.
  - destruct (Qle_bool b a) eqn:E; [|done].
    apply Qle_bool_iff in E. exfalso. exact (Qlt_not_le _ _ H E).
Qed.

Lemma Qltb_false (a b : Q) : Qltb a b = false <-> (b <= a)%Q.
Proof.
  unfold Qltb. rewrite negb_false_iff. apply Qle_bool_iff.
Qed.

(** ** Lists *)

Lemma length_filter_le {A} (P : A -> Prop) `{!forall x, Decision (P x)} (l : list A) :
  length (filter P l) <= length l.
Proof.
  induction l as [|x l IH]; simpl; [lia|].
  rewrite filter_cons. case_decide; simpl; lia.
Qed.

(** Lookup in the concatenation of equal-length blocks [h s, h (s+1), ...]:
    the [i]-th element of block [a] (the flattening of a C++ nested loop). *)
Lemma flat_map_seq_lookup {A} (h : nat -> list A) (m s c a i : nat) :
  (forall b, length (h b) = m) -> a < c -> i < m ->
  flat_map h (seq s c) !! (a * m + i) = h (s + a) !! i.
Proof.
  intros Hlen. revert s a. induction c as [|c IH]; intros s a Ha Hi; [lia|].
  cbn [seq flat_map]. destruct a as [|a].
  - rewrite lookup_app_l by (rewrite Hlen; lia). by rewrite Nat.add_0_r.
  - rewrite lookup_app_r by (rewrite Hlen; lia). rewrite Hlen.
    replace (S a * m + i - m) with (a * m + i) by lia.
    rewrite IH by lia. by replace (S s + a) with (s + S a) by lia.
Qed.

Lemma length_flat_map_seq {A} (h : nat -> list A) (m s c : nat) :
  (forall b, length (h b) = m) -> length (flat_map h (seq s c)) = c * m.
Proof.
  intros Hlen. revert s. induction c as [|c IH]; intros s; [done|].
  cbn [seq flat_map]. rewrite length_app, Hlen, IH. lia.
Qed.

(** The decomposition of a flattened index [n < dx * dy * dz] into
    [i + dx * (j + dy * k)]. *)
Lemma flat_index_decompose (dx dy dz n : nat) :
  n < dx * dy * dz ->
  exists i j k, i < dx /\ j < dy /\ k < dz /\ n = i + dx * (j + dy * k).
Proof.
  intros Hn. assert (dx <> 0) by (intros ->; lia). assert (dy <> 0) by (intros ->; lia).
  exists (n mod dx), ((n / dx) mod dy), (n / dx / dy).
  split; [by apply Nat.mod_upper_bound|]. split; [by apply Nat.mod_upper_bound|]. split.
  - apply Nat.Div0.div_lt_upper_bound. apply Nat.Div0.div_lt_upper_bound. lia.
  - pose proof (Nat.div_mod_eq n dx). pose proof (Nat.div_mod_eq (n / dx) dy). nia.
Qed.

(** [clamp(x, 0, 1)] of a value at least [c] in [[0,1]] lies in [[c, 1]]. *)
Lemma qclamp01_range (x c : Q) :
  (c <= x)%Q -> (0 <= c <= 1)%Q ->
  (c <= (if Qltb x 0 then 0 else if Qltb 1 x then 1 else x) <= 1)%Q.
Proof.
  intros Hx Hc. destruct (Qltb x 0) eqn:E0; [apply Qltb_spec in E0; lra|].
  destruct (Qltb 1 x) eqn:E1; [lra|]. apply Qltb_false in E1. lra.
Qed.

Create HintDb gfx.
#[export] Hint Resolve Qltb_spec Qltb_false length_filter_le : gfx.

(** ** Tactics for running monadic code symbolically *)

(** [mstep]: run the first statement of a sequence when its effect
    computes, e.g. an [mget], an [mmodify] or a [mret]. *)
Ltac mstep :=
  match goal with |- context [mbind ?m ?k ?s] => rewrite (mbind_step m k s _ _ eq_refl); cbv beta end.

(** [mrun H]: run the first statement of a sequence with the outcome
    [H : m s = inr (a, s')]. *)
Ltac mrun H := rewrite (mbind_step _ _ _ _ _ H); cbv beta.

(** [mstep_in H]: [mstep] in a hypothesis. *)
Ltac mstep_in H :=
  match type of H with context [mbind ?m ?k ?s] => rewrite (mbind_step m k s _ _ eq_refl) in H; cbv beta in H end.

Lemma foldl_const {A B} (a : A) (xs : list B) : foldl (fun p _ => p) a xs = a.
Proof. revert a. induction xs; intros; simpl; auto. Qed.

(** [vm_refl]: close [a = b] between closed computations by evaluating
    them in the virtual machine (the cast [<:]), as [vm_compute;
    reflexivity] does, without normalising the types of the equation. *)
Ltac vm_refl := match goal with |- ?a = ?b => exact (@eq_refl _ b <: a = b) end.

Lemma flat_map_ext_elem {A B} (f g : A -> list B) (l : list A) :
  (forall x, x ∈ l -> f x = g x) -> flat_map f l = flat_map g l.
Proof.
  induction l as [|x l IH]; intros Hfg; [done|]. cbn.
  rewrite Hfg by set_solver. f_equal. apply IH. intros y Hy. apply Hfg. set_solver.
Qed.

(** ** Frame conditions of monadic code

    [mpres R m]: every successful run of [m] relates its initial and final
    states by [R].  For a preorder [R] the property is compositional, so
    that a whole handler's frame condition follows from its statements'
    by [mpres_solve]. *)
Definition mpres {S A} (R : relation S) (m : M S A) : Prop :=
  forall s a s', m s = inr (a, s') -> R s s'.

Section MPres.
Context {S : Type} (R : relation S) `{!PreOrder R}.

Lemma mpres_ret {A} (a : A) : mpres R (mret a).
Proof. intros s b s' [= _ <-]. reflexivity. Qed.

Lemma mpres_get : mpres R mget.
Proof. intros s b s' [= _ <-]. reflexivity. Qed.

Lemma mpres_fail {A} f : mpres R (@mfail S A f).
Proof. by intros s b s'. Qed.

Lemma mpres_modify (f : S -> S) : (forall s, R s (f s)) -> mpres R (mmodify f).
Proof. intros Hf s b s' [= _ <-]. apply Hf. Qed.

Lemma mpres_bind {A B} (m : M S A) (k : A -> M S B) :
  mpres R m -> (forall a, mpres R (k a)) -> mpres R (mbind m k).
Proof.
  intros Hm Hk s b s' (a & s1 & H1 & H2)%mbind_inr_inv.
  transitivity s1; [exact (Hm _ _ _ H1)|exact (Hk a _ _ _ H2)].
Qed.

Lemma mpres_for_each {X} (xs : list X) (body : X -> M S unit) :
  (forall x, mpres R (body x)) -> mpres R (mfor_each xs body).
Proof.
  intros Hb. induction xs as [|x xs IH]; cbn; [apply mpres_ret|]. by apply mpres_bind.
Qed.

(** A sequence whose continuation faults in every state its first part
    can reach faults. *)
Lemma mbind_fault {A B} (m : M S A) (k : A -> M S B) s :
  mpres R m -> (forall a s', R s s' -> exists f, k a s' = inl f) -> exists f, mbind m k s = inl f.
Proof.
  intros Hm Hk. unfold mbind. destruct (m s) as [f|[a s1]] eqn:E; [by exists f|].
  exact (Hk a s1 (Hm _ _ _ E)).
Qed.
(** A sequence that succeeds ran its first part to a related state. *)
Lemma mbind_inr_mpres {A B} (m : M S A) (k : A -> M S B) s b s' :
  mpres R m -> mbind m k s = inr (b, s') -> exists a s1, R s s1 /\ k a s1 = inr (b, s').
Proof. intros Hm (a & s1 & H1 & H2)%mbind_inr_inv. exists a, s1. split; [exact (Hm _ _ _ H1)|exact H2]. Qed.
End MPres.

Lemma mpres_weaken {S A} (R R' : relation S) (m : M S A) :
  (forall s s', R s s' -> R' s s') -> mpres R m -> mpres R' m.
Proof. intros HR Hm s a s' H. exact (HR _ _ (Hm _ _ _ H)). Qed.

Create HintDb mpres.
#[export] Hint Resolve mpres_ret mpres_get mpres_fail : mpres.

(** [mpres_solve]: split a frame condition along the statements, the
    branches and the loops of the code, and close each statement with the
    [mpres] hints. *)
Ltac mpres_solve :=
  repeat (cbv zeta; match goal with
  | |- mpres ?R (mbind _ _) => apply (mpres_bind R); [|intros ?]
  | |- mpres ?R (mfor_each _ _) => apply (mpres_for_each R); intros ?
  | |- mpres _ (match ?x with _ => _ end) => destruct x
  | |- mpres _ _ => solve [eauto with mpres typeclass_instances]
  end).

(** ** Simulation through a state map

    [msim P h m' m]: from a state [s] satisfying [P], running [m'] from
    the image [h s] gives the outcome of [m] from [s], mapped by [h]: the
    same fault, or the same result in the image of the final state.  It
    relates two versions of the same code whose states differ by fields
    one of them does not keep (the legacy renderer's calls have no camera
    distance or probe); [P] is what the second version needs of its state
    for the two to agree (a render mode), and [minv P m] says that [m]
    keeps it.  Each construct of the code preserves the simulation, so a
    whole routine is related to its other version statement by statement
    ([msim_solve]). *)
Definition mres_map {S T A} (h : S -> T) (r : Fault + (A * S)) : Fault + (A * T) :=
  match r with inl f => inl f | inr (a, s) => inr (a, h s) end.

Definition msim {S T A} (P : S -> Prop) (h : S -> T) (m' : M T A) (m : M S A) : Prop :=
  forall s, P s -> m' (h s) = mres_map h (m s).

Definition minv {S A} (P : S -> Prop) (m : M S A) : Prop :=
  forall s a s', P s -> m s = inr (a, s') -> P s'.

Section MSim.
Context {S T : Type} (P : S -> Prop) (h : S -> T).

Lemma minv_True {A} (m : M S A) : minv (fun _ => True) m.
Proof. done. Qed.

Lemma minv_ret {A} (a : A) : minv P (mret a).
Proof. by intros s b s' Hs [= _ <-]. Qed.

Lemma minv_fail {A} f : minv P (@mfail S A f).
Proof. by intros s b s'. Qed.

Lemma minv_modify (f : S -> S) : (forall s, P s -> P (f s)) -> minv P (mmodify f).
Proof. intros Hf s b s' Hs [= _ <-]. by apply Hf. Qed.

Lemma minv_bind {A B} (m : M S A) (k : A -> M S B) :
  minv P m -> (forall a, minv P (k a)) -> minv P (mbind m k).
Proof. intros Hm Hk s b s' Hs (a & s1 & H1 & H2)%mbind_inr_inv. eapply Hk, H2. eapply Hm, H1. done. Qed.

Lemma minv_get_bind {B} (k : S -> M S B) : (forall s, minv P (k s)) -> minv P (mbind mget k).
Proof. intros Hk s b s' Hs H1. exact (Hk s s b s' Hs H1). Qed.

Lemma minv_for_each {X} (xs : list X) (b : X -> M S unit) :
  (forall x, minv P (b x)) -> minv P (mfor_each xs b).
Proof. intros Hb. induction xs as [|x xs IH]; cbn; [apply minv_ret|]. by apply minv_bind. Qed.

Lemma msim_ret {A} (a : A) : msim P h (mret a) (mret a).
Proof. done. Qed.

Lemma msim_fail {A} f : msim P h (@mfail T A f) (@mfail S A f).
Proof. done. Qed.

Lemma msim_modify (f' : T -> T) (f : S -> S) :
  (forall s, P s -> f' (h s) = h (f s)) -> msim P h (mmodify f') (mmodify f).
Proof. intros Hf s Hs. unfold mmodify. cbn. by rewrite Hf. Qed.

Lemma msim_bind {A B} (m' : M T A) (m : M S A) (k' : A -> M T B) (k : A -> M S B) :
  msim P h m' m -> minv P m -> (forall a, msim P h (k' a) (k a)) -> msim P h (mbind m' k') (mbind m k).
Proof.
  intros Hm Hi Hk s Hs. unfold mbind. rewrite (Hm s Hs).
  destruct (m s) as [f|[a s1]] eqn:E; [done|]. apply Hk. exact (Hi _ _ _ Hs E).
Qed.

(** A statement that reads the state: both versions continue from what
    they read. *)
Lemma msim_get_bind {B} (k' : T -> M T B) (k : S -> M S B) :
  (forall s, P s -> msim P h (k' (h s)) (k s)) -> msim P h (mbind mget k') (mbind mget k).
Proof. intros Hk s Hs. unfold mbind, mget. by apply Hk. Qed.

(** A statement of the second version that only writes what [h]
    forgets. *)
Lemma msim_skip_modify {B} (m' : M T B) (f : S -> S) (m : M S B) :
  (forall s, P s -> h (f s) = h s /\ P (f s)) -> msim P h m' m -> msim P h m' (mmodify f ;;; m).
Proof. intros Hf Hm s Hs. unfold mbind, mmodify. destruct (Hf s Hs) as [<- ?]. by apply Hm. Qed.

Lemma msim_for_each {X} (xs : list X) (b' : X -> M T unit) (b : X -> M S unit) :
  (forall x, minv P (b x)) -> (forall x, x ∈ xs -> msim P h (b' x) (b x)) ->
  msim P h (mfor_each xs b') (mfor_each xs b).
Proof.
  intros Hi. induction xs as [|x xs IH]; intros Hb; cbn; [apply msim_ret|].
  apply msim_bind; [apply Hb; left|apply Hi|intros []; apply IH; intros y Hy; apply Hb; by right].
Qed.
End MSim.

Create HintDb msim.
#[export] Hint Resolve msim_ret msim_fail minv_True minv_ret minv_fail : msim.

(** [minv_solve] and [msim_solve]: split an invariant, or the simulation
    of two versions of a routine, along their common statements, branches
    and loops, and close each statement with the [msim] hints. *)
Ltac minv_solve :=
  repeat (cbv zeta; match goal with
  | |- minv ?P (mbind mget _) => apply (minv_get_bind P); intros ?
  | |- minv ?P (mbind _ _) => apply (minv_bind P); [|intros ?]
  | |- minv ?P (mfor_each _ _) => apply (minv_for_each P); intros ?
  | |- minv _ (match ?x with _ => _ end) => destruct x
  | |- minv _ _ => solve [eauto with msim]
  end).

Ltac msim_solve :=
  repeat (cbv zeta; match goal with
  | |- msim ?P ?h (mbind mget _) (mbind mget _) => apply (msim_get_bind P h); intros ? ?
  | |- msim ?P ?h (mbind _ _) (mbind _ _) => apply (msim_bind P h); [| |intros ?]
  | |- msim ?P ?h (mfor_each _ _) (mfor_each _ _) => apply (msim_for_each P h); [intros ?|intros ? ?]
  | |- minv _ _ => minv_solve
  | |- msim _ _ _ _ => solve [eauto with msim]
  end).
