(* ===== verification/Enums.v ===== *)
(** * Enumerations of the renderer

    The C++ enums of [src/src/scene.h] ([eEntityType], [eLightType]),
    [src/src/renderer.h] ([eRenderMode], [eLightMode], [eLightEq]), and two
    enums the sources use but declare in files that are not under [src/]:
    [eAlphaMode] (material.h) and the quality tier of application.h.  Each
    has decidable equality and, where the code casts it to [int] (uniform
    uploads, array indices, [pow(2, quality)]), its integer code. *)

From S2P Require Import Prelude.

(** scene.h:18 *)
Inductive eEntityType :=
| NONE | PREFAB | LIGHT | CAMERA | IRRADIANCE_GRID | PROBE | DECAL | REFLECTION_PROBE.

(** scene.h:29 *)
Inductive eLightType := POINT | SPOT | DIRECTIONAL | NO_LIGHT.

(** material.h (not under src/): [enum eAlphaMode { NO_ALPHA, MASK, BLEND }]. *)
Inductive eAlphaMode := NO_ALPHA | MASK | BLEND.

(** renderer.h:14, 20, 26 *)
Inductive eRenderMode := FORWARD | DEFERRED | DEFERRED_ALPHA.
Inductive eLightMode := SINGLE | MULTI | BRUH.
Inductive eLightEq := PHONG | DIRECT_LAMB | DIRECT_BURLEY | NO_EQ.

(** application.h (not under src/): [enum eQuality { LOW, MEDIUM, HIGH, ULTRA }];
    the GUI combo of application.cpp:258 lists these four. *)
Inductive eQuality := LOW | MEDIUM | HIGH | ULTRA.

#[export] Instance eEntityType_eq_dec : EqDecision eEntityType.
Proof. solve_decision. Defined.
#[export] Instance eLightType_eq_dec : EqDecision eLightType.
Proof. solve_decision. Defined.
#[export] Instance eAlphaMode_eq_dec : EqDecision eAlphaMode.
Proof. solve_decision. Defined.
#[export] Instance eRenderMode_eq_dec : EqDecision eRenderMode.
Proof. solve_decision. Defined.
#[export] Instance eLightMode_eq_dec : EqDecision eLightMode.
Proof. solve_decision. Defined.
#[export] Instance eLightEq_eq_dec : EqDecision eLightEq.
Proof. solve_decision. Defined.
#[export] Instance eQuality_eq_dec : EqDecision eQuality.
Proof. solve_decision. Defined.

(** [(int)light_type], uploaded as [u_light_type]. *)
Definition light_type_code (t : eLightType) : Z :=
  match t with POINT => 0 | SPOT => 1 | DIRECTIONAL => 2 | NO_LIGHT => 3 end.

(** [(int)light_eq], uploaded as [u_light_eq]. *)
Definition light_eq_code (q : eLightEq) : Z :=
  match q with PHONG => 0 | DIRECT_LAMB => 1 | DIRECT_BURLEY => 2 | NO_EQ => 3 end.

(** The integer value of an alpha mode, compared by [RenderCall::operator<]. *)
Definition alpha_code (a : eAlphaMode) : Z :=
  match a with NO_ALPHA => 0 | MASK => 1 | BLEND => 2 end.

(** [(int)Application::instance->quality]. *)
Definition quality_code (q : eQuality) : Z :=
  match q with LOW => 0 | MEDIUM => 1 | HIGH => 2 | ULTRA => 3 end.

(** The shadow-map resolution [1024 * pow(2, (int)quality)] of
    scene.cpp:293, renderer.cpp:1183 and application.cpp:269. *)
Definition shadow_res (q : eQuality) : Z := 1024 * 2 ^ quality_code q.

Lemma alpha_code_inj (a b : eAlphaMode) : alpha_code a = alpha_code b -> a = b.
Proof. destruct a, b; simpl; congruence. Qed.

Lemma alpha_code_range (a : eAlphaMode) : (0 <= alpha_code a <= 2)%Z.
Proof. destruct a; simpl; lia. Qed.

Lemma shadow_res_pos (q : eQuality) : (1024 <= shadow_res q <= 8192)%Z.
Proof. destruct q; vm_compute; split; discriminate. Qed.

#[export] Hint Resolve alpha_code_inj alpha_code_range shadow_res_pos : gfx.
