(* ===== verification/Geometry.v ===== *)
(** * The opaque collaborators: math library, meshes, materials, cameras

    The spec keeps the mathematics library, the mesh and material assets and
    the camera's frustum tests outside the core and specifies them only at
    their interface.  This file states that interface as a class
    [Geometry]: the renderer's files are proved against it, for every
    instance.  [Vector3] is a plain struct and is modelled concretely as
    [Vec3 := Q * Q * Q]; the matrix type and the camera type are abstract,
    with exactly the operations the renderer calls on them ([Matrix44]'s
    [operator*], [getTranslation], [model * v], [frontVector],
    [setTranslation], [scale], [translate], [rotate], [inverse],
    [Quaternion::toMatrix],
    [setFrontAndOrthonormalize]; [Camera]'s [eye], [lookAt],
    [setPerspective], [setOrthographic], the translation row of
    [view_matrix], [testBoxInFrustum], [testSphereInFrustum]), plus
    [Vector3::distance], [transformBoundingBox], [boundingSphere] of utils,
    and the float functions [pow] and [cos] (not exact on [Q]).

    [Mesh] and [Material] keep the fields the renderer reads
    ([getNumVertices], [box], [alpha_mode], [two_sided], [alpha_cutoff],
    the colour texture it tests for null).

    [World1] is an instance that computes (affine maps of the x axis as
    matrices, intervals as boxes and frusta); the witnesses run on it. *)

From S2P Require Import Prelude Enums.

(** [Vector3] (framework.h): three floats. *)
Definition Vec3 : Type := Q * Q * Q.
Definition vec3 (x y z : Q) : Vec3 := (x, y, z).
Definition vzero : Vec3 := (0, 0, 0)%Q.

Class Geometry := {
  Mat44 : Type;
  (** [Matrix44()]: the identity. *)
  mat_identity : Mat44;
  (** [a * b]: apply [a], then [b] (row-vector convention). *)
  mat_mul : Mat44 -> Mat44 -> Mat44;
  (** [m.getTranslation()] *)
  mat_translation : Mat44 -> Vec3;
  (** [m * v] for a point [v] *)
  mat_point : Mat44 -> Vec3 -> Vec3;
  (** [m.frontVector()] *)
  mat_front : Mat44 -> Vec3;
  (** [m.rotateVector(v)] *)
  mat_rotate_vector : Mat44 -> Vec3 -> Vec3;
  (** [m.translate(x, y, z)] *)
  mat_translate : Mat44 -> Vec3 -> Mat44;
  (** [m.setTranslation(x, y, z)] (resets [m] to a translation) *)
  mat_set_translation : Vec3 -> Mat44;
  (** [m.scale(x, y, z)] *)
  mat_scale3 : Mat44 -> Vec3 -> Mat44;
  (** [m.rotate(angle * DEG2RAD, Vector3(0, 1, 0))] *)
  mat_rotate_y_deg : Mat44 -> Q -> Mat44;
  (** [Quaternion(x, y, z, w).toMatrix(R)] *)
  mat_of_quat : Q * Q * Q * Q -> Mat44;
  (** [m.inverse()] *)
  mat_inverse : Mat44 -> Mat44;
  (** [m.setFrontAndOrthonormalize(target - m.getTranslation())] *)
  mat_face_towards : Mat44 -> Vec3 -> Mat44;
  (** [v.distance(w)] *)
  vdistance : Vec3 -> Vec3 -> Q;
  Box : Type;
  (** [transformBoundingBox(m, box)] *)
  transform_box : Mat44 -> Box -> Box;
  (** [box.center] *)
  box_center : Box -> Vec3;
  Camera : Type;
  (** [new Camera()] *)
  cam_default : Camera;
  (** [camera->eye] *)
  cam_eye : Camera -> Vec3;
  (** [camera->lookAt(eye, center, up)] *)
  cam_look_at : Camera -> Vec3 -> Vec3 -> Vec3 -> Camera;
  (** [camera->setPerspective(fov, aspect, near, far)] *)
  cam_set_perspective : Camera -> Q -> Q -> Q -> Q -> Camera;
  (** [camera->setOrthographic(left, right, bottom, top, near, far)] *)
  cam_set_orthographic : Camera -> Q -> Q -> Q -> Q -> Q -> Q -> Camera;
  (** [camera->view_matrix], [camera->viewprojection_matrix] *)
  cam_view : Camera -> Mat44;
  cam_viewproj : Camera -> Mat44;
  (** [camera->left], [camera->right] *)
  cam_left : Camera -> Q;
  cam_right : Camera -> Q;
  (** [camera->center] *)
  cam_center : Camera -> Vec3;
  (** [eye + d * (center - eye).normalize()] *)
  vfocus : Vec3 -> Vec3 -> Q -> Vec3;
  (** [camera->near_plane], [camera->far_plane] *)
  cam_near : Camera -> Q;
  cam_far : Camera -> Q;
  (** [view_matrix.M[3][0]] and [view_matrix.M[3][1]] *)
  cam_view_tx : Camera -> Q;
  cam_view_ty : Camera -> Q;
  (** write [view_matrix.M[3][0..1]], then
      [viewprojection_matrix = view_matrix * projection_matrix] *)
  cam_set_view_txy : Camera -> Q -> Q -> Camera;
  (** [camera->testBoxInFrustum(box.center, box.halfsize)] *)
  cam_test_box : Camera -> Box -> bool;
  (** [camera->testSphereInFrustum(center, radius)] *)
  cam_test_sphere : Camera -> Vec3 -> Q -> bool;
  (** [boundingSphere(model * Vector3(0,0,0), model.rotateVector(Vector3(0,0,-1)),
      max_distance, cone_angle * PI / 180)], given the model, [max_distance]
      and [cone_angle]. *)
  spot_bounding_sphere : Mat44 -> Q -> Q -> Vec3 * Q;
  (** [pow(x, y)] and [cos(a * PI / 180)] on floats *)
  fpow : Q -> Q -> Q;
  fcos_deg : Q -> Q;
  (** the laws the renderer's proofs use *)
  cam_ortho_extent c l r b t n f :
    (cam_right (cam_set_orthographic c l r b t n f) - cam_left (cam_set_orthographic c l r b t n f) == r - l)%Q;
  cam_view_tx_set c x y : cam_view_tx (cam_set_view_txy c x y) = x;
  cam_view_ty_set c x y : cam_view_ty (cam_set_view_txy c x y) = y
}.

Section Assets.
Context `{Geometry}.

(** The part of [Mesh] the renderer reads. *)
Record Mesh := {
  mesh_id : nat;
  mesh_num_vertices : nat;
  mesh_box : Box
}.

(** The part of [GTR::Material] the renderer reads. *)
Record Material := {
  mat_alpha_mode : eAlphaMode;
  mat_two_sided : bool;
  mat_alpha_cutoff : Q;
  mat_color : Vec3 * Q;                 (** [color] (RGBA) *)
  mat_emissive : Vec3;                  (** [emissive_factor] *)
  mat_metallic : Q;                     (** [metallic_factor] *)
  mat_roughness : Q;                    (** [roughness_factor] *)
  (** which of the texture slots are set ([texture != NULL]) *)
  mat_has_color_texture : bool;
  mat_has_emissive_texture : bool;
  mat_has_met_rough_texture : bool;
  mat_has_normal_texture : bool
}.
End Assets.

(** ** A computable instance: affine maps of the x axis *)

(** An affine map [x |-> sc * x + tr] of the x axis (y and z unchanged). *)
Record Affine1 := { sc : Q; tr : Q }.

Definition affine_then (a b : Affine1) : Affine1 :=
  {| sc := sc a * sc b; tr := sc b * tr a + tr b |}%Q.

Definition vx (v : Vec3) : Q := v.1.1.

(** A box is an interval of the x axis. *)
Record Interval1 := { ctr : Q; half : Q }.

(** A camera sees the interval [[lo1, hi1]] of the x axis. *)
Record Camera1 := {
  eye1 : Vec3; lo1 : Q; hi1 : Q; left1 : Q; right1 : Q; vtx1 : Q; vty1 : Q
}.

Definition overlaps1 (c : Camera1) (x r : Q) : bool :=
  Qle_bool (lo1 c) (x + r) && Qle_bool (x - r) (hi1 c).

Definition cam1_default : Camera1 :=
  {| eye1 := vzero; lo1 := -1000; hi1 := 1000; left1 := -1; right1 := 1; vtx1 := 0; vty1 := 0 |}%Q.

#[export, refine] Instance World1 : Geometry := {
  Mat44 := Affine1;
  mat_identity := {| sc := 1; tr := 0 |}%Q;
  mat_mul := affine_then;
  mat_translation := fun m => vec3 (tr m) 0 0;
  mat_point := fun m v => (sc m * vx v + tr m, v.1.2, v.2)%Q;
  mat_front := fun _ => vec3 0 0 1;
  mat_rotate_vector := fun _ v => v;
  mat_translate := fun m v => affine_then {| sc := 1; tr := vx v |} m;
  mat_set_translation := fun v => {| sc := 1; tr := vx v |};
  mat_scale3 := fun m s => {| sc := sc m * vx s; tr := tr m |}%Q;
  mat_rotate_y_deg := fun m _ => m;
  mat_of_quat := fun _ => {| sc := 1; tr := 0 |}%Q;
  mat_inverse := fun m => {| sc := / sc m; tr := - tr m / sc m |}%Q;
  mat_face_towards := fun m _ => m;
  vdistance := fun a b => Qabs (vx a - vx b);
  Box := Interval1;
  transform_box := fun m b => {| ctr := sc m * ctr b + tr m; half := Qabs (sc m) * half b |}%Q;
  box_center := fun b => vec3 (ctr b) 0 0;
  Camera := Camera1;
  cam_default := cam1_default;
  cam_eye := eye1;
  cam_look_at := fun c e _ _ => {| eye1 := e; lo1 := lo1 c; hi1 := hi1 c; left1 := left1 c;
                                   right1 := right1 c; vtx1 := - vx e; vty1 := vty1 c |}%Q;
  cam_set_perspective := fun c _ _ n f => {| eye1 := eye1 c; lo1 := vx (eye1 c) - f; hi1 := vx (eye1 c) + f;
                                            left1 := - n; right1 := n; vtx1 := vtx1 c; vty1 := vty1 c |}%Q;
  cam_set_orthographic := fun c l r _ _ _ _ => {| eye1 := eye1 c; lo1 := vx (eye1 c) + l; hi1 := vx (eye1 c) + r;
                                                  left1 := l; right1 := r; vtx1 := vtx1 c; vty1 := vty1 c |}%Q;
  cam_view := fun c => {| sc := 1; tr := - vx (eye1 c) |}%Q;
  cam_viewproj := fun c => {| sc := 1; tr := - vx (eye1 c) |}%Q;
  cam_left := left1;
  cam_right := right1;
  cam_center := fun c => vec3 (vx (eye1 c) + 1) 0 0;
  vfocus := fun e _ d => vec3 (vx e + d) 0 0;
  cam_near := fun _ => (1 # 10)%Q;
  cam_far := fun c => (hi1 c - lo1 c)%Q;
  cam_view_tx := vtx1;
  cam_view_ty := vty1;
  cam_set_view_txy := fun c x y => {| eye1 := eye1 c; lo1 := lo1 c; hi1 := hi1 c; left1 := left1 c;
                                      right1 := right1 c; vtx1 := x; vty1 := y |};
  cam_test_box := fun c b => overlaps1 c (ctr b) (half b);
  cam_test_sphere := fun c x r => overlaps1 c (vx x) r;
  spot_bounding_sphere := fun m maxd _ => (vec3 (tr m - maxd / 2) 0 0, maxd / 2)%Q;
  fpow := fun x _ => x;
  fcos_deg := fun _ => 1%Q
}.
Proof. all: intros; reflexivity. Defined.
