(* ===== verification/RenderCall.v ===== *)
(** * RenderCall: the draw record and its ordering

    [src/src/rendercall.h] and [src/src/rendercall.cpp]: the record
    [RenderCall] (mesh, material, world model, nearest reflection probe,
    distance to the camera), its constructor, and [operator<], which
    [Renderer::fetchSceneEntities] hands to [std::sort] (renderer.cpp:470).

    - [call_lt] is [operator<] as written; [call_lt_key] characterises it as
      the lexicographic order on the key [(alpha mode, -distance)];
    - [call_lt_strict_weak_order]: it is a strict weak ordering, the
      requirement [std::sort] places on its comparator;
    - [CallSorter] is the contract of [std::sort] (the output is a
      permutation, and no element is less than an element before it), with
      an instance ([merge_sorter]) built on stdpp's [merge_sort];
    - [sorted_calls_order]: what the contract gives the renderer: opaque
      before masked before blended, and back to front within each mode;
    - [sort_keys_unique]: any two sorters meeting the contract produce the
      same sequence of keys, so the (unstable) library sort used by the
      code is observationally determined up to calls with equal keys. *)

From S2P Require Import Prelude Enums Geometry.
From stdpp Require Import sorting.

(** A lookup characterisation of [StronglySorted]. *)
Lemma StronglySorted_lookup {A} (R : relation A) (l : list A) i j x y :
  StronglySorted R l -> i < j -> l !! i = Some x -> l !! j = Some y -> R x y.
Proof.
  intros Hs. revert i j. induction Hs as [|z l Hs IH Hz]; intros i j Hij Hi Hj; [done|].
  destruct i as [|i], j as [|j]; simpl in *; simplify_eq; try lia.
  - rewrite Forall_forall in Hz. apply Hz. by eapply list_elem_of_lookup_2.
  - apply (IH i j); [lia|done..].
Qed.

Section RenderCalls.
Context `{Geometry}.

(** rendercall.h:9-29 (the fields; [mesh] and [material] are never null
    in a call: [getCallsFromNode] builds one only when both are set). *)
Record RenderCall := {
  rc_mesh : Mesh;
  rc_material : Material;
  rc_model : Mat44;
  rc_probe : option nat;   (** [ReflectionProbeEntity*], by entity id *)
  rc_cam_dist : Q
}.

(** rendercall.cpp:9-17 *)
Definition RenderCall_new (mesh : Mesh) (material : Material) (model : Mat44) : RenderCall :=
  {| rc_mesh := mesh; rc_material := material; rc_model := model;
     rc_probe := None; rc_cam_dist := 0%Q |}.

(** [call.cam_dist = d; call.probe = p;] *)
Definition rc_set_dist_probe (c : RenderCall) (d : Q) (p : option nat) : RenderCall :=
  {| rc_mesh := rc_mesh c; rc_material := rc_material c; rc_model := rc_model c;
     rc_probe := p; rc_cam_dist := d |}.

Definition rc_alpha (c : RenderCall) : eAlphaMode := mat_alpha_mode (rc_material c).

(** [RenderCall::operator<], rendercall.h:21-28. *)
Definition call_lt (a b : RenderCall) : bool :=
  if decide (rc_alpha a ≠ rc_alpha b)
  then (alpha_code (rc_alpha a) <=? alpha_code (rc_alpha b))%Z
  else Qltb (rc_cam_dist b) (rc_cam_dist a).

(** The sort key: the alpha mode's code, and the distance (canonical). *)
Definition call_key (c : RenderCall) : Z * Qc :=
  (alpha_code (rc_alpha c), Q2Qc (rc_cam_dist c)).

(** The order on keys: lower alpha code first, then farther first. *)
Definition key_lt (k1 k2 : Z * Qc) : Prop :=
  (k1.1 < k2.1)%Z \/ (k1.1 = k2.1 /\ (k2.2 < k1.2)%Qc).

Definition key_le (k1 k2 : Z * Qc) : Prop := ~ key_lt k2 k1.

(** Two calls are incomparable: neither is less than the other. *)
Definition call_incomparable (a b : RenderCall) : Prop :=
  call_lt a b = false /\ call_lt b a = false.

(** [a] may precede [b] in a sorted sequence. *)
Definition call_le (a b : RenderCall) : Prop := call_lt b a = false.

(** The contract of [std::sort(calls.begin(), calls.end())] with
    [operator<] (renderer.cpp:469-470): a permutation in which no element
    is less than one before it. *)
Class CallSorter := {
  sort_calls : list RenderCall -> list RenderCall;
  sort_calls_perm l : sort_calls l ≡ₚ l;
  sort_calls_sorted l : StronglySorted call_le (sort_calls l)
}.

(** ** Characterisation of [operator<] *)

Lemma Q2Qc_lt (a b : Q) : (Q2Qc a < Q2Qc b)%Qc <-> (a < b)%Q.
Proof.
  unfold Qclt. simpl. rewrite !Qred_correct. done.
Qed.

Lemma call_lt_key (a b : RenderCall) :
  call_lt a b = true <-> key_lt (call_key a) (call_key b).
Proof.
  unfold call_lt, key_lt, call_key; simpl. rewrite Q2Qc_lt.
  case_decide as Hne.
  - rewrite Z.leb_le. split.
    + intros Hle. left. assert (alpha_code (rc_alpha a) ≠ alpha_code (rc_alpha b))
        by (intros E; apply Hne, alpha_code_inj, E). lia.
    + intros [Hlt|[Heq _]]; [lia|]. exfalso. apply Hne, alpha_code_inj, Heq.
  - try apply dec_stable in Hne. rewrite Hne, Qltb_spec. split; [auto|].
    intros [Hlt|[_ Hd]]; [lia|done].
Qed.

Lemma key_lt_irrefl k : ~ key_lt k k.
Proof. unfold key_lt. intros [Hlt|[_ Hlt]]; [lia|]. exact (Qclt_not_eq _ _ Hlt eq_refl). Qed.

Lemma key_lt_trans k1 k2 k3 : key_lt k1 k2 -> key_lt k2 k3 -> key_lt k1 k3.
Proof.
  unfold key_lt. intros [H12|[E12 H12]] [H23|[E23 H23]]; try (left; lia).
  right. split; [congruence|]. eapply Qclt_trans; eauto.
Qed.

(** The keys are totally ordered: incomparable keys are equal. *)
Lemma key_incomparable_eq k1 k2 : ~ key_lt k1 k2 -> ~ key_lt k2 k1 -> k1 = k2.
Proof.
  destruct k1 as [a1 d1], k2 as [a2 d2]. unfold key_lt; simpl. intros H12 H21.
  assert (a1 = a2) as -> by lia. f_equal.
  destruct (Qc_dec d1 d2) as [[Hlt|Hlt]|Heq]; [|exfalso; auto|done].
  exfalso. apply H21. auto.
Qed.

Lemma call_incomparable_key a b :
  call_incomparable a b <-> call_key a = call_key b.
Proof.
  unfold call_incomparable. split.
  - intros [Hab Hba]. apply key_incomparable_eq; intros Hk; apply call_lt_key in Hk; congruence.
  - intros E. split; apply not_true_iff_false; rewrite call_lt_key, E; apply key_lt_irrefl.
Qed.

Lemma call_le_key a b : call_le a b <-> key_le (call_key a) (call_key b).
Proof. unfold call_le, key_le. rewrite <- call_lt_key. by destruct (call_lt b a). Qed.

#[export] Instance call_le_dec : RelDecision call_le.
Proof. intros a b. unfold call_le. apply _. Defined.

Lemma key_trichotomy k1 k2 : key_lt k1 k2 \/ k1 = k2 \/ key_lt k2 k1.
Proof.
  destruct k1 as [a1 d1], k2 as [a2 d2]. unfold key_lt; simpl.
  destruct (Z.lt_trichotomy a1 a2) as [Hlt|[->|Hlt]]; [auto| |auto].
  destruct (Qc_dec d1 d2) as [[Hd|Hd]| ->]; auto.
Qed.

#[export] Instance call_le_trans : Transitive call_le.
Proof.
  intros a b c. rewrite !call_le_key. unfold key_le. intros Hab Hbc Hca.
  destruct (key_trichotomy (call_key a) (call_key b)) as [Hlt|[E|Hlt]].
  - apply Hbc. eapply key_lt_trans; eauto.
  - apply Hbc. by rewrite <- E.
  - by apply Hab.
Qed.

#[export] Instance call_le_total : Total call_le.
Proof.
  intros a b. rewrite !call_le_key. unfold key_le.
  destruct (key_trichotomy (call_key a) (call_key b)) as [Hlt|[E|Hlt]].
  - left. intros Hba. apply (key_lt_irrefl (call_key a)). eapply key_lt_trans; eauto.
  - left. rewrite E. apply key_lt_irrefl.
  - right. intros Hab. apply (key_lt_irrefl (call_key a)). eapply key_lt_trans; eauto.
Qed.

#[export] Instance key_le_antisymm : AntiSymm (=) key_le.
Proof. intros k1 k2 H12 H21. by apply key_incomparable_eq. Qed.

(** The library sort, as a sorter meeting the contract. *)
#[export] Instance merge_sorter : CallSorter := {|
  sort_calls := merge_sort call_le;
  sort_calls_perm := merge_sort_Permutation call_le;
  sort_calls_sorted := StronglySorted_merge_sort call_le
|}.

(** ** Properties of the ordering *)

(** C1. [RenderCall::operator<] is a strict weak ordering: irreflexive,
    transitive, and incomparability is transitive (an equivalence). *)
Theorem call_lt_strict_weak_order :
  (forall a, call_lt a a = false) /\
  (forall a b c, call_lt a b = true -> call_lt b c = true -> call_lt a c = true) /\
  (forall a b c, call_incomparable a b -> call_incomparable b c -> call_incomparable a c).
Proof.
  split; [|split].
  - intros a. apply not_true_iff_false. rewrite call_lt_key. apply key_lt_irrefl.
  - intros a b c. rewrite !call_lt_key. apply key_lt_trans.
  - intros a b c. rewrite !call_incomparable_key. congruence.
Qed.

Lemma StronglySorted_call_le_lookup l i j ci cj :
  StronglySorted call_le l -> i < j -> l !! i = Some ci -> l !! j = Some cj ->
  (alpha_code (rc_alpha ci) <= alpha_code (rc_alpha cj))%Z /\
  (rc_alpha ci = rc_alpha cj -> (rc_cam_dist cj <= rc_cam_dist ci)%Q).
Proof.
  intros Hs Hij Hi Hj. pose proof (StronglySorted_lookup _ _ _ _ _ _ Hs Hij Hi Hj) as Hle.
  unfold call_le, call_lt in Hle. case_decide as Hne.
  - apply Z.leb_gt in Hle. split; [lia|]. intros E. by rewrite E in Hne.
  - try apply dec_stable in Hne. rewrite Hne. apply Qltb_false in Hle. split; [lia|done].
Qed.

(** C2. After the sort every draw call comes before the later ones in this
    order: alpha mode non-decreasing (opaque, then masked, then blended),
    and, within one alpha mode, camera distance non-increasing (back to
    front). *)
Theorem sorted_calls_order `{!CallSorter} (l : list RenderCall) i j ci cj :
  i < j -> sort_calls l !! i = Some ci -> sort_calls l !! j = Some cj ->
  (alpha_code (rc_alpha ci) <= alpha_code (rc_alpha cj))%Z /\
  (rc_alpha ci = rc_alpha cj -> (rc_cam_dist cj <= rc_cam_dist ci)%Q).
Proof. apply StronglySorted_call_le_lookup, sort_calls_sorted. Qed.

Lemma sorted_keys_sorted l : StronglySorted call_le l -> StronglySorted key_le (call_key <$> l).
Proof. apply StronglySorted_fmap. intros a b. apply call_le_key. Qed.

(** C3. Any two sorters meeting the contract of [std::sort] with
    [operator<] order the keys of a draw list identically: the output
    differs at most by swapping calls with equal alpha mode and equal
    distance. *)
Theorem sort_keys_unique (S1 S2 : CallSorter) (l : list RenderCall) :
  call_key <$> @sort_calls S1 l = call_key <$> @sort_calls S2 l.
Proof.
  apply (StronglySorted_unique key_le); [apply sorted_keys_sorted, sort_calls_sorted..|].
  apply fmap_Permutation. by rewrite !sort_calls_perm.
Qed.
End RenderCalls.

Arguments CallSorter {_}.
#[export] Hint Resolve call_lt_key call_le_key StronglySorted_call_le_lookup : gfx.

(** ** Witnesses on the one-dimensional world *)

Definition ex_mesh : @Mesh World1 := {| mesh_id := 0; mesh_num_vertices := 36; mesh_box := Build_Interval1 0 1 |}.
Definition ex_material (a : eAlphaMode) : Material :=
  {| mat_alpha_mode := a; mat_two_sided := false; mat_alpha_cutoff := 0; mat_color := (vec3 1 1 1, 1%Q);
     mat_emissive := vzero; mat_metallic := 0; mat_roughness := 1; mat_has_color_texture := false;
     mat_has_emissive_texture := false; mat_has_met_rough_texture := false; mat_has_normal_texture := false |}.
Definition ex_call (a : eAlphaMode) (d : Q) : @RenderCall World1 :=
  rc_set_dist_probe (RenderCall_new ex_mesh (ex_material a) {| sc := 1; tr := 0 |}) d None.

Lemma sorted_calls_order_witness :
  let ci := ex_call NO_ALPHA 50 in
  let cj := ex_call NO_ALPHA 10 in
  (alpha_code (rc_alpha ci) <= alpha_code (rc_alpha cj))%Z /\
  (rc_alpha ci = rc_alpha cj -> (rc_cam_dist cj <= rc_cam_dist ci)%Q).
Proof.
  apply (sorted_calls_order [ex_call BLEND 90; ex_call NO_ALPHA 10; ex_call NO_ALPHA 50] 0 1);
    [lia|vm_compute; reflexivity|vm_compute; reflexivity].
Defined.
