(* ===== verification/GL.v ===== *)
(** * The graphics-submission collaborator: commands and the GL state machine

    The renderer talks to OpenGL and to the framework's [Shader], [FBO],
    [Texture] and [Mesh] classes.  The spec treats that layer as an opaque
    service; the renderer's behaviour is what it submits.  This file fixes
    the vocabulary of submissions ([GLCmd]: capability toggles, blend and
    depth functions, shader enable, uniform uploads, draws, render-target
    binds, clears, viewports, texture copies) and the state machine that
    OpenGL runs on it ([gl_step]): which capabilities are on, the blend and
    depth functions, the bound program and render target, and the uniform
    values of each program.  [draws_from] lists every draw with the state in
    force when it was submitted; the pass theorems are stated on it. *)

From S2P Require Import Prelude Enums Geometry.

(** Capabilities toggled with [glEnable]/[glDisable]. *)
Inductive GLCap := CAP_BLEND | CAP_DEPTH_TEST | CAP_CULL_FACE | CAP_SCISSOR_TEST.

(** Blend factors of [glBlendFunc]. *)
Inductive GLFactor := GL_ONE | GL_SRC_ALPHA | GL_ONE_MINUS_SRC_ALPHA.

(** Depth functions of [glDepthFunc]. *)
Inductive GLDepth := GL_LESS | GL_LEQUAL.

(** Textures the renderer binds, by owner. *)
Inductive Tex :=
| TexWhite | TexBlack | TexGreen
| TexMaterial (mesh : nat) (slot : nat)   (** a material texture of the call's mesh *)
| TexShadow (light : nat)                 (** [light->shadow_fbo->depth_texture] *)
| TexAtlas                                (** [atlas->depth_texture] *)
| TexGBuffer (i : nat) | TexGBufferDepth   (** [gbuffers_fbo] targets *)
| TexDecal (i : nat)                      (** [decals_fbo] targets *)
| TexIllum | TexIllumDepth                (** [illumination_fbo] *)
| TexIllumBlurred                         (** [illumination_fbo_blurred] *)
| TexBloom                                (** [bloom_fbo] *)
| TexPing | TexPong
| TexSSAO (i : nat)
| TexProbes                               (** [probes_texture] *)
| TexCubemap (probe : nat)                (** a reflection probe's cubemap *)
| TexEnvironment | TexNoise
| TexAO                                   (** the legacy renderer's [ao_buffer] *)
| TexFile (path : string).                 (** [Texture::Get(path)] *)

(** Render targets the renderer binds. *)
Inductive Target :=
| FboShadow (light : nat) | FboAtlas | FboGBuffers | FboDecals | FboIllum
| FboIllumBlurred | FboBloom | FboSSAO | FboIrr | FboReflections (probe face : nat)
| FboOf (t : Tex)                         (** [Texture::getGlobalFBO(t)] *)
| Screen.

(** What a draw submits. *)
Inductive DrawSrc :=
| DrawMesh (mesh : nat)          (** [mesh->render(GL_TRIANGLES)] *)
| DrawQuad                       (** a full-screen quad / [toViewport] *)
| DrawSphere                     (** [data/meshes/sphere.obj] *)
| DrawCube.                      (** the decal box *)

#[export] Instance GLCap_eq_dec : EqDecision GLCap. Proof. solve_decision. Defined.
#[export] Instance GLFactor_eq_dec : EqDecision GLFactor. Proof. solve_decision. Defined.
#[export] Instance GLDepth_eq_dec : EqDecision GLDepth. Proof. solve_decision. Defined.
#[export] Instance Tex_eq_dec : EqDecision Tex. Proof. solve_decision. Defined.
#[export] Instance Target_eq_dec : EqDecision Target. Proof. solve_decision. Defined.
#[export] Instance DrawSrc_eq_dec : EqDecision DrawSrc. Proof. solve_decision. Defined.

Section GLModel.
Context `{Geometry}.

(** A uniform value ([setUniform], [setVector3], [setTexture], the array
    setters). *)
Inductive UValue :=
| UBool (b : bool) | UInt (z : Z) | UFloat (q : Q) | UVec3 (v : Vec3) | UVec4 (v : Vec3) (a : Q)
| UMat (m : Mat44) | UTex (t : Tex) (slot : Z)
| UNoTex (slot : Z)            (** [setUniform(name, (Texture* )NULL, slot)] *)
| UVec2 (x y : Q)
| UVec3Arr (vs : list Vec3) | UVec2Arr (vs : list (Q * Q)) | UFloatArr (qs : list Q) | UIntArr (zs : list Z)
| UMatArr (ms : list Mat44).

Inductive GLCmd :=
| Enable (c : GLCap) | Disable (c : GLCap)
| BlendFunc (src dst : GLFactor)
| DepthFunc (f : GLDepth)
| FrontFaceCW (cw : bool)
| ColorMask (on : bool)
| ShaderOn (prog : string) | ShaderOff
| Uniform (name : string) (v : UValue)
| Draw (d : DrawSrc)
| Bind (f : Target) | Unbind (f : Target)
| Clear (color depth : bool)
| Viewport (x y w h : Z) | Scissor (x y w h : Z)
| DrawBuffer (i : option nat)     (** [fbo->enableSingleBuffer(i)]; [None]: [enableAllBuffers()] *)
| CopyTex (src : Tex) (dst : option Tex)
| Upload (t : Tex) (rows : list (list Vec3))  (** [t->upload(...)]: the texture rows written *)
| TexNearest (t : Tex)            (** [glTexParameteri] of both filters to [GL_NEAREST] on [t] *)
| GenMipmaps (t : Tex).           (** [t->generateMipmaps()] *)

(** [texture->toViewport(shader)] of the framework (texture.cpp, not
    under src/): the texture on slot 0 of the enabled shader, drawn on a
    full-screen quad. *)
Definition to_viewport (t : Tex) : list GLCmd := [Uniform "u_texture" (UTex t 0); Draw DrawQuad].

Record GLState := {
  gs_caps : list GLCap;                       (** enabled capabilities *)
  gs_blend_func : GLFactor * GLFactor;
  gs_depth_func : GLDepth;
  gs_program : option string;
  gs_target : Target;
  gs_uniforms : list (string * string * UValue)  (** newest first *)
}.

Definition gs_on (s : GLState) (c : GLCap) : bool := bool_decide (c ∈ gs_caps s).

Definition set_caps (s : GLState) (cs : list GLCap) : GLState :=
  {| gs_caps := cs; gs_blend_func := gs_blend_func s; gs_depth_func := gs_depth_func s;
     gs_program := gs_program s; gs_target := gs_target s; gs_uniforms := gs_uniforms s |}.

(** The OpenGL state machine on one command. *)
Definition gl_step (s : GLState) (c : GLCmd) : GLState :=
  match c with
  | Enable k => set_caps s (k :: filter (fun k' => k' ≠ k) (gs_caps s))
  | Disable k => set_caps s (filter (fun k' => k' ≠ k) (gs_caps s))
  | BlendFunc a b =>
      {| gs_caps := gs_caps s; gs_blend_func := (a, b); gs_depth_func := gs_depth_func s;
         gs_program := gs_program s; gs_target := gs_target s; gs_uniforms := gs_uniforms s |}
  | DepthFunc f =>
      {| gs_caps := gs_caps s; gs_blend_func := gs_blend_func s; gs_depth_func := f;
         gs_program := gs_program s; gs_target := gs_target s; gs_uniforms := gs_uniforms s |}
  | ShaderOn p =>
      {| gs_caps := gs_caps s; gs_blend_func := gs_blend_func s; gs_depth_func := gs_depth_func s;
         gs_program := Some p; gs_target := gs_target s; gs_uniforms := gs_uniforms s |}
  | ShaderOff =>
      {| gs_caps := gs_caps s; gs_blend_func := gs_blend_func s; gs_depth_func := gs_depth_func s;
         gs_program := None; gs_target := gs_target s; gs_uniforms := gs_uniforms s |}
  | Uniform n v =>
      match gs_program s with
      | Some p =>
          {| gs_caps := gs_caps s; gs_blend_func := gs_blend_func s; gs_depth_func := gs_depth_func s;
             gs_program := gs_program s; gs_target := gs_target s;
             gs_uniforms := (p, n, v) :: gs_uniforms s |}
      | None => s
      end
  | Bind f =>
      {| gs_caps := gs_caps s; gs_blend_func := gs_blend_func s; gs_depth_func := gs_depth_func s;
         gs_program := gs_program s; gs_target := f; gs_uniforms := gs_uniforms s |}
  | Unbind _ =>
      {| gs_caps := gs_caps s; gs_blend_func := gs_blend_func s; gs_depth_func := gs_depth_func s;
         gs_program := gs_program s; gs_target := Screen; gs_uniforms := gs_uniforms s |}
  | _ => s
  end.

Definition gl_run (s : GLState) (cs : list GLCmd) : GLState := foldl gl_step s cs.

(** The value of uniform [n] of the bound program. *)
Fixpoint uniform_lookup (p n : string) (us : list (string * string * UValue)) : option UValue :=
  match us with
  | [] => None
  | (p', n', v) :: us' => if bool_decide (p' = p /\ n' = n) then Some v else uniform_lookup p n us'
  end.

Definition uniform_of (s : GLState) (n : string) : option UValue :=
  match gs_program s with
  | Some p => uniform_lookup p n (gs_uniforms s)
  | None => None
  end.

(** Every draw of a command list, with the GL state it was drawn in. *)
Fixpoint draws_from (s : GLState) (cs : list GLCmd) : list (GLState * DrawSrc) :=
  match cs with
  | [] => []
  | Draw d :: cs' => (s, d) :: draws_from s cs'
  | c :: cs' => draws_from (gl_step s c) cs'
  end.
End GLModel.

Section GLProofs.
Context `{Geometry}.

(** A command that only sets a uniform, and its name. *)
Definition is_uniform (c : GLCmd) : Prop := match c with Uniform _ _ => True | _ => False end.
Definition uniform_name (c : GLCmd) : option string := match c with Uniform n _ => Some n | _ => None end.

(** The render state apart from the uniforms. *)
Definition gl_fixed (s : GLState) : list GLCap * (GLFactor * GLFactor) * GLDepth * option string * Target :=
  (gs_caps s, gs_blend_func s, gs_depth_func s, gs_program s, gs_target s).

Lemma gl_run_app s xs ys : gl_run s (xs ++ ys) = gl_run (gl_run s xs) ys.
Proof. unfold gl_run. apply foldl_app. Qed.

Lemma draws_from_app s xs ys :
  draws_from s (xs ++ ys) = draws_from s xs ++ draws_from (gl_run s xs) ys.
Proof.
  revert s. induction xs as [|c xs IH]; intros s; [done|].
  destruct c; cbn [draws_from app]; rewrite IH; reflexivity.
Qed.

Lemma gl_run_cons s c cs : gl_run s (c :: cs) = gl_run (gl_step s c) cs.
Proof. done. Qed.

Lemma gl_fixed_uniform s n v : gl_fixed (gl_step s (Uniform n v)) = gl_fixed s.
Proof. unfold gl_fixed, gl_step. destruct (gs_program s) eqn:E; cbn; by rewrite ?E. Qed.

Lemma run_uniforms s cs :
  Forall is_uniform cs -> draws_from s cs = [] /\ gl_fixed (gl_run s cs) = gl_fixed s.
Proof.
  revert s. induction cs as [|c cs IH]; intros s Hu; [done|].
  apply Forall_cons in Hu as [Hc Hu]. destruct c; try done. cbn [draws_from].
  rewrite gl_run_cons. destruct (IH (gl_step s (Uniform name v)) Hu) as [-> ->].
  split; [done|]. apply gl_fixed_uniform.
Qed.

Lemma uniform_of_other s c n :
  is_uniform c -> uniform_name c ≠ Some n -> uniform_of (gl_step s c) n = uniform_of s n.
Proof.
  destruct c as [| | | | | | | | n' v | | | | | | | | | | | ]; try done. intros _ Hn. cbn in Hn.
  unfold uniform_of, gl_step. destruct (gs_program s) as [p|] eqn:E; cbn; rewrite ?E; [|done].
  cbn. rewrite bool_decide_false; [done|]. intros [_ ->]. by apply Hn.
Qed.

Lemma uniform_of_run_other s cs n :
  Forall (fun c => is_uniform c /\ uniform_name c ≠ Some n) cs ->
  uniform_of (gl_run s cs) n = uniform_of s n.
Proof.
  revert s. induction cs as [|c cs IH]; intros s Hu; [done|].
  apply Forall_cons in Hu as [[Hc Hn] Hu]. rewrite gl_run_cons, IH by done.
  by apply uniform_of_other.
Qed.

Lemma uniform_of_set s n v p :
  gs_program s = Some p -> uniform_of (gl_step s (Uniform n v)) n = Some v.
Proof. intros Hp. unfold uniform_of, gl_step. rewrite Hp. cbn. rewrite ?Hp. cbn. by rewrite bool_decide_true. Qed.

Lemma gs_on_enable s k k' : gs_on (gl_step s (Enable k)) k' = bool_decide (k' = k) || gs_on s k'.
Proof.
  unfold gs_on. cbn. destruct (decide (k' = k)) as [->|Hne].
  - rewrite (bool_decide_eq_true_2 (k = k)) by done. apply bool_decide_eq_true_2. by apply elem_of_cons; left.
  - rewrite (bool_decide_eq_false_2 (k' = k)) by done. cbn [orb]. apply bool_decide_ext.
    rewrite elem_of_cons, list_elem_of_filter. naive_solver.
Qed.

Lemma gs_on_disable s k k' : gs_on (gl_step s (Disable k)) k' = bool_decide (k' ≠ k) && gs_on s k'.
Proof.
  unfold gs_on. cbn. destruct (decide (k' = k)) as [->|Hne].
  - rewrite (bool_decide_eq_false_2 (k ≠ k)) by tauto. apply bool_decide_eq_false_2.
    rewrite list_elem_of_filter. tauto.
  - rewrite (bool_decide_eq_true_2 (k' ≠ k)) by done. cbn [andb]. apply bool_decide_ext.
    rewrite list_elem_of_filter. naive_solver.
Qed.

Lemma gl_fixed_eq s s' :
  gl_fixed s' = gl_fixed s ->
  gs_caps s' = gs_caps s /\ gs_blend_func s' = gs_blend_func s /\ gs_depth_func s' = gs_depth_func s /\
  gs_program s' = gs_program s /\ gs_target s' = gs_target s.
Proof. unfold gl_fixed. intros [= -> -> -> -> ->]. auto. Qed.

Lemma gs_on_fixed s s' k : gl_fixed s' = gl_fixed s -> gs_on s' k = gs_on s k.
Proof. unfold gl_fixed, gs_on. by intros [= -> _ _ _ _]. Qed.

(** A uniform upload whose name is not among [ns], as a boolean test that
    evaluates on command lists with symbolic payloads. *)
Definition uniform_avoids (ns : list string) (c : GLCmd) : bool :=
  match c with Uniform n _ => bool_decide (n ∉ ns) | _ => false end.

Lemma uniform_avoids_spec ns cs :
  forallb (uniform_avoids ns) cs = true ->
  Forall is_uniform cs /\ forall n, n ∈ ns -> Forall (fun c => is_uniform c /\ uniform_name c ≠ Some n) cs.
Proof.
  rewrite forallb_forall. intros Hc. split.
  - apply Forall_forall. intros c Hin. specialize (Hc c (proj1 (list_elem_of_In _ _) Hin)).
    by destruct c.
  - intros n Hn. apply Forall_forall. intros c Hin. specialize (Hc c (proj1 (list_elem_of_In _ _) Hin)).
    destruct c; try done. cbn in *. apply bool_decide_eq_true in Hc. split; [done|]. congruence.
Qed.

Lemma avoids_draws s ns cs :
  forallb (uniform_avoids ns) cs = true -> draws_from s cs = [] /\ gl_fixed (gl_run s cs) = gl_fixed s.
Proof. intros Hc. apply run_uniforms, (uniform_avoids_spec ns cs Hc). Qed.

Lemma avoids_uniform_of s ns cs n :
  forallb (uniform_avoids ns) cs = true -> n ∈ ns -> uniform_of (gl_run s cs) n = uniform_of s n.
Proof. intros Hc Hn. apply uniform_of_run_other, (uniform_avoids_spec ns cs Hc), Hn. Qed.
(** The last upload of [n] before a run of other uniforms is the value
    [n] has after it. *)
Lemma uniform_of_set_run s p n v cs :
  gs_program s = Some p -> forallb (uniform_avoids [n]) cs = true ->
  uniform_of (gl_run (gl_step s (Uniform n v)) cs) n = Some v.
Proof.
  intros Hp Hc. erewrite avoids_uniform_of by (done || set_solver). by eapply uniform_of_set.
Qed.

(** Capability, blend and depth commands leave the uniforms alone. *)
Lemma uniform_of_state_cmd s c n :
  match c with Enable _ | Disable _ | BlendFunc _ _ | DepthFunc _ => True | _ => False end ->
  uniform_of (gl_step s c) n = uniform_of s n.
Proof. destruct c; done. Qed.

Lemma avoids_sub ns ns' cs :
  (forall n, n ∈ ns' -> n ∈ ns) -> forallb (uniform_avoids ns) cs = true -> forallb (uniform_avoids ns') cs = true.
Proof.
  intros Hsub. rewrite !forallb_forall. intros Hc x Hx. specialize (Hc x Hx).
  destruct x; try done. cbn in *. rewrite bool_decide_eq_true in *. naive_solver.
Qed.

End GLProofs.
