(* ===== verification/Scene.v ===== *)
(** * The scene: entities, lights, irradiance grids, scene loading

    [src/src/scene.h] and [src/src/scene.cpp].  The class hierarchy
    [BaseEntity -> PrefabEntity | LightEntity | ProbeEntity | IrradianceGrid
    | ReflectionProbeEntity | DecalEntity] is a record [Entity] (the base
    fields) with a tagged variant [EntityData] (the derived fields); the
    virtual [configure] is a match on the tag.  A JSON object of the scene
    file is the record [EntityJson] of the keys the code reads, each
    [option] ([cJSON_GetObjectItem] returning null is [None]).

    Fields a C++ constructor leaves uninitialised (most floats of
    [LightEntity], [IrradianceGrid::probe_scale]) are not invented: the
    constructors take their indeterminate values as an argument.

    Theorems of this file:
    - [configure_light_shadow_fbo]: which lights own a shadow FBO after
      [LightEntity::configure], and at which resolution;
    - [grid_configure_probes]: [IrradianceGrid::configure] creates
      [dim.x * dim.y * dim.z] probes, the probe at position [n] having
      index [n] and lattice coordinates given by the flattening formula;
    - [random_lights_bounds]: the 20 point lights [Scene::load] adds have
      positions in [[-1000,1000] x [0,30] x [-1000,1000]] and colours in
      [[0.1, 1]], never cast shadows and own no shadow FBO. *)

From S2P Require Import Prelude Enums Geometry GL.
From stdpp Require Import pretty.

(** The spherical-harmonics coefficients of a probe (sphericalharmonics.h,
    not under src/): nine RGB coefficients. *)
Definition SH : Type := list Vec3.
Definition sh_zero : SH := replicate 9 vzero.

Section SceneModel.
Context `{Geometry}.

(** scene.h:108-130 *)
Record LightEntity := {
  l_color : Vec3;
  l_intensity : Q;
  l_light_type : eLightType;
  l_max_distance : Q;
  l_cone_angle : Q;
  l_area_size : Q;
  l_spot_exp : Q;
  l_bias : Q;
  l_cast_shadows : bool;
  l_uvs : Vec3;                (** atlas cell: (u, v, size) *)
  l_camera : Camera;           (** the owned shadow camera *)
  l_shadow_fbo : option Z      (** [FBO*]; [Some res] after [setDepthOnly(res, res)] *)
}.

(** scene.h:67-78 *)
Record ProbeEntity := {
  p_model : Mat44;
  p_local : Vec3;
  p_index : Z;
  p_sh : SH
}.

(** scene.h:80-95 *)
Record IrradianceGrid := {
  g_probes : list ProbeEntity;
  g_inv_model : Mat44;
  g_dim : nat * nat * nat;
  g_probe_scale : Z
}.

(** The derived part of an entity, by class. *)
Inductive EntityData :=
| EBase                                             (** BaseEntity *)
| EPrefab (filename : string) (prefab : option nat) (** PrefabEntity, [Prefab*] by id *)
| ELight (l : LightEntity)                          (** LightEntity *)
| EProbe (p : ProbeEntity)                          (** ProbeEntity *)
| EGrid (g : IrradianceGrid)                        (** IrradianceGrid *)
| EReflectionProbe                                  (** ReflectionProbeEntity (its cubemap is always allocated) *)
| EDecal (albedo : option string).                  (** DecalEntity, [Texture*] by file *)

(** scene.h:40-53 *)
Record Entity := {
  e_name : string;
  e_model : Mat44;
  e_visible : bool;
  e_data : EntityData
}.

(** [entity_type], as each constructor sets it. *)
Definition entity_type (e : Entity) : eEntityType :=
  match e_data e with
  | EBase => NONE | EPrefab _ _ => PREFAB | ELight _ => LIGHT | EProbe _ => PROBE
  | EGrid _ => IRRADIANCE_GRID | EReflectionProbe => REFLECTION_PROBE | EDecal _ => DECAL
  end.

(** scene.h:142-163 (the main camera by the fields [load] sets). *)
Record Scene := {
  scn_background : Vec3;
  scn_ambient : Vec3;
  scn_cam_eye : Vec3;
  scn_cam_center : Vec3;
  scn_cam_fov : Q;
  scn_environment : bool;      (** [environment != NULL] *)
  scn_filename : string;
  scn_entities : list Entity
}.

(** The keys of an entity's JSON object that the code reads. *)
Record EntityJson := {
  ej_type : string;
  ej_name : option string;
  ej_position : option Vec3;
  ej_angle : option Q;
  ej_rotation : option (Q * Q * Q * Q);
  ej_scale : option Vec3;
  ej_filename : option string;
  ej_light_type : option string;
  ej_color : option Vec3;
  ej_max_dist : option Q;
  ej_intensity : option Q;
  ej_target : option Vec3;
  ej_cone_angle : option Q;
  ej_area_size : option Q;
  ej_cone_exp : option Q;
  ej_shadow_bias : option Q;
  ej_cast_shadows : option bool;
  ej_dim : option (nat * nat * nat);
  ej_probe_scale : option Z;
  ej_albedo : option string
}.

(** ** Constructors *)

(** [BaseEntity()] with a derived part: visible, identity model. *)
Definition entity_new (d : EntityData) : Entity :=
  {| e_name := EmptyString; e_model := mat_identity; e_visible := true; e_data := d |}.

(** [LightEntity()], scene.cpp:269-278; [u] holds the fields it leaves
    uninitialised. *)
Definition LightEntity_new (u : LightEntity) : LightEntity :=
  {| l_color := l_color u; l_intensity := l_intensity u; l_light_type := l_light_type u;
     l_max_distance := l_max_distance u; l_cone_angle := l_cone_angle u;
     l_area_size := l_area_size u; l_spot_exp := l_spot_exp u; l_bias := l_bias u;
     l_cast_shadows := false; l_uvs := vzero; l_camera := cam_default; l_shadow_fbo := None |}.

(** [ProbeEntity()], scene.cpp:204-210. *)
Definition ProbeEntity_new : ProbeEntity :=
  {| p_model := mat_identity; p_local := vzero; p_index := 0; p_sh := sh_zero |}.

(** [IrradianceGrid()], scene.cpp:222-227; [ps] is the uninitialised
    [probe_scale]. *)
Definition IrradianceGrid_new (ps : Z) : IrradianceGrid :=
  {| g_probes := []; g_inv_model := mat_inverse mat_identity; g_dim := (0, 0, 0); g_probe_scale := ps |}.

(** [Scene::createEntity], scene.cpp:146-161: [None] is [NULL]. *)
Definition createEntity (u : LightEntity) (ps : Z) (type : string) : option EntityData :=
  if String.eqb type "PREFAB" then Some (EPrefab EmptyString None)
  else if String.eqb type "LIGHT" then Some (ELight (LightEntity_new u))
  else if String.eqb type "PROBE" then Some (EProbe ProbeEntity_new)
  else if String.eqb type "REFLECTION_PROBE" then Some EReflectionProbe
  else if String.eqb type "IRRADIANCE_GRID" then Some (EGrid (IrradianceGrid_new ps))
  else if String.eqb type "DECAL" then Some (EDecal None)
  else None.

(** ** LightEntity::configure, scene.cpp:280-343 *)

Definition light_set_type (q : eQuality) (t : string) (l : LightEntity) : LightEntity :=
  if String.eqb t "POINT" then
    {| l_color := l_color l; l_intensity := l_intensity l; l_light_type := POINT;
       l_max_distance := l_max_distance l; l_cone_angle := l_cone_angle l;
       l_area_size := l_area_size l; l_spot_exp := l_spot_exp l; l_bias := l_bias l;
       l_cast_shadows := l_cast_shadows l; l_uvs := l_uvs l; l_camera := l_camera l;
       l_shadow_fbo := l_shadow_fbo l |}
  else if String.eqb t "SPOT" then
    {| l_color := l_color l; l_intensity := l_intensity l; l_light_type := SPOT;
       l_max_distance := l_max_distance l; l_cone_angle := l_cone_angle l;
       l_area_size := l_area_size l; l_spot_exp := l_spot_exp l; l_bias := 3 # 100;
       l_cast_shadows := l_cast_shadows l; l_uvs := l_uvs l; l_camera := l_camera l;
       l_shadow_fbo := Some (shadow_res q) |}
  else if String.eqb t "DIRECTIONAL" then
    {| l_color := l_color l; l_intensity := l_intensity l; l_light_type := DIRECTIONAL;
       l_max_distance := l_max_distance l; l_cone_angle := l_cone_angle l;
       l_area_size := l_area_size l; l_spot_exp := l_spot_exp l; l_bias := 5 # 1000;
       l_cast_shadows := l_cast_shadows l; l_uvs := l_uvs l; l_camera := l_camera l;
       l_shadow_fbo := Some (shadow_res q) |}
  else l.

(** The scalar keys, in the order of the code (each only when present). *)
Definition light_set_scalars (j : EntityJson) (l : LightEntity) : LightEntity :=
  {| l_color := default (l_color l) (ej_color j);
     l_intensity := default (l_intensity l) (ej_intensity j);
     l_light_type := l_light_type l;
     l_max_distance := default (l_max_distance l) (ej_max_dist j);
     l_cone_angle := default (l_cone_angle l) (ej_cone_angle j);
     l_area_size := default (l_area_size l) (ej_area_size j);
     l_spot_exp := default (l_spot_exp l) (ej_cone_exp j);
     l_bias := default (l_bias l) (ej_shadow_bias j);
     l_cast_shadows := default (l_cast_shadows l) (ej_cast_shadows j);
     l_uvs := l_uvs l; l_camera := l_camera l; l_shadow_fbo := l_shadow_fbo l |}.

(** The whole of [configure]: the type first (with its bias and FBO), then
    the scalar keys; ["target"] turns the entity's model. *)
Definition LightEntity_configure (q : eQuality) (j : EntityJson) (model : Mat44) (l : LightEntity)
  : Mat44 * LightEntity :=
  let l1 := match ej_light_type j with Some t => light_set_type q t l | None => l end in
  let model' := match ej_target j with Some t => mat_face_towards model t | None => model end in
  (model', light_set_scalars j l1).

(** ** IrradianceGrid, scene.cpp:229-261 *)

(** [updateGrid]: recompute the inverse model. *)
Definition IrradianceGrid_updateGrid (model : Mat44) (g : IrradianceGrid) : IrradianceGrid :=
  {| g_probes := g_probes g; g_inv_model := mat_inverse model; g_dim := g_dim g;
     g_probe_scale := g_probe_scale g |}.

(** [updateProbe]: place the probe at [model * local], scaled. *)
Definition IrradianceGrid_updateProbe (model : Mat44) (ps : Z) (p : ProbeEntity) : ProbeEntity :=
  let global := mat_point model (p_local p) in
  {| p_model := mat_scale3 (mat_set_translation global) (vec3 (inject_Z ps) (inject_Z ps) (inject_Z ps));
     p_local := p_local p; p_index := p_index p; p_sh := p_sh p |}.

(** The probe created at lattice point [(i, j, k)]. *)
Definition grid_probe (model : Mat44) (ps : Z) (dx dy dz : nat) (i j k : nat) : ProbeEntity :=
  let p := ProbeEntity_new in
  let p1 := {| p_model := p_model p;
               p_local := vec3 (inject_Z (Z.of_nat i) / inject_Z (Z.of_nat dx))
                               (inject_Z (Z.of_nat j) / inject_Z (Z.of_nat dy))
                               (inject_Z (Z.of_nat k) / inject_Z (Z.of_nat dz));
               p_index := Z.of_nat (i + dx * (j + dy * k));
               p_sh := p_sh p |} in
  IrradianceGrid_updateProbe model ps p1.

(** The three nested loops of [configure], [k] outermost, each probe
    appended with [push_back]. *)
Definition grid_probes (model : Mat44) (ps : Z) (dx dy dz : nat) : list ProbeEntity :=
  flat_map (fun k => flat_map (fun j => map (fun i => grid_probe model ps dx dy dz i j k)
                                            (seq 0 dx)) (seq 0 dy)) (seq 0 dz).

(** [IrradianceGrid::configure]. *)
Definition IrradianceGrid_configure (j : EntityJson) (model : Mat44) (g : IrradianceGrid) : IrradianceGrid :=
  let '(dx, dy, dz) := default (0, 0, 0) (ej_dim j) in
  let ps := default 5%Z (ej_probe_scale j) in
  {| g_probes := g_probes g ++ grid_probes model ps dx dy dz;
     g_inv_model := g_inv_model g; g_dim := (dx, dy, dz); g_probe_scale := ps |}.

(** ** Scene::load, scene.cpp:32-144 *)

(** The global keys of the scene file. *)
Record SceneJson := {
  sj_background : option Vec3;
  sj_ambient : option Vec3;
  sj_camera_position : option Vec3;
  sj_camera_target : option Vec3;
  sj_camera_fov : option Q;
  sj_entities : list EntityJson
}.

(** [Scene::clear] (scene.cpp:16-24) and [Scene::addEntity] (27-30). *)
Definition Scene_clear (s : Scene) : Scene :=
  {| scn_background := scn_background s; scn_ambient := scn_ambient s;
     scn_cam_eye := scn_cam_eye s; scn_cam_center := scn_cam_center s;
     scn_cam_fov := scn_cam_fov s; scn_environment := scn_environment s;
     scn_filename := scn_filename s; scn_entities := [] |}.

Definition Scene_addEntity (e : Entity) (s : Scene) : Scene :=
  {| scn_background := scn_background s; scn_ambient := scn_ambient s;
     scn_cam_eye := scn_cam_eye s; scn_cam_center := scn_cam_center s;
     scn_cam_fov := scn_cam_fov s; scn_environment := scn_environment s;
     scn_filename := scn_filename s; scn_entities := scn_entities s ++ [e] |}.

(** The entity's transform keys, in the order of the code (83-109). *)
Definition load_transform (j : EntityJson) (m : Mat44) : Mat44 :=
  let m1 := match ej_position j with Some p => mat_translate mat_identity p | None => m end in
  let m2 := match ej_angle j with Some a => mat_rotate_y_deg m1 a | None => m1 end in
  let m3 := match ej_rotation j with Some r => mat_mul (mat_of_quat r) m2 | None => m2 end in
  match ej_scale j with Some v => mat_scale3 m3 v | None => m3 end.

(** The virtual [configure] of each class (scene.cpp:181-188, 212-215,
    242-261, 280-343, 433-435, 443-448; [BaseEntity::configure] is empty).
    [prefab_get] is [Prefab::Get] (null when the file does not load). *)
Definition entity_configure (q : eQuality) (prefab_get : string -> option nat)
    (j : EntityJson) (e : Entity) : Entity :=
  match e_data e with
  | EPrefab fn pf =>
      let d := match ej_filename j with
               | Some f => EPrefab f (prefab_get (String.append "data/" f))
               | None => EPrefab fn pf end in
      {| e_name := e_name e; e_model := e_model e; e_visible := e_visible e; e_data := d |}
  | ELight l =>
      let '(m', l') := LightEntity_configure q j (e_model e) l in
      {| e_name := e_name e; e_model := m'; e_visible := e_visible e; e_data := ELight l' |}
  | EGrid g =>
      {| e_name := e_name e; e_model := e_model e; e_visible := e_visible e;
         e_data := EGrid (IrradianceGrid_configure j (e_model e) g) |}
  | EDecal a =>
      let f := default EmptyString (ej_albedo j) in
      let a' := if String.eqb f EmptyString then a else Some (String.append "data/" f) in
      {| e_name := e_name e; e_model := e_model e; e_visible := e_visible e; e_data := EDecal a' |}
  | _ => e
  end.

(** One iteration of the entity loop (62-112): create (an unknown type
    gives a plain [BaseEntity]), name, transform, configure. *)
Definition load_entity (q : eQuality) (prefab_get : string -> option nat)
    (u : LightEntity) (ps0 : Z) (j : EntityJson) : Entity :=
  let e0 := entity_new (default EBase (createEntity u ps0 (ej_type j))) in
  let e1 := {| e_name := default (e_name e0) (ej_name j);
               e_model := load_transform j (e_model e0);
               e_visible := e_visible e0; e_data := e_data e0 |} in
  entity_configure q prefab_get j e1.

(** [clamp(x, a, b)] of utils. *)
Definition qclamp (x a b : Q) : Q :=
  if Qltb x a then a else if Qltb b x then b else x.

(** The integer coordinates of the [i]-th random light (121-123): the
    [rand()] calls [6 i], [6 i + 1], [6 i + 2]. *)
Definition random_light_pos (rnd : nat -> Z) (i : nat) : Z * Z * Z :=
  (Z.rem (rnd (6 * i)%nat) (1000 - (-1000) + 1) + (-1000),
   Z.rem (rnd (6 * i + 1)%nat) (30 + 1),
   Z.rem (rnd (6 * i + 2)%nat) (1000 - (-1000) + 1) + (-1000))%Z.

(** Its colour (126-129): calls [6 i + 3 .. 6 i + 5]. *)
Definition random_light_color (rnd : nat -> Z) (rand_max : Z) (i : nat) : Vec3 :=
  let c n := qclamp (inject_Z (rnd n) / inject_Z rand_max + (1 # 10)) 0 1 in
  vec3 (c (6 * i + 3)) (c (6 * i + 4)) (c (6 * i + 5)).

(** The [i]-th light of the loop of scene.cpp:117-141. *)
Definition random_light (u : LightEntity) (rnd : nat -> Z) (rand_max : Z) (i : nat) : Entity :=
  let l0 := LightEntity_new u in
  let '(x, y, z) := random_light_pos rnd i in
  let l := {| l_color := random_light_color rnd rand_max i; l_intensity := 25 # 2;
              l_light_type := POINT; l_max_distance := 70; l_cone_angle := 0;
              l_area_size := l_area_size l0; l_spot_exp := l_spot_exp l0; l_bias := l_bias l0;
              l_cast_shadows := false; l_uvs := l_uvs l0; l_camera := l_camera l0;
              l_shadow_fbo := None |} in
  {| e_name := String.append "pointlight" (pretty (i + 3));
     e_model := mat_translate mat_identity (vec3 (inject_Z x) (inject_Z y) (inject_Z z));
     e_visible := true; e_data := ELight l |}.

Definition random_lights (u : LightEntity) (rnd : nat -> Z) (rand_max : Z) : list Entity :=
  map (random_light u rnd rand_max) (seq 0 20).

(** [Scene::load]: [None] is a missing file or a JSON syntax error
    (return [false] with only the file name changed). *)
Definition Scene_load (q : eQuality) (prefab_get : string -> option nat) (u : LightEntity)
    (ps0 : Z) (rnd : nat -> Z) (rand_max : Z) (filename : string) (json : option SceneJson)
    (s : Scene) : bool * Scene :=
  let s0 := {| scn_background := scn_background s; scn_ambient := scn_ambient s;
               scn_cam_eye := scn_cam_eye s; scn_cam_center := scn_cam_center s;
               scn_cam_fov := scn_cam_fov s; scn_environment := scn_environment s;
               scn_filename := filename; scn_entities := scn_entities s |} in
  match json with
  | None => (false, s0)
  | Some sj =>
      (true, {| scn_background := default (scn_background s) (sj_background sj);
                scn_ambient := default (scn_ambient s) (sj_ambient sj);
                scn_cam_eye := default (scn_cam_eye s) (sj_camera_position sj);
                scn_cam_center := default (scn_cam_center s) (sj_camera_target sj);
                scn_cam_fov := default (scn_cam_fov s) (sj_camera_fov sj);
                scn_environment := scn_environment s; scn_filename := filename;
                scn_entities := scn_entities s ++ map (load_entity q prefab_get u ps0) (sj_entities sj)
                                ++ random_lights u rnd rand_max |})
  end.

(** ** LightEntity::lightBounding, scene.cpp:345-358 *)
Definition lightBounding (model : Mat44) (l : LightEntity) (cam : Camera) : bool :=
  let '(c, r) := if decide (l_light_type l = SPOT)
                 then spot_bounding_sphere model (l_max_distance l) (l_cone_angle l)
                 else (mat_point model vzero, l_max_distance l) in
  cam_test_sphere cam c r.

(** ** LightEntity::uploadLightParams, scene.cpp:389-415

    The uniforms uploaded for light entity [id]; with shadows on, the
    shadow map is read through [shadow_fbo], which faults when null. *)
Definition uploadLightParams (id : nat) (model : Mat44) (l : LightEntity) (linearize : bool)
    (gamma : Q) : Fault + list GLCmd :=
  let shadow :=
    if l_cast_shadows l then
      match l_shadow_fbo l with
      | None => inl (NullDeref "shadow_fbo->depth_texture")
      | Some _ => inr [Uniform "shadowmap" (UTex (TexShadow id) 8);
                       Uniform "u_shadow_viewproj" (UMat (cam_viewproj (l_camera l)));
                       Uniform "u_shadow_bias" (UFloat (l_bias l))]
      end
    else inr [] in
  let '(cx, cy, cz) := l_color l in
  let color := if linearize then vec3 (fpow cx gamma) (fpow cy gamma) (fpow cz gamma) else l_color l in
  match shadow with
  | inl f => inl f
  | inr cs =>
      inr (cs ++ [Uniform "u_light_color" (UVec3 color);
                  Uniform "u_light_cutoff" (UFloat (fcos_deg (l_cone_angle l)));
                  Uniform "u_light_exp" (UFloat (l_spot_exp l));
                  Uniform "u_light_vector" (UVec3 (mat_front model));
                  Uniform "u_shadows" (UBool (l_cast_shadows l));
                  Uniform "u_light_position" (UVec3 (mat_translation model));
                  Uniform "u_light_maxdist" (UFloat (l_max_distance l));
                  Uniform "u_light_type" (UInt (light_type_code (l_light_type l)));
                  Uniform "u_light_intensity" (UFloat (l_intensity l))])
  end.
End SceneModel.

Section SceneProperties.
Context `{Geometry}.

Lemma grid_block_length model ps dx dy dz k :
  length (flat_map (fun j => map (fun i => grid_probe model ps dx dy dz i j k) (seq 0 dx)) (seq 0 dy))
  = dy * dx.
Proof. apply length_flat_map_seq. intros b. by rewrite length_map, length_seq. Qed.

Lemma grid_probes_length model ps dx dy dz :
  length (grid_probes model ps dx dy dz) = dx * dy * dz.
Proof.
  unfold grid_probes. rewrite (length_flat_map_seq _ (dy * dx)); [lia|].
  intros k. apply grid_block_length.
Qed.

Lemma grid_probes_lookup model ps dx dy dz i j k :
  i < dx -> j < dy -> k < dz ->
  grid_probes model ps dx dy dz !! (i + dx * (j + dy * k)) = Some (grid_probe model ps dx dy dz i j k).
Proof.
  intros Hi Hj Hk. unfold grid_probes.
  replace (i + dx * (j + dy * k)) with (k * (dy * dx) + (j * dx + i)) by lia.
  rewrite (flat_map_seq_lookup _ (dy * dx)); [|apply grid_block_length|lia|nia].
  rewrite (flat_map_seq_lookup _ dx); [|intros; by rewrite length_map, length_seq|lia|lia].
  rewrite list_lookup_fmap, lookup_seq_lt by lia. done.
Qed.

(** C5. [IrradianceGrid::configure] on a fresh grid with [dim = (dx, dy, dz)]
    creates exactly [dx * dy * dz] probes; the probe stored at position
    [n] of [probes] has [index == n]; and the probe of lattice point
    [(i, j, k)] sits at position [i + dx * (j + dy * k)] with local
    coordinates [(i/dx, j/dy, k/dz)]. *)
Theorem grid_configure_probes (j : EntityJson) model ps dx dy dz :
  ej_dim j = Some (dx, dy, dz) ->
  let g := IrradianceGrid_configure j model (IrradianceGrid_new ps) in
  length (g_probes g) = dx * dy * dz /\
  (forall n p, g_probes g !! n = Some p -> p_index p = Z.of_nat n) /\
  (forall i jj k, i < dx -> jj < dy -> k < dz ->
     exists p, g_probes g !! (i + dx * (jj + dy * k)) = Some p /\
       p_local p = vec3 (inject_Z (Z.of_nat i) / inject_Z (Z.of_nat dx))
                        (inject_Z (Z.of_nat jj) / inject_Z (Z.of_nat dy))
                        (inject_Z (Z.of_nat k) / inject_Z (Z.of_nat dz))).
Proof.
  intros Hdim g. unfold g, IrradianceGrid_configure. rewrite Hdim. simpl.
  split; [apply grid_probes_length|split].
  - intros n p Hp. assert (n < dx * dy * dz) as Hn.
    { rewrite <- (grid_probes_length model 5 dx dy dz).
      apply lookup_lt_Some in Hp. by rewrite !grid_probes_length in Hp |- *. }
    destruct (flat_index_decompose dx dy dz n Hn) as (i & jj & k & Hi & Hj & Hk & ->).
    rewrite grid_probes_lookup in Hp by done. by simplify_eq.
  - intros i jj k Hi Hj Hk. eexists. split; [by apply grid_probes_lookup|done].
Qed.

(** C6. After [LightEntity::configure] of a freshly constructed light: a
    POINT light owns no shadow FBO; a light typed ["SPOT"] or
    ["DIRECTIONAL"] in the scene file owns one of resolution
    [1024 * 2^quality], whatever its [cast_shadows] flag; and only SPOT
    and DIRECTIONAL lights ever own one. *)
Theorem configure_light_shadow_fbo q (j : EntityJson) model u :
  let l := (LightEntity_configure q j model (LightEntity_new u)).2 in
  (l_light_type l = POINT -> l_shadow_fbo l = None) /\
  ((ej_light_type j = Some "SPOT" \/ ej_light_type j = Some "DIRECTIONAL") ->
     l_shadow_fbo l = Some (shadow_res q)) /\
  (l_shadow_fbo l <> None -> l_light_type l = SPOT \/ l_light_type l = DIRECTIONAL).
Proof.
  unfold LightEntity_configure; simpl.
  destruct (ej_light_type j) as [t|]; simpl.
  - unfold light_set_type.
    destruct (String.eqb t "POINT") eqn:EP; [simpl; split; [done|split]; [|done]|].
    { apply String.eqb_eq in EP. subst. intros [E|E]; discriminate. }
    destruct (String.eqb t "SPOT") eqn:ES; [simpl; split; [done|split]; [done|auto]|].
    destruct (String.eqb t "DIRECTIONAL") eqn:ED; [simpl; split; [done|split]; [done|auto]|].
    simpl. split; [done|split]; [|done].
    intros [E|E]; injection E as ->; simpl in *; discriminate.
  - simpl. split; [done|split]; [intros [E|E]; discriminate|done].
Qed.

Lemma random_light_pos_bounds rnd i :
  (forall n, 0 <= rnd n)%Z ->
  let '(x, y, z) := random_light_pos rnd i in
  (-1000 <= x <= 1000)%Z /\ (0 <= y <= 30)%Z /\ (-1000 <= z <= 1000)%Z.
Proof.
  intros Hr. unfold random_light_pos.
  generalize (Hr (6 * i)%nat) (Hr (6 * i + 1)%nat) (Hr (6 * i + 2)%nat).
  generalize (rnd (6 * i)%nat) (rnd (6 * i + 1)%nat) (rnd (6 * i + 2)%nat).
  intros a b c Ha Hb Hc.
  pose proof (Z.rem_bound_pos a 2001 Ha ltac:(lia)).
  pose proof (Z.rem_bound_pos b 31 Hb ltac:(lia)).
  pose proof (Z.rem_bound_pos c 2001 Hc ltac:(lia)).
  cbn -[Z.rem]. change (1000 - -1000 + 1)%Z with 2001%Z. change (30 + 1)%Z with 31%Z. lia.
Qed.

Lemma random_channel_range (rnd : nat -> Z) (rand_max : Z) (n : nat) :
  (0 < rand_max)%Z -> (0 <= rnd n)%Z ->
  (1 # 10 <= qclamp (inject_Z (rnd n) / inject_Z rand_max + (1 # 10)) 0 1 <= 1)%Q.
Proof.
  intros Hm Hn. unfold qclamp. apply qclamp01_range; [|lra].
  assert (0 <= inject_Z (rnd n) / inject_Z rand_max)%Q; [|lra].
  assert (0 < inject_Z rand_max)%Q by (change 0%Q with (inject_Z 0); rewrite <- Zlt_Qlt; lia).
  assert (0 <= inject_Z (rnd n))%Q by (change 0%Q with (inject_Z 0); rewrite <- Zle_Qle; lia).
  apply Qle_shift_div_l; [done|]. lra.
Qed.

(** Each of the 20 point lights [Scene::load] appends (with [rand()]
    values in [[0, RAND_MAX]]) is a POINT light that does not cast
    shadows and owns no shadow FBO, translated by integers
    [x, z] in [[-1000, 1000]] and [y] in [[0, 30]], with each colour
    channel in [[0.1, 1]]. *)
Theorem random_lights_bounds u rnd rand_max e :
  (0 < rand_max)%Z -> (forall n, 0 <= rnd n <= rand_max)%Z ->
  e ∈ random_lights u rnd rand_max ->
  exists l x y z,
    e_data e = ELight l /\
    e_model e = mat_translate mat_identity (vec3 (inject_Z x) (inject_Z y) (inject_Z z)) /\
    (-1000 <= x <= 1000)%Z /\ (0 <= y <= 30)%Z /\ (-1000 <= z <= 1000)%Z /\
    (let '(r, g, b) := l_color l in
     (1 # 10 <= r <= 1)%Q /\ (1 # 10 <= g <= 1)%Q /\ (1 # 10 <= b <= 1)%Q) /\
    l_light_type l = POINT /\ l_cast_shadows l = false /\ l_shadow_fbo l = None.
Proof.
  intros Hm Hr He. unfold random_lights in He. apply list_elem_of_fmap in He as [i [-> _]].
  pose proof (random_light_pos_bounds rnd i (fun n => proj1 (Hr n))) as Hpos.
  unfold random_light. destruct (random_light_pos rnd i) as [[x y] z].
  eexists _, x, y, z. do 2 (split; [done|]). destruct Hpos as (Hx & Hy & Hz).
  do 3 (split; [done|]). split; [|done]. simpl.
  split; [|split]; apply random_channel_range; try done; apply Hr.
Qed.
End SceneProperties.

(** ** Witnesses *)

Definition ex_light : @LightEntity World1 :=
  {| l_color := vzero; l_intensity := 1; l_light_type := POINT; l_max_distance := 10;
     l_cone_angle := 30; l_area_size := 100; l_spot_exp := 1; l_bias := 0; l_cast_shadows := false;
     l_uvs := vzero; l_camera := cam1_default; l_shadow_fbo := None |}.

Definition ex_json (t : string) : EntityJson :=
  {| ej_type := t; ej_name := None; ej_position := None; ej_angle := None; ej_rotation := None;
     ej_scale := None; ej_filename := None; ej_light_type := None; ej_color := None;
     ej_max_dist := None; ej_intensity := None; ej_target := None; ej_cone_angle := None;
     ej_area_size := None; ej_cone_exp := None; ej_shadow_bias := None; ej_cast_shadows := None;
     ej_dim := Some (2, 2, 1); ej_probe_scale := None; ej_albedo := None |}.

(** Scenario 3 of the spec: [dim = (2, 2, 1)] gives four probes. *)
Lemma grid_configure_probes_witness :
  length (g_probes (IrradianceGrid_configure (ex_json "IRRADIANCE_GRID")
                      (@mat_identity World1) (IrradianceGrid_new 5))) = 2 * 2 * 1.
Proof. apply (grid_configure_probes (ex_json "IRRADIANCE_GRID") _ 5 2 2 1); reflexivity. Defined.

Definition ex_rand (n : nat) : Z := Z.of_nat (n mod 100).

Lemma random_lights_bounds_witness :
  exists l x y z,
    e_data (random_light ex_light ex_rand 32767 0) = ELight l /\
    e_model (random_light ex_light ex_rand 32767 0) =
      mat_translate mat_identity (vec3 (inject_Z x) (inject_Z y) (inject_Z z)) /\
    (-1000 <= x <= 1000)%Z /\ (0 <= y <= 30)%Z /\ (-1000 <= z <= 1000)%Z /\
    (let '(r, g, b) := l_color l in
     (1 # 10 <= r <= 1)%Q /\ (1 # 10 <= g <= 1)%Q /\ (1 # 10 <= b <= 1)%Q) /\
    l_light_type l = POINT /\ l_cast_shadows l = false /\ l_shadow_fbo l = None.
Proof.
  apply (random_lights_bounds ex_light ex_rand 32767); [lia| |].
  - intros n. unfold ex_rand. pose proof (Nat.mod_upper_bound n 100 ltac:(lia)). lia.
  - unfold random_lights. cbn [seq map]. left.
Defined.
