(* ===== verification/Traversal.v ===== *)
(** * Scene traversal: prefab nodes to draw calls

    [Renderer::getCallsFromPrefab] and [Renderer::getCallsFromNode]
    (renderer.cpp:114-163), with the node hierarchy of the prefab and its
    [Node::getGlobalMatrix(true)] (prefab.h/prefab.cpp, not under src/:
    modelled from its use).  Nodes live in a store [gmap nat Node]; a node
    keeps its parent pointer and the cache [global_model] that
    [getGlobalMatrix(true)] reads from the parent and writes for the node.
    A prefab is shared by every entity that loads the same file, so the
    cache may hold values from another entity when a traversal starts.

    The recursion follows child pointers, so the model takes fuel;
    [getCallsFromNode_ok] shows that fuel at least the height of the
    visible tree is enough: the traversal never faults, it appends exactly
    the calls of [node_calls] (one per visible node that has both a mesh and
    a material, in pre-order, each at [global * prefab_model] where [global]
    is the full product of the local models along the parent chain), and it
    only ever writes correct values into the cache.  The spec's worry that
    intermediate levels do not compose (section 4.1, Design Notes) does not
    apply: [getGlobalMatrix(true)] composes through the parent's cache,
    which pre-order has always refreshed first. *)

From S2P Require Import Prelude Enums Geometry RenderCall.

(** [FLT_MAX] of <cfloat>, the initial best distance of the probe search. *)
Definition FLT_MAX : Q := inject_Z (340282347 * 10 ^ 31).

Section Traversal.
Context `{Geometry}.

(** [GTR::Node] (prefab.h): the fields the renderer reads, the parent
    pointer and the [global_model] cache. *)
Record Node := {
  n_visible : bool;
  n_model : Mat44;
  n_global : Mat44;
  n_mesh : option Mesh;
  n_material : option Material;
  n_parent : option nat;
  n_children : list nat
}.

Definition node_set_global (n : Node) (g : Mat44) : Node :=
  {| n_visible := n_visible n; n_model := n_model n; n_global := g; n_mesh := n_mesh n;
     n_material := n_material n; n_parent := n_parent n; n_children := n_children n |}.

(** The state the traversal threads: the node store and [Renderer::calls]. *)
Record TState := { ts_nodes : gmap nat Node; ts_calls : list RenderCall }.

(** [Node::getGlobalMatrix(true)]: [model * parent->global_model], or
    [model] at the root; the result is stored in the node's cache. *)
Definition getGlobalMatrix (id : nat) : M TState Mat44 :=
  fun s =>
    match ts_nodes s !! id with
    | None => inl (NullDeref "node")
    | Some n =>
        let g := match n_parent n with
                 | Some p => match ts_nodes s !! p with
                             | Some pn => inr (mat_mul (n_model n) (n_global pn))
                             | None => inl (NullDeref "parent")
                             end
                 | None => inr (n_model n)
                 end in
        match g with
        | inl f => inl f
        | inr g => inr (g, {| ts_nodes := <[id := node_set_global n g]> (ts_nodes s);
                             ts_calls := ts_calls s |})
        end
    end.

(** The nearest reflection probe (renderer.cpp:143-156): a strict [<]
    against the best so far, starting from [FLT_MAX]; ties keep the
    first.  [probes] holds each probe's id and translation. *)
Definition nearest_probe (probes : list (nat * Vec3)) (pos : Vec3) : option nat :=
  snd (foldl (fun acc '(id, ppos) =>
                let d := vdistance ppos pos in
                if Qltb d acc.1 then (d, Some id) else acc)
             (FLT_MAX, None) probes).

(** The call a node contributes (renderer.cpp:132-158): none unless it
    has both a mesh and a material. *)
Definition node_call (node_model : Mat44) (n : Node) (cam : option Camera)
    (probes : list (nat * Vec3)) : list RenderCall :=
  match n_mesh n, n_material n with
  | Some me, Some ma =>
      let wb := transform_box node_model (mesh_box me) in
      let c := RenderCall_new me ma node_model in
      let d := match cam with Some cm => vdistance (box_center wb) (cam_eye cm) | None => 0%Q end in
      [rc_set_dist_probe c d (nearest_probe probes (mat_translation (rc_model c)))]
  | _, _ => []
  end.

Definition push_calls (cs : list RenderCall) (s : TState) : TState :=
  {| ts_nodes := ts_nodes s; ts_calls := ts_calls s ++ cs |}.

(** [Renderer::getCallsFromNode], renderer.cpp:123-163. *)
Fixpoint getCallsFromNode (fuel : nat) (pm : Mat44) (id : nat) (cam : option Camera)
    (probes : list (nat * Vec3)) : M TState unit :=
  match fuel with
  | 0 => mfail OutOfFuel
  | S fuel' =>
      s <- mget ;;
      match ts_nodes s !! id with
      | None => mfail (NullDeref "node")
      | Some n =>
          if n_visible n then
            g <- getGlobalMatrix id ;;
            mmodify (push_calls (node_call (mat_mul g pm) n cam probes)) ;;;
            mfor_each (n_children n) (fun c => getCallsFromNode fuel' pm c cam probes)
          else mret tt
      end
  end.

(** [Renderer::getCallsFromPrefab], renderer.cpp:114-120: the prefab is
    its root node. *)
Definition getCallsFromPrefab (fuel : nat) (pm : Mat44) (root : nat) (cam : option Camera)
    (probes : list (nat * Vec3)) : M TState unit :=
  getCallsFromNode fuel pm root cam probes.

(** ** Reference semantics *)

(** [getGlobalMatrix(false)]: the product of the local models along the
    parent chain. *)
Inductive chain (ns : gmap nat Node) : nat -> Mat44 -> Prop :=
| chain_root id n : ns !! id = Some n -> n_parent n = None -> chain ns id (n_model n)
| chain_step id n p G : ns !! id = Some n -> n_parent n = Some p -> chain ns p G ->
    chain ns id (mat_mul (n_model n) G).

(** A visible subtree of height at most [h] whose children point back to
    their parent. *)
Inductive tree_depth (ns : gmap nat Node) : nat -> nat -> Prop :=
| td_hidden id n h : ns !! id = Some n -> n_visible n = false -> tree_depth ns id (S h)
| td_node id n h : ns !! id = Some n -> n_visible n = true ->
    (forall c, c ∈ n_children n -> exists cn, ns !! c = Some cn /\ n_parent cn = Some id) ->
    (forall c, c ∈ n_children n -> tree_depth ns c h) -> tree_depth ns id (S h).

(** The calls a subtree contributes, in pre-order. *)
Inductive node_calls (ns : gmap nat Node) (pm : Mat44) (cam : option Camera)
    (probes : list (nat * Vec3)) : nat -> list RenderCall -> Prop :=
| nc_hidden id n : ns !! id = Some n -> n_visible n = false -> node_calls ns pm cam probes id []
| nc_visible id n G outs : ns !! id = Some n -> n_visible n = true -> chain ns id G ->
    Forall2 (node_calls ns pm cam probes) (n_children n) outs ->
    node_calls ns pm cam probes id (node_call (mat_mul G pm) n cam probes ++ concat outs).

(** ** The cache and the shape of the store *)

Definition shape (n : Node) :=
  (n_visible n, n_model n, n_mesh n, n_material n, n_parent n, n_children n).

Definition same_shape (ns1 ns2 : gmap nat Node) : Prop :=
  forall i, shape <$> ns1 !! i = shape <$> ns2 !! i.

Definition cache_ok (ns : gmap nat Node) (x : nat) : Prop :=
  exists n, ns !! x = Some n /\ chain ns x (n_global n).

Definition parent_ok (ns : gmap nat Node) (id : nat) : Prop :=
  forall n p, ns !! id = Some n -> n_parent n = Some p -> cache_ok ns p.

#[export] Instance same_shape_equiv : Equivalence same_shape.
Proof.
  split; [intros ns i; done|intros ns1 ns2 E i; by rewrite E|].
  intros ns1 ns2 ns3 E1 E2 i. by rewrite E1, E2.
Qed.

Lemma same_shape_lookup ns1 ns2 i n :
  same_shape ns1 ns2 -> ns1 !! i = Some n -> exists n', ns2 !! i = Some n' /\ shape n' = shape n.
Proof.
  intros E Hn. specialize (E i). rewrite Hn in E.
  destruct (ns2 !! i) as [n'|]; cbn in E; [|discriminate].
  exists n'. split; [done|]. congruence.
Qed.

Lemma same_shape_set_global ns id n g :
  ns !! id = Some n -> same_shape ns (<[id := node_set_global n g]> ns).
Proof.
  intros Hn i. destruct (decide (i = id)) as [->|Hne].
  - by rewrite lookup_insert_eq, Hn.
  - by rewrite lookup_insert_ne by congruence.
Qed.

Lemma chain_shape ns1 ns2 id G : same_shape ns1 ns2 -> chain ns1 id G -> chain ns2 id G.
Proof.
  intros E. induction 1 as [id n Hn Hp|id n p G Hn Hp _ IH];
    destruct (same_shape_lookup _ _ _ _ E Hn) as (n' & Hn' & Hs); injection Hs as _ Hm _ _ Hp' _.
  - rewrite <- Hm. eapply chain_root; [done|congruence].
  - rewrite <- Hm. eapply (chain_step _ _ n' p); [done|congruence|done].
Qed.

Lemma tree_depth_shape ns1 ns2 id h : same_shape ns1 ns2 -> tree_depth ns1 id h -> tree_depth ns2 id h.
Proof.
  intros E. induction 1 as [id n h Hn Hv|id n h Hn Hv Hpar _ IH];
    destruct (same_shape_lookup _ _ _ _ E Hn) as (n' & Hn' & Hs); injection Hs as Hv' _ _ _ _ Hc.
  - eapply td_hidden; [done|congruence].
  - eapply td_node; [done|congruence| |]; rewrite Hc; [|done].
    intros c Hc'. destruct (Hpar c Hc') as (cn & Hcn & Hcp).
    destruct (same_shape_lookup _ _ _ _ E Hcn) as (cn' & Hcn' & Hs'); injection Hs' as _ _ _ _ Hp' _.
    exists cn'. split; [done|congruence].
Qed.

(** Writing a correct value into the cache keeps every correct entry. *)
Lemma cache_ok_set_global ns id n G x :
  ns !! id = Some n -> chain ns id G -> cache_ok ns x ->
  cache_ok (<[id := node_set_global n G]> ns) x.
Proof.
  intros Hn HG [m [Hm Hc]]. pose proof (same_shape_set_global ns id n G Hn) as E.
  destruct (decide (x = id)) as [->|Hne].
  - eexists. rewrite lookup_insert_eq. split; [done|]. simpl. by eapply chain_shape.
  - exists m. rewrite lookup_insert_ne by congruence. split; [done|]. by eapply chain_shape.
Qed.

Lemma node_call_shape G n n' cam probes :
  shape n' = shape n -> node_call G n' cam probes = node_call G n cam probes.
Proof. intros Hs. injection Hs as _ _ Hme Hma _ _. unfold node_call. by rewrite Hme, Hma. Qed.

Lemma getGlobalMatrix_ok s id n :
  ts_nodes s !! id = Some n -> parent_ok (ts_nodes s) id ->
  exists G, chain (ts_nodes s) id G /\
    getGlobalMatrix id s = inr (G, {| ts_nodes := <[id := node_set_global n G]> (ts_nodes s);
                                      ts_calls := ts_calls s |}).
Proof.
  intros Hn Hpar. unfold getGlobalMatrix. rewrite Hn. destruct (n_parent n) as [p|] eqn:Hp.
  - destruct (Hpar n p Hn Hp) as (pn & Hpn & Hc). rewrite Hpn.
    eexists. split; [eapply chain_step; eauto|done].
  - eexists. split; [by eapply chain_root|done].
Qed.

Lemma getCallsFromNode_visible fuel pm id cam probes s n G s1 :
  ts_nodes s !! id = Some n -> n_visible n = true -> getGlobalMatrix id s = inr (G, s1) ->
  getCallsFromNode (S fuel) pm id cam probes s =
  mfor_each (n_children n) (fun c => getCallsFromNode fuel pm c cam probes)
            (push_calls (node_call (mat_mul G pm) n cam probes) s1).
Proof. intros Hn Hv Hg. cbn [getCallsFromNode]. unfold mbind, mget, mmodify. by rewrite Hn, Hv, Hg. Qed.

(** A loop over children whose body appends calls and keeps an
    invariant appends the concatenation, child by child. *)
Lemma mfor_each_collect (cs : list nat) (body : nat -> M TState unit) (Inv : TState -> Prop)
    (R : nat -> list RenderCall -> Prop) s :
  Inv s ->
  (forall c s1, c ∈ cs -> Inv s1 -> exists s2 out,
      body c s1 = inr (tt, s2) /\ ts_calls s2 = ts_calls s1 ++ out /\ Inv s2 /\ R c out) ->
  exists s' outs, mfor_each cs body s = inr (tt, s') /\
    ts_calls s' = ts_calls s ++ concat outs /\ Inv s' /\ Forall2 R cs outs.
Proof.
  revert s. induction cs as [|c cs IH]; intros s Hs Hb; simpl.
  - exists s, []. rewrite app_nil_r. auto.
  - destruct (Hb c s) as (s2 & out & Hc & Hcalls & Hs2 & HR); [set_solver|done|].
    unfold mbind. rewrite Hc.
    destruct (IH s2) as (s' & outs & Hl & Hcalls' & Hs' & HF);
      [done|intros; apply Hb; [set_solver|done]|].
    exists s', (out :: outs). rewrite Hcalls', Hcalls, <- app_assoc. auto.
Qed.

Lemma getCallsFromNode_ok_aux h : forall fuel id pm cam probes s ns0,
  tree_depth (ts_nodes s) id h -> h <= fuel -> parent_ok (ts_nodes s) id ->
  same_shape ns0 (ts_nodes s) ->
  exists s' out, getCallsFromNode fuel pm id cam probes s = inr (tt, s') /\
    ts_calls s' = ts_calls s ++ out /\ same_shape (ts_nodes s) (ts_nodes s') /\
    (forall x, cache_ok (ts_nodes s) x -> cache_ok (ts_nodes s') x) /\
    node_calls ns0 pm cam probes id out.
Proof.
  induction h as [|h IH]; intros fuel id pm cam probes s ns0 Htd Hf Hpar E; [inversion Htd|].
  destruct fuel as [|fuel]; [lia|].
  inversion Htd as [? n ? Hn Hv|? n ? Hn Hv Hch Htdc]; subst;
    destruct (same_shape_lookup _ _ id n (symmetry E) Hn) as (n0 & Hn0 & Hs0).
  - exists s, []. cbn [getCallsFromNode]. unfold mbind, mget. rewrite Hn, Hv, app_nil_r.
    repeat split; [done|]. eapply nc_hidden; [done|]. injection Hs0 as Hv0 _. congruence.
  - destruct (getGlobalMatrix_ok s id n Hn Hpar) as (G & HG & Hgm).
    rewrite (getCallsFromNode_visible _ _ _ _ _ _ _ _ _ Hn Hv Hgm).
    set (s1 := push_calls (node_call (mat_mul G pm) n cam probes)
                 {| ts_nodes := <[id:=node_set_global n G]> (ts_nodes s); ts_calls := ts_calls s |}).
    destruct (mfor_each_collect (n_children n) (fun c => getCallsFromNode fuel pm c cam probes)
      (fun t => same_shape (ts_nodes s) (ts_nodes t) /\
                (forall x, cache_ok (ts_nodes s) x -> cache_ok (ts_nodes t) x) /\
                cache_ok (ts_nodes t) id)
      (node_calls ns0 pm cam probes) s1) as (s' & outs & Hrun & Hcalls & (Es' & Hmono & _) & HF).
    { unfold s1; simpl.
      split; [by apply same_shape_set_global|split; [by intros; apply cache_ok_set_global|]].
      eexists. rewrite lookup_insert_eq. split; [done|]. simpl.
      eapply chain_shape; [by apply same_shape_set_global|done]. }
    { intros c t Hc (Et & Hmt & Hid).
      destruct (Hch c Hc) as (cn & Hcn & Hcp).
      destruct (IH fuel c pm cam probes t ns0) as (t' & out & Hr & Hcl & Et' & Hm' & Hnc).
      - eapply tree_depth_shape; [exact Et|by apply Htdc].
      - lia.
      - intros cn' p Hcn' Hp. destruct (same_shape_lookup _ _ c _ Et Hcn) as (cn'' & Hcn'' & Hs').
        rewrite Hcn' in Hcn''. injection Hcn'' as <-. injection Hs' as _ _ _ _ Hpp _.
        rewrite Hp, Hcp in Hpp. injection Hpp as ->. done.
      - by rewrite E, Et.
      - exists t', out. repeat split; try done;
          [by rewrite Et|intros x Hx; by apply Hm', Hmt|by apply Hm']. }
    exists s', (node_call (mat_mul G pm) n cam probes ++ concat outs).
    split; [done|]. split; [rewrite Hcalls; simpl; by rewrite app_assoc|].
    split; [by rewrite <- Es'|]. split; [done|].
    rewrite (node_call_shape _ n0 n) by (symmetry; done).
    injection Hs0 as Hv0 _ _ _ _ Hc0.
    eapply nc_visible; [done|congruence|by eapply chain_shape; [symmetry|]|]. by rewrite Hc0.
Qed.

(** C4. [getCallsFromPrefab] on a prefab whose root has no parent and
    whose visible tree has height at most [fuel] never faults and never
    runs out of fuel; it appends to [calls] exactly the calls of
    [node_calls] (pre-order, one per visible node with a mesh and a
    material, each at [parent-chain product * prefab model]), whatever the
    cache held before, and leaves the hierarchy unchanged. *)
Theorem getCallsFromPrefab_ok fuel h pm root cam probes s :
  tree_depth (ts_nodes s) root h -> h <= fuel ->
  (forall n, ts_nodes s !! root = Some n -> n_parent n = None) ->
  exists s' out, getCallsFromPrefab fuel pm root cam probes s = inr (tt, s') /\
    ts_calls s' = ts_calls s ++ out /\ same_shape (ts_nodes s) (ts_nodes s') /\
    node_calls (ts_nodes s) pm cam probes root out.
Proof.
  intros Htd Hf Hroot.
  destruct (getCallsFromNode_ok_aux h fuel root pm cam probes s (ts_nodes s) Htd Hf)
    as (s' & out & ? & ? & ? & _ & ?); [|done|eauto 10].
  intros n p Hn Hp. rewrite (Hroot n Hn) in Hp. discriminate.
Qed.
End Traversal.

(** ** Witness: a two-node prefab on the one-dimensional world *)

Definition ex_node (p : option nat) (cs : list nat) : @Node World1 :=
  {| n_visible := true; n_model := {| sc := 1; tr := 1 |}; n_global := {| sc := 1; tr := 0 |};
     n_mesh := Some ex_mesh; n_material := Some (ex_material NO_ALPHA);
     n_parent := p; n_children := cs |}.

Definition ex_store : gmap nat (@Node World1) :=
  <[0 := ex_node None [1]]> (<[1 := ex_node (Some 0) []]> ∅).

Lemma getCallsFromPrefab_ok_witness :
  exists s' out,
    getCallsFromPrefab 2 mat_identity 0 None [] {| ts_nodes := ex_store; ts_calls := [] |} = inr (tt, s') /\
    ts_calls s' = [] ++ out /\ same_shape ex_store (ts_nodes s') /\
    node_calls ex_store mat_identity None [] 0 out.
Proof.
  apply (getCallsFromPrefab_ok 2 2 _ 0 None [] {| ts_nodes := ex_store; ts_calls := [] |}).
  - eapply td_node; [reflexivity|reflexivity| |].
    + intros c Hc. apply list_elem_of_singleton in Hc as ->. eexists. split; reflexivity.
    + intros c Hc. apply list_elem_of_singleton in Hc as ->.
      eapply td_node; [reflexivity|reflexivity|intros c Hc; inversion Hc|intros c Hc; inversion Hc].
  - lia.
  - intros n Hn. vm_compute in Hn. injection Hn as <-. reflexivity.
Defined.
