(* ===== verification/Renderer.v ===== *)
(** * The renderer's state and the per-frame fetch of the scene

    [class Renderer] (renderer.h:55-179) as the record [Renderer] of the
    fields the modelled operations read or write, and the state [World]
    they all run in: the renderer, the scene (whose entities the renderer
    holds by pointer: a pointer is an index into [scn_entities], and writes
    through it, like the atlas UVs of a light, change the scene), the prefab
    node store, [Application::instance]'s quality and window size, and the
    trace of GPU commands submitted so far.

    [fetchSceneEntities] (renderer.cpp:413-471) is the loop over the scene's
    entities that rebuilds [calls], [lights], [directional_light],
    [shadow_count], [reflection_probes] and [grid], then sorts [calls].

    Theorems (in [Fetch]):
    - [fetch_lights_spec]: what [lights], [directional_light] and
      [shadow_count] hold after the fetch.

    The setters below are the assignments the code makes to renderer
    fields; they copy every other field.  At the end: the loop lemma
    [mfor_each_emit] for loops that only submit commands, and the two
    preorders used as frame conditions with [Prelude.mpres]: [grows] (only
    the GL trace is extended) and [r_agree f] (the renderer fields selected
    by [f] are unchanged), with their [mpres] hints. *)

From S2P Require Import Prelude Enums Geometry RenderCall GL Scene Traversal.

(** A raw pointer field: null, never initialised, or an entity. *)
Inductive Ptr := PNull | PUninit | PEnt (id : nat).

#[export] Instance Ptr_eq_dec : EqDecision Ptr. Proof. solve_decision. Defined.

Section RendererState.
Context `{Geometry}.

(** The post-processing parameters and the state kept across frames
    (renderer.h:82-85, 79, 110-120; [gbuffers_fbo->fbo_id != 0] as
    [fx_gbuffers_alloc]). *)
Record FxState := {
  fx_hdr_scale : Q;
  fx_hdr_average_lum : Q;
  fx_hdr_white_balance : Q;
  fx_air_density : Q;
  fx_bloom_th : Q;
  fx_bloom_soft_th : Q;
  fx_focal_dist : Q;
  fx_min_dist_dof : Q;
  fx_max_dist_dof : Q;
  fx_noise_amount : Q;
  fx_lens_dist : Q;
  fx_ssao_intensity : Q;
  fx_prev_vp : Mat44;
  fx_gbuffers_alloc : bool;
  (** [SSAO]'s fields (renderer.h:37-53) and the gbuffer depth texture's
      [filtered] flag *)
  fx_ssao_samples : Z;
  fx_ssao_plus : bool;
  fx_ssao_bias : Q;
  fx_ssao_points : list Vec3;
  fx_depth_filtered : bool
}.

(** renderer.h:55-179, the fields the modelled operations use. *)
Record Renderer := {
  r_render_mode : eRenderMode;
  r_light_mode : eLightMode;
  r_light_eq : eLightEq;
  r_pcf : bool;
  r_depth_viewport : bool;
  r_dithering : bool;
  r_show_gbuffers : bool;
  r_show_omr : bool;
  r_activate_ssao : bool;
  r_hdr_active : bool;
  r_activate_irr : bool;
  r_irr_3lerp : bool;
  r_reflections : bool;
  r_show_probes : bool;
  r_volumetric : bool;
  r_show_reflection_probes : bool;
  r_depth_light : nat;
  r_shadow_count : Z;
  r_hdr_gamma : Q;
  r_blur_iterations : Z;
  r_calls : list RenderCall;
  r_lights : list Ptr;                (** [std::vector<LightEntity*>] *)
  r_reflection_probes : list nat;
  r_grid : Ptr;
  r_directional_light : Ptr;
  r_probes_texture : option nat;      (** [Texture*]: rows when allocated *)
  r_atlas : option Z;                 (** [FBO*]: side length when allocated *)
  r_ssao_blur : bool;
  r_reflections_calculated : bool;
  r_fx : FxState
}.

(** The state every renderer operation runs in. *)
Record World := {
  w_r : Renderer;
  w_scene : Scene;
  w_nodes : gmap nat Node;
  w_quality : eQuality;
  w_width : Z;
  w_height : Z;
  w_gl : list GLCmd
}.

Definition set_r (f : Renderer -> Renderer) (w : World) : World :=
  {| w_r := f (w_r w); w_scene := w_scene w; w_nodes := w_nodes w; w_quality := w_quality w;
     w_width := w_width w; w_height := w_height w; w_gl := w_gl w |}.

(** The world after submitting GPU commands [cs]. *)
Definition emitted (w : World) (cs : list GLCmd) : World :=
  {| w_r := w_r w; w_scene := w_scene w; w_nodes := w_nodes w; w_quality := w_quality w;
     w_width := w_width w; w_height := w_height w; w_gl := w_gl w ++ cs |}.

(** Submit GPU commands. *)
Definition emit (cs : list GLCmd) : M World unit := mmodify (fun w => emitted w cs).

(** Field updates of [Renderer], one per field the code assigns. *)
Definition with_lists (r : Renderer) (calls : list RenderCall) (lights : list Ptr)
    (probes : list nat) (grid dir : Ptr) (sc : Z) : Renderer :=
  {| r_render_mode := r_render_mode r; r_light_mode := r_light_mode r; r_light_eq := r_light_eq r;
     r_pcf := r_pcf r; r_depth_viewport := r_depth_viewport r; r_dithering := r_dithering r;
     r_show_gbuffers := r_show_gbuffers r; r_show_omr := r_show_omr r; r_activate_ssao := r_activate_ssao r;
     r_hdr_active := r_hdr_active r; r_activate_irr := r_activate_irr r;
     r_irr_3lerp := r_irr_3lerp r; r_reflections := r_reflections r;
     r_show_probes := r_show_probes r; r_volumetric := r_volumetric r;
     r_show_reflection_probes := r_show_reflection_probes r; r_depth_light := r_depth_light r;
     r_shadow_count := sc; r_hdr_gamma := r_hdr_gamma r; r_blur_iterations := r_blur_iterations r;
     r_calls := calls; r_lights := lights; r_reflection_probes := probes; r_grid := grid;
     r_directional_light := dir; r_probes_texture := r_probes_texture r; r_atlas := r_atlas r;
     r_ssao_blur := r_ssao_blur r; r_reflections_calculated := r_reflections_calculated r; r_fx := r_fx r |}.

Definition set_calls (cs : list RenderCall) (r : Renderer) : Renderer :=
  with_lists r cs (r_lights r) (r_reflection_probes r) (r_grid r) (r_directional_light r) (r_shadow_count r).
Definition set_lights (ls : list Ptr) (r : Renderer) : Renderer :=
  with_lists r (r_calls r) ls (r_reflection_probes r) (r_grid r) (r_directional_light r) (r_shadow_count r).
Definition set_probes (ps : list nat) (r : Renderer) : Renderer :=
  with_lists r (r_calls r) (r_lights r) ps (r_grid r) (r_directional_light r) (r_shadow_count r).
Definition set_grid (g : Ptr) (r : Renderer) : Renderer :=
  with_lists r (r_calls r) (r_lights r) (r_reflection_probes r) g (r_directional_light r) (r_shadow_count r).
Definition set_directional (d : Ptr) (r : Renderer) : Renderer :=
  with_lists r (r_calls r) (r_lights r) (r_reflection_probes r) (r_grid r) d (r_shadow_count r).
Definition set_shadow_count (n : Z) (r : Renderer) : Renderer :=
  with_lists r (r_calls r) (r_lights r) (r_reflection_probes r) (r_grid r) (r_directional_light r) n.

Definition set_atlas (a : option Z) (r : Renderer) : Renderer :=
  {| r_render_mode := r_render_mode r; r_light_mode := r_light_mode r; r_light_eq := r_light_eq r;
     r_pcf := r_pcf r; r_depth_viewport := r_depth_viewport r; r_dithering := r_dithering r;
     r_show_gbuffers := r_show_gbuffers r; r_show_omr := r_show_omr r; r_activate_ssao := r_activate_ssao r;
     r_hdr_active := r_hdr_active r; r_activate_irr := r_activate_irr r;
     r_irr_3lerp := r_irr_3lerp r; r_reflections := r_reflections r;
     r_show_probes := r_show_probes r; r_volumetric := r_volumetric r;
     r_show_reflection_probes := r_show_reflection_probes r; r_depth_light := r_depth_light r;
     r_shadow_count := r_shadow_count r; r_hdr_gamma := r_hdr_gamma r;
     r_blur_iterations := r_blur_iterations r; r_calls := r_calls r; r_lights := r_lights r;
     r_reflection_probes := r_reflection_probes r; r_grid := r_grid r;
     r_directional_light := r_directional_light r; r_probes_texture := r_probes_texture r;
     r_atlas := a; r_ssao_blur := r_ssao_blur r; r_reflections_calculated := r_reflections_calculated r; r_fx := r_fx r |}.

(** [prev_vp = m] and the lazy allocation of the G-buffers. *)
Definition set_fx (f : FxState) (r : Renderer) : Renderer :=
  {| r_render_mode := r_render_mode r; r_light_mode := r_light_mode r; r_light_eq := r_light_eq r;
     r_pcf := r_pcf r; r_depth_viewport := r_depth_viewport r; r_dithering := r_dithering r;
     r_show_gbuffers := r_show_gbuffers r; r_show_omr := r_show_omr r;
     r_activate_ssao := r_activate_ssao r; r_hdr_active := r_hdr_active r;
     r_activate_irr := r_activate_irr r; r_irr_3lerp := r_irr_3lerp r;
     r_reflections := r_reflections r; r_show_probes := r_show_probes r;
     r_volumetric := r_volumetric r; r_show_reflection_probes := r_show_reflection_probes r;
     r_depth_light := r_depth_light r; r_shadow_count := r_shadow_count r;
     r_hdr_gamma := r_hdr_gamma r; r_blur_iterations := r_blur_iterations r;
     r_calls := r_calls r; r_lights := r_lights r; r_reflection_probes := r_reflection_probes r;
     r_grid := r_grid r; r_directional_light := r_directional_light r;
     r_probes_texture := r_probes_texture r; r_atlas := r_atlas r; r_ssao_blur := r_ssao_blur r;
     r_reflections_calculated := r_reflections_calculated r; r_fx := f |}.

(** [ImGui::SliderInt("Blur Iterations", &renderer->blur_iterations, 0, 15)] *)
Definition set_blur_iterations (n : Z) (r : Renderer) : Renderer :=
  {| r_render_mode := r_render_mode r; r_light_mode := r_light_mode r; r_light_eq := r_light_eq r;
     r_pcf := r_pcf r; r_depth_viewport := r_depth_viewport r; r_dithering := r_dithering r;
     r_show_gbuffers := r_show_gbuffers r; r_show_omr := r_show_omr r;
     r_activate_ssao := r_activate_ssao r; r_hdr_active := r_hdr_active r;
     r_activate_irr := r_activate_irr r; r_irr_3lerp := r_irr_3lerp r;
     r_reflections := r_reflections r; r_show_probes := r_show_probes r;
     r_volumetric := r_volumetric r; r_show_reflection_probes := r_show_reflection_probes r;
     r_depth_light := r_depth_light r; r_shadow_count := r_shadow_count r;
     r_hdr_gamma := r_hdr_gamma r; r_blur_iterations := n;
     r_calls := r_calls r; r_lights := r_lights r; r_reflection_probes := r_reflection_probes r;
     r_grid := r_grid r; r_directional_light := r_directional_light r;
     r_probes_texture := r_probes_texture r; r_atlas := r_atlas r; r_ssao_blur := r_ssao_blur r;
     r_reflections_calculated := r_reflections_calculated r; r_fx := r_fx r |}.

Definition fx_with (f : FxState) (pv : Mat44) (ga : bool) : FxState :=
  {| fx_hdr_scale := fx_hdr_scale f; fx_hdr_average_lum := fx_hdr_average_lum f;
     fx_hdr_white_balance := fx_hdr_white_balance f; fx_air_density := fx_air_density f;
     fx_bloom_th := fx_bloom_th f; fx_bloom_soft_th := fx_bloom_soft_th f;
     fx_focal_dist := fx_focal_dist f; fx_min_dist_dof := fx_min_dist_dof f;
     fx_max_dist_dof := fx_max_dist_dof f; fx_noise_amount := fx_noise_amount f;
     fx_lens_dist := fx_lens_dist f; fx_ssao_intensity := fx_ssao_intensity f;
     fx_prev_vp := pv; fx_gbuffers_alloc := ga; fx_ssao_samples := fx_ssao_samples f;
     fx_ssao_plus := fx_ssao_plus f; fx_ssao_bias := fx_ssao_bias f;
     fx_ssao_points := fx_ssao_points f; fx_depth_filtered := fx_depth_filtered f |}.

(** [depth_buffer->filtered = true] *)
Definition fx_filtered (f : FxState) : FxState :=
  {| fx_hdr_scale := fx_hdr_scale f; fx_hdr_average_lum := fx_hdr_average_lum f;
     fx_hdr_white_balance := fx_hdr_white_balance f; fx_air_density := fx_air_density f;
     fx_bloom_th := fx_bloom_th f; fx_bloom_soft_th := fx_bloom_soft_th f;
     fx_focal_dist := fx_focal_dist f; fx_min_dist_dof := fx_min_dist_dof f;
     fx_max_dist_dof := fx_max_dist_dof f; fx_noise_amount := fx_noise_amount f;
     fx_lens_dist := fx_lens_dist f; fx_ssao_intensity := fx_ssao_intensity f;
     fx_prev_vp := fx_prev_vp f; fx_gbuffers_alloc := fx_gbuffers_alloc f;
     fx_ssao_samples := fx_ssao_samples f; fx_ssao_plus := fx_ssao_plus f;
     fx_ssao_bias := fx_ssao_bias f; fx_ssao_points := fx_ssao_points f; fx_depth_filtered := true |}.

(** The configuration fields the application's handlers assign. *)
Definition with_config (r : Renderer) (rm : eRenderMode) (lm : eLightMode) (dl : nat)
    (dv sg so : bool) : Renderer :=
  {| r_render_mode := rm; r_light_mode := lm; r_light_eq := r_light_eq r;
     r_pcf := r_pcf r; r_depth_viewport := dv; r_dithering := r_dithering r;
     r_show_gbuffers := sg; r_show_omr := so; r_activate_ssao := r_activate_ssao r;
     r_hdr_active := r_hdr_active r; r_activate_irr := r_activate_irr r;
     r_irr_3lerp := r_irr_3lerp r; r_reflections := r_reflections r;
     r_show_probes := r_show_probes r; r_volumetric := r_volumetric r;
     r_show_reflection_probes := r_show_reflection_probes r; r_depth_light := dl;
     r_shadow_count := r_shadow_count r; r_hdr_gamma := r_hdr_gamma r;
     r_blur_iterations := r_blur_iterations r; r_calls := r_calls r; r_lights := r_lights r;
     r_reflection_probes := r_reflection_probes r; r_grid := r_grid r;
     r_directional_light := r_directional_light r; r_probes_texture := r_probes_texture r;
     r_atlas := r_atlas r; r_ssao_blur := r_ssao_blur r;
     r_reflections_calculated := r_reflections_calculated r; r_fx := r_fx r |}.

Definition set_render_mode (m : eRenderMode) (r : Renderer) : Renderer :=
  with_config r m (r_light_mode r) (r_depth_light r) (r_depth_viewport r) (r_show_gbuffers r) (r_show_omr r).
Definition set_light_mode (m : eLightMode) (r : Renderer) : Renderer :=
  with_config r (r_render_mode r) m (r_depth_light r) (r_depth_viewport r) (r_show_gbuffers r) (r_show_omr r).
Definition set_depth_light (i : nat) (r : Renderer) : Renderer :=
  with_config r (r_render_mode r) (r_light_mode r) i (r_depth_viewport r) (r_show_gbuffers r) (r_show_omr r).
Definition set_depth_viewport (b : bool) (r : Renderer) : Renderer :=
  with_config r (r_render_mode r) (r_light_mode r) (r_depth_light r) b (r_show_gbuffers r) (r_show_omr r).
Definition set_show_gbuffers (b : bool) (r : Renderer) : Renderer :=
  with_config r (r_render_mode r) (r_light_mode r) (r_depth_light r) (r_depth_viewport r) b (r_show_omr r).
Definition set_show_omr (b : bool) (r : Renderer) : Renderer :=
  with_config r (r_render_mode r) (r_light_mode r) (r_depth_light r) (r_depth_viewport r) (r_show_gbuffers r) b.

(** [Application::instance->quality = q]. *)
Definition set_quality (q : eQuality) (w : World) : World :=
  {| w_r := w_r w; w_scene := w_scene w; w_nodes := w_nodes w; w_quality := q;
     w_width := w_width w; w_height := w_height w; w_gl := w_gl w |}.

(** The entity a pointer designates. *)
Definition deref (w : World) (p : Ptr) (what : string) : Fault + Entity :=
  match p with
  | PEnt id => match scn_entities (w_scene w) !! id with
               | Some e => inr e
               | None => inl (NullDeref what)
               end
  | _ => inl (NullDeref what)
  end.

(** The light entity behind a pointer. *)
Definition deref_light (w : World) (p : Ptr) (what : string) : Fault + (nat * Entity * LightEntity) :=
  match p with
  | PEnt id =>
      match scn_entities (w_scene w) !! id with
      | Some e => match e_data e with
                  | ELight l => inr (id, e, l)
                  | _ => inl (NullDeref what)
                  end
      | None => inl (NullDeref what)
      end
  | _ => inl (NullDeref what)
  end.

(** The irradiance grid behind [grid]. *)
Definition deref_grid (w : World) (p : Ptr) (what : string) : Fault + IrradianceGrid :=
  match p with
  | PEnt id =>
      match scn_entities (w_scene w) !! id with
      | Some e => match e_data e with EGrid g => inr g | _ => inl (NullDeref what) end
      | None => inl (NullDeref what)
      end
  | _ => inl (NullDeref what)
  end.

(** Write a light back through its pointer. *)
Definition store_light (id : nat) (l : LightEntity) (w : World) : World :=
  let s := w_scene w in
  let es := scn_entities s in
  let es' := match es !! id with
             | Some e => <[id := {| e_name := e_name e; e_model := e_model e;
                                   e_visible := e_visible e; e_data := ELight l |}]> es
             | None => es
             end in
  {| w_r := w_r w;
     w_scene := {| scn_background := scn_background s; scn_ambient := scn_ambient s;
                   scn_cam_eye := scn_cam_eye s; scn_cam_center := scn_cam_center s;
                   scn_cam_fov := scn_cam_fov s; scn_environment := scn_environment s;
                   scn_filename := scn_filename s; scn_entities := es' |};
     w_nodes := w_nodes w; w_quality := w_quality w; w_width := w_width w;
     w_height := w_height w; w_gl := w_gl w |}.
End RendererState.

Section EmitLoops.
Context `{Geometry}.

Lemma emitted_nil w : emitted w [] = w.
Proof. destruct w. unfold emitted. cbn. by rewrite app_nil_r. Qed.

Lemma emitted_app w xs ys : emitted (emitted w xs) ys = emitted w (xs ++ ys).
Proof. unfold emitted. cbn. by rewrite app_assoc. Qed.

(** A loop whose every iteration only submits commands, the same ones on
    every state reached by submitting commands, submits their
    concatenation. *)
Lemma mfor_each_emit {X} (xs : list X) (body : X -> M World unit) (f : X -> list GLCmd) w :
  (forall x cs, x ∈ xs -> body x (emitted w cs) = inr (tt, emitted (emitted w cs) (f x))) ->
  mfor_each xs body w = inr (tt, emitted w (flat_map f xs)).
Proof.
  intros Hb. rewrite <- (emitted_nil w) at 1. rewrite <- (app_nil_l (flat_map f xs)).
  generalize (@nil GLCmd) as cs. induction xs as [|x xs IH]; intros cs; cbn.
  - by rewrite app_nil_r.
  - unfold mbind. rewrite Hb by set_solver. rewrite emitted_app, IH, app_assoc; [done|].
    intros y cs' Hy. apply Hb. set_solver.
Qed.

(** The final world only extends the initial one's GL trace. *)
Definition grows (w w' : World) : Prop := exists cs, w' = emitted w cs.

#[export] Instance grows_preorder : PreOrder grows.
Proof.
  split.
  - intros w. exists []. by rewrite emitted_nil.
  - intros w1 w2 w3 [cs1 ->] [cs2 ->]. exists (cs1 ++ cs2). by rewrite emitted_app.
Qed.

(** Two worlds whose renderers agree on the fields selected by [f]. *)
Definition r_agree {X} (f : Renderer -> X) (w w' : World) : Prop := f (w_r w') = f (w_r w).

#[export] Instance r_agree_preorder {X} (f : Renderer -> X) : PreOrder (r_agree f).
Proof. split; [intros w; done|intros w1 w2 w3 H12 H23; unfold r_agree in *; congruence]. Qed.

(** Two worlds that agree on [f]. *)
Definition w_agree {X} (f : World -> X) (w w' : World) : Prop := f w' = f w.

#[export] Instance w_agree_preorder {X} (f : World -> X) : PreOrder (w_agree f).
Proof. split; [intros w; done|intros w1 w2 w3 H12 H23; unfold w_agree in *; congruence]. Qed.

Lemma mpres_emit cs : mpres grows (emit cs).
Proof. apply mpres_modify. intros w. by exists cs. Qed.

Lemma mpres_grows_agree {A X} (f : Renderer -> X) (m : M World A) : mpres grows m -> mpres (r_agree f) m.
Proof. apply mpres_weaken. by intros w w' [cs ->]. Qed.

Lemma mpres_set_r_agree {X} (f : Renderer -> X) (g : Renderer -> Renderer) :
  (forall r, f (g r) = f r) -> mpres (r_agree f) (mmodify (set_r g)).
Proof. intros Hg. apply mpres_modify. intros w. apply Hg. Qed.
End EmitLoops.

#[export] Hint Resolve mpres_emit mpres_grows_agree : mpres.
#[export] Hint Extern 1 (mpres (r_agree _) (mmodify (set_r _))) =>
  apply mpres_set_r_agree; intros; first [reflexivity|eauto] : mpres.
#[export] Hint Extern 2 (mpres (r_agree _) (mmodify _)) =>
  apply mpres_modify; intros; reflexivity : mpres.
#[export] Hint Extern 1 (mpres (w_agree _) (mmodify _)) =>
  apply mpres_modify; intros; reflexivity : mpres.

(** ** Example states for witnesses, on the one-dimensional world *)

(** The constructor's values (renderer.cpp:24-41). *)
Definition ex_fx : @FxState World1 :=
  {| fx_hdr_scale := 1; fx_hdr_average_lum := 5 # 2; fx_hdr_white_balance := 10;
     fx_air_density := 2 # 1000; fx_bloom_th := 1; fx_bloom_soft_th := 1 # 2;
     fx_focal_dist := 500; fx_min_dist_dof := 100; fx_max_dist_dof := 500;
     fx_noise_amount := 1 # 2; fx_lens_dist := 1 # 2; fx_ssao_intensity := 1;
     fx_prev_vp := mat_identity; fx_gbuffers_alloc := false; fx_ssao_samples := 64;
     fx_ssao_plus := true; fx_ssao_bias := 5 # 1000; fx_ssao_points := []; fx_depth_filtered := false |}%Q.

Definition ex_renderer (m : eRenderMode) (lm : eLightMode) : @Renderer World1 :=
  {| r_render_mode := m; r_light_mode := lm; r_light_eq := PHONG; r_pcf := false;
     r_depth_viewport := false; r_dithering := false; r_show_gbuffers := false; r_show_omr := false;
     r_activate_ssao := false; r_hdr_active := false; r_activate_irr := false;
     r_irr_3lerp := false; r_reflections := false; r_show_probes := false; r_volumetric := false;
     r_show_reflection_probes := false; r_depth_light := 0; r_shadow_count := 0;
     r_hdr_gamma := 1; r_blur_iterations := 0; r_calls := []; r_lights := [];
     r_reflection_probes := []; r_grid := PNull; r_directional_light := PNull;
     r_probes_texture := None; r_atlas := None; r_ssao_blur := false;
     r_reflections_calculated := false; r_fx := ex_fx |}.

Definition ex_light_entity (t : eLightType) (x : Q) (visible cast : bool) : @Entity World1 :=
  {| e_name := EmptyString; e_model := {| sc := 1; tr := x |}; e_visible := visible;
     e_data := ELight {| l_color := vec3 1 1 1; l_intensity := 1; l_light_type := t;
                         l_max_distance := 10; l_cone_angle := 30; l_area_size := 100;
                         l_spot_exp := 1; l_bias := 0; l_cast_shadows := cast;
                         l_uvs := vzero; l_camera := cam1_default;
                         l_shadow_fbo := if cast then Some 1024%Z else None |} |}.

Definition ex_scene (es : list (@Entity World1)) : @Scene World1 :=
  {| scn_background := vzero; scn_ambient := vzero; scn_cam_eye := vzero;
     scn_cam_center := vzero; scn_cam_fov := 45; scn_environment := false;
     scn_filename := EmptyString; scn_entities := es |}.

Definition ex_world (m : eRenderMode) (lm : eLightMode) (es : list (@Entity World1)) : @World World1 :=
  {| w_r := ex_renderer m lm; w_scene := ex_scene es; w_nodes := ∅; w_quality := LOW;
     w_width := 800; w_height := 600; w_gl := [] |}.

Definition ex_world_lights (m : eRenderMode) (lm : eLightMode) (es : list (@Entity World1))
    (ls : list Ptr) (sc : Z) (calls : list (@RenderCall World1)) : @World World1 :=
  {| w_r := with_lists (ex_renderer m lm) calls ls [] PNull PNull sc; w_scene := ex_scene es;
     w_nodes := ∅; w_quality := LOW; w_width := 800; w_height := 600; w_gl := [] |}.
