(* ===== verification/Fetch.v ===== *)
(** * Renderer::fetchSceneEntities

    renderer.cpp:413-471.  One pass over the scene's entities, in order,
    skipping invisible ones: a prefab appends its calls (through
    [getCallsFromPrefab], with the reflection probes collected so far), a
    reflection probe is appended to [reflection_probes], an irradiance grid
    becomes [grid], and a light is classified: a DIRECTIONAL light becomes
    [directional_light] in DEFERRED mode and is appended to [lights]
    otherwise, always counting one shadow; any other light is appended when
    [lightBounding] accepts it, counting one shadow unless it is a POINT
    light.  The calls are then sorted with [operator<].

    The fuel of the traversal is an argument ([fuel]); [prefabs_ok] is the
    condition under which it is enough (every visible prefab's tree fits).

    - [fetch_lights_spec]: the fetch never faults under [prefabs_ok], and
      the lights, the directional light and the shadow count after it are
      filters of the entity list; [shadow_count] counts the visible
      directional lights and the visible, accepted lights that are not
      POINT, whether or not they cast shadows (the spec speaks of
      shadow-casting lights);
    - [fetch_config]: the fetch leaves the configuration fields (modes,
      depth light, depth viewport, atlas) alone, and [mpres_fetch_agree]
      every field but the lists, pointers and counters. *)

From S2P Require Import Prelude Enums Geometry RenderCall GL Scene Traversal Renderer.

Section Fetch.
Context `{Geometry} `{!CallSorter}.

(** The translations of the collected reflection probes. *)
Definition probe_positions (w : World) (ids : list nat) : list (nat * Vec3) :=
  omap (fun id => (fun e => (id, mat_translation (e_model e))) <$> scn_entities (w_scene w) !! id) ids.

(** [getCallsFromPrefab(ent->model, pent->prefab, camera)] on the world. *)
Definition world_getCallsFromPrefab (fuel : nat) (pm : Mat44) (root : nat) (cam : Camera)
    : M World unit :=
  fun w =>
    let probes := probe_positions w (r_reflection_probes (w_r w)) in
    match getCallsFromPrefab fuel pm root (Some cam) probes
            {| ts_nodes := w_nodes w; ts_calls := r_calls (w_r w) |} with
    | inl f => inl f
    | inr (_, t) =>
        inr (tt, {| w_r := set_calls (ts_calls t) (w_r w); w_scene := w_scene w; w_nodes := ts_nodes t;
                    w_quality := w_quality w; w_width := w_width w; w_height := w_height w;
                    w_gl := w_gl w |})
    end.

(** The light branch of the loop (renderer.cpp:450-465). *)
Definition fetch_light (i : nat) (e : Entity) (l : LightEntity) (cam : Camera) (r : Renderer) : Renderer :=
  if decide (l_light_type l = DIRECTIONAL) then
    let r1 := if decide (r_render_mode r = DEFERRED) then set_directional (PEnt i) r
              else set_lights (r_lights r ++ [PEnt i]) r in
    set_shadow_count (r_shadow_count r1 + 1) r1
  else if lightBounding (e_model e) l cam then
    let r1 := if decide (l_light_type l ≠ POINT) then set_shadow_count (r_shadow_count r + 1) r else r in
    set_lights (r_lights r1 ++ [PEnt i]) r1
  else r.

(** One iteration of the loop (renderer.cpp:429-465). *)
Definition fetch_entity (fuel : nat) (cam : Camera) (fp fl fpr fg : bool) (i : nat) (e : Entity)
    : M World unit :=
  if e_visible e then
    (match fp, e_data e with
     | true, EPrefab _ (Some root) => world_getCallsFromPrefab fuel (e_model e) root cam
     | _, _ => mret tt
     end) ;;;
    (match fpr, e_data e with
     | true, EReflectionProbe => mmodify (set_r (fun r => set_probes (r_reflection_probes r ++ [i]) r))
     | _, _ => mret tt
     end) ;;;
    (match fg, e_data e with
     | true, EGrid _ => mmodify (set_r (set_grid (PEnt i)))
     | _, _ => mret tt
     end) ;;;
    (match fl, e_data e with
     | true, ELight l => mmodify (set_r (fetch_light i e l cam))
     | _, _ => mret tt
     end)
  else mret tt.

(** [Renderer::fetchSceneEntities]. *)
Definition fetchSceneEntities (fuel : nat) (cam : Camera) (fp fl fpr fg : bool) : M World unit :=
  mmodify (set_r (fun r => if fp then set_calls [] r else r)) ;;;
  mmodify (set_r (fun r => if fl then set_lights [] (set_shadow_count 0 (set_directional PNull r)) else r)) ;;;
  mmodify (set_r (fun r => if fpr then set_probes [] r else r)) ;;;
  w <- mget ;;
  let ents := scn_entities (w_scene w) in
  mfor_each (zip (seq 0 (length ents)) ents) (fun '(i, e) => fetch_entity fuel cam fp fl fpr fg i e) ;;;
  mmodify (set_r (fun r => if fp then set_calls (sort_calls (r_calls r)) r else r)).

(** The configuration fields, which the fetch never assigns. *)
Definition config (r : Renderer) : eRenderMode * eLightMode * nat * bool * option Z :=
  (r_render_mode r, r_light_mode r, r_depth_light r, r_depth_viewport r, r_atlas r).

(** ** What the fetch computes, stated as filters of the entity list *)

Definition light_of (e : Entity) : option LightEntity :=
  match e_data e with ELight l => Some l | _ => None end.

(** A visible light that ends in [lights]. *)
Definition listed_light (mode : eRenderMode) (cam : Camera) (e : Entity) : bool :=
  e_visible e &&
  match light_of e with
  | Some l => if decide (l_light_type l = DIRECTIONAL) then bool_decide (mode ≠ DEFERRED)
              else lightBounding (e_model e) l cam
  | None => false
  end.

(** A visible light that increments [shadow_count]. *)
Definition counted_light (cam : Camera) (e : Entity) : bool :=
  e_visible e &&
  match light_of e with
  | Some l => bool_decide (l_light_type l = DIRECTIONAL) ||
              (bool_decide (l_light_type l ≠ POINT) && lightBounding (e_model e) l cam)
  | None => false
  end.

Definition directional_light_of (e : Entity) : bool :=
  e_visible e &&
  match light_of e with Some l => bool_decide (l_light_type l = DIRECTIONAL) | None => false end.

(** The entities with their indices, as the loop visits them. *)
Definition enumerate {A} (xs : list A) : list (nat * A) := zip (seq 0 (length xs)) xs.

Definition spec_lights (mode : eRenderMode) (cam : Camera) (xs : list (nat * Entity)) : list Ptr :=
  (fun ie => PEnt ie.1) <$> filter (fun ie => listed_light mode cam ie.2 = true) xs.

Definition spec_directional (mode : eRenderMode) (d : Ptr) (xs : list (nat * Entity)) : Ptr :=
  if decide (mode = DEFERRED) then
    default d (last ((fun ie => PEnt ie.1) <$> filter (fun ie => directional_light_of ie.2 = true) xs))
  else d.

Definition spec_shadow_count (cam : Camera) (xs : list (nat * Entity)) : Z :=
  Z.of_nat (length (filter (fun ie => counted_light cam ie.2 = true) xs)).

(** The part of the renderer the light branch writes, and the render mode
    it reads. *)
Definition light_fields (w : World) : eRenderMode * list Ptr * Ptr * Z :=
  (r_render_mode (w_r w), r_lights (w_r w), r_directional_light (w_r w), r_shadow_count (w_r w)).

(** The loop's effect on [light_fields], one entity at a time. *)
Definition light_step (cam : Camera) (ie : nat * Entity) (p : eRenderMode * list Ptr * Ptr * Z)
    : eRenderMode * list Ptr * Ptr * Z :=
  let '(mode, ls, d, sc) := p in
  match e_visible ie.2, light_of ie.2 with
  | true, Some l =>
      if decide (l_light_type l = DIRECTIONAL) then
        if decide (mode = DEFERRED) then (mode, ls, PEnt ie.1, (sc + 1)%Z)
        else (mode, ls ++ [PEnt ie.1], d, (sc + 1)%Z)
      else if lightBounding (e_model ie.2) l cam then
        (mode, ls ++ [PEnt ie.1], d, if decide (l_light_type l ≠ POINT) then (sc + 1)%Z else sc)
      else p
  | _, _ => p
  end.

(** Every visible prefab entity of the scene has a parentless root whose
    visible tree has height at most [fuel] in the node store. *)
Definition prefabs_ok (fuel : nat) (w : World) : Prop :=
  forall i e fn root, scn_entities (w_scene w) !! i = Some e -> e_visible e = true ->
    e_data e = EPrefab fn (Some root) ->
    (exists h, h <= fuel /\ tree_depth (w_nodes w) root h) /\
    (forall n, w_nodes w !! root = Some n -> n_parent n = None).
End Fetch.

Section FetchProofs.
Context `{Geometry} `{!CallSorter}.

Lemma light_step_one cam i e mode ls d sc :
  light_step cam (i, e) (mode, ls, d, sc) =
  (mode, ls ++ (if listed_light mode cam e then [PEnt i] else []),
   (if bool_decide (mode = DEFERRED) && directional_light_of e then PEnt i else d),
   (sc + if counted_light cam e then 1 else 0)%Z).
Proof.
  unfold light_step, listed_light, counted_light, directional_light_of; cbn [fst snd].
  destruct (e_visible e), (light_of e) as [l|]; cbn [andb];
    rewrite ?andb_false_r, ?app_nil_r, ?Z.add_0_r; try done.
  repeat (case_decide || case_bool_decide); simplify_eq; cbn [orb andb];
    try destruct (lightBounding _ _ _); rewrite ?app_nil_r, ?Z.add_0_r; done.
Qed.

Lemma light_step_fold cam mode ls d sc xs :
  foldl (fun p x => light_step cam x p) (mode, ls, d, sc) xs =
  (mode, ls ++ spec_lights mode cam xs, spec_directional mode d xs, (sc + spec_shadow_count cam xs)%Z).
Proof.
  revert ls d sc. induction xs as [|[i e] xs IH]; intros ls d sc; cbn [foldl].
  - unfold spec_lights, spec_directional, spec_shadow_count. simpl.
    rewrite app_nil_r, Z.add_0_r. by destruct (decide _).
  - rewrite light_step_one, IH. unfold spec_lights, spec_directional, spec_shadow_count.
    rewrite !filter_cons; cbn [fst snd].
    destruct (listed_light mode cam e), (counted_light cam e), (directional_light_of e);
      repeat case_decide; simplify_eq; cbn [andb fmap list_fmap length]; rewrite ?bool_decide_true, ?bool_decide_false by done;
      rewrite <- ?app_assoc, ?default_last_cons; cbn [andb fst app]; f_equal; try lia.
Qed.

Lemma world_getCallsFromPrefab_fields fuel pm root cam w w' :
  world_getCallsFromPrefab fuel pm root cam w = inr (tt, w') -> light_fields w' = light_fields w.
Proof.
  unfold world_getCallsFromPrefab. destruct (getCallsFromPrefab _ _ _ _ _ _) as [|[]]; [discriminate|].
  by intros [= <-].
Qed.

Lemma fetch_entity_fields fuel cam fp fpr fg i e w w' :
  fetch_entity fuel cam fp true fpr fg i e w = inr (tt, w') ->
  light_fields w' = light_step cam (i, e) (light_fields w).
Proof.
  unfold fetch_entity, light_step, light_of. cbn [fst snd].
  destruct (e_visible e); [|by intros [= <-]].
  intros Hrun. apply mbind_inr_inv in Hrun as ([] & w1 & H1 & Hrun).
  apply mbind_inr_inv in Hrun as ([] & w2 & H2 & Hrun).
  apply mbind_inr_inv in Hrun as ([] & w3 & H3 & H4).
  destruct (e_data e) as [| fn [root|] | l | | | | ]; destruct fp, fpr, fg; 
    unfold mret, mmodify in *; simplify_eq; try apply world_getCallsFromPrefab_fields in H1;
    unfold light_fields in *; simpl in *; simplify_eq; try done; try congruence.
  all: unfold fetch_light; repeat (case_decide || destruct (lightBounding _ _ _)); done.
Qed.

Lemma fetch_light_config i e l cam r : config (fetch_light i e l cam r) = config r.
Proof. unfold fetch_light. repeat (case_decide || destruct (lightBounding _ _ _)); done. Qed.

Lemma fetch_entity_config fuel cam fp fl fpr fg i e w w' :
  fetch_entity fuel cam fp fl fpr fg i e w = inr (tt, w') -> config (w_r w') = config (w_r w).
Proof.
  unfold fetch_entity. destruct (e_visible e); [|by intros [= <-]].
  intros Hrun. apply mbind_inr_inv in Hrun as ([] & w1 & H1 & Hrun).
  apply mbind_inr_inv in Hrun as ([] & w2 & H2 & Hrun).
  apply mbind_inr_inv in Hrun as ([] & w3 & H3 & H4).
  assert (config (w_r w1) = config (w_r w)) as E1.
  { destruct fp, (e_data e) as [| fn [root|] | | | | |]; unfold mret in H1; simplify_eq; try done.
    unfold world_getCallsFromPrefab in H1.
    destruct (getCallsFromPrefab _ _ _ _ _ _) as [|[]]; simplify_eq; done. }
  destruct fpr, fg, fl, (e_data e); unfold mret, mmodify in *; simplify_eq; cbn [w_r set_r];
    rewrite ?fetch_light_config; unfold config in *; cbn in *; congruence.
Qed.

(** The fetch never assigns the configuration fields. *)
Lemma fetch_config fuel cam fp fl fpr fg w w' :
  fetchSceneEntities fuel cam fp fl fpr fg w = inr (tt, w') -> config (w_r w') = config (w_r w).
Proof.
  unfold fetchSceneEntities, mbind at 1 2 3 4, mmodify at 1 2 3, mget.
  set (w0 := set_r _ (set_r _ (set_r _ w))).
  unfold mbind. destruct (mfor_each _ _ w0) as [|[[] w2]] eqn:Hrun; [discriminate|].
  intros [= <-].
  assert (Hp : config (w_r w2) = config (w_r w0)).
  { rewrite <- (foldl_const (config (w_r w0)) (zip (seq 0 (length (scn_entities (w_scene w0))))
                                                    (scn_entities (w_scene w0)))).
    apply (mfor_each_proj (fun w => config (w_r w)) (fun _ c => c) _
             (fun '(i, e) => fetch_entity fuel cam fp fl fpr fg i e) w0 w2); [|exact Hrun].
    intros [i e] s1 s2 _. apply fetch_entity_config. }
  transitivity (config (w_r w2)); [by destruct fp|]. rewrite Hp. unfold w0. by destruct fp, fl, fpr.
Qed.

Lemma world_getCallsFromPrefab_ok fuel h pm root cam w :
  tree_depth (w_nodes w) root h -> h <= fuel ->
  (forall n, w_nodes w !! root = Some n -> n_parent n = None) ->
  exists w' out, world_getCallsFromPrefab fuel pm root cam w = inr (tt, w') /\
    w_scene w' = w_scene w /\ same_shape (w_nodes w) (w_nodes w') /\
    r_calls (w_r w') = r_calls (w_r w) ++ out /\
    node_calls (w_nodes w) pm (Some cam) (probe_positions w (r_reflection_probes (w_r w))) root out.
Proof.
  intros Htd Hf Hroot. unfold world_getCallsFromPrefab, getCallsFromPrefab.
  edestruct (getCallsFromNode_ok_aux h fuel root pm (Some cam)
    (probe_positions w (r_reflection_probes (w_r w)))
    {| ts_nodes := w_nodes w; ts_calls := r_calls (w_r w) |} (w_nodes w))
    as (t & out & -> & Hc & E & _ & Hnc); [done|done| |done|].
  - intros n p Hn Hp. simpl in Hn. rewrite (Hroot n Hn) in Hp. discriminate.
  - eexists _, out. split; [done|]. simpl. auto.
Qed.

Lemma fetch_entity_ok fuel cam fp fl fpr fg w0 i e w :
  (fp = true -> prefabs_ok fuel w0) -> scn_entities (w_scene w0) !! i = Some e ->
  w_scene w = w_scene w0 -> same_shape (w_nodes w0) (w_nodes w) ->
  exists w', fetch_entity fuel cam fp fl fpr fg i e w = inr (tt, w') /\
    w_scene w' = w_scene w0 /\ same_shape (w_nodes w0) (w_nodes w').
Proof.
  intros Hpf He Hs E. unfold fetch_entity.
  destruct (e_visible e) eqn:Hv; [|by exists w]. unfold mbind.
  assert (exists w1, (match fp, e_data e with
       | true, EPrefab _ (Some root) => world_getCallsFromPrefab fuel (e_model e) root cam
       | _, _ => mret tt end) w = inr (tt, w1) /\
       w_scene w1 = w_scene w0 /\ same_shape (w_nodes w0) (w_nodes w1)) as (w1 & -> & Hs1 & E1).
  { destruct fp, (e_data e) as [| fn [root|] | | | | |] eqn:Ed; try by exists w.
    destruct (Hpf eq_refl i e fn root He Hv Ed) as [(h & Hh & Htd) Hroot].
    destruct (world_getCallsFromPrefab_ok fuel h (e_model e) root cam w) as (w1 & out & Hr & Hs1 & E1 & _).
    - by eapply tree_depth_shape.
    - done.
    - intros n Hn. destruct (same_shape_lookup _ _ root n (symmetry E) Hn) as (n0 & Hn0 & Hsh).
      injection Hsh as _ _ _ _ Hp _. rewrite <- Hp. by apply Hroot.
    - exists w1. split; [done|]. split; [congruence|by rewrite E].  }
  destruct fpr, fl, fg, (e_data e); (eexists; split; [reflexivity|]); simpl; auto.
Qed.

Lemma mpres_world_getCallsFromPrefab fuel pm root cam :
  mpres (w_agree w_scene) (world_getCallsFromPrefab fuel pm root cam).
Proof.
  intros w [] w'. unfold world_getCallsFromPrefab.
  destruct (getCallsFromPrefab _ _ _ _ _ _) as [|[]]; [discriminate|]. by intros [= <-].
Qed.
#[local] Hint Resolve mpres_world_getCallsFromPrefab : mpres.

(** The fetch reads the scene and never writes it. *)
Lemma mpres_fetch_scene fuel cam fp fl fpr fg : mpres (w_agree w_scene) (fetchSceneEntities fuel cam fp fl fpr fg).
Proof. unfold fetchSceneEntities, fetch_entity. mpres_solve. Qed.

Section FetchFrame.
Variables (X : Type) (f : Renderer -> X).
Hypothesis Hf : forall r cs ls ps g d sc, f (with_lists r cs ls ps g d sc) = f r.

(** The fetch writes only the list, pointer and counter fields. *)
Lemma mpres_fetch_agree fuel cam fp fl fpr fg : mpres (r_agree f) (fetchSceneEntities fuel cam fp fl fpr fg).
Proof.
  unfold fetchSceneEntities, fetch_entity. mpres_solve.
  all: try (intros w [] w'; unfold world_getCallsFromPrefab; destruct (getCallsFromPrefab _ _ _ _ _ _) as [|[]];
            [discriminate|]; intros [= <-]; apply Hf).
  all: apply mpres_set_r_agree; intros r;
    unfold fetch_light, set_calls, set_lights, set_probes, set_grid, set_directional, set_shadow_count;
    repeat case_match; rewrite ?Hf; reflexivity.
Qed.
End FetchFrame.

(** What a completed fetch with [fetch_lights] leaves in the light fields. *)
Lemma fetch_light_fields fuel cam fp fpr fg w w' :
  fetchSceneEntities fuel cam fp true fpr fg w = inr (tt, w') ->
  r_lights (w_r w') = spec_lights (r_render_mode (w_r w)) cam (enumerate (scn_entities (w_scene w))) /\
  r_directional_light (w_r w') =
    spec_directional (r_render_mode (w_r w)) PNull (enumerate (scn_entities (w_scene w))) /\
  r_shadow_count (w_r w') = spec_shadow_count cam (enumerate (scn_entities (w_scene w))).
Proof.
  unfold fetchSceneEntities. intros Hrun. do 4 mstep_in Hrun.
  set (w0 := set_r _ (set_r _ (set_r _ w))) in Hrun.
  change (scn_entities (w_scene w0)) with (scn_entities (w_scene w)) in Hrun.
  fold (enumerate (scn_entities (w_scene w))) in Hrun.
  apply mbind_inr_inv in Hrun as ([] & w2 & Hloop & Hrun). injection Hrun as <-.
  pose proof (mfor_each_proj light_fields (light_step cam) _
    (fun '(i, e) => fetch_entity fuel cam fp true fpr fg i e) w0 w2
    ltac:(intros [i e] s1 s2 _; apply fetch_entity_fields) Hloop) as Hp.
  replace (light_fields w0) with (r_render_mode (w_r w), @nil Ptr, PNull, 0%Z) in Hp
    by (unfold w0, light_fields; by destruct fp, fpr).
  rewrite light_step_fold in Hp. unfold light_fields in Hp. injection Hp as _ Hl Hd Hsc.
  destruct fp; cbn; auto.
Qed.

(** C8. [fetchSceneEntities] with [fetch_lights] never faults when every
    visible prefab's hierarchy fits the fuel (or prefabs are not fetched),
    and afterwards [lights] holds, in scene order, the visible directional
    lights (outside DEFERRED mode) and the visible other lights accepted by
    [lightBounding]; [directional_light] is the last visible directional
    light in DEFERRED mode and null otherwise; [shadow_count] counts the
    visible directional lights and the accepted lights that are not POINT,
    whether or not they cast shadows. *)
Theorem fetch_lights_spec fuel cam fp fpr fg w :
  (fp = true -> prefabs_ok fuel w) ->
  exists w', fetchSceneEntities fuel cam fp true fpr fg w = inr (tt, w') /\
    r_lights (w_r w') = spec_lights (r_render_mode (w_r w)) cam (enumerate (scn_entities (w_scene w))) /\
    r_directional_light (w_r w') =
      spec_directional (r_render_mode (w_r w)) PNull (enumerate (scn_entities (w_scene w))) /\
    r_shadow_count (w_r w') = spec_shadow_count cam (enumerate (scn_entities (w_scene w))).
Proof.
  intros Hpf.
  assert (Hrun : exists w', fetchSceneEntities fuel cam fp true fpr fg w = inr (tt, w')).
  { unfold fetchSceneEntities. do 4 mstep.
    set (w0 := set_r _ (set_r _ (set_r _ w))).
    change (scn_entities (w_scene w0)) with (scn_entities (w_scene w)).
    destruct (mfor_each_inv (fun w' => w_scene w' = w_scene w /\ same_shape (w_nodes w) (w_nodes w'))
      (zip (seq 0 (length (scn_entities (w_scene w)))) (scn_entities (w_scene w)))
      (fun '(i, e) => fetch_entity fuel cam fp true fpr fg i e) w0) as (w2 & Hloop & _); [done| |].
    { intros [i e] s1 Hin [Hs1 E1]. apply zip_seq_elem in Hin as [_ Hl]. rewrite Nat.sub_0_r in Hl.
      by apply (fetch_entity_ok fuel cam fp true fpr fg w i e s1). }
    unfold mbind. rewrite Hloop. by eexists. }
  destruct Hrun as [w' Hrun]. exists w'. split; [exact Hrun|]. exact (fetch_light_fields _ _ _ _ _ _ _ Hrun).
Qed.

Lemma enumerate_lookup {A} (xs : list A) i x : (i, x) ∈ enumerate xs -> xs !! i = Some x.
Proof. intros (_ & Hl)%zip_seq_elem. by rewrite Nat.sub_0_r in Hl. Qed.

End FetchProofs.

(** ** Witness: a directional, a spot, a point and a hidden light in DEFERRED mode *)

Definition ex_fetch_scene : list (@Entity World1) :=
  [ex_light_entity DIRECTIONAL 0 true true; ex_light_entity SPOT 5 true false;
   ex_light_entity POINT 3000 true false; ex_light_entity SPOT 0 false true].

Lemma fetch_lights_spec_witness :
  exists w', fetchSceneEntities 0 cam1_default false true false false
               (ex_world DEFERRED MULTI ex_fetch_scene) = inr (tt, w') /\
    r_lights (w_r w') = [PEnt 1] /\ r_directional_light (w_r w') = PEnt 0 /\
    r_shadow_count (w_r w') = 2%Z.
Proof.
  destruct (fetch_lights_spec (H:=World1) 0 cam1_default false false false
              (ex_world DEFERRED MULTI ex_fetch_scene)) as (w' & Hrun & Hl & Hd & Hs);
    [intros; discriminate|].
  exists w'. split; [exact Hrun|]. rewrite Hl, Hd, Hs. vm_compute. auto.
Defined.

