(* ===== verification/Shadows.v ===== *)
(** * The shadow subsystem

    [Renderer::updateLight] (renderer.cpp:165-192), [shadowMapping]
    (1146-1168) with [renderMeshWithMaterialShadow] (740-786),
    [renderToAtlas] (1170-1260) and the shadow branch of [renderScene]
    (483-499).  All of them run in the state [World] of [Renderer]: the
    light entities are reached through the pointers of [lights], and what
    the code writes through a pointer (the light camera fitted by
    [updateLight], the atlas [uvs]) is written back into the scene with
    [store_light].  The GPU work is the command trace [w_gl].

    C's [round] (half away from zero) is [cround]; [ceil(sqrt(n))] on the
    integer [shadow_count] is [ceil_sqrt].  A [0.0 / 0.0] of the C code
    (an [area_size] of 0) is a NaN there and 0 in [Q]; the theorems assume
    a positive area. *)

From S2P Require Import Prelude Enums Geometry RenderCall GL Scene Renderer.

(** [round(q)] of <cmath>: to the nearest integer, halves away from zero. *)
Definition cround (q : Q) : Z :=
  if Qle_bool 0 q then Qfloor (q + (1 # 2)) else (- Qfloor (- q + (1 # 2)))%Z.

(** [(int)ceil(sqrt(n))] for a non-negative integer [n]. *)
Definition ceil_sqrt (n : Z) : Z :=
  let s := Z.sqrt n in if (s * s =? n)%Z then s else (s + 1)%Z.

Section ShadowModel.
Context `{Geometry}.

Definition light_set_camera (c : Camera) (l : LightEntity) : LightEntity :=
  {| l_color := l_color l; l_intensity := l_intensity l; l_light_type := l_light_type l;
     l_max_distance := l_max_distance l; l_cone_angle := l_cone_angle l;
     l_area_size := l_area_size l; l_spot_exp := l_spot_exp l; l_bias := l_bias l;
     l_cast_shadows := l_cast_shadows l; l_uvs := l_uvs l; l_camera := c;
     l_shadow_fbo := l_shadow_fbo l |}.

Definition light_set_uvs (uv : Vec3) (l : LightEntity) : LightEntity :=
  {| l_color := l_color l; l_intensity := l_intensity l; l_light_type := l_light_type l;
     l_max_distance := l_max_distance l; l_cone_angle := l_cone_angle l;
     l_area_size := l_area_size l; l_spot_exp := l_spot_exp l; l_bias := l_bias l;
     l_cast_shadows := l_cast_shadows l; l_uvs := uv; l_camera := l_camera l;
     l_shadow_fbo := l_shadow_fbo l |}.

(** The light camera placed at the light (renderer.cpp:168). *)
Definition light_look_at (model : Mat44) (l : LightEntity) : Camera :=
  cam_look_at (l_camera l) (mat_translation model) (mat_point model (vec3 0 0 1))
              (mat_rotate_vector model (vec3 0 1 0)).

(** The orthographic box of a directional light, before snapping
    (renderer.cpp:179). *)
Definition directional_ortho (model : Mat44) (l : LightEntity) : Camera :=
  let a := l_area_size l in
  cam_set_orthographic (light_look_at model l) (- a)%Q a (- a)%Q a (1 # 10) (l_max_distance l).

(** [round(v / grid) * grid] (renderer.cpp:185-186). *)
Definition snap (v grid : Q) : Q := (inject_Z (cround (v / grid)) * grid)%Q.

(** [Renderer::updateLight]; [ww] is [Application::instance->window_width]. *)
Definition updateLight (model : Mat44) (ww : Z) (l : LightEntity) : Fault + LightEntity :=
  match l_light_type l with
  | SPOT =>
      inr (light_set_camera (cam_set_perspective (light_look_at model l) (2 * l_cone_angle l)%Q
                               (inject_Z ww / inject_Z ww)%Q (1 # 10) (l_max_distance l)) l)
  | DIRECTIONAL =>
      let c1 := directional_ortho model l in
      match l_shadow_fbo l with
      | None => inl (NullDeref "light->shadow_fbo->depth_texture")
      | Some width =>
          let grid := ((cam_right c1 - cam_left c1) / inject_Z width)%Q in
          inr (light_set_camera (cam_set_view_txy c1 (snap (cam_view_tx c1) grid)
                                                     (snap (cam_view_ty c1) grid)) l)
      end
  | _ => inr (light_set_camera (light_look_at model l) l)
  end.

(** The world bounding box of a call and the frustum test of a camera. *)
Definition call_in_frustum (cam : Camera) (c : RenderCall) : bool :=
  cam_test_box cam (transform_box (rc_model c) (mesh_box (rc_mesh c))).

Definition cull_cmd (m : Material) : GLCmd :=
  if mat_two_sided m then Disable CAP_CULL_FACE else Enable CAP_CULL_FACE.

Definition alpha_cutoff_of (m : Material) : Q :=
  if decide (mat_alpha_mode m = MASK) then mat_alpha_cutoff m else 0.

(** [Renderer::renderMeshWithMaterialShadow], renderer.cpp:740-786: nothing
    for an empty mesh or a BLEND material. *)
Definition renderMeshWithMaterialShadow (l : LightEntity) (c : RenderCall) : list GLCmd :=
  let m := rc_material c in
  if bool_decide (mesh_num_vertices (rc_mesh c) = 0) then []
  else if decide (mat_alpha_mode m = BLEND) then []
  else [cull_cmd m; ShaderOn "shadowmap";
        Uniform "u_viewprojection" (UMat (cam_viewproj (l_camera l)));
        Uniform "u_texture" (UTex (if mat_has_color_texture m then TexMaterial (mesh_id (rc_mesh c)) 0
                                   else TexWhite) 0);
        Uniform "u_model" (UMat (rc_model c));
        Uniform "u_alpha_cutoff" (UFloat (alpha_cutoff_of m));
        Draw (DrawMesh (mesh_id (rc_mesh c)));
        ShaderOff; Disable CAP_BLEND; DepthFunc GL_LESS].

(** [Renderer::shadowMapping] on the light behind pointer [p]. *)
Definition shadowMapping (p : Ptr) : M World unit :=
  w <- mget ;;
  match deref_light w p "light" with
  | inl f => mfail f
  | inr (id, e, l) =>
      match updateLight (e_model e) (w_width w) l with
      | inl f => mfail f
      | inr l' =>
          mmodify (store_light id l') ;;;
          match l_shadow_fbo l' with
          | None => mfail (NullDeref "light->shadow_fbo")
          | Some _ =>
              emit ([Bind (FboShadow id); ColorMask false; Clear false true] ++
                    flat_map (fun c => if call_in_frustum (l_camera l') c
                                       then renderMeshWithMaterialShadow l' c else [])
                             (r_calls (w_r w)) ++
                    [Unbind (FboShadow id); ColorMask true])
          end
      end
  end.

(** The draw of one call into the atlas cell of light [l]
    (renderer.cpp:1224-1244): skipped when outside the light frustum
    (directional lights excepted) or when BLEND. *)
Definition atlas_call_cmds (l : LightEntity) (c : RenderCall) : list GLCmd :=
  let m := rc_material c in
  if (negb (call_in_frustum (l_camera l) c) && bool_decide (l_light_type l ≠ DIRECTIONAL))
     || bool_decide (mat_alpha_mode m = BLEND) then []
  else [cull_cmd m;
        Uniform "u_viewprojection" (UMat (cam_viewproj (l_camera l)));
        Uniform "u_model" (UMat (rc_model c));
        Uniform "u_texture" (if mat_has_color_texture m then UTex (TexMaterial (mesh_id (rc_mesh c)) 0) 5
                             else UNoTex 5);
        Uniform "u_alpha_cutoff" (UFloat (alpha_cutoff_of m));
        Draw (DrawMesh (mesh_id (rc_mesh c)))].

(** The cell of the [c]-th shadowed light in an atlas of [len * len]
    cells of side [res] (renderer.cpp:1212-1219): the pixel origin and the
    [uvs] (offset and scale). *)
Definition atlas_cell (len res : Z) (c : nat) : Z * Z :=
  ((Z.of_nat c mod len) * res, (Z.of_nat c / len) * res)%Z.

Definition atlas_uvs (len : Z) (c : nat) : Vec3 :=
  vec3 (inject_Z (Z.of_nat c mod len) / inject_Z len) (inject_Z (Z.of_nat c / len) / inject_Z len)
       (1 / inject_Z len).

(** One light of the atlas loop, the [c]-th that is not a point light
    (renderer.cpp:1204-1245). *)
Definition atlas_light (c : nat) (id : nat) (e : Entity) (l : LightEntity) : M World unit :=
  w <- mget ;;
  match updateLight (e_model e) (w_width w) l with
  | inl f => mfail f
  | inr l1 =>
      let len := ceil_sqrt (r_shadow_count (w_r w)) in
      let res := shadow_res (w_quality w) in
      let '(ires, jres) := atlas_cell len res c in
      let l2 := light_set_uvs (atlas_uvs len c) l1 in
      mmodify (store_light id l2) ;;;
      emit ([Scissor ires jres res res; Clear false true; Viewport ires jres res res] ++
            flat_map (atlas_call_cmds l2) (r_calls (w_r w)))
  end.

(** The loop over [lights] with the cell counter [c]. *)
Fixpoint atlas_loop (c : nat) (ls : list Ptr) : M World unit :=
  match ls with
  | [] => mret tt
  | p :: ls' =>
      w <- mget ;;
      match deref_light w p "light" with
      | inl f => mfail f
      | inr (id, e, l) =>
          if decide (l_light_type l = POINT) then atlas_loop c ls'
          else atlas_light c id e l ;;; atlas_loop (S c) ls'
      end
  end.

(** [Renderer::renderToAtlas], renderer.cpp:1170-1260 (the [shadowmap]
    shader is one of the application's assets and is taken to exist). *)
Definition renderToAtlas : M World unit :=
  w <- mget ;;
  if bool_decide (r_shadow_count (w_r w) = 0%Z) || bool_decide (r_calls (w_r w) = []) then mret tt
  else
    let res := shadow_res (w_quality w) in
    emit [ShaderOn "shadowmap"] ;;;
    mmodify (set_r (set_shadow_count 4)) ;;;
    w1 <- mget ;;
    (match r_atlas (w_r w1) with
     | None => mmodify (set_r (set_atlas (Some (res * ceil_sqrt (r_shadow_count (w_r w1)))%Z)))
     | Some _ => mret tt
     end) ;;;
    emit [Bind FboAtlas; ColorMask false; Enable CAP_SCISSOR_TEST] ;;;
    atlas_loop 0 (r_lights (w_r w)) ;;;
    emit [Unbind FboAtlas; ShaderOff; Viewport 0 0 (w_width w) (w_height w);
          Disable CAP_SCISSOR_TEST; Enable CAP_CULL_FACE; ColorMask true].

(** The shadow branch of [Renderer::renderScene], renderer.cpp:483-499. *)
Definition renderShadows : M World unit :=
  w <- mget ;;
  let r := w_r w in
  match r_light_mode r with
  | MULTI =>
      mfor_each (r_lights r) (fun p =>
        w' <- mget ;;
        match deref_light w' p "light" with
        | inl f => mfail f
        | inr (_, _, l) => if l_cast_shadows l then shadowMapping p else mret tt
        end) ;;;
      (if decide (r_render_mode r = DEFERRED) then
         match r_directional_light r with
         | PNull => mret tt
         | p =>
             w' <- mget ;;
             match deref_light w' p "directional_light" with
             | inr (_, _, l) => if l_cast_shadows l then shadowMapping p else mret tt
             | inl f => mfail f
             end
         end
       else mret tt)
  | SINGLE => renderToAtlas
  | BRUH => mret tt
  end.

(** ** Views of the state used by the statements *)

(** The scissor rectangles of a command list, in order. *)
Definition scissors (cs : list GLCmd) : list (Z * Z * Z * Z) :=
  omap (fun c => match c with Scissor x y w h => Some (x, y, w, h) | _ => None end) cs.

(** The viewport rectangles of a command list, in order. *)
Definition viewports (cs : list GLCmd) : list (Z * Z * Z * Z) :=
  omap (fun c => match c with Viewport x y w h => Some (x, y, w, h) | _ => None end) cs.

(** The scissor and viewport rectangle of the [c]-th cell. *)
Definition atlas_rect (len res : Z) (c : nat) : Z * Z * Z * Z :=
  let '(x, y) := atlas_cell len res c in (x, y, res, res).

(** The type and shadow FBO of the light a pointer designates. *)
Definition light_sig (w : World) (p : Ptr) : option (eLightType * option Z) :=
  match deref_light w p "light" with inr (_, _, l) => Some (l_light_type l, l_shadow_fbo l) | inl _ => None end.

(** A light [updateLight] can fit: a directional light needs its FBO. *)
Definition shadowable (w : World) (p : Ptr) : Prop :=
  exists t f, light_sig w p = Some (t, f) /\ (t = DIRECTIONAL -> is_Some f).

(** A light that gets an atlas cell. *)
Definition nonpoint (w : World) (p : Ptr) : Prop :=
  exists t f, light_sig w p = Some (t, f) /\ t ≠ POINT.

#[export] Instance nonpoint_dec w p : Decision (nonpoint w p).
Proof.
  unfold nonpoint. destruct (light_sig w p) as [[t f]|].
  - destruct (decide (t = POINT)) as [->|Ht]; [right; naive_solver|left; eauto].
  - right. naive_solver.
Defined.


(** A rectangle [(x, y, w, h)] inside the square [[0, side]^2], and two
    rectangles that do not overlap. *)
Definition rect_inside (side : Z) (r : Z * Z * Z * Z) : Prop :=
  let '(x, y, w, h) := r in (0 <= x /\ 0 <= y /\ x + w <= side /\ y + h <= side)%Z.

Definition rect_disjoint (r1 r2 : Z * Z * Z * Z) : Prop :=
  let '(x1, y1, w1, h1) := r1 in let '(x2, y2, w2, h2) := r2 in
  (x1 + w1 <= x2 \/ x2 + w2 <= x1 \/ y1 + h1 <= y2 \/ y2 + h2 <= y1)%Z.
End ShadowModel.

(** ** Rounding and snapping *)

#[export] Instance cround_proper : Proper (Qeq ==> eq) cround.
Proof.
  intros x y E. unfold cround.
  destruct (Qle_bool 0 x) eqn:Ex, (Qle_bool 0 y) eqn:Ey; try (rewrite E; reflexivity).
  - apply Qle_bool_iff in Ex. rewrite E in Ex. apply Qle_bool_iff in Ex. congruence.
  - apply Qle_bool_iff in Ey. rewrite <- E in Ey. apply Qle_bool_iff in Ey. congruence.
Qed.

Lemma cround_spec q : (Qabs (inject_Z (cround q) - q) <= 1 # 2)%Q.
Proof.
  unfold cround. apply Qabs_Qle_condition.
  destruct (Qle_bool 0 q).
  - pose proof (Qfloor_le (q + (1 # 2))). pose proof (Qlt_floor (q + (1 # 2))).
    rewrite inject_Z_plus in *. change (inject_Z 1) with 1%Q in *. lra.
  - pose proof (Qfloor_le (- q + (1 # 2))). pose proof (Qlt_floor (- q + (1 # 2))).
    rewrite inject_Z_opp. rewrite inject_Z_plus in *. change (inject_Z 1) with 1%Q in *. lra.
Qed.

#[export] Instance snap_proper : Proper (Qeq ==> Qeq ==> Qeq) snap.
Proof.
  intros v v' Ev g g' Eg. unfold snap.
  rewrite (cround_proper _ _ (Qdiv_comp _ _ Ev _ _ Eg)). by rewrite Eg.
Qed.

Lemma snap_spec v g : (0 < g)%Q -> (Qabs (snap v g - v) <= g / 2)%Q.
Proof.
  intros Hg. unfold snap.
  assert (Hv : (v == (v / g) * g)%Q) by (field; lra).
  set (t := (v / g)%Q) in *. rewrite Hv.
  setoid_replace (inject_Z (cround t) * g - t * g)%Q with ((inject_Z (cround t) - t) * g)%Q using relation Qeq by ring.
  rewrite Qabs_Qmult, (Qabs_pos g) by lra.
  pose proof (cround_spec t). setoid_replace (g / 2)%Q with ((1 # 2) * g)%Q using relation Qeq by field.
  apply Qmult_le_compat_r; lra.
Qed.


Section ShadowProofs.
Context `{Geometry}.

(** C9. [updateLight] on a directional light with a shadow map of width
    [width > 0] and a positive [area_size] [a] succeeds and snaps the view
    translation of the light camera to the texel grid [2a / width]: each of
    [M[3][0]] and [M[3][1]] becomes an integer multiple of the grid, within
    half a texel of the value before snapping. *)
Theorem updateLight_directional_snap model ww l width :
  l_light_type l = DIRECTIONAL -> l_shadow_fbo l = Some width -> (0 < width)%Z -> (0 < l_area_size l)%Q ->
  let c1 := directional_ortho model l in
  let grid := (2 * l_area_size l / inject_Z width)%Q in
  exists l', updateLight model ww l = inr l' /\
    l_light_type l' = DIRECTIONAL /\ l_shadow_fbo l' = Some width /\
    (exists kx ky, cam_view_tx (l_camera l') == inject_Z kx * grid /\
                   cam_view_ty (l_camera l') == inject_Z ky * grid)%Q /\
    (Qabs (cam_view_tx (l_camera l') - cam_view_tx c1) <= grid / 2)%Q /\
    (Qabs (cam_view_ty (l_camera l') - cam_view_ty c1) <= grid / 2)%Q.
Proof.
  intros Ht Hf Hw Ha c1 grid. unfold updateLight. rewrite Ht, Hf. fold c1.
  assert (Eg : ((cam_right c1 - cam_left c1) / inject_Z width == grid)%Q).
  { unfold c1, directional_ortho, grid. rewrite cam_ortho_extent. field.
    intros E. assert (width = 0)%Z by (apply inject_Z_injective; exact E). lia. }
  assert (Hg : (0 < grid)%Q).
  { unfold grid. apply Qlt_shift_div_l; [change 0%Q with (inject_Z 0); rewrite <- Zlt_Qlt; lia|lra]. }
  eexists. split; [reflexivity|]. cbn [l_light_type l_shadow_fbo l_camera light_set_camera].
  rewrite cam_view_tx_set, cam_view_ty_set. split; [done|]. split; [done|]. unfold snap.
  split; [eexists _, _; split; apply Qmult_comp; [reflexivity|exact Eg|reflexivity|exact Eg]|].
  fold (snap (cam_view_tx c1) ((cam_right c1 - cam_left c1) / inject_Z width)).
  fold (snap (cam_view_ty c1) ((cam_right c1 - cam_left c1) / inject_Z width)).
  rewrite !Eg. split; by apply snap_spec.
Qed.
Lemma deref_light_inv w p what id e l :
  deref_light w p what = inr (id, e, l) ->
  p = PEnt id /\ scn_entities (w_scene w) !! id = Some e /\ e_data e = ELight l.
Proof.
  unfold deref_light. destruct p as [| |i]; try discriminate.
  destruct (_ !! i) as [e'|] eqn:E; [|discriminate]. destruct (e_data e') eqn:Ed; try discriminate.
  intros [= <- <- <-]. auto.
Qed.

Lemma deref_light_what w p a b x : deref_light w p a = inr x -> deref_light w p b = inr x.
Proof. unfold deref_light. by repeat case_match. Qed.

Lemma store_light_sig w id e l l' p :
  scn_entities (w_scene w) !! id = Some e -> e_data e = ELight l ->
  l_light_type l' = l_light_type l -> l_shadow_fbo l' = l_shadow_fbo l ->
  light_sig (store_light id l' w) p = light_sig w p.
Proof.
  intros He Hd Ht Hf. unfold light_sig, deref_light, store_light. cbn [w_scene scn_entities].
  rewrite He. destruct p as [| |i]; [done|done|].
  destruct (decide (i = id)) as [->|Hne].
  - rewrite list_lookup_insert_eq by (by eapply lookup_lt_Some). cbn. rewrite He; cbn. rewrite Hd. by rewrite Ht, Hf.
  - by rewrite list_lookup_insert_ne by congruence.
Qed.

Lemma updateLight_sig model ww l l' :
  updateLight model ww l = inr l' -> l_light_type l' = l_light_type l /\ l_shadow_fbo l' = l_shadow_fbo l.
Proof. unfold updateLight. intros Hu. repeat case_match; simplify_eq; done. Qed.

Lemma updateLight_ok model ww l :
  (l_light_type l = DIRECTIONAL -> is_Some (l_shadow_fbo l)) -> exists l', updateLight model ww l = inr l'.
Proof.
  intros Hf. unfold updateLight. destruct (l_light_type l) eqn:Ht; try by eexists.
  destruct (Hf eq_refl) as [wd ->]. by eexists.
Qed.

Lemma scissors_atlas_calls l cs : scissors (flat_map (atlas_call_cmds l) cs) = [].
Proof.
  induction cs as [|c cs IH]; [done|]. cbn [flat_map]. unfold scissors in *.
  rewrite omap_app, IH. unfold atlas_call_cmds, cull_cmd.
  destruct (_ || _); [done|]. by destruct (mat_two_sided _).
Qed.

Lemma viewports_atlas_calls l cs : viewports (flat_map (atlas_call_cmds l) cs) = [].
Proof.
  induction cs as [|c cs IH]; [done|]. cbn [flat_map]. unfold viewports in *.
  rewrite omap_app, IH. unfold atlas_call_cmds, cull_cmd.
  destruct (_ || _); [done|]. by destruct (mat_two_sided _).
Qed.

Lemma light_sig_scene w w' p : w_scene w' = w_scene w -> light_sig w' p = light_sig w p.
Proof. intros E. unfold light_sig, deref_light. by rewrite E. Qed.

Lemma atlas_light_ok c id e l w :
  scn_entities (w_scene w) !! id = Some e -> e_data e = ELight l ->
  (l_light_type l = DIRECTIONAL -> is_Some (l_shadow_fbo l)) ->
  exists w', atlas_light c id e l w = inr (tt, w') /\ (forall p, light_sig w' p = light_sig w p) /\
    w_r w' = w_r w /\ w_quality w' = w_quality w /\ w_width w' = w_width w /\
    exists cs, w_gl w' = w_gl w ++ cs /\
      scissors cs = [atlas_rect (ceil_sqrt (r_shadow_count (w_r w))) (shadow_res (w_quality w)) c] /\
      viewports cs = [atlas_rect (ceil_sqrt (r_shadow_count (w_r w))) (shadow_res (w_quality w)) c].
Proof.
  intros He Hd Hf. destruct (updateLight_ok (e_model e) (w_width w) l Hf) as [l1 Hu].
  destruct (updateLight_sig _ _ _ _ Hu) as [Ht Hfb].
  unfold atlas_light, mbind, mget. rewrite Hu. unfold atlas_rect, atlas_cell, mmodify, emit.
  eexists. split; [reflexivity|]. split; [|split; [done|split; [done|split; [done|]]]].
  - intros p. rewrite <- (store_light_sig w id e l (light_set_uvs (atlas_uvs (ceil_sqrt (r_shadow_count (w_r w))) c) l1) p) by done.
    by apply light_sig_scene.
  - eexists. split; [reflexivity|]. set (l2 := light_set_uvs _ l1). split.
    + unfold scissors. rewrite omap_app. fold (scissors (flat_map (atlas_call_cmds l2) (r_calls (w_r w)))).
      by rewrite scissors_atlas_calls.
    + unfold viewports. rewrite omap_app. fold (viewports (flat_map (atlas_call_cmds l2) (r_calls (w_r w)))).
      by rewrite viewports_atlas_calls.
Qed.

Lemma light_sig_inv w p t f :
  light_sig w p = Some (t, f) ->
  exists id e l, deref_light w p "light" = inr (id, e, l) /\ l_light_type l = t /\ l_shadow_fbo l = f.
Proof.
  unfold light_sig. destruct (deref_light w p "light") as [|[[id e] l]]; [discriminate|].
  intros [= <- <-]. eauto 10.
Qed.

Lemma nonpoint_filter_sig w w' (ls : list Ptr) :
  (forall p, light_sig w' p = light_sig w p) -> filter (nonpoint w') ls = filter (nonpoint w) ls.
Proof. intros E. apply list_filter_iff. intros p. unfold nonpoint. by rewrite E. Qed.

Lemma atlas_loop_ok ls : forall c w, Forall (shadowable w) ls ->
  exists w', atlas_loop c ls w = inr (tt, w') /\ (forall p, light_sig w' p = light_sig w p) /\
    w_r w' = w_r w /\ w_quality w' = w_quality w /\ w_width w' = w_width w /\
    exists cs, w_gl w' = w_gl w ++ cs /\
      scissors cs = atlas_rect (ceil_sqrt (r_shadow_count (w_r w))) (shadow_res (w_quality w)) <$>
                        (seq c (length (filter (nonpoint w) ls))) /\
      viewports cs = atlas_rect (ceil_sqrt (r_shadow_count (w_r w))) (shadow_res (w_quality w)) <$>
                        (seq c (length (filter (nonpoint w) ls))).
Proof.
  induction ls as [|p ls IH]; intros c w Hok.
  - exists w. repeat split; try done. exists []. by rewrite app_nil_r.
  - apply Forall_cons in Hok as [(t & f & Hs & Hf) Hok].
    destruct (light_sig_inv _ _ _ _ Hs) as (id & e & l & Hd & <- & <-).
    destruct (deref_light_inv _ _ _ _ _ _ Hd) as (-> & He & Hdat).
    cbn [atlas_loop]. unfold mbind at 1, mget. rewrite Hd.
    destruct (decide (l_light_type l = POINT)) as [Hp|Hp].
    + rewrite filter_cons_False by (unfold nonpoint; rewrite Hs; naive_solver). by apply IH.
    + rewrite filter_cons_True by (unfold nonpoint; rewrite Hs; eauto).
      destruct (atlas_light_ok c id e l w He Hdat Hf) as (w1 & Hr1 & Hs1 & Hr & Hq & Hw & cs1 & Hg1 & Hc1 & Hv1).
      destruct (IH (S c) w1) as (w2 & Hr2 & Hs2 & Hr' & Hq' & Hw' & cs2 & Hg2 & Hc2 & Hv2).
      { eapply Forall_impl; [exact Hok|]. intros p' (t' & f' & Hs' & Hf'). exists t', f'. by rewrite Hs1. }
      exists w2. unfold mbind. rewrite Hr1.
      split; [done|]. split; [intros p'; by rewrite Hs2, Hs1|].
      split; [congruence|]. split; [congruence|]. split; [congruence|].
      exists (cs1 ++ cs2). rewrite Hg2, Hg1, app_assoc. split; [done|].
      unfold scissors, viewports in *. rewrite !omap_app, Hc1, Hc2, Hv1, Hv2, Hr, Hq, (nonpoint_filter_sig w w1) by done.
      done.
Qed.

Lemma renderToAtlas_layout w :
  r_shadow_count (w_r w) ≠ 0%Z -> r_calls (w_r w) ≠ [] -> Forall (shadowable w) (r_lights (w_r w)) ->
  let res := shadow_res (w_quality w) in
  exists w', renderToAtlas w = inr (tt, w') /\
    r_shadow_count (w_r w') = 4%Z /\
    r_atlas (w_r w') = Some (default (2 * res)%Z (r_atlas (w_r w))) /\
    exists cs, w_gl w' = w_gl w ++ cs /\
      scissors cs = atlas_rect 2 res <$> (seq 0 (length (filter (nonpoint w) (r_lights (w_r w))))) /\
      viewports cs = (atlas_rect 2 res <$> (seq 0 (length (filter (nonpoint w) (r_lights (w_r w)))))) ++
                     [(0, 0, w_width w, w_height w)]%Z.
Proof.
  intros Hsc Hc Hok res. unfold renderToAtlas, mbind, mget, emit, mmodify.
  rewrite (bool_decide_false _ Hsc), (bool_decide_false _ Hc). cbn [orb w_r set_r].
  cbn. destruct (r_atlas (w_r w)) as [a|] eqn:Ha; cbn;
  match goal with |- context [atlas_loop 0 _ ?W] =>
    destruct (atlas_loop_ok (r_lights (w_r w)) 0 W) as (w2 & -> & Hs2 & Hr2 & Hq2 & _ & cs & Hg2 & Hc2 & Hv2)
  end;
  try (eapply Forall_impl; [exact Hok|]; intros p (t & f & Hs & Hf); exists t, f; by rewrite (light_sig_scene w)).
  all: cbn in Hr2, Hq2, Hg2, Hc2, Hv2; eexists; split; [reflexivity|]; cbn; rewrite Hr2.
  all: split; [reflexivity|]; split; [cbn; rewrite ?Ha; f_equal; unfold res; try (change (ceil_sqrt 4) with 2%Z; lia)|].
  all: rewrite Hg2; eexists; split; [by rewrite <- !app_assoc|].
  all: split; [unfold scissors; rewrite !omap_app; fold (scissors cs); rewrite Hc2
              |unfold viewports; rewrite !omap_app; fold (viewports cs); rewrite Hv2]; cbn.
  all: rewrite (nonpoint_filter_sig _ w) by (intros; by apply light_sig_scene).
  all: by rewrite ?app_nil_r.
Qed.

(** The column and row of a cell among the first four are 0 or 1. *)
Lemma atlas_cell_digits k : k < 4 ->
  ((Z.of_nat k mod 2 = 0 \/ Z.of_nat k mod 2 = 1) /\ (Z.of_nat k / 2 = 0 \/ Z.of_nat k / 2 = 1))%Z.
Proof. intros Hk. do 4 (destruct k as [|k]; [vm_compute; tauto|]). lia. Qed.

Lemma atlas_rect_inside res k : (0 < res)%Z -> k < 4 -> rect_inside (2 * res) (atlas_rect 2 res k).
Proof.
  intros Hr Hk. unfold rect_inside, atlas_rect, atlas_cell.
  destruct (atlas_cell_digits k Hk) as [[-> | ->] [-> | ->]]; lia.
Qed.

Lemma atlas_rect_disjoint res k1 k2 : (0 < res)%Z -> k1 < 4 -> k2 < 4 -> k1 ≠ k2 ->
  rect_disjoint (atlas_rect 2 res k1) (atlas_rect 2 res k2).
Proof.
  intros Hr H1 H2 Hne. unfold rect_disjoint, atlas_rect, atlas_cell.
  pose proof (Z.div_mod (Z.of_nat k1) 2) as E1. pose proof (Z.div_mod (Z.of_nat k2) 2) as E2.
  destruct (atlas_cell_digits k1 H1) as [[M1|M1] [D1|D1]], (atlas_cell_digits k2 H2) as [[M2|M2] [D2|D2]];
    rewrite ?M1, ?D1, ?M2, ?D2 in *; lia.
Qed.

Lemma atlas_rect_outside res k : (0 < res)%Z -> 4 <= k -> ~ rect_inside (2 * res) (atlas_rect 2 res k).
Proof.
  intros Hr Hk. unfold atlas_rect, atlas_cell, rect_inside.
  assert (2 <= Z.of_nat k / 2)%Z by (apply (Z.div_le_mono 4 (Z.of_nat k) 2); lia). nia.
Qed.

(** C10. [renderToAtlas] with shadows and calls to draw, and at most four
    lights that are not point lights, forces [shadow_count] to 4, allocates
    (once) an atlas of side [2 * res] where [res = 1024 * 2^quality], and
    gives the [k]-th non-point light of [lights] the scissor and viewport
    rectangle [(k mod 2 * res, k / 2 * res, res, res)] (the [glScissor]
    and the [glViewport] of renderer.cpp:1219-1222, in that order, then
    the window's viewport restored at 1253): these rectangles lie inside
    the atlas and no two of them overlap. *)
Theorem renderToAtlas_cells w :
  r_shadow_count (w_r w) ≠ 0%Z -> r_calls (w_r w) ≠ [] -> Forall (shadowable w) (r_lights (w_r w)) ->
  length (filter (nonpoint w) (r_lights (w_r w))) <= 4 ->
  let res := shadow_res (w_quality w) in
  exists w' cs, renderToAtlas w = inr (tt, w') /\
    r_shadow_count (w_r w') = 4%Z /\ r_atlas (w_r w') = Some (default (2 * res)%Z (r_atlas (w_r w))) /\
    w_gl w' = w_gl w ++ cs /\
    scissors cs = atlas_rect 2 res <$> (seq 0 (length (filter (nonpoint w) (r_lights (w_r w))))) /\
    viewports cs = scissors cs ++ [(0, 0, w_width w, w_height w)]%Z /\
    Forall (rect_inside (2 * res)) (scissors cs) /\
    (forall i j r1 r2, scissors cs !! i = Some r1 -> scissors cs !! j = Some r2 -> i ≠ j ->
       rect_disjoint r1 r2).
Proof.
  intros Hsc Hc Hok Hn res.
  destruct (renderToAtlas_layout w Hsc Hc Hok) as (w' & Hrun & Hs & Ha & cs & Hg & Hcs & Hvs).
  assert (Hr : (0 < res)%Z) by (pose proof (shadow_res_pos (w_quality w)); unfold res; lia).
  exists w', cs. do 5 (split; [done|]). rewrite Hcs. split; [exact Hvs|]. split.
  - apply Forall_forall. intros r Hin. apply list_elem_of_fmap in Hin as (k & -> & Hk).
    apply elem_of_seq in Hk. apply atlas_rect_inside; lia.
  - intros i j r1 r2 Hi Hj Hij. apply list_lookup_fmap_Some in Hi as (k1 & -> & Hk1).
    apply list_lookup_fmap_Some in Hj as (k2 & -> & Hk2).
    apply lookup_seq in Hk1 as [-> ?], Hk2 as [-> ?]. apply atlas_rect_disjoint; lia.
Qed.

(** C11. With five or more lights that are not point lights, the fifth
    one's atlas rectangle, its scissor and its viewport alike, starts at
    row [2 * res], the far edge of the atlas of side [2 * res] that
    [renderToAtlas] allocates: its depth is rendered outside the atlas and its [uvs] address a cell outside
    [[0,1]^2] (the atlas is sized for [shadow_count = 4], not for the
    number of lights). *)
Theorem renderToAtlas_overflow w :
  r_shadow_count (w_r w) ≠ 0%Z -> r_calls (w_r w) ≠ [] -> Forall (shadowable w) (r_lights (w_r w)) ->
  r_atlas (w_r w) = None -> 5 <= length (filter (nonpoint w) (r_lights (w_r w))) ->
  let res := shadow_res (w_quality w) in
  exists w' cs, renderToAtlas w = inr (tt, w') /\ r_atlas (w_r w') = Some (2 * res)%Z /\
    w_gl w' = w_gl w ++ cs /\ scissors cs !! 4 = Some (atlas_rect 2 res 4) /\
    viewports cs !! 4 = Some (atlas_rect 2 res 4) /\ ~ rect_inside (2 * res) (atlas_rect 2 res 4).
Proof.
  intros Hsc Hc Hok Hnone Hn res.
  destruct (renderToAtlas_layout w Hsc Hc Hok) as (w' & Hrun & _ & Ha & cs & Hg & Hcs & Hvs).
  assert (Hr : (0 < res)%Z) by (pose proof (shadow_res_pos (w_quality w)); unfold res; lia).
  exists w', cs. split; [done|]. split; [by rewrite Ha, Hnone|]. split; [done|].
  rewrite Hvs, Hcs, lookup_app_l, list_lookup_fmap, lookup_seq_lt by (rewrite ?length_fmap, ?length_seq; lia).
  split; [done|]. split; [done|].
  - apply atlas_rect_outside; lia.
Qed.
End ShadowProofs.

Section ShadowPass.
Context `{Geometry}.

(** C15. In MULTI light mode, a point light with [cast_shadows] set (and,
    as [LightEntity::configure] leaves every point light, no shadow FBO)
    makes the shadow pass of [renderScene] dereference its null
    [shadow_fbo], as soon as the loop over [lights] reaches it:
    [shadowMapping] is called for every shadow-casting light whatever its
    type, and [updateLight] returns early only for point lights. *)
Theorem renderShadows_point_caster w pre p post :
  r_light_mode (w_r w) = MULTI -> r_lights (w_r w) = pre ++ p :: post ->
  Forall (fun q => exists id e l, deref_light w q "light" = inr (id, e, l) /\ l_cast_shadows l = false) pre ->
  (exists id e l, deref_light w p "light" = inr (id, e, l) /\ l_light_type l = POINT /\
     l_cast_shadows l = true /\ l_shadow_fbo l = None) ->
  renderShadows w = inl (NullDeref "light->shadow_fbo").
Proof.
  intros Hm Hl Hpre (id & e & l & Hd & Ht & Hc & Hf).
  unfold renderShadows, mbind at 1, mget at 1. cbv beta iota. rewrite Hm, Hl.
  apply mbind_fail. rewrite mfor_each_app. rewrite (mbind_step _ _ w tt w).
  2: { apply mfor_each_skip. intros q Hq.
       eapply Forall_forall in Hpre as (id' & e' & l' & Hd' & Hc'); [|exact Hq].
       unfold mbind, mget. by rewrite Hd', Hc'. }
  cbn [mfor_each]. apply mbind_fail. unfold mbind at 1, mget. rewrite Hd, Hc.
  unfold shadowMapping, mbind, mget. rewrite Hd. unfold updateLight. rewrite Ht.
  unfold mmodify. cbn. by rewrite Hf.
Qed.
End ShadowPass.

(** ** Witnesses *)

(** [n] spot lights at [x = 0, 5, 10, ...], all in [lights]. *)
Definition ex_spots (n : nat) : list (@Entity World1) :=
  map (fun i => ex_light_entity SPOT (inject_Z (5 * Z.of_nat i)) true true) (seq 0 n).

Definition ex_atlas_world (n : nat) : @World World1 :=
  ex_world_lights FORWARD SINGLE (ex_spots n) (PEnt <$> seq 0 n) (Z.of_nat n) [ex_call NO_ALPHA 1].

Lemma ex_atlas_shadowable n : Forall (shadowable (ex_atlas_world n)) (r_lights (w_r (ex_atlas_world n))).
Proof.
  apply Forall_forall. intros p Hp. cbn in Hp. apply list_elem_of_fmap in Hp as (i & -> & Hi).
  apply elem_of_seq in Hi. exists SPOT, (Some 1024%Z). split; [|discriminate].
  unfold light_sig, deref_light. cbn. unfold ex_spots.
  rewrite list_lookup_fmap, lookup_seq_lt by lia. reflexivity.
Qed.

Lemma renderToAtlas_cells_witness :
  exists w' cs, renderToAtlas (ex_atlas_world 2) = inr (tt, w') /\ w_gl w' = [] ++ cs /\
    scissors cs = [(0, 0, 1024, 1024); (1024, 0, 1024, 1024)]%Z /\
    viewports cs = [(0, 0, 1024, 1024); (1024, 0, 1024, 1024); (0, 0, 800, 600)]%Z.
Proof.
  destruct (renderToAtlas_cells (ex_atlas_world 2)) as (w' & cs & Hrun & _ & _ & Hg & Hcs & Hvs & _);
    [discriminate|discriminate|apply ex_atlas_shadowable|vm_compute; lia|].
  exists w', cs. split; [exact Hrun|]. split; [exact Hg|]. rewrite Hvs, Hcs. split; reflexivity.
Defined.

Lemma renderToAtlas_overflow_witness :
  exists w' cs, renderToAtlas (ex_atlas_world 5) = inr (tt, w') /\ r_atlas (w_r w') = Some 2048%Z /\
    scissors cs !! 4 = Some (0, 2048, 1024, 1024)%Z /\ viewports cs !! 4 = Some (0, 2048, 1024, 1024)%Z /\
    w_gl w' = [] ++ cs.
Proof.
  destruct (renderToAtlas_overflow (ex_atlas_world 5)) as (w' & cs & Hrun & Ha & Hg & Hcs & Hvs & _);
    [discriminate|discriminate|apply ex_atlas_shadowable|reflexivity|vm_compute; lia|].
  exists w', cs. split; [exact Hrun|]. split; [exact Ha|]. split; [exact Hcs|]. split; [exact Hvs|exact Hg].
Defined.

Definition ex_sun : @LightEntity World1 :=
  {| l_color := vec3 1 1 1; l_intensity := 1; l_light_type := DIRECTIONAL; l_max_distance := 500;
     l_cone_angle := 0; l_area_size := 100; l_spot_exp := 1; l_bias := 5 # 1000;
     l_cast_shadows := true; l_uvs := vzero; l_camera := cam1_default; l_shadow_fbo := Some 1024%Z |}.

(** A sun at [x = 7]: the view translation [-7] snaps to [-36] texels of
    [200 / 1024]. *)
Lemma updateLight_directional_snap_witness :
  exists l', updateLight {| sc := 1; tr := 7 |} 800 ex_sun = inr l' /\
    (cam_view_tx (l_camera l') == -36 * (200 # 1024))%Q.
Proof.
  destruct (updateLight_directional_snap (H:=World1) {| sc := 1; tr := 7 |} 800 ex_sun 1024)
    as (l' & Hu & _); [reflexivity|reflexivity|lia|reflexivity|].
  exists l'. split; [exact Hu|]. unfold updateLight in Hu. vm_compute in Hu.
  injection Hu as <-. reflexivity.
Defined.

(** A point light configured with [cast_shadows = true]. *)
Definition ex_point_caster : @Entity World1 :=
  {| e_name := EmptyString; e_model := {| sc := 1; tr := 0 |}; e_visible := true;
     e_data := ELight (LightEntity_configure LOW
                 {| ej_type := "LIGHT"; ej_name := None; ej_position := None; ej_angle := None;
                    ej_rotation := None; ej_scale := None; ej_filename := None;
                    ej_light_type := Some "POINT"; ej_color := None; ej_max_dist := None;
                    ej_intensity := None; ej_target := None; ej_cone_angle := None;
                    ej_area_size := None; ej_cone_exp := None; ej_shadow_bias := None;
                    ej_cast_shadows := Some true; ej_dim := None; ej_probe_scale := None;
                    ej_albedo := None |} {| sc := 1; tr := 0 |} (LightEntity_new ex_light)).2 |}.

Lemma renderShadows_point_caster_witness :
  renderShadows (ex_world_lights FORWARD MULTI [ex_point_caster] [PEnt 0] 0 []) =
  inl (NullDeref "light->shadow_fbo").
Proof.
  apply (renderShadows_point_caster _ [] (PEnt 0) []); [reflexivity|reflexivity|constructor|].
  eexists _, _, _. split; [reflexivity|]. vm_compute. auto.
Defined.
