(* ===== verification/Shading.v ===== *)
(** * Forward shading of a draw call

    [Renderer::renderMeshWithMaterial] (renderer.cpp:789-966),
    [renderMultiPass] (968-1020), [renderSinglePass] (1072-1144),
    [renderSkybox] (515-540) and [renderCalls] (590-609).  They run in the
    state [World]; what they submit is appended to the trace [w_gl], and
    [GL.gl_step] gives the GPU state each draw is made in.

    The multi-pass path draws the mesh once per light: the first pass
    with the material's own blending, every later pass additively
    ([glBlendFunc(GL_SRC_ALPHA, GL_ONE)] with depth [GL_LEQUAL]) with the
    ambient and emissive terms zeroed.  The single-pass path packs the
    lights into arrays of [max_lights = 100] entries, filled by a loop with
    no bound check: a 101st light is a write past the end of the arrays
    ([OutOfBounds]).  With [reflections] on, [call.probe->cubemap] is read
    without the null check of the lines above it.  The frame conditions
    [mpres_renderMeshWithMaterial] and its parts state that shading only
    extends the GL trace. *)

From S2P Require Import Prelude Enums Geometry RenderCall GL Scene Renderer Shadows.

(** [Renderer::max_lights] (renderer.h:59). *)
Definition max_lights : nat := 100.

Section ShadingModel.
Context `{Geometry}.

Definition gamma3 (g : Q) (v : Vec3) : Vec3 :=
  let '(x, y, z) := v in vec3 (fpow x g) (fpow y g) (fpow z g).

(** The shader of a pipeline and light mode (renderer.cpp:820-834);
    [None] is a [NULL] shader. *)
Definition shader_of (pipeline : eRenderMode) (lm : eLightMode) : option string :=
  match pipeline with
  | FORWARD => match lm with MULTI => Some "light_multi" | SINGLE => Some "light_single" | BRUH => None end
  | DEFERRED => Some "gbuffers"
  | DEFERRED_ALPHA => Some "light_multi"
  end.

Definition dims3 (d : nat * nat * nat) : Vec3 :=
  let '(x, y, z) := d in vec3 (inject_Z (Z.of_nat x)) (inject_Z (Z.of_nat y)) (inject_Z (Z.of_nat z)).

(** The irradiance uniforms, when [probes_texture] is set (renderer.cpp:
    976-982, 1110-1116, 947-953): they read [grid]. *)
Definition irr_cmds (w : World) : Fault + (bool * list GLCmd) :=
  match r_probes_texture (w_r w) with
  | None => inr (false, [])
  | Some _ =>
      match deref_grid w (r_grid (w_r w)) "grid->inv_model" with
      | inl f => inl f
      | inr g => inr (true, [Uniform "u_invmodel_grid" (UMat (g_inv_model g));
                             Uniform "u_irr_dims" (UVec3 (dims3 (g_dim g)));
                             Uniform "u_trilinear" (UBool (r_irr_3lerp (w_r w)));
                             Uniform "u_texture_probes" (UTex TexProbes 6)])
      end
  end.

(** Run a fallible computation of commands and submit them. *)
Definition emit_or_fail (x : Fault + list GLCmd) : M World unit :=
  match x with inl f => mfail f | inr cs => emit cs end.

(** The uniforms of pass [i > 0] of the multi-pass loop (renderer.cpp:
    991-1011). *)
Definition later_pass_cmds (m : Material) (pipeline : eRenderMode) : list GLCmd :=
  (if decide (mat_alpha_mode m = BLEND) then [BlendFunc GL_SRC_ALPHA GL_ONE] else [Enable CAP_BLEND]) ++
  [Uniform "u_ambient_light" (UVec3 vzero); Uniform "u_irr" (UBool false);
   Uniform "u_reflections" (UBool false)] ++
  (if decide (pipeline = DEFERRED)
   then [Uniform "u_emissive" (UBool false); Enable CAP_BLEND; BlendFunc GL_ONE GL_ONE]
   else [Uniform "u_emissive" (UVec3 vzero)]).

(** One pass of the loop: light [lights[i]]. *)
Definition multi_pass (me : Mesh) (m : Material) (pipeline : eRenderMode) (ip : nat * Ptr) : M World unit :=
  let '(i, p) := ip in
  w <- mget ;;
  match deref_light w p "light" with
  | inl f => mfail f
  | inr (id, e, l) =>
      emit (if decide (i = 0) then [] else later_pass_cmds m pipeline) ;;;
      emit_or_fail (uploadLightParams id (e_model e) l true (r_hdr_gamma (w_r w))) ;;;
      emit [Draw (DrawMesh (mesh_id me))]
  end.

(** [Renderer::renderMultiPass]. *)
Definition renderMultiPass (me : Mesh) (m : Material) (pipeline : eRenderMode) : M World unit :=
  w <- mget ;;
  emit [Enable CAP_DEPTH_TEST; DepthFunc GL_LEQUAL; Uniform "u_pcf" (UBool (r_pcf (w_r w)))] ;;;
  match irr_cmds w with
  | inl f => mfail f
  | inr (_, cs) =>
      emit (cs ++ [Uniform "u_irr" (UBool (r_activate_irr (w_r w)))]) ;;;
      let ls := r_lights (w_r w) in
      mfor_each (zip (seq 0 (length ls)) ls) (multi_pass me m pipeline)
  end.

(** The per-light entries of the single-pass arrays, with the bound of
    the arrays checked at each write (renderer.cpp:1088-1106). *)
Fixpoint pack_lights (w : World) (i : nat) (ls : list Ptr) : Fault + list (nat * Entity * LightEntity) :=
  match ls with
  | [] => inr []
  | p :: ls' =>
      match deref_light w p "light" with
      | inl f => inl f
      | inr x =>
          if decide (max_lights <= i) then inl (OutOfBounds "light_position[i]")
          else match pack_lights w (S i) ls' with inl f => inl f | inr xs => inr (x :: xs) end
      end
  end.

(** The arrays and scalars uploaded by [renderSinglePass]
    (renderer.cpp:1116-1139). *)
Definition single_pass_cmds (r : Renderer) (xs : list (nat * Entity * LightEntity)) : list GLCmd :=
  let g := r_hdr_gamma r in
  [Uniform "u_shadow_viewproj" (UMatArr ((fun x => cam_viewproj (l_camera x.2)) <$> xs));
   Uniform "u_light_position" (UVec3Arr ((fun x => mat_point (e_model x.1.2) vzero) <$> xs));
   Uniform "u_light_color" (UVec3Arr ((fun x => gamma3 g (l_color x.2)) <$> xs));
   Uniform "u_light_vector" (UVec3Arr ((fun x => mat_front (e_model x.1.2)) <$> xs));
   Uniform "u_light_uvs" (UVec3Arr ((fun x => l_uvs x.2) <$> xs));
   Uniform "u_light_maxdist" (UFloatArr ((fun x => l_max_distance x.2) <$> xs));
   Uniform "u_light_type" (UIntArr ((fun x => light_type_code (l_light_type x.2)) <$> xs));
   Uniform "u_light_intensity" (UFloatArr ((fun x => l_intensity x.2) <$> xs));
   Uniform "u_light_cutoff" (UFloatArr ((fun x => fcos_deg (l_cone_angle x.2)) <$> xs));
   Uniform "u_light_exp" (UFloatArr ((fun x => l_spot_exp x.2) <$> xs));
   Uniform "u_shadows" (UIntArr ((fun x => if l_cast_shadows x.2 then 1%Z else 0%Z) <$> xs));
   Uniform "u_shadow_bias" (UFloatArr ((fun x => l_bias x.2) <$> xs));
   Uniform "u_num_lights" (UInt (Z.of_nat (length (r_lights r))));
   Uniform "u_shadow_count" (UInt (r_shadow_count r));
   Uniform "u_pcf" (UBool (r_pcf r))].

(** [Renderer::renderSinglePass].  The arrays hold [max_lights] entries,
    of which the first [lights.size()] are written; the rest are
    uninitialised and the shader reads [u_num_lights] of them. *)
Definition renderSinglePass (me : Mesh) : M World unit :=
  w <- mget ;;
  match pack_lights w 0 (r_lights (w_r w)) with
  | inl f => mfail f
  | inr xs =>
      match irr_cmds w with
      | inl f => mfail f
      | inr (_, cs) =>
          emit (cs ++ [Uniform "u_irr" (UBool (r_activate_irr (w_r w)))] ++ single_pass_cmds (w_r w) xs) ;;;
          (if bool_decide (r_shadow_count (w_r w) ≠ 0%Z) then
             match r_atlas (w_r w) with
             | Some _ => emit [Uniform "u_texture_atlas" (UTex TexAtlas 8)]
             | None => mfail (NullDeref "atlas->depth_texture")
             end
           else emit [Uniform "u_texture_atlas" (UTex TexBlack 8)]) ;;;
          emit [Draw (DrawMesh (mesh_id me))]
      end
  end.

(** The common uniforms of [renderMeshWithMaterial] (renderer.cpp:
    843-898), up to [u_alpha_cutoff]. *)
Definition material_cmds (r : Renderer) (sc : Scene) (c : RenderCall) (cam : Camera)
    (pipeline : eRenderMode) : list GLCmd :=
  let m := rc_material c in
  let g := r_hdr_gamma r in
  let mid := mesh_id (rc_mesh c) in
  let tex (b : bool) (slot : nat) (dflt : Tex) := if b then TexMaterial mid slot else dflt in
  [Uniform "u_viewprojection" (UMat (cam_viewproj cam));
   Uniform "u_camera_position" (UVec3 (cam_eye cam));
   Uniform "u_viewmatrix" (UMat (cam_view cam));
   Uniform "u_model" (UMat (rc_model c));
   Uniform "u_color" (UVec4 (gamma3 g (mat_color m).1) (mat_color m).2);
   Uniform "u_emissive" (UVec3 (gamma3 g (mat_emissive m)));
   Uniform "u_ambient_light" (UVec3 (gamma3 g (scn_ambient sc)));
   Uniform "u_light_eq" (UInt (light_eq_code (r_light_eq r)));
   Uniform "u_gamma" (UFloat g);
   Uniform "u_metallic" (UFloat (mat_metallic m));
   Uniform "u_roughness" (UFloat (mat_roughness m));
   Uniform "u_texture" (UTex (tex (mat_has_color_texture m) 0 TexWhite) 0);
   Uniform "u_texture_em" (UTex (tex (mat_has_emissive_texture m) 1 TexWhite) 1);
   Uniform "u_texture_metallic_roughness" (UTex (tex (mat_has_met_rough_texture m) 2 TexGreen) 2);
   Uniform "u_texture_normals" (UTex (tex (mat_has_normal_texture m) 3 TexBlack) 3)] ++
  (match rc_probe c with Some p => [Uniform "u_environment_texture" (UTex (TexCubemap p) 13)] | None => [] end) ++
  [Uniform "u_deferred" (UBool (bool_decide (pipeline = DEFERRED_ALPHA)))] ++
  (if decide (pipeline = DEFERRED_ALPHA) then
     Uniform "u_ao" (UBool (r_activate_ssao r)) ::
     (if r_activate_ssao r then [Uniform "u_ao_texture" (UTex (TexSSAO 0) 5)] else [])
   else []) ++
  [Uniform "u_alpha_cutoff" (UFloat (alpha_cutoff_of m))].

(** The blending of the multi-pass branch (renderer.cpp:913-923). *)
Definition multi_blend_cmds (m : Material) : list GLCmd :=
  if decide (mat_alpha_mode m = BLEND)
  then [Enable CAP_BLEND; BlendFunc GL_SRC_ALPHA GL_ONE_MINUS_SRC_ALPHA]
  else [Disable CAP_BLEND; BlendFunc GL_SRC_ALPHA GL_ONE].

(** [Renderer::renderMeshWithMaterial]. *)
Definition renderMeshWithMaterial (c : RenderCall) (cam : Camera) (pipeline : eRenderMode) : M World unit :=
  let me := rc_mesh c in
  let m := rc_material c in
  if bool_decide (mesh_num_vertices me = 0) then mret tt else
  emit [cull_cmd m] ;;;
  w <- mget ;;
  let r := w_r w in
  match shader_of pipeline (r_light_mode r) with
  | None => mret tt
  | Some sh =>
      emit (ShaderOn sh :: material_cmds r (w_scene w) c cam pipeline) ;;;
      (if r_reflections r then
         match rc_probe c with
         | Some p => emit [Uniform "u_environment_texture" (UTex (TexCubemap p) 11)]
         | None => mfail (NullDeref "call.probe->cubemap")
         end
       else mret tt) ;;;
      emit [Uniform "u_reflections" (UBool (r_reflections r))] ;;;
      (if bool_decide (pipeline = FORWARD /\ r_light_mode r = MULTI) || bool_decide (pipeline = DEFERRED_ALPHA) then
         emit (multi_blend_cmds m) ;;;
         (if bool_decide (r_lights r = []) then
            emit [Uniform "u_light_type" (UInt (light_type_code NO_LIGHT));
                  Uniform "u_light_eq" (UInt (light_eq_code NO_EQ)); Draw (DrawMesh (mesh_id me))]
          else renderMultiPass me m pipeline)
       else if bool_decide (pipeline = FORWARD /\ r_light_mode r = SINGLE) then
         emit (if decide (mat_alpha_mode m = BLEND)
               then [Enable CAP_BLEND; BlendFunc GL_SRC_ALPHA GL_ONE_MINUS_SRC_ALPHA] else []) ;;;
         renderSinglePass me
       else
         match irr_cmds w with
         | inl f => mfail f
         | inr (irr, cs) =>
             emit (cs ++ [Uniform "u_irr" (UBool irr)] ++
                   (if r_dithering r || bool_decide (mat_alpha_mode m = NO_ALPHA)
                    then [Draw (DrawMesh (mesh_id me))] else []))
         end) ;;;
      emit [ShaderOff; Disable CAP_BLEND; DepthFunc GL_LESS]
  end.

(** [Renderer::renderSkybox]: the environment on a sphere around the eye. *)
Definition renderSkybox (cam : Camera) : list GLCmd :=
  [ShaderOn "skybox";
   Uniform "u_model" (UMat (mat_scale3 (mat_translate mat_identity (cam_eye cam)) (vec3 2 2 2)));
   Uniform "u_viewprojection" (UMat (cam_viewproj cam));
   Uniform "u_camera_position" (UVec3 (cam_eye cam));
   Uniform "u_texture" (UTex TexEnvironment 0);
   Disable CAP_BLEND; Disable CAP_CULL_FACE; Disable CAP_DEPTH_TEST; Draw DrawSphere;
   Enable CAP_CULL_FACE; Enable CAP_DEPTH_TEST].

(** [Renderer::renderCalls]: clear, sky, then every call in the camera
    frustum. *)
Definition renderCalls (calls : list RenderCall) (cam : Camera) (pipeline : eRenderMode) : M World unit :=
  w <- mget ;;
  emit (Clear true true :: (if scn_environment (w_scene w) then renderSkybox cam else [])) ;;;
  mfor_each calls (fun c => if call_in_frustum cam c then renderMeshWithMaterial c cam pipeline else mret tt).

(** ** Views used by the statements *)

Definition pass_names : list string := ["u_ambient_light"; "u_emissive"].

Definition light_ok (w : World) (p : Ptr) : Prop :=
  exists id e l, deref_light w p "light" = inr (id, e, l) /\ (l_cast_shadows l = true -> is_Some (l_shadow_fbo l)).

Definition pass_cmds (m : Material) (pipeline : eRenderMode) (mid : nat) (i : nat) (us : list GLCmd) : list GLCmd :=
  (if decide (i = 0) then [] else later_pass_cmds m pipeline) ++ us ++ [Draw (DrawMesh mid)].

(** The GL state every pass of the multi-pass loop is drawn in. *)
Definition pass_inv (m : Material) (s : GLState) : Prop :=
  gs_program s = Some "light_multi" /\ gs_depth_func s = GL_LEQUAL /\ gs_on s CAP_DEPTH_TEST = true /\
  (mat_alpha_mode m = BLEND -> gs_on s CAP_BLEND = true) /\
  (mat_alpha_mode m ≠ BLEND -> gs_blend_func s = (GL_SRC_ALPHA, GL_ONE)).

Definition refl_cmds (r : Renderer) (c : RenderCall) : list GLCmd :=
  match r_reflections r, rc_probe c with
  | true, Some p => [Uniform "u_environment_texture" (UTex (TexCubemap p) 11)]
  | _, _ => []
  end.
(** The light pointers of [lights] all designate light entities. *)
Definition lights_deref (w : World) : Prop :=
  Forall (fun p => exists x, deref_light w p "light" = inr x) (r_lights (w_r w)).

End ShadingModel.

(** ** Frame conditions: shading only submits commands *)

Section ShadingFrame.
Context `{Geometry}.

Lemma mpres_emit_or_fail x : mpres grows (emit_or_fail x).
Proof. destruct x; [apply mpres_fail|apply mpres_emit]. Qed.
#[local] Hint Resolve mpres_emit_or_fail : mpres.

Lemma mpres_renderMultiPass me m pipeline : mpres grows (renderMultiPass me m pipeline).
Proof. unfold renderMultiPass, multi_pass. mpres_solve. Qed.

Lemma mpres_renderSinglePass me : mpres grows (renderSinglePass me).
Proof. unfold renderSinglePass. mpres_solve. Qed.
#[local] Hint Resolve mpres_renderMultiPass mpres_renderSinglePass : mpres.

Lemma mpres_renderMeshWithMaterial c cam pipeline : mpres grows (renderMeshWithMaterial c cam pipeline).
Proof. unfold renderMeshWithMaterial. mpres_solve. Qed.
End ShadingFrame.

#[export] Hint Resolve mpres_emit_or_fail mpres_renderMultiPass mpres_renderSinglePass
  mpres_renderMeshWithMaterial : mpres.

Section ShadingProofs.
Context `{Geometry}.

Lemma pack_lights_spec w i ls :
  Forall (fun p => exists x, deref_light w p "light" = inr x) ls ->
  (i + length ls <= max_lights -> exists xs, pack_lights w i ls = inr xs /\ length xs = length ls) /\
  (i <= max_lights -> max_lights < i + length ls -> pack_lights w i ls = inl (OutOfBounds "light_position[i]")).
Proof.
  revert i. induction ls as [|p ls IH]; intros i Hok; cbn [pack_lights length].
  - split; [by exists []|unfold max_lights; lia].
  - apply Forall_cons in Hok as [[x Hx] Hok]. rewrite Hx.
    destruct (IH (S i) Hok) as [IHok IHbad]. split.
    + intros Hle. rewrite decide_False by (unfold max_lights in *; lia).
      destruct IHok as (xs & -> & Hl); [lia|]. exists (x :: xs). cbn. auto.
    + intros Hi Hlt. destruct (decide (max_lights <= i)); [done|]. rewrite IHbad by lia. done.
Qed.

(** C13. [renderSinglePass] fills its light arrays of [max_lights = 100]
    entries with no bound check: with the lights all valid, it succeeds
    when there are at most 100 lights (provided the irradiance grid and,
    when [shadow_count] is not 0, the atlas exist) and uploads
    [u_num_lights = lights.size()], and with more than 100 lights it
    writes past the end of the arrays.  The bound is the declared
    [max_lights = 100] of renderer.h:59, not the 10 its comment gives:
    scenes of 11 to 100 lights are drawn in one pass with all of them. *)
Theorem renderSinglePass_bound me w :
  lights_deref w ->
  (length (r_lights (w_r w)) <= max_lights -> (exists x, irr_cmds w = inr x) ->
     (r_shadow_count (w_r w) ≠ 0%Z -> is_Some (r_atlas (w_r w))) ->
     exists w' cs, renderSinglePass me w = inr (tt, w') /\ w_gl w' = w_gl w ++ cs /\
       Uniform "u_num_lights" (UInt (Z.of_nat (length (r_lights (w_r w))))) ∈ cs) /\
  (max_lights < length (r_lights (w_r w)) ->
     renderSinglePass me w = inl (OutOfBounds "light_position[i]")).
Proof.
  intros Hok. destruct (pack_lights_spec w 0 _ Hok) as [Hgood Hbad]. split.
  - intros Hle [[irr cs] Hirr] Hat. destruct Hgood as (xs & Hp & _); [done|].
    unfold renderSinglePass, mbind, mget. rewrite Hp, Hirr. unfold emit, mmodify.
    case_bool_decide as Hsc.
    + destruct (Hat Hsc) as [a Ha]. rewrite Ha. eexists _, _. split; [reflexivity|].
      cbn. rewrite <- !app_assoc. split; [reflexivity|]. set_solver.
    + eexists _, _. split; [reflexivity|]. cbn. rewrite <- !app_assoc. split; [reflexivity|]. set_solver.
  - intros Hlt. unfold renderSinglePass, mbind, mget. rewrite Hbad by (unfold max_lights in *; lia). done.
Qed.

(** C14. With [reflections] on, [renderMeshWithMaterial] reads
    [call.probe->cubemap] without checking [call.probe]: a call with no
    reflection probe (the scene has none, so [getCallsFromNode] left it
    null) faults, in every pipeline that has a shader. *)
Theorem renderMeshWithMaterial_null_probe c cam pipeline w sh :
  mesh_num_vertices (rc_mesh c) ≠ 0 -> shader_of pipeline (r_light_mode (w_r w)) = Some sh ->
  r_reflections (w_r w) = true -> rc_probe c = None ->
  renderMeshWithMaterial c cam pipeline w = inl (NullDeref "call.probe->cubemap").
Proof.
  intros Hm Hsh Hr Hp. unfold renderMeshWithMaterial.
  rewrite bool_decide_false by done. unfold mbind, emit, mmodify, mget. cbn. rewrite Hsh. cbn.
  by rewrite Hr, Hp.
Qed.

Lemma light_ok_scene w w' p : w_scene w' = w_scene w -> light_ok w p -> light_ok w' p.
Proof. intros E. unfold light_ok, deref_light. by rewrite E. Qed.

Lemma upload_avoids id model l lin g cs :
  uploadLightParams id model l lin g = inr cs -> forallb (uniform_avoids pass_names) cs = true.
Proof.
  unfold uploadLightParams. destruct (l_color l) as [[x y] z].
  destruct (l_cast_shadows l), (l_shadow_fbo l); intros Hc; simplify_eq; reflexivity.
Qed.

Lemma upload_ok id model l lin g :
  (l_cast_shadows l = true -> is_Some (l_shadow_fbo l)) -> exists cs, uploadLightParams id model l lin g = inr cs.
Proof.
  intros Hf. unfold uploadLightParams. destruct (l_color l) as [[x y] z].
  destruct (l_cast_shadows l); [destruct (Hf eq_refl) as [? ->]|]; by eexists.
Qed.

Lemma multi_pass_ok me m pipeline i p w :
  light_ok w p ->
  exists w' us, multi_pass me m pipeline (i, p) w = inr (tt, w') /\ w_r w' = w_r w /\ w_scene w' = w_scene w /\
    forallb (uniform_avoids pass_names) us = true /\ w_gl w' = w_gl w ++ pass_cmds m pipeline (mesh_id me) i us.
Proof.
  intros (id & e & l & Hd & Hf). destruct (upload_ok id (e_model e) l true (r_hdr_gamma (w_r w)) Hf) as [us Hu].
  unfold multi_pass, mbind, mget. rewrite Hd. unfold emit, mmodify, emit_or_fail. cbn. rewrite Hu.
  eexists _, us. split; [reflexivity|]. cbn. split; [done|]. split; [done|].
  split; [by eapply upload_avoids|]. unfold pass_cmds. by rewrite <- !app_assoc.
Qed.

Lemma multi_loop_ok me m pipeline ls : forall k w, Forall (light_ok w) ls ->
  exists w' uss, mfor_each (zip (seq k (length ls)) ls) (multi_pass me m pipeline) w = inr (tt, w') /\
    w_r w' = w_r w /\ w_scene w' = w_scene w /\ length uss = length ls /\
    Forall (fun us => forallb (uniform_avoids pass_names) us = true) uss /\
    w_gl w' = w_gl w ++ concat (zip_with (pass_cmds m pipeline (mesh_id me)) (seq k (length ls)) uss).
Proof.
  induction ls as [|p ls IH]; intros k w Hok.
  - exists w, []. cbn. rewrite app_nil_r. repeat split; by constructor.
  - apply Forall_cons in Hok as [Hp Hok].
    destruct (multi_pass_ok me m pipeline k p w Hp) as (w1 & us & Hr1 & Hw1 & Hs1 & Hav & Hg1).
    destruct (IH (S k) w1) as (w2 & uss & Hr2 & Hw2 & Hs2 & Hl & Hav' & Hg2).
    { eapply Forall_impl; [exact Hok|]. intros q. by apply light_ok_scene. }
    exists w2, (us :: uss). cbn [length seq zip mfor_each]. unfold mbind. rewrite Hr1, Hr2.
    split; [done|]. split; [congruence|]. split; [congruence|]. split; [cbn; lia|].
    split; [by constructor|]. rewrite Hg2, Hg1. cbn. by rewrite app_assoc.
Qed.

Lemma later_pass_state m pipeline s :
  pipeline ≠ DEFERRED -> pass_inv m s ->
  let s' := gl_run s (later_pass_cmds m pipeline) in
  draws_from s (later_pass_cmds m pipeline) = [] /\ pass_inv m s' /\
  gs_on s' CAP_BLEND = true /\ gs_blend_func s' = (GL_SRC_ALPHA, GL_ONE) /\
  uniform_of s' "u_ambient_light" = Some (UVec3 vzero) /\ uniform_of s' "u_emissive" = Some (UVec3 vzero).
Proof.
  intros Hp (Hprog & Hdf & Hdt & Hb & Hf) s'.
  set (X := if decide (mat_alpha_mode m = BLEND) then [BlendFunc GL_SRC_ALPHA GL_ONE] else [Enable CAP_BLEND]).
  set (U := [Uniform "u_ambient_light" (UVec3 vzero); Uniform "u_irr" (UBool false);
             Uniform "u_reflections" (UBool false); Uniform "u_emissive" (UVec3 vzero)]).
  assert (E : later_pass_cmds m pipeline = X ++ U).
  { unfold later_pass_cmds, X, U. rewrite (decide_False _ _ Hp). by destruct (decide _). }
  set (sx := gl_run s X).
  assert (Hx : draws_from s X = [] /\ gs_program sx = Some "light_multi" /\ gs_depth_func sx = GL_LEQUAL /\
               gs_on sx CAP_DEPTH_TEST = true /\ gs_on sx CAP_BLEND = true /\
               gs_blend_func sx = (GL_SRC_ALPHA, GL_ONE)).
  { unfold sx, X. destruct (decide (mat_alpha_mode m = BLEND)) as [HB|HB].
    - specialize (Hb HB). unfold gs_on in *. cbn. auto 10.
    - change (gl_run s [Enable CAP_BLEND]) with (gl_step s (Enable CAP_BLEND)).
      rewrite !gs_on_enable, Hdt. cbn. rewrite orb_true_r. auto 10. }
  destruct Hx as (Hdx & Hpx & Hdfx & Hdtx & Hbx & Hfx).
  destruct (avoids_draws sx [] U eq_refl) as [HdU HfU].
  destruct (gl_fixed_eq _ _ HfU) as (Hc' & Hbf' & Hdf' & Hp' & _).
  unfold s'. rewrite E, draws_from_app, gl_run_app, Hdx. fold sx. rewrite HdU.
  split; [done|]. unfold pass_inv. rewrite (gs_on_fixed _ _ _ HfU), (gs_on_fixed _ _ _ HfU), Hbf', Hdf', Hp'.
  split; [repeat split; auto|]. split; [done|]. split; [done|]. split.
  - unfold U. rewrite gl_run_cons. apply (uniform_of_set_run _ "light_multi"); [exact Hpx|reflexivity].
  - change U with ([Uniform "u_ambient_light" (UVec3 vzero); Uniform "u_irr" (UBool false);
             Uniform "u_reflections" (UBool false)] ++ [Uniform "u_emissive" (UVec3 vzero)]).
    rewrite gl_run_app. apply (uniform_of_set_run _ "light_multi" _ _ []); [|done].
    destruct (avoids_draws sx [] [Uniform "u_ambient_light" (UVec3 vzero); Uniform "u_irr" (UBool false);
             Uniform "u_reflections" (UBool false)] eq_refl) as [_ Hf2].
    by destruct (gl_fixed_eq _ _ Hf2) as (_ & _ & _ & -> & _).
Qed.

Lemma pass_inv_fixed m s s' : gl_fixed s' = gl_fixed s -> pass_inv m s -> pass_inv m s'.
Proof.
  intros E (Hp & Hd & Ht & Hb & Hf). destruct (gl_fixed_eq _ _ E) as (_ & Hbf & Hdf & Hpr & _).
  unfold pass_inv. rewrite !(gs_on_fixed _ _ _ E), Hbf, Hdf, Hpr. auto.
Qed.

(** One pass: a single draw of the mesh, in the state the pass sets up. *)
Lemma pass_state m pipeline mid s i us :
  pipeline ≠ DEFERRED -> pass_inv m s -> forallb (uniform_avoids pass_names) us = true ->
  let st := gl_run s (pass_cmds m pipeline mid i us) in
  draws_from s (pass_cmds m pipeline mid i us) = [(st, DrawMesh mid)] /\ pass_inv m st /\
  (i ≠ 0 -> gs_on st CAP_BLEND = true /\ gs_blend_func st = (GL_SRC_ALPHA, GL_ONE) /\
            uniform_of st "u_ambient_light" = Some (UVec3 vzero) /\ uniform_of st "u_emissive" = Some (UVec3 vzero)) /\
  (i = 0 -> gl_fixed st = gl_fixed s /\ uniform_of st "u_ambient_light" = uniform_of s "u_ambient_light").
Proof.
  intros Hp Hinv Hus st. unfold st, pass_cmds.
  assert (Hdraw : forall s0, draws_from s0 (us ++ [Draw (DrawMesh mid)]) = [(gl_run s0 us, DrawMesh mid)] /\
                             gl_run s0 (us ++ [Draw (DrawMesh mid)]) = gl_run s0 us).
  { intros s0. rewrite draws_from_app, gl_run_app. destruct (avoids_draws s0 _ _ Hus) as [-> _]. done. }
  destruct (decide (i = 0)) as [->|Hi]; cbn [app].
  - destruct (Hdraw s) as [-> ->]. destruct (avoids_draws s _ _ Hus) as [_ Hf].
    split; [done|]. split; [by eapply pass_inv_fixed|]. split; [done|]. intros _. split; [done|].
    apply (avoids_uniform_of _ pass_names); [done|set_solver].
  - destruct (later_pass_state m pipeline s Hp Hinv) as (Hd0 & Hinv' & Hb & Hbf & Ha & He).
    rewrite draws_from_app, gl_run_app, Hd0. destruct (Hdraw (gl_run s (later_pass_cmds m pipeline))) as [-> ->].
    destruct (avoids_draws (gl_run s (later_pass_cmds m pipeline)) _ _ Hus) as [_ Hf].
    destruct (gl_fixed_eq _ _ Hf) as (_ & Hbf' & _ & _ & _).
    split; [done|]. split; [by eapply pass_inv_fixed|]. split; [|done]. intros _.
    rewrite (gs_on_fixed _ _ _ Hf), Hbf'.
    rewrite (avoids_uniform_of _ pass_names us "u_ambient_light"), (avoids_uniform_of _ pass_names us "u_emissive") by (done || set_solver). auto.
Qed.

Lemma passes_draws m pipeline mid uss : forall s k,
  pipeline ≠ DEFERRED -> pass_inv m s -> Forall (fun us => forallb (uniform_avoids pass_names) us = true) uss ->
  let cs := concat (zip_with (pass_cmds m pipeline mid) (seq k (length uss)) uss) in
  length (draws_from s cs) = length uss /\ pass_inv m (gl_run s cs) /\
  forall j st d, draws_from s cs !! j = Some (st, d) -> d = DrawMesh mid /\ pass_inv m st /\
    (k + j ≠ 0 -> gs_on st CAP_BLEND = true /\ gs_blend_func st = (GL_SRC_ALPHA, GL_ONE) /\
                  uniform_of st "u_ambient_light" = Some (UVec3 vzero) /\
                  uniform_of st "u_emissive" = Some (UVec3 vzero)) /\
    (k + j = 0 -> gl_fixed st = gl_fixed s /\ uniform_of st "u_ambient_light" = uniform_of s "u_ambient_light").
Proof.
  induction uss as [|us uss IH]; intros s k Hp Hinv Hall cs.
  - cbn in cs. subst cs. split; [done|]. split; [done|]. intros j st d Hj. done.
  - apply Forall_cons in Hall as [Hus Hall]. subst cs. cbn [length seq zip_with concat].
    destruct (pass_state m pipeline mid s k us Hp Hinv Hus) as (Hd1 & Hinv1 & Hlater & Hfirst).
    set (s1 := gl_run s (pass_cmds m pipeline mid k us)) in *.
    destruct (IH s1 (S k) Hp Hinv1 Hall) as (Hlen & Hinv2 & Hj).
    rewrite draws_from_app, gl_run_app, Hd1. fold s1. split; [cbn; lia|]. split; [done|].
    intros [|j] st d Hl; cbn in Hl.
    + injection Hl as <- <-. split; [done|]. split; [done|].
      rewrite Nat.add_0_r. split; [done|]. intros ->. by apply Hfirst.
    + destruct (Hj j st d Hl) as (Hd & Hi & Hl' & _). split; [done|]. split; [done|].
      split; [intros _; apply Hl'; lia|lia].
Qed.

Lemma irr_avoids w b cs : irr_cmds w = inr (b, cs) -> forallb (uniform_avoids pass_names) cs = true.
Proof. unfold irr_cmds. repeat case_match; intros Hc; simplify_eq; reflexivity. Qed.

Lemma renderMultiPass_ok me m pipeline w b ics :
  Forall (light_ok w) (r_lights (w_r w)) -> irr_cmds w = inr (b, ics) ->
  exists w' uss, renderMultiPass me m pipeline w = inr (tt, w') /\ w_r w' = w_r w /\ w_scene w' = w_scene w /\
    length uss = length (r_lights (w_r w)) /\
    Forall (fun us => forallb (uniform_avoids pass_names) us = true) uss /\
    w_gl w' = w_gl w ++ ([Enable CAP_DEPTH_TEST; DepthFunc GL_LEQUAL; Uniform "u_pcf" (UBool (r_pcf (w_r w)))] ++
                         ics ++ [Uniform "u_irr" (UBool (r_activate_irr (w_r w)))]) ++
                        concat (zip_with (pass_cmds m pipeline (mesh_id me)) (seq 0 (length (r_lights (w_r w)))) uss).
Proof.
  intros Hok Hirr. unfold renderMultiPass, mbind at 1, mget.
  rewrite (mbind_step _ _ w tt (emitted w [Enable CAP_DEPTH_TEST; DepthFunc GL_LEQUAL; Uniform "u_pcf" (UBool (r_pcf (w_r w)))])).
  2: reflexivity.
  rewrite Hirr. set (w1 := emitted w _).
  rewrite (mbind_step _ _ w1 tt (emitted w1 (ics ++ [Uniform "u_irr" (UBool (r_activate_irr (w_r w)))])))
    by reflexivity.
  set (w2 := emitted w1 _).
  destruct (multi_loop_ok me m pipeline (r_lights (w_r w)) 0 w2) as (w3 & uss & Hr & Hr3 & Hs3 & Hl & Hav & Hg).
  { eapply Forall_impl; [exact Hok|]. intros p. by apply light_ok_scene. }
  exists w3, uss. split; [exact Hr|]. rewrite Hr3, Hs3, Hg. cbn. rewrite <- !app_assoc. auto.
Qed.

Lemma renderMeshWithMaterial_multi_run c cam pipeline w b ics :
  (pipeline = FORWARD /\ r_light_mode (w_r w) = MULTI) \/ pipeline = DEFERRED_ALPHA ->
  mesh_num_vertices (rc_mesh c) ≠ 0 -> r_lights (w_r w) ≠ [] -> Forall (light_ok w) (r_lights (w_r w)) ->
  (r_reflections (w_r w) = true -> is_Some (rc_probe c)) -> irr_cmds w = inr (b, ics) ->
  exists w' uss, renderMeshWithMaterial c cam pipeline w = inr (tt, w') /\
    length uss = length (r_lights (w_r w)) /\
    Forall (fun us => forallb (uniform_avoids pass_names) us = true) uss /\
    w_gl w' = w_gl w ++ [cull_cmd (rc_material c)] ++
      (ShaderOn "light_multi" :: material_cmds (w_r w) (w_scene w) c cam pipeline) ++
      refl_cmds (w_r w) c ++ [Uniform "u_reflections" (UBool (r_reflections (w_r w)))] ++
      multi_blend_cmds (rc_material c) ++
      (([Enable CAP_DEPTH_TEST; DepthFunc GL_LEQUAL; Uniform "u_pcf" (UBool (r_pcf (w_r w)))] ++
        ics ++ [Uniform "u_irr" (UBool (r_activate_irr (w_r w)))]) ++
       concat (zip_with (pass_cmds (rc_material c) pipeline (mesh_id (rc_mesh c)))
                        (seq 0 (length (r_lights (w_r w)))) uss)) ++
      [ShaderOff; Disable CAP_BLEND; DepthFunc GL_LESS].
Proof.
  intros Hpipe Hm Hl Hok Hrefl Hirr.
  assert (Hsh : shader_of pipeline (r_light_mode (w_r w)) = Some "light_multi")
    by (destruct Hpipe as [[-> ->]| ->]; reflexivity).
  assert (Hbr : bool_decide (pipeline = FORWARD /\ r_light_mode (w_r w) = MULTI) ||
                bool_decide (pipeline = DEFERRED_ALPHA) = true)
    by (apply orb_true_iff; destruct Hpipe; [left|right]; by apply bool_decide_eq_true_2).
  unfold renderMeshWithMaterial. rewrite bool_decide_false by done.
  set (w1 := emitted w [cull_cmd (rc_material c)]).
  rewrite (mbind_step _ _ w tt w1) by reflexivity.
  unfold mbind at 1, mget. cbv beta iota. change (w_r w1) with (w_r w). rewrite Hsh.
  change (w_scene w1) with (w_scene w). change (irr_cmds w1) with (irr_cmds w).
  set (w2 := emitted w1 (ShaderOn "light_multi" :: material_cmds (w_r w) (w_scene w) c cam pipeline)).
  rewrite (mbind_step _ _ w1 tt w2) by reflexivity.
  assert (Hw3 : exists w3, (if r_reflections (w_r w) then
         match rc_probe c with
         | Some p => emit [Uniform "u_environment_texture" (UTex (TexCubemap p) 11)]
         | None => mfail (NullDeref "call.probe->cubemap")
         end else mret tt) w2 = inr (tt, w3) /\ w_r w3 = w_r w /\ w_scene w3 = w_scene w /\
         w_gl w3 = w_gl w2 ++ refl_cmds (w_r w) c).
  { unfold refl_cmds. destruct (r_reflections (w_r w)).
    - destruct (Hrefl eq_refl) as [p ->]. by eexists.
    - exists w2. rewrite app_nil_r. auto. }
  destruct Hw3 as (w3 & Hr3 & Hwr3 & Hws3 & Hg3). rewrite (mbind_step _ _ w2 tt w3 Hr3).
  set (w4 := emitted w3 [Uniform "u_reflections" (UBool (r_reflections (w_r w)))]).
  rewrite (mbind_step _ _ w3 tt w4) by reflexivity.
  rewrite Hbr, mbind_assoc.
  set (w5 := emitted w4 (multi_blend_cmds (rc_material c))).
  rewrite (mbind_step _ _ w4 tt w5) by reflexivity.
  rewrite (bool_decide_false (r_lights (w_r w) = [])) by done.
  destruct (renderMultiPass_ok (rc_mesh c) (rc_material c) pipeline w5 b ics) as (w6 & uss & Hr6 & Hwr6 & Hws6 & Hl6 & Hav & Hg6).
  { change (w_r w5) with (w_r w3). rewrite Hwr3.
    eapply Forall_impl; [exact Hok|]. intros p. apply light_ok_scene. cbn. congruence. }
  { unfold irr_cmds, deref_grid in *. cbn. rewrite Hwr3, Hws3. exact Hirr. }
  change (w_r w5) with (w_r w3) in Hl6, Hg6. rewrite Hwr3 in Hl6, Hg6.
  rewrite (mbind_step _ _ w5 tt w6 Hr6).
  eexists _, uss. split; [reflexivity|]. split; [done|]. split; [done|].
  cbn [w_gl emitted]. rewrite Hg6. unfold w5, w4. cbn [w_gl emitted]. rewrite Hg3.
  unfold w2, w1. cbn [w_gl emitted]. rewrite <- !app_assoc. reflexivity.
Qed.

Lemma material_cmds_split r sc c cam pipeline :
  exists mc1 mc2, material_cmds r sc c cam pipeline =
    mc1 ++ Uniform "u_ambient_light" (UVec3 (gamma3 (r_hdr_gamma r) (scn_ambient sc))) :: mc2 /\
    forallb (uniform_avoids []) mc1 = true /\ forallb (uniform_avoids ["u_ambient_light"]) mc2 = true.
Proof.
  exists (take 6 (material_cmds r sc c cam pipeline)), (drop 7 (material_cmds r sc c cam pipeline)).
  split; [reflexivity|]. split; [reflexivity|].
  unfold material_cmds. cbn [drop app].
  destruct (rc_probe c), (decide (pipeline = DEFERRED_ALPHA)), (r_activate_ssao r); reflexivity.
Qed.



Lemma prefix_state m r sc c cam pipeline ics irrv s0 :
  forallb (uniform_avoids ["u_ambient_light"]) ics = true ->
  let P := [cull_cmd m] ++ (ShaderOn "light_multi" :: material_cmds r sc c cam pipeline) ++
           refl_cmds r c ++ [Uniform "u_reflections" (UBool (r_reflections r))] ++ multi_blend_cmds m ++
           ([Enable CAP_DEPTH_TEST; DepthFunc GL_LEQUAL; Uniform "u_pcf" (UBool (r_pcf r))] ++
            ics ++ [Uniform "u_irr" irrv]) in
  let s1 := gl_run s0 P in
  draws_from s0 P = [] /\ pass_inv m s1 /\ gs_on s1 CAP_BLEND = bool_decide (mat_alpha_mode m = BLEND) /\
  uniform_of s1 "u_ambient_light" = Some (UVec3 (gamma3 (r_hdr_gamma r) (scn_ambient sc))).
Proof.
  intros Hics P s1. destruct (material_cmds_split r sc c cam pipeline) as (mc1 & mc2 & Hmc & H1 & H2).
  set (amb := Uniform "u_ambient_light" (UVec3 (gamma3 (r_hdr_gamma r) (scn_ambient sc)))).
  set (Q := mc2 ++ refl_cmds r c ++ [Uniform "u_reflections" (UBool (r_reflections r))]).
  set (T := [Uniform "u_pcf" (UBool (r_pcf r))] ++ ics ++ [Uniform "u_irr" irrv]).
  assert (HQ : forallb (uniform_avoids ["u_ambient_light"]) Q = true).
  { unfold Q. rewrite !forallb_app, H2. unfold refl_cmds. by destruct (r_reflections r), (rc_probe c). }
  assert (HT : forallb (uniform_avoids ["u_ambient_light"]) T = true).
  { unfold T. rewrite !forallb_app, Hics. done. }
  assert (EP : P = ([cull_cmd m; ShaderOn "light_multi"] ++ mc1 ++ [amb]) ++ Q ++ multi_blend_cmds m ++
                   [Enable CAP_DEPTH_TEST; DepthFunc GL_LEQUAL] ++ T).
  { unfold P, Q, T, amb. rewrite Hmc. cbn [app]. by rewrite <- !app_assoc. }
  unfold s1. rewrite EP, !draws_from_app, !gl_run_app.
  (* the shader and the material uniforms *)
  set (sA := gl_run s0 [cull_cmd m; ShaderOn "light_multi"]).
  assert (HA : draws_from s0 [cull_cmd m; ShaderOn "light_multi"] = [] /\ gs_program sA = Some "light_multi").
  { unfold sA, cull_cmd. by destruct (mat_two_sided m). }
  destruct HA as [HdA HpA].
  destruct (avoids_draws sA [] mc1 H1) as [Hd1 Hf1].
  set (sB := gl_step (gl_run sA mc1) amb).
  assert (HB : draws_from sA (mc1 ++ [amb]) = [] /\ gl_fixed sB = gl_fixed sA /\
               uniform_of sB "u_ambient_light" = Some (UVec3 (gamma3 (r_hdr_gamma r) (scn_ambient sc)))).
  { rewrite draws_from_app, Hd1. unfold sB, amb. split; [done|]. split; [by rewrite gl_fixed_uniform|].
    apply (uniform_of_set _ _ _ "light_multi"). by destruct (gl_fixed_eq _ _ Hf1) as (_ & _ & _ & -> & _). }
  destruct HB as (HdB & HfB & HuB).
  change (gl_run (gl_run sA mc1) [amb]) with sB. rewrite HdA, Hd1.
  change (draws_from (gl_run sA mc1) [amb]) with (@nil (GLState * DrawSrc)).
  destruct (avoids_draws sB _ Q HQ) as [HdQ HfQ]. rewrite HdQ.
  set (sC := gl_run sB Q) in *.
  assert (HuC : uniform_of sC "u_ambient_light" = uniform_of sB "u_ambient_light")
    by (apply (avoids_uniform_of _ ["u_ambient_light"]); [done|set_solver]).
  destruct (gl_fixed_eq _ _ Hf1) as (_ & _ & _ & Hp1 & _).
  destruct (gl_fixed_eq _ _ HfB) as (_ & _ & _ & HpB & _).
  destruct (gl_fixed_eq _ _ HfQ) as (_ & _ & _ & HpC & _).
  assert (HpC' : gs_program sC = Some "light_multi") by congruence.
  set (sD := gl_run sC (multi_blend_cmds m)).
  assert (HD : draws_from sC (multi_blend_cmds m) = [] /\ gs_program sD = Some "light_multi" /\
               uniform_of sD "u_ambient_light" = uniform_of sC "u_ambient_light" /\
               gs_on sD CAP_BLEND = bool_decide (mat_alpha_mode m = BLEND) /\
               (mat_alpha_mode m ≠ BLEND -> gs_blend_func sD = (GL_SRC_ALPHA, GL_ONE))).
  { unfold sD, multi_blend_cmds. destruct (decide (mat_alpha_mode m = BLEND)) as [HB|HB].
    - change (gl_run sC [Enable CAP_BLEND; BlendFunc GL_SRC_ALPHA GL_ONE_MINUS_SRC_ALPHA]) with
        (gl_step (gl_step sC (Enable CAP_BLEND)) (BlendFunc GL_SRC_ALPHA GL_ONE_MINUS_SRC_ALPHA)).
      rewrite !uniform_of_state_cmd by done. rewrite bool_decide_true by done.
      split; [done|]. split; [done|]. split; [done|]. split; [|done].
      change (gs_on (gl_step sC (Enable CAP_BLEND)) CAP_BLEND = true). by rewrite gs_on_enable.
    - change (gl_run sC [Disable CAP_BLEND; BlendFunc GL_SRC_ALPHA GL_ONE]) with
        (gl_step (gl_step sC (Disable CAP_BLEND)) (BlendFunc GL_SRC_ALPHA GL_ONE)).
      rewrite !uniform_of_state_cmd by done. rewrite bool_decide_false by done.
      split; [done|]. split; [done|]. split; [done|]. split; [|done].
      change (gs_on (gl_step sC (Disable CAP_BLEND)) CAP_BLEND = false). by rewrite gs_on_disable. }
  destruct HD as (HdD & HpD & HuD & HbD & HfD). rewrite HdD. fold sD.
  set (sE := gl_run sD [Enable CAP_DEPTH_TEST; DepthFunc GL_LEQUAL]).
  assert (HE : gs_program sE = Some "light_multi" /\ gs_depth_func sE = GL_LEQUAL /\
               gs_on sE CAP_DEPTH_TEST = true /\ gs_on sE CAP_BLEND = gs_on sD CAP_BLEND /\
               gs_blend_func sE = gs_blend_func sD /\ uniform_of sE "u_ambient_light" = uniform_of sD "u_ambient_light").
  { assert (Hk : forall k, gs_on sE k = gs_on (gl_step sD (Enable CAP_DEPTH_TEST)) k) by reflexivity.
    rewrite !Hk, !gs_on_enable. unfold sE.
    change (gl_run sD [Enable CAP_DEPTH_TEST; DepthFunc GL_LEQUAL]) with
      (gl_step (gl_step sD (Enable CAP_DEPTH_TEST)) (DepthFunc GL_LEQUAL)).
    rewrite !uniform_of_state_cmd by done. cbn. rewrite bool_decide_true, bool_decide_false by done. auto 10. }
  destruct HE as (HpE & HdfE & HdtE & HbE & HfE & HuE).
  change (draws_from sD [Enable CAP_DEPTH_TEST; DepthFunc GL_LEQUAL]) with (@nil (GLState * DrawSrc)). fold sE.
  destruct (avoids_draws sE _ T HT) as [HdT HfT]. rewrite HdT.
  destruct (gl_fixed_eq _ _ HfT) as (_ & HbfT & HdfT & HpT & _).
  split; [done|]. unfold pass_inv.
  rewrite !(gs_on_fixed _ _ _ HfT), HbfT, HdfT, HpT, HbE, HfE, HbD.
  rewrite (avoids_uniform_of _ ["u_ambient_light"] T) by (done || set_solver). rewrite HuE, HuD, HuC, HuB.
  split; [|done]. split; [done|]. split; [done|]. split; [by rewrite HdtE|].
  split; [intros HB; by rewrite bool_decide_true|done].
Qed.

(** C12. In the multi-pass pipelines (FORWARD with MULTI lights, and the
    DEFERRED_ALPHA forward pass of the deferred pipeline), a non-empty
    call lit by [n > 0] valid lights is drawn exactly [n] times, always
    with [light_multi], depth test on and [GL_LEQUAL].  The first draw
    blends only for a BLEND material and carries the scene's ambient
    light; every later draw blends additively
    ([GL_SRC_ALPHA, GL_ONE]) with the ambient and emissive terms zeroed,
    so they are added once.  Afterwards blending is off, the depth
    function is back to [GL_LESS] and no shader is bound. *)
Theorem renderMeshWithMaterial_multipass c cam pipeline w :
  (pipeline = FORWARD /\ r_light_mode (w_r w) = MULTI) \/ pipeline = DEFERRED_ALPHA ->
  mesh_num_vertices (rc_mesh c) ≠ 0 -> r_lights (w_r w) ≠ [] -> Forall (light_ok w) (r_lights (w_r w)) ->
  (r_reflections (w_r w) = true -> is_Some (rc_probe c)) -> (exists x, irr_cmds w = inr x) ->
  exists w' cs, renderMeshWithMaterial c cam pipeline w = inr (tt, w') /\ w_gl w' = w_gl w ++ cs /\
  forall s0,
    length (draws_from s0 cs) = length (r_lights (w_r w)) /\
    (forall j st d, draws_from s0 cs !! j = Some (st, d) ->
       d = DrawMesh (mesh_id (rc_mesh c)) /\ gs_program st = Some "light_multi" /\
       gs_depth_func st = GL_LEQUAL /\ gs_on st CAP_DEPTH_TEST = true /\
       (j = 0 -> gs_on st CAP_BLEND = bool_decide (mat_alpha_mode (rc_material c) = BLEND) /\
                 uniform_of st "u_ambient_light" =
                   Some (UVec3 (gamma3 (r_hdr_gamma (w_r w)) (scn_ambient (w_scene w))))) /\
       (j ≠ 0 -> gs_on st CAP_BLEND = true /\ gs_blend_func st = (GL_SRC_ALPHA, GL_ONE) /\
                 uniform_of st "u_ambient_light" = Some (UVec3 vzero) /\
                 uniform_of st "u_emissive" = Some (UVec3 vzero))) /\
    gs_on (gl_run s0 cs) CAP_BLEND = false /\ gs_depth_func (gl_run s0 cs) = GL_LESS /\
    gs_program (gl_run s0 cs) = None.
Proof.
  intros Hpipe Hm Hl Hok Hrefl [[b ics] Hirr].
  destruct (renderMeshWithMaterial_multi_run c cam pipeline w b ics Hpipe Hm Hl Hok Hrefl Hirr)
    as (w' & uss & Hr & Hlen & Hav & Hg).
  eexists w', _. split; [exact Hr|]. split; [exact Hg|]. intros s0.
  assert (Hnd : pipeline ≠ DEFERRED) by (destruct Hpipe as [[-> _]| ->]; discriminate).
  assert (Hics : forallb (uniform_avoids ["u_ambient_light"]) ics = true)
    by (eapply avoids_sub, irr_avoids, Hirr; intros n Hn; unfold pass_names; set_solver).
  match goal with |- context [draws_from s0 (?a ++ ?b ++ ?c ++ ?d ++ ?e ++ (?f ++ ?g) ++ ?h)] =>
    replace (a ++ b ++ c ++ d ++ e ++ (f ++ g) ++ h) with ((a ++ b ++ c ++ d ++ e ++ f) ++ g ++ h)
      by (by rewrite <- !app_assoc); set (P := a ++ b ++ c ++ d ++ e ++ f); set (PS := g); set (PO := h) end.
  destruct (prefix_state (rc_material c) (w_r w) (w_scene w) c cam pipeline ics
              (UBool (r_activate_irr (w_r w))) s0 Hics) as (Hd1 & Hinv1 & Hb1 & Hu1).
  change (draws_from s0 P = []) in Hd1.
  change (pass_inv (rc_material c) (gl_run s0 P)) in Hinv1.
  change (gs_on (gl_run s0 P) CAP_BLEND = bool_decide (mat_alpha_mode (rc_material c) = BLEND)) in Hb1.
  change (uniform_of (gl_run s0 P) "u_ambient_light" =
          Some (UVec3 (gamma3 (r_hdr_gamma (w_r w)) (scn_ambient (w_scene w))))) in Hu1.
  set (s1 := gl_run s0 P) in Hinv1, Hb1, Hu1.
  destruct (passes_draws (rc_material c) pipeline (mesh_id (rc_mesh c)) uss s1 0 Hnd Hinv1 Hav)
    as (Hlen2 & Hinv2 & Hj).
  rewrite (draws_from_app s0 P), (gl_run_app s0 P), Hd1. fold s1.
  rewrite (draws_from_app s1 PS), (gl_run_app s1 PS).
  set (s2 := gl_run s1 PS) in Hinv2 |- *.
  rewrite Hlen in Hlen2, Hj. fold PS in Hlen2, Hj.
  split; [|split].
  - cbn [app]. rewrite length_app, Hlen2. cbn. lia.
  - intros j st d Hjd. cbn [app] in Hjd. apply lookup_app_Some in Hjd as [Hjd|[_ Hjd]]; [|unfold PO in Hjd; simpl in Hjd; discriminate Hjd].
    destruct (Hj j st d Hjd) as (-> & (Hp & Hdf & Hdt & _ & _) & Hlater & Hfirst).
    split; [done|]. split; [done|]. split; [done|]. split; [done|]. split.
    + intros ->. destruct (Hfirst eq_refl) as [Hf Hu]. rewrite (gs_on_fixed _ _ _ Hf), Hu. auto.
    + intros Hj0. apply Hlater. lia.
  - change (gl_run s2 [ShaderOff; Disable CAP_BLEND; DepthFunc GL_LESS]) with
      (gl_step (gl_step (gl_step s2 ShaderOff) (Disable CAP_BLEND)) (DepthFunc GL_LESS)).
    assert (Hk : forall k, gs_on (gl_step (gl_step (gl_step s2 ShaderOff) (Disable CAP_BLEND)) (DepthFunc GL_LESS)) k =
                           gs_on (gl_step (gl_step s2 ShaderOff) (Disable CAP_BLEND)) k) by reflexivity.
    rewrite Hk, gs_on_disable, bool_decide_false by tauto. cbn. auto.
Qed.
End ShadingProofs.

(** ** Witnesses *)

Definition ex_gl_state : @GLState World1 :=
  {| gs_caps := []; gs_blend_func := (GL_ONE, GL_ONE); gs_depth_func := GL_LESS; gs_program := None;
     gs_target := Screen; gs_uniforms := [] |}.

Definition ex_multi_world : @World World1 :=
  ex_world_lights FORWARD MULTI (ex_spots 2) [PEnt 0; PEnt 1] 0 [ex_call NO_ALPHA 1].

Lemma renderMeshWithMaterial_multipass_witness :
  exists w' cs, renderMeshWithMaterial (ex_call NO_ALPHA 1) cam1_default FORWARD ex_multi_world = inr (tt, w') /\
    w_gl w' = [] ++ cs /\ length (draws_from ex_gl_state cs) = 2.
Proof.
  destruct (renderMeshWithMaterial_multipass (ex_call NO_ALPHA 1) cam1_default FORWARD ex_multi_world)
    as (w' & cs & Hr & Hg & Hd).
  - left. split; reflexivity.
  - discriminate.
  - discriminate.
  - repeat constructor; (eexists _, _, _; split; [reflexivity|intros _; eexists; reflexivity]).
  - discriminate.
  - eexists. reflexivity.
  - exists w', cs. split; [exact Hr|]. split; [exact Hg|]. apply (Hd ex_gl_state).
Defined.

Lemma ex_atlas_deref n : lights_deref (ex_atlas_world n).
Proof.
  apply Forall_forall. intros p Hp. cbn in Hp. apply list_elem_of_fmap in Hp as (i & -> & Hi).
  apply elem_of_seq in Hi. unfold deref_light. cbn. unfold ex_spots.
  rewrite list_lookup_fmap, lookup_seq_lt by lia. cbn. by eexists.
Qed.

(** 101 lights: the 101st write to the light arrays is out of bounds. *)
Lemma renderSinglePass_bound_witness :
  renderSinglePass ex_mesh (ex_atlas_world 101) = inl (OutOfBounds "light_position[i]").
Proof.
  apply (proj2 (renderSinglePass_bound ex_mesh (ex_atlas_world 101) (ex_atlas_deref 101))).
  vm_compute. lia.
Defined.

Definition ex_reflective_renderer : @Renderer World1 :=
  {| r_render_mode := FORWARD; r_light_mode := MULTI; r_light_eq := PHONG; r_pcf := false;
     r_depth_viewport := false; r_dithering := false; r_show_gbuffers := false; r_show_omr := false;
     r_activate_ssao := false; r_hdr_active := false; r_activate_irr := false;
     r_irr_3lerp := false; r_reflections := true; r_show_probes := false; r_volumetric := false;
     r_show_reflection_probes := false; r_depth_light := 0; r_shadow_count := 0;
     r_hdr_gamma := 1; r_blur_iterations := 0; r_calls := [ex_call NO_ALPHA 1]; r_lights := [];
     r_reflection_probes := []; r_grid := PNull; r_directional_light := PNull;
     r_probes_texture := None; r_atlas := None; r_ssao_blur := false;
     r_reflections_calculated := false; r_fx := ex_fx |}.

Lemma renderMeshWithMaterial_null_probe_witness :
  renderMeshWithMaterial (ex_call NO_ALPHA 1) cam1_default FORWARD
    {| w_r := ex_reflective_renderer; w_scene := ex_scene []; w_nodes := ∅; w_quality := LOW;
       w_width := 800; w_height := 600; w_gl := [] |} = inl (NullDeref "call.probe->cubemap").
Proof. apply (renderMeshWithMaterial_null_probe _ _ _ _ "light_multi"); reflexivity || discriminate. Defined.
