(* ===== verification/PostFX.v ===== *)
(** * The post-processing chain

    The second half of [Renderer::renderToFBO] (renderer.cpp:284-409) and
    [Renderer::applyBloom] (1382-1404): FXAA, a separable blur, depth of
    field, motion blur, bloom, chromatic aberration, grain, and the HDR
    tone mapping to the screen.  The stages alternate between the two
    window-sized textures [ping] and [pong], each rendered into through
    [Texture::getGlobalFBO]; the blur ping-pongs inside
    [illumination_fbo_blurred].  [getTime()] is an input ([time]).

    Two things are shown about the chain, for every starting GL state:
    - [postfx_order]: the render target and program of every draw, in
      order; the last draw reaches the screen;
    - [postfx_feedback]: a draw samples a texture attached to its own
      render target exactly when it is a blur iteration: [blur] reads
      [illumination_fbo_blurred->color_textures[0]] while rendering into
      [illumination_fbo_blurred], a feedback loop whose result OpenGL leaves
      undefined.  [blur_loop_closed] gives the loop in closed form, and
      [motion_blur_prev_frame] that the motion blur of a frame reads the
      view-projection of the frame before ([prev_vp]). *)

From S2P Require Import Prelude Enums Geometry GL Renderer.

(** [texture->toViewport()] with no shader (texture.cpp, not under src/):
    the framework's [screen] shader on a full-screen quad. *)
Definition to_viewport_screen `{Geometry} (t : Tex) : list GLCmd :=
  [ShaderOn "screen"] ++ to_viewport t ++ [ShaderOff].

(** The textures attached to a render target. *)
Definition target_texs (t : Target) : list Tex :=
  match t with
  | FboOf x => [x]
  | FboShadow l => [TexShadow l]
  | FboAtlas => [TexAtlas]
  | FboGBuffers => [TexGBuffer 0; TexGBuffer 1; TexGBuffer 2; TexGBuffer 3; TexGBufferDepth]
  | FboDecals => [TexDecal 0; TexDecal 1; TexDecal 2]
  | FboIllum => [TexIllum; TexIllumDepth]
  | FboIllumBlurred => [TexIllumBlurred]
  | FboBloom => [TexBloom]
  | FboSSAO => [TexSSAO 0; TexSSAO 1]
  | _ => []
  end.

(** The sampler uniforms of each program, as the code binds them. *)
Definition program_samplers (p : string) : list string :=
  match p with
  | "fxaa" => ["tex"; "u_texture"]
  | "blur" => ["image"]
  | "dof" => ["focusTexture"; "outOfFocusTexture"; "u_depth_texture"; "u_texture"]
  | "motionblur" => ["u_texture"; "u_depth_texture"]
  | "bloom" => ["image"]
  | "screen" => ["u_texture"]
  | "ca" => ["tInput"; "u_texture"]
  | "grain" => ["tDiffuse"; "u_texture"]
  | "hdr" => ["u_texture_bloom"; "u_texture"]
  | "ssao" => ["u_normal_texture"; "u_depth_texture"]
  | "ssao_blur" => ["u_ssao"]
  | "decals" => ["u_color_texture"; "u_normal_texture"; "u_extra_texture"; "u_depth_texture"; "u_decal_texture"]
  | "deferred_multi" => ["u_color_texture"; "u_normal_texture"; "u_extra_texture"; "u_depth_texture";
                         "u_irr_texture"; "u_ao_texture"; "shadowmap"]
  | "volume" => ["u_depth_texture"; "u_noise_texture"; "shadowmap"]
  | _ => []
  end%string.

Section PostFXModel.
Context `{Geometry}.

(** A draw samples a texture attached to the render target it draws into. *)
Definition feedbackb (s : GLState) : bool :=
  match gs_program s with
  | None => false
  | Some p =>
      existsb (fun n => match uniform_of s n with
                        | Some (UTex t _) => bool_decide (t ∈ target_texs (gs_target s))
                        | _ => false
                        end) (program_samplers p)
  end.

(** One blur iteration (renderer.cpp:305-312). *)
Definition blur_pass (horizontal : bool) : list GLCmd :=
  [Bind FboIllumBlurred; Uniform "image" (UTex TexIllumBlurred 0);
   Uniform "horizontal" (UBool horizontal); Draw DrawQuad; Unbind FboIllumBlurred].

(** [for (i = 0; i < blur_iterations; ++i) { ...; horizontal = !horizontal; }] *)
Fixpoint blur_loop (n : nat) (horizontal : bool) : list GLCmd :=
  match n with
  | 0 => []
  | S n' => blur_pass horizontal ++ blur_loop n' (negb horizontal)
  end.

Definition fxaa_cmds (w h : Q) : list GLCmd :=
  [Bind (FboOf TexPing); ShaderOn "fxaa";
   Uniform "u_iViewportSize" (UVec2 (1 / w) (1 / h)); Uniform "u_ViewportSize" (UVec2 w h);
   Uniform "tex" (UTex TexIllum 0)] ++ to_viewport TexPong ++ [Unbind (FboOf TexPing); ShaderOff].

Definition dof_cmds (f : FxState) (cam : Camera) (w h : Q) : list GLCmd :=
  [Bind (FboOf TexPong); ShaderOn "dof";
   Uniform "focusTexture" (UTex TexPing 0); Uniform "outOfFocusTexture" (UTex TexIllumBlurred 1);
   Uniform "u_depth_texture" (UTex TexIllumDepth 2);
   Uniform "u_inverse_viewprojection" (UMat (mat_inverse (cam_viewproj cam)));
   Uniform "u_iRes" (UVec2 (1 / w) (1 / h));
   Uniform "u_focus_point" (UVec3 (vfocus (cam_eye cam) (cam_center cam) (fx_focal_dist f)));
   Uniform "minDistance" (UFloat (fx_min_dist_dof f)); Uniform "maxDistance" (UFloat (fx_max_dist_dof f))] ++
  to_viewport TexPing ++ [Unbind (FboOf TexPong)].

Definition motion_cmds (f : FxState) (cam : Camera) : list GLCmd :=
  [Bind (FboOf TexPing); ShaderOn "motionblur";
   Uniform "u_prev_vp" (UMat (fx_prev_vp f));
   Uniform "u_inverse_viewprojection" (UMat (mat_inverse (cam_viewproj cam)));
   Uniform "u_texture" (UTex TexPong 0); Uniform "u_depth_texture" (UTex TexIllumDepth 1)] ++
  to_viewport TexPong ++ [Unbind (FboOf TexPing)].

(** [Renderer::applyBloom] (renderer.cpp:1382-1404). *)
Definition applyBloom (f : FxState) : list GLCmd :=
  [Bind FboBloom; ShaderOn "bloom"; Uniform "image" (UTex TexIllumBlurred 15);
   Uniform "th" (UFloat (fx_bloom_th f)); Uniform "soft_th" (UFloat (fx_bloom_soft_th f));
   Draw DrawQuad; ShaderOff; Unbind FboBloom].

Definition bloom_add_cmds : list GLCmd :=
  [Bind (FboOf TexPing); Enable CAP_BLEND; BlendFunc GL_ONE GL_ONE] ++
  to_viewport_screen TexBloom ++ [Unbind (FboOf TexPing); Disable CAP_BLEND].

Definition ca_cmds (f : FxState) (w h : Q) : list GLCmd :=
  [Bind (FboOf TexPong); ShaderOn "ca"; Uniform "resolution" (UVec2 w h);
   Uniform "tInput" (UTex TexPing 0); Uniform "u_lens_dist" (UFloat (fx_lens_dist f))] ++
  to_viewport TexPing ++ [Unbind (FboOf TexPong); ShaderOff].

Definition grain_cmds (f : FxState) (time : Q) : list GLCmd :=
  [Bind (FboOf TexPing); ShaderOn "grain"; Uniform "tDiffuse" (UTex TexPong 0);
   Uniform "amount" (UFloat time); Uniform "noise_amount" (UFloat (fx_noise_amount f))] ++
  to_viewport TexPong ++ [Unbind (FboOf TexPing)].

(** The HDR pass to the screen (renderer.cpp:383-400). *)
Definition hdr_cmds (r : Renderer) : list GLCmd :=
  let f := r_fx r in
  [ShaderOn "hdr"; Uniform "u_hdr" (UBool (r_hdr_active r)); Uniform "u_texture_bloom" (UTex TexBloom 1)] ++
  (if r_hdr_active r then
     [Uniform "u_scale" (UFloat (fx_hdr_scale f)); Uniform "u_average_lum" (UFloat (fx_hdr_average_lum f));
      Uniform "u_lumwhite2" (UFloat (fx_hdr_white_balance f)); Uniform "u_igamma" (UFloat (1 / r_hdr_gamma r))]
   else []) ++
  [Disable CAP_BLEND] ++ to_viewport TexPing.

(** FXAA and the set-up of the blur (renderer.cpp:286-302). *)
Definition postfx_pre (w h : Q) : list GLCmd :=
  fxaa_cmds w h ++ [CopyTex TexPing (Some TexIllumBlurred); ShaderOn "blur"].

(** From the end of the blur to the HDR pass (renderer.cpp:313-400). *)
Definition postfx_post (r : Renderer) (cam : Camera) (w h : Q) (time : Q) : list GLCmd :=
  [ShaderOff] ++ dof_cmds (r_fx r) cam w h ++ motion_cmds (r_fx r) cam ++ applyBloom (r_fx r) ++
  bloom_add_cmds ++ ca_cmds (r_fx r) w h ++ grain_cmds (r_fx r) time ++ hdr_cmds r.

(** The commands of renderer.cpp:284-400, in order; a negative
    [blur_iterations] runs the loop zero times. *)
Definition postfx_cmds (r : Renderer) (cam : Camera) (w h : Q) (time : Q) : list GLCmd :=
  postfx_pre w h ++ blur_loop (Z.to_nat (r_blur_iterations r)) true ++ postfx_post r cam w h time.

(** The post-processing part of [renderToFBO], with [prev_vp] saved for
    the next frame's motion blur (renderer.cpp:402). *)
Definition renderPostFX (cam : Camera) (time : Q) : M World unit :=
  w <- mget ;;
  emit (postfx_cmds (w_r w) cam (inject_Z (w_width w)) (inject_Z (w_height w)) time) ;;;
  mmodify (set_r (fun r => set_fx (fx_with (r_fx r) (cam_viewproj cam) (fx_gbuffers_alloc (r_fx r))) r)).

End PostFXModel.

(** The target and program of each draw. *)
Definition draw_site `{Geometry} (x : GLState * DrawSrc) : Target * option string :=
  (gs_target x.1, gs_program x.1).

(** The sites the chain draws at, for [n] blur iterations. *)
Definition postfx_sites (n : nat) : list (Target * option string) :=
  [(FboOf TexPing, Some "fxaa")] ++ repeat (FboIllumBlurred, Some "blur") n ++
  [(FboOf TexPong, Some "dof"); (FboOf TexPing, Some "motionblur"); (FboBloom, Some "bloom");
   (FboOf TexPing, Some "screen"); (FboOf TexPong, Some "ca"); (FboOf TexPing, Some "grain");
   (Screen, Some "hdr")]%string.

Section PostFXProofs.
Context `{Geometry}.

Definition blur_site : Target * option string := (FboIllumBlurred, Some "blur"%string).

(** A draw is a feedback loop exactly when it is a blur draw. *)
Definition fb_chk (x : GLState * DrawSrc) : bool :=
  Bool.eqb (feedbackb x.1) (bool_decide (gs_program x.1 = Some "blur"%string)).

Lemma fb_chk_elem xs st d : forallb fb_chk xs = true -> (st, d) ∈ xs ->
  (feedbackb st = true <-> gs_program st = Some "blur"%string).
Proof.
  intros Hall Hin. apply list_elem_of_In in Hin.
  pose proof (proj1 (forallb_forall _ _) Hall _ Hin) as Hc. unfold fb_chk in Hc. cbn in Hc.
  apply eqb_prop in Hc. rewrite Hc. apply bool_decide_eq_true.
Qed.

(** The blur loop from a state where [blur] is bound: [n] draws into
    [illumination_fbo_blurred], each a feedback loop, and [blur] still bound. *)
Lemma blur_loop_sites n : forall s h, gs_program s = Some "blur"%string ->
  draw_site <$> draws_from s (blur_loop n h) = repeat blur_site n /\
  forallb fb_chk (draws_from s (blur_loop n h)) = true /\
  gs_program (gl_run s (blur_loop n h)) = Some "blur"%string.
Proof.
  induction n as [|n IH]; intros s h Hp; [done|].
  cbn [blur_loop]. rewrite draws_from_app, fmap_app, forallb_app, gl_run_app.
  destruct (IH (gl_run s (blur_pass h)) (negb h)) as (E1 & E2 & E3);
    [destruct s; cbn in Hp; subst; reflexivity|].
  rewrite E1, E2, E3. destruct s; cbn in Hp; subst. vm_compute. auto.
Qed.

Lemma postfx_pre_blur s w h : gs_program (gl_run s (postfx_pre w h)) = Some "blur"%string.
Proof. vm_compute. reflexivity. Qed.

Lemma blur_loop_offset n : forall k h,
  blur_loop n h = flat_map (fun i => blur_pass (Bool.eqb h (Nat.even (i - k)))) (seq k n).
Proof.
  induction n as [|n IH]; intros k h; [done|].
  cbn [blur_loop seq flat_map]. rewrite Nat.sub_diag. replace (Bool.eqb h (Nat.even 0)) with h by (by destruct h). f_equal.
  rewrite (IH (S k) (negb h)). apply flat_map_ext_elem. intros i Hi.
  apply elem_of_seq in Hi.
  replace (i - k) with (S (i - S k)) by lia. rewrite Nat.even_succ, <- Nat.negb_even.
  by destruct h, (Nat.even (i - S k)).
Qed.

End PostFXProofs.

Section PostFXTheorems.
Context `{Geometry}.

(** C18. The blur loop, which toggles [horizontal] after every iteration,
    equals the reference definition in which iteration [i] blurs
    horizontally exactly when [i] is even. *)
Theorem blur_loop_closed n :
  blur_loop n true = flat_map (fun i => blur_pass (Nat.even i)) (seq 0 n).
Proof.
  rewrite (blur_loop_offset n 0 true). apply flat_map_ext_elem. intros i _.
  rewrite Nat.sub_0_r. by destruct (Nat.even i).
Qed.

(** C17. Whatever the GL state it starts from, the chain draws, in order:
    FXAA into [ping], one blur into [illumination_fbo_blurred] per
    iteration, depth of field into [pong], motion blur into [ping], the
    bloom pass into [bloom_fbo], the bloom added onto [ping], chromatic
    aberration into [pong], grain into [ping], and the tone-mapped result
    onto the screen. *)
Theorem postfx_order s r cam w h t :
  draw_site <$> draws_from s (postfx_cmds r cam w h t) = postfx_sites (Z.to_nat (r_blur_iterations r)).
Proof.
  unfold postfx_cmds. rewrite !draws_from_app, !fmap_app.
  rewrite (proj1 (blur_loop_sites _ _ true (postfx_pre_blur s w h))).
  generalize (gl_run (gl_run s (postfx_pre w h)) (blur_loop (Z.to_nat (r_blur_iterations r)) true)).
  intros s2. unfold postfx_sites, postfx_post, hdr_cmds.
  destruct (r_hdr_active r); vm_compute; reflexivity.
Qed.

(** C16. Whatever the GL state it starts from, a draw of the chain samples a
    texture attached to the render target it draws into exactly when it is
    a blur iteration: [blur] reads [illumination_fbo_blurred]'s colour
    texture while rendering into it.  Every other stage reads only what
    earlier stages wrote elsewhere. *)
Theorem postfx_feedback s r cam w h t st d :
  (st, d) ∈ draws_from s (postfx_cmds r cam w h t) ->
  (feedbackb st = true <-> gs_program st = Some "blur"%string).
Proof.
  apply fb_chk_elem. unfold postfx_cmds. rewrite !draws_from_app, !forallb_app.
  rewrite (proj1 (proj2 (blur_loop_sites _ _ true (postfx_pre_blur s w h)))).
  generalize (gl_run (gl_run s (postfx_pre w h)) (blur_loop (Z.to_nat (r_blur_iterations r)) true)).
  intros s2. unfold postfx_post, hdr_cmds. destruct (r_hdr_active r); vm_compute; reflexivity.
Qed.
(** C19. [prev_vp] carries the camera from one frame to the next: the
    motion blur of a frame reads the view-projection matrix of the camera
    the previous frame was rendered with. *)
Theorem motion_blur_prev_frame cam1 cam2 t1 t2 w :
  exists w1 w2, renderPostFX cam1 t1 w = inr (tt, w1) /\ renderPostFX cam2 t2 w1 = inr (tt, w2) /\
    Uniform "u_prev_vp" (UMat (cam_viewproj cam1)) ∈ drop (length (w_gl w1)) (w_gl w2).
Proof.
  do 2 eexists. split; [reflexivity|]. split; [reflexivity|].
  cbn [w_gl emitted set_r]. rewrite drop_app_length. unfold postfx_cmds, postfx_post.
  rewrite !elem_of_app. do 4 right. left. cbn. apply elem_of_cons. right. apply elem_of_cons. right.
  apply elem_of_cons. by left.
Qed.

End PostFXTheorems.

(** ** Witness: two blur iterations from an empty GL state *)

Definition ex_gl0 : @GLState World1 :=
  {| gs_caps := []; gs_blend_func := (GL_ONE, GL_ONE); gs_depth_func := GL_LESS;
     gs_program := None; gs_target := Screen; gs_uniforms := [] |}.

Definition ex_blur_renderer : @Renderer World1 := set_blur_iterations 2 (ex_renderer FORWARD MULTI).

Definition ex_postfx_draws : list (@GLState World1 * DrawSrc) :=
  draws_from ex_gl0 (postfx_cmds ex_blur_renderer cam1_default 800 600 0).

(** The first blur draw. *)
Definition ex_blur_draw : @GLState World1 * DrawSrc :=
  Eval vm_compute in nth 1 ex_postfx_draws (ex_gl0, DrawQuad).

Lemma postfx_feedback_witness :
  ex_blur_draw ∈ ex_postfx_draws /\ feedbackb ex_blur_draw.1 = true /\
  gs_program ex_blur_draw.1 = Some "blur"%string.
Proof.
  assert (Hin : ex_blur_draw ∈ ex_postfx_draws) by (apply (list_elem_of_lookup_2 _ 1); vm_refl).
  assert (Hp : gs_program ex_blur_draw.1 = Some "blur"%string) by vm_refl.
  split; [exact Hin|]. split; [|exact Hp].
  exact (proj2 (postfx_feedback ex_gl0 ex_blur_renderer cam1_default 800 600 0
                  ex_blur_draw.1 ex_blur_draw.2 Hin) Hp).
Defined.
