(* ===== verification/Deferred.v ===== *)
(** * The deferred pipeline

    [Renderer::renderDeferred] (renderer.cpp:611-705) and what it calls:
    [renderGBuffers] (194-275) with [renderDecals] (542-588),
    [SSAO::apply] (1451-1520), [passDeferredUniforms] (1521-1559),
    [renderMultiPassSphere] (1022-1070), [volumetricDirectional]
    (707-738), [renderProbes] (1561-1590) and [renderReflectionProbes]
    (1668-1699).  Everything runs in [Renderer.World] and appends to its GL
    trace; [renderMeshWithMaterial] is the one of [Shading].  The lazy
    allocation of the G-buffer textures is the flag [fx_gbuffers_alloc],
    the depth texture's [filtered] flag is [fx_depth_filtered].

    Theorems:
    - [gbuffer_draws]: the geometry pass draws, with the [gbuffers]
      program, exactly the calls in the frustum with a non-empty mesh that
      are opaque or dithered, in order (the partition of calls between the
      G-buffers and the alpha forward pass);
    - [renderMultiPassSphere_spheres]: one additively blended light volume
      per light;
    - [renderDeferred_volumetric_no_sun]: the volumetric pass faults on a
      null [directional_light] whatever the earlier passes did (used by
      [Frame.renderToFBO_volumetric_no_sun]);
    - [ssao_feedback]: the SSAO blur reads the target it writes;
    - [renderDeferred_lights]: a frame appends the sun to [lights].
    The frame conditions ([mpres] of [Prelude] with the relations [grows]
    and [r_agree] of [Renderer]) carry what each pass leaves unchanged. *)

From S2P Require Import Prelude Enums Geometry RenderCall GL Scene Renderer Shadows Shading PostFX.

Section DeferredModel.
Context `{Geometry}.

(** One decal of the loop of [renderDecals] (renderer.cpp:573-587):
    entities of another type are skipped; visibility is not tested. *)
Definition decal_cmds (e : Entity) : list GLCmd :=
  match e_data e with
  | EDecal a =>
      [Uniform "u_model" (UMat (e_model e)); Uniform "u_iModel" (UMat (mat_inverse (e_model e)));
       Uniform "u_decal_texture" (match a with Some f => UTex (TexFile f) 4 | None => UNoTex 4 end);
       Draw DrawCube]
  | _ => []
  end.

(** [Renderer::renderDecals] (renderer.cpp:542-588). *)
Definition renderDecals (cam : Camera) (w : World) : list GLCmd :=
  [ShaderOn "decals";
   Uniform "u_color_texture" (UTex (TexGBuffer 0) 0); Uniform "u_normal_texture" (UTex (TexGBuffer 1) 1);
   Uniform "u_extra_texture" (UTex (TexGBuffer 2) 2); Uniform "u_depth_texture" (UTex TexGBufferDepth 3);
   Uniform "u_inverse_viewprojection" (UMat (mat_inverse (cam_viewproj cam)));
   Uniform "u_iRes" (UVec2 (1 / inject_Z (w_width w)) (1 / inject_Z (w_height w)));
   Uniform "u_viewprojection" (UMat (cam_viewproj cam));
   Disable CAP_DEPTH_TEST; Disable CAP_BLEND] ++
  flat_map decal_cmds (scn_entities (w_scene w)).

(** The clears of the G-buffers, one target at a time (renderer.cpp:212-242). *)
Definition gbuffer_clear_cmds (cam : Camera) (w : World) : list GLCmd :=
  [Bind FboGBuffers; DrawBuffer (Some 0); Clear true true] ++
  (if scn_environment (w_scene w) then renderSkybox cam else []) ++
  [DrawBuffer (Some 1); Clear true false; DrawBuffer (Some 2); Clear true false;
   DrawBuffer (Some 3); Clear true false; DrawBuffer None].

(** From the end of the geometry loop to the end of [renderGBuffers]
    (renderer.cpp:256-274): the decals are composited on copies of the
    first three targets, which are then copied back. *)
Definition gbuffer_decal_cmds (cam : Camera) (w : World) : list GLCmd :=
  [Unbind FboGBuffers;
   CopyTex (TexGBuffer 0) (Some (TexDecal 0)); CopyTex (TexGBuffer 1) (Some (TexDecal 1));
   CopyTex (TexGBuffer 2) (Some (TexDecal 2)); Bind FboDecals; CopyTex TexGBufferDepth None] ++
  renderDecals cam w ++
  [Unbind FboDecals;
   CopyTex (TexDecal 0) (Some (TexGBuffer 0)); CopyTex (TexDecal 1) (Some (TexGBuffer 1));
   CopyTex (TexDecal 2) (Some (TexGBuffer 2)); Disable CAP_DEPTH_TEST; Disable CAP_BLEND].

(** One iteration of a loop over calls that renders those in the frustum. *)
Definition render_visible (cam : Camera) (pipeline : World -> eRenderMode) (c : RenderCall) : M World unit :=
  w <- mget ;;
  if call_in_frustum cam c then renderMeshWithMaterial c cam (pipeline w) else mret tt.

(** [Renderer::renderGBuffers]; the textures are created on the first call
    ([gbuffers_fbo->fbo_id == 0]). *)
Definition renderGBuffers (calls : list RenderCall) (cam : Camera) : M World unit :=
  mmodify (set_r (fun r => set_fx (fx_with (r_fx r) (fx_prev_vp (r_fx r)) true) r)) ;;;
  w <- mget ;;
  emit (gbuffer_clear_cmds cam w) ;;;
  mfor_each calls (render_visible cam (fun w => r_render_mode (w_r w))) ;;;
  w <- mget ;;
  emit (gbuffer_decal_cmds cam w).

(** [SSAO::apply] (renderer.cpp:1451-1520); the result is the texture the
    shader sampled last. *)
Definition ssao_apply (normal depth : Tex) (cam : Camera) : M World Tex :=
  mmodify (set_r (fun r => set_fx (fx_filtered (r_fx r)) r)) ;;;
  w <- mget ;;
  let f := r_fx (w_r w) in
  let blur := r_ssao_blur (w_r w) in
  emit ([Bind FboSSAO; ShaderOn "ssao";
         Uniform "u_inverse_viewprojection" (UMat (mat_inverse (cam_viewproj cam)));
         Uniform "u_normal_texture" (UTex normal 1); Uniform "u_depth_texture" (UTex depth 4);
         Uniform "u_iRes" (UVec2 (1 / inject_Z (w_width w)) (1 / inject_Z (w_height w)));
         Uniform "u_viewprojection" (UMat (cam_viewproj cam));
         Uniform "u_points" (UVec3Arr (fx_ssao_points f)); Uniform "u_samples" (UInt (fx_ssao_samples f));
         Uniform "u_ssao_plus" (UBool (fx_ssao_plus f)); Uniform "u_bias" (UFloat (fx_ssao_bias f));
         Draw DrawQuad] ++
        (if blur then [ShaderOn "ssao_blur"; Uniform "u_ssao" (UTex (TexSSAO 0) 0); Draw DrawQuad; ShaderOff]
         else []) ++
        [Unbind FboSSAO]) ;;;
  mret (if blur then TexSSAO 1 else TexSSAO 0).

(** [Renderer::passDeferredUniforms] (renderer.cpp:1521-1559). *)
Definition passDeferredUniforms (first_pass : bool) (cam : Camera) (w : World) : list GLCmd :=
  let r := w_r w in
  let g := r_hdr_gamma r in
  [Uniform "u_color_texture" (UTex (TexGBuffer 0) 0); Uniform "u_normal_texture" (UTex (TexGBuffer 1) 1);
   Uniform "u_extra_texture" (UTex (TexGBuffer 2) 2); Uniform "u_depth_texture" (UTex TexGBufferDepth 4);
   Uniform "u_inverse_viewprojection" (UMat (mat_inverse (cam_viewproj cam)));
   Uniform "u_iRes" (UVec2 (1 / inject_Z (w_width w)) (1 / inject_Z (w_height w)))] ++
  (if first_pass then
     [Uniform "u_ambient_light" (UVec3 (gamma3 g (scn_ambient (w_scene w))));
      Uniform "u_emissive" (UBool true); Uniform "u_back" (UBool true);
      Uniform "u_ao" (UBool (r_activate_ssao r)); Uniform "u_irr_texture" (UTex (TexGBuffer 3) 11);
      Uniform "u_irr" (UBool (r_activate_irr r))]
   else
     [Uniform "u_ambient_light" (UVec3 vzero); Uniform "u_emissive" (UBool false);
      Uniform "u_back" (UBool false); Uniform "u_ao" (UBool false)]) ++
  [Uniform "u_light_eq" (UInt (light_eq_code (r_light_eq r))); Uniform "u_camera_position" (UVec3 (cam_eye cam));
   Uniform "u_gamma" (UFloat g)].

(** The light volume of one light (renderer.cpp:1040-1061): a sphere at
    the light's position scaled by its [max_distance]. *)
Definition sphere_pass (cam : Camera) (p : Ptr) : M World unit :=
  w <- mget ;;
  match deref_light w p "light" with
  | inl f => mfail f
  | inr (id, e, l) =>
      let md := l_max_distance l in
      emit [Uniform "u_viewprojection" (UMat (cam_viewproj cam));
            Uniform "u_model" (UMat (mat_scale3 (mat_translate mat_identity (mat_translation (e_model e)))
                                                (vec3 md md md)))] ;;;
      emit_or_fail (uploadLightParams id (e_model e) l true (r_hdr_gamma (w_r w))) ;;;
      emit [FrontFaceCW true; Draw DrawSphere]
  end.

(** The render state and uniforms [renderMultiPassSphere] sets before its
    loop (renderer.cpp:1024-1037). *)
Definition multi_sphere_setup (cam : Camera) (r : Renderer) : list GLCmd :=
  [Enable CAP_BLEND; BlendFunc GL_ONE GL_ONE; Enable CAP_CULL_FACE] ++
  [Uniform "u_ambient_light" (UVec3 vzero); Uniform "u_emissive" (UBool false);
   Uniform "u_back" (UBool false); Uniform "u_light_eq" (UInt (light_eq_code (r_light_eq r)));
   Uniform "u_camera_position" (UVec3 (cam_eye cam)); Uniform "u_pcf" (UBool (r_pcf r))].

(** [Renderer::renderMultiPassSphere] (renderer.cpp:1022-1070). *)
Definition renderMultiPassSphere (cam : Camera) : M World unit :=
  w <- mget ;;
  emit (multi_sphere_setup cam (w_r w)) ;;;
  mfor_each (r_lights (w_r w)) (sphere_pass cam) ;;;
  emit [ShaderOff; Disable CAP_DEPTH_TEST; Disable CAP_BLEND; FrontFaceCW false].

(** The point lights of the loop of [volumetricDirectional]
    (renderer.cpp:729-737): [l->light_type] is read through the pointer
    before the test. *)
Definition volume_light (p : Ptr) : M World unit :=
  w <- mget ;;
  match deref_light w p "l" with
  | inl f => mfail f
  | inr (id, e, l) =>
      if bool_decide (l_light_type l = DIRECTIONAL \/ l_light_type l = SPOT) then mret tt
      else emit_or_fail (uploadLightParams id (e_model e) l true (r_hdr_gamma (w_r w))) ;;;
           emit [Draw DrawQuad]
  end.

(** [Renderer::volumetricDirectional] (renderer.cpp:707-738):
    [directional_light] is dereferenced without a test. *)
Definition volumetricDirectional (cam : Camera) : M World unit :=
  w <- mget ;;
  let r := w_r w in
  emit [ShaderOn "volume"; Uniform "u_camera_position" (UVec3 (cam_eye cam));
        Uniform "u_inverse_viewprojection" (UMat (mat_inverse (cam_viewproj cam)));
        Uniform "u_air_density" (UFloat (fx_air_density (r_fx r)));
        Uniform "u_depth_texture" (UTex TexIllumDepth 0);
        Uniform "u_noise_texture" (UTex (TexFile "data/textures/noise.png") 1)] ;;;
  match deref_light w (r_directional_light r) "directional_light" with
  | inl f => mfail f
  | inr (id, e, l) =>
      emit_or_fail (uploadLightParams id (e_model e) l true (r_hdr_gamma r)) ;;;
      emit [Enable CAP_BLEND; BlendFunc GL_ONE GL_ONE_MINUS_SRC_ALPHA; Disable CAP_DEPTH_TEST; Draw DrawQuad] ;;;
      w <- mget ;;
      mfor_each (r_lights (w_r w)) volume_light
  end.

(** [Renderer::renderProbes] (renderer.cpp:1561-1590), with
    [Camera::current] the frame's camera. *)
Definition renderProbes (cam : Camera) : M World unit :=
  w <- mget ;;
  match r_grid (w_r w) with
  | PNull => mret tt
  | p =>
      match deref_grid w p "grid->probes" with
      | inl f => mfail f
      | inr g =>
          emit ([Enable CAP_CULL_FACE; Disable CAP_BLEND; Enable CAP_DEPTH_TEST; ShaderOn "probe"] ++
                flat_map (fun pr => [Uniform "u_viewprojection" (UMat (cam_viewproj cam));
                                     Uniform "u_camera_position" (UVec3 (cam_eye cam));
                                     Uniform "u_model" (UMat (p_model pr));
                                     Uniform "u_coeffs" (UVec3Arr (p_sh pr)); Draw DrawSphere])
                         (g_probes g))
      end
  end.

(** [Renderer::renderReflectionProbes] (renderer.cpp:1668-1699). *)
Definition reflection_probe_pass (id : nat) : M World unit :=
  w <- mget ;;
  match scn_entities (w_scene w) !! id with
  | Some e => emit [Uniform "u_model" (UMat (mat_scale3 (e_model e) (vec3 10 10 10)));
                    Uniform "u_texture" (UTex (TexCubemap id) 0); Draw DrawSphere]
  | None => mfail (NullDeref "probe")
  end.

Definition renderReflectionProbes (cam : Camera) : M World unit :=
  emit [Disable CAP_BLEND; Enable CAP_CULL_FACE; Disable CAP_DEPTH_TEST; ShaderOn "reflection_probe";
        Uniform "u_viewprojection" (UMat (cam_viewproj cam)); Uniform "u_camera_position" (UVec3 (cam_eye cam))] ;;;
  w <- mget ;;
  mfor_each (r_reflection_probes (w_r w)) reflection_probe_pass ;;;
  emit [Enable CAP_CULL_FACE; Enable CAP_DEPTH_TEST].

(** The directional light of the first lighting pass (renderer.cpp:647-653). *)
Definition deferred_sun : M World unit :=
  w <- mget ;;
  match r_directional_light (w_r w) with
  | PNull => emit [Uniform "u_light_eq" (UInt (light_eq_code NO_EQ))]
  | p =>
      match deref_light w p "directional_light" with
      | inl f => mfail f
      | inr (id, e, l) =>
          emit [Uniform "u_pcf" (UBool (r_pcf (w_r w)))] ;;;
          emit_or_fail (uploadLightParams id (e_model e) l true (r_hdr_gamma (w_r w)))
      end
  end.

(** The alpha pass (renderer.cpp:669-684): the directional light joins
    [lights], then every visible call that is not opaque is shaded forward. *)
Definition alpha_forward (calls : list RenderCall) (cam : Camera) : M World unit :=
  w <- mget ;;
  (match r_directional_light (w_r w) with
   | PNull => mret tt
   | p => mmodify (set_r (set_lights (r_lights (w_r w) ++ [p])))
   end) ;;;
  mfor_each calls (fun c =>
    if decide (mat_alpha_mode (rc_material c) = NO_ALPHA) then mret tt
    else render_visible cam (fun _ => DEFERRED_ALPHA) c).

(** [Renderer::renderDeferred] (renderer.cpp:611-705). *)
Definition renderDeferred (calls : list RenderCall) (cam : Camera) : M World unit :=
  renderGBuffers calls cam ;;;
  w <- mget ;;
  ao <- (if r_activate_ssao (w_r w) then t <- ssao_apply (TexGBuffer 1) TexGBufferDepth cam ;; mret (Some t)
         else mret None) ;;
  emit [Bind FboIllum; CopyTex TexGBufferDepth None; Clear true false; ShaderOn "deferred_multi"] ;;;
  w <- mget ;;
  emit (passDeferredUniforms true cam w) ;;;
  (match ao with
   | Some t => emit [Uniform "u_ao_texture" (UTex t 5); Uniform "u_ao_factor" (UFloat (fx_ssao_intensity (r_fx (w_r w))))]
   | None => mret tt
   end) ;;;
  deferred_sun ;;;
  emit [Disable CAP_DEPTH_TEST; Disable CAP_BLEND; Draw DrawQuad; ShaderOff; ShaderOn "deferred_ws"] ;;;
  w <- mget ;;
  emit (passDeferredUniforms false cam w) ;;;
  renderMultiPassSphere cam ;;;
  w <- mget ;;
  (if r_dithering (w_r w) then mret tt else alpha_forward calls cam) ;;;
  w <- mget ;;
  (if r_volumetric (w_r w) then volumetricDirectional cam else mret tt) ;;;
  (if r_show_probes (w_r w) then renderProbes cam else mret tt) ;;;
  (if r_show_reflection_probes (w_r w) then renderReflectionProbes cam else mret tt) ;;;
  emit [Disable CAP_BLEND; Disable CAP_DEPTH_TEST; Unbind FboIllum].

End DeferredModel.

(** ** Views used by the statements *)

Section DeferredViews.
Context `{Geometry}.

(** The meshes drawn with the G-buffer program, in order. *)
Definition gb_meshes (s : GLState) (cs : list GLCmd) : list nat :=
  omap (fun x => match x with
                 | (st, DrawMesh m) => if bool_decide (gs_program st = Some "gbuffers"%string) then Some m else None
                 | _ => None
                 end) (draws_from s cs).

(** A call that the geometry pass draws into the G-buffers. *)
Definition gbuffer_drawn (r : Renderer) (cam : Camera) (c : RenderCall) : bool :=
  call_in_frustum cam c && bool_decide (mesh_num_vertices (rc_mesh c) ≠ 0) &&
  (r_dithering r || bool_decide (mat_alpha_mode (rc_material c) = NO_ALPHA)).

(** What [renderMeshWithMaterial] submits for a call in DEFERRED mode
    without reflections, given the irradiance uniforms. *)
Definition deferred_mesh_cmds (r : Renderer) (sc : Scene) (c : RenderCall) (cam : Camera)
    (irr : bool) (ics : list GLCmd) : list GLCmd :=
  [cull_cmd (rc_material c)] ++ (ShaderOn "gbuffers" :: material_cmds r sc c cam DEFERRED) ++
  [Uniform "u_reflections" (UBool false)] ++
  (ics ++ [Uniform "u_irr" (UBool irr)] ++
   (if r_dithering r || bool_decide (mat_alpha_mode (rc_material c) = NO_ALPHA)
    then [Draw (DrawMesh (mesh_id (rc_mesh c)))] else [])) ++
  [ShaderOff; Disable CAP_BLEND; DepthFunc GL_LESS].

(** The geometry loop's commands in DEFERRED mode. *)
Definition deferred_loop_cmds (r : Renderer) (sc : Scene) (cam : Camera) (b : bool) (ics : list GLCmd)
    (calls : list RenderCall) : list GLCmd :=
  flat_map (fun c =>
    if call_in_frustum cam c && negb (bool_decide (mesh_num_vertices (rc_mesh c) = 0))
    then deferred_mesh_cmds r sc c cam b ics else []) calls.

(** The commands of one iteration of the loop of [renderMultiPassSphere]
    on a light that dereferences and uploads. *)
Definition sphere_cmds (cam : Camera) (w : World) (p : Ptr) : list GLCmd :=
  match deref_light w p "light" with
  | inr (id, e, l) =>
      match uploadLightParams id (e_model e) l true (r_hdr_gamma (w_r w)) with
      | inr cs =>
          let md := l_max_distance l in
          [Uniform "u_viewprojection" (UMat (cam_viewproj cam));
           Uniform "u_model" (UMat (mat_scale3 (mat_translate mat_identity (mat_translation (e_model e)))
                                               (vec3 md md md)))] ++
          cs ++ [FrontFaceCW true; Draw DrawSphere]
      | inl _ => []
      end
  | inl _ => []
  end.

(** The lights [renderDeferred] appends: [directional_light] when it is
    not null ([if (directional_light)] also holds for an uninitialised
    pointer). *)
Definition sun_list (p : Ptr) : list Ptr := match p with PNull => [] | _ => [p] end.

End DeferredViews.

Section DeferredProofs.
Context `{Geometry}.

Lemma gb_meshes_app s xs ys : gb_meshes s (xs ++ ys) = gb_meshes s xs ++ gb_meshes (gl_run s xs) ys.
Proof. unfold gb_meshes. by rewrite draws_from_app, omap_app. Qed.

Lemma gb_meshes_uniforms s cs : Forall is_uniform cs -> gb_meshes s cs = [].
Proof. intros Hu. unfold gb_meshes. by rewrite (proj1 (run_uniforms s cs Hu)). Qed.

Lemma material_cmds_uniform r sc c cam p : Forall is_uniform (material_cmds r sc c cam p).
Proof.
  unfold material_cmds. destruct (rc_probe c), (decide (p = DEFERRED_ALPHA)), (r_activate_ssao r);
    repeat constructor.
Qed.

Lemma irr_cmds_uniform w b ics : irr_cmds w = inr (b, ics) -> Forall is_uniform ics.
Proof.
  unfold irr_cmds. destruct (r_probes_texture (w_r w)); [|intros [= _ <-]; constructor].
  destruct (deref_grid _ _ _); [discriminate|]. intros [= _ <-]. repeat constructor.
Qed.

(** A draw after the program was bound and only uniforms followed. *)
Lemma gb_meshes_after_shader s p us rest :
  Forall is_uniform us ->
  gb_meshes s (ShaderOn p :: us ++ rest) =
    gb_meshes {| gs_caps := gs_caps s; gs_blend_func := gs_blend_func s; gs_depth_func := gs_depth_func s;
                 gs_program := Some p; gs_target := gs_target s; gs_uniforms := gs_uniforms s |} (us ++ rest).
Proof. done. Qed.

(** In DEFERRED mode without reflections, [renderMeshWithMaterial] submits
    [deferred_mesh_cmds] and changes nothing else. *)
Lemma renderMeshWithMaterial_deferred c cam w b ics :
  r_reflections (w_r w) = false -> irr_cmds w = inr (b, ics) ->
  renderMeshWithMaterial c cam DEFERRED w =
    if bool_decide (mesh_num_vertices (rc_mesh c) = 0) then inr (tt, w)
    else inr (tt, emitted w (deferred_mesh_cmds (w_r w) (w_scene w) c cam b ics)).
Proof.
  intros Hr Hirr. unfold renderMeshWithMaterial.
  destruct (bool_decide (mesh_num_vertices (rc_mesh c) = 0)); [done|].
  do 2 mstep. cbn [shader_of w_r emitted]. do 1 mstep. cbn [w_r emitted]. rewrite Hr. do 2 mstep.
  cbn [w_r emitted]. rewrite bool_decide_false by naive_solver. rewrite bool_decide_false by done.
  cbn [orb]. rewrite bool_decide_false by naive_solver.
  change (irr_cmds (emitted w [cull_cmd (rc_material c)])) with (irr_cmds w). rewrite Hirr.
  mstep. unfold emit, mmodify, emitted. cbn [w_gl w_r w_scene w_nodes w_quality w_width w_height].
  unfold deferred_mesh_cmds. rewrite <- !app_assoc. reflexivity.
Qed.

Lemma gb_meshes_cons s c cs : (forall d, c ≠ Draw d) ->
  gb_meshes s (c :: cs) = gb_meshes (gl_step s c) cs.
Proof. intros Hc. destruct c; try done. by destruct (Hc d). Qed.

Lemma gb_meshes_uniforms_app s us rest : Forall is_uniform us ->
  gb_meshes s (us ++ rest) = gb_meshes (gl_run s us) rest /\ gs_program (gl_run s us) = gs_program s.
Proof.
  intros Hu. destruct (run_uniforms s us Hu) as [Hd Hf]. rewrite gb_meshes_app, gb_meshes_uniforms by done.
  split; [done|]. unfold gl_fixed in Hf. by simplify_eq.
Qed.

Lemma cons_app_snoc {A} (a : A) l b rest : a :: l ++ b :: rest = (a :: l ++ [b]) ++ rest.
Proof. by rewrite <- app_comm_cons, <- app_assoc. Qed.

Lemma gb_meshes_tail s : gb_meshes s [ShaderOff; Disable CAP_BLEND; DepthFunc GL_LESS] = [].
Proof. done. Qed.

(** The G-buffer draws of one call: its mesh, when it is opaque or
    [dithering] is on. *)
Lemma gb_meshes_deferred_mesh s r sc c cam b ics :
  Forall is_uniform ics ->
  gb_meshes s (deferred_mesh_cmds r sc c cam b ics) =
    if r_dithering r || bool_decide (mat_alpha_mode (rc_material c) = NO_ALPHA)
    then [mesh_id (rc_mesh c)] else [].
Proof.
  intros Hics. unfold deferred_mesh_cmds. rewrite <- !app_assoc. cbn [app].
  rewrite gb_meshes_cons by (unfold cull_cmd; destruct (mat_two_sided _); discriminate).
  rewrite gb_meshes_cons by discriminate.
  set (s2 := gl_step (gl_step s (cull_cmd (rc_material c))) (ShaderOn "gbuffers")).
  assert (Hp2 : gs_program s2 = Some "gbuffers"%string) by (unfold s2, cull_cmd; by destruct (mat_two_sided _)).
  pose proof (material_cmds_uniform r sc c cam DEFERRED) as Hm.
  rewrite (proj1 (gb_meshes_uniforms_app s2 _ _ Hm)).
  assert (Hu : Forall is_uniform (Uniform "u_reflections" (UBool false) :: ics ++ [Uniform "u_irr" (UBool b)])).
  { constructor; [done|]. apply Forall_app; split; [done|]. by repeat constructor. }
  rewrite (cons_app_snoc (Uniform _ _)).
  set (s3 := gl_run s2 (material_cmds r sc c cam DEFERRED)).
  rewrite (proj1 (gb_meshes_uniforms_app s3 _ _ Hu)).
  destruct (_ || _); [|apply gb_meshes_tail].
  rewrite gb_meshes_app, gb_meshes_tail, app_nil_r. unfold gb_meshes. cbn [draws_from omap].
  cbn [list_omap]. rewrite (proj2 (gb_meshes_uniforms_app s3 _ [] Hu)).
  unfold s3. rewrite (proj2 (gb_meshes_uniforms_app s2 _ [] Hm)), Hp2.
  by rewrite bool_decide_true.
Qed.


Lemma gb_meshes_no_mesh s cs : Forall (fun c => forall m, c ≠ Draw (DrawMesh m)) cs -> gb_meshes s cs = [].
Proof.
  intros Hcs. revert s. induction Hcs as [|c cs Hc _ IH]; intros s; [done|].
  destruct c; try (rewrite gb_meshes_cons by done; apply IH).
  destruct d; [by destruct (Hc mesh)|..]; apply IH.
Qed.

Lemma gb_meshes_flat_map {X} (f : X -> list GLCmd) (g : X -> list nat) xs s :
  (forall x s, gb_meshes s (f x) = g x) -> gb_meshes s (flat_map f xs) = flat_map g xs.
Proof.
  intros Hf. revert s. induction xs as [|x xs IH]; intros s; [done|].
  cbn [flat_map]. by rewrite gb_meshes_app, Hf, IH.
Qed.

Lemma flat_map_if_single {X Y} (p : X -> bool) (g : X -> Y) xs :
  flat_map (fun x => if p x then [g x] else []) xs = map g (List.filter p xs).
Proof. induction xs as [|x xs IH]; [done|]. cbn. destruct (p x); cbn; by rewrite IH. Qed.

Lemma gbuffer_clear_no_mesh cam w : Forall (fun c => forall m, c ≠ Draw (DrawMesh m)) (gbuffer_clear_cmds cam w).
Proof.
  unfold gbuffer_clear_cmds, renderSkybox. destruct (scn_environment _);
    repeat (apply Forall_app; split); repeat constructor; discriminate.
Qed.

Lemma gbuffer_decal_no_mesh cam w : Forall (fun c => forall m, c ≠ Draw (DrawMesh m)) (gbuffer_decal_cmds cam w).
Proof.
  unfold gbuffer_decal_cmds, renderDecals. repeat (apply Forall_app; split); try (repeat constructor; discriminate).
  apply List.Forall_forall. intros c (e & _ & Hc)%in_flat_map. unfold decal_cmds in Hc.
  destruct (e_data e); cbn in Hc; intuition (subst; discriminate).
Qed.

(** The geometry loop in DEFERRED mode without reflections: the commands
    of every call in the frustum with a non-empty mesh, in order. *)
Lemma render_visible_loop calls cam w b ics :
  r_render_mode (w_r w) = DEFERRED -> r_reflections (w_r w) = false -> irr_cmds w = inr (b, ics) ->
  mfor_each calls (render_visible cam (fun w => r_render_mode (w_r w))) w =
    inr (tt, emitted w (deferred_loop_cmds (w_r w) (w_scene w) cam b ics calls)).
Proof.
  intros Hm Hr Hirr. apply mfor_each_emit. intros c cs _.
  unfold render_visible, mget, mbind. cbn [w_r emitted]. rewrite Hm.
  destruct (call_in_frustum cam c); cbn [andb]; [|by rewrite emitted_nil].
  rewrite (renderMeshWithMaterial_deferred c cam (emitted w cs) b ics) by done.
  destruct (bool_decide _); cbn; [by rewrite emitted_nil|done].
Qed.
Lemma renderGBuffers_deferred calls cam w b ics :
  r_render_mode (w_r w) = DEFERRED -> r_reflections (w_r w) = false -> irr_cmds w = inr (b, ics) ->
  let w1 := set_r (fun r => set_fx (fx_with (r_fx r) (fx_prev_vp (r_fx r)) true) r) w in
  renderGBuffers calls cam w =
    inr (tt, emitted w1 (gbuffer_clear_cmds cam w ++
                         deferred_loop_cmds (w_r w1) (w_scene w) cam b ics calls ++ gbuffer_decal_cmds cam w)).
Proof.
  intros Hm Hr Hirr w1. unfold renderGBuffers. do 3 mstep.
  erewrite mbind_step by (apply render_visible_loop; [exact Hm|exact Hr|exact Hirr]).
  subst w1. cbv [mget mbind emit mmodify]. rewrite !emitted_app.
  reflexivity.
Qed.

(** C25. The geometry pass of [renderGBuffers] in DEFERRED mode, without
    reflections and with the irradiance uniforms available: it succeeds,
    marks the G-buffers allocated, and the meshes it draws with the
    [gbuffers] program are exactly those of the calls in the camera frustum
    with a non-empty mesh that are opaque or dithered, in call order;
    neither the clears and sky nor the decal pass draw a mesh there. *)
Theorem gbuffer_draws calls cam w b ics :
  r_render_mode (w_r w) = DEFERRED -> r_reflections (w_r w) = false -> irr_cmds w = inr (b, ics) ->
  exists w' cs, renderGBuffers calls cam w = inr (tt, w') /\ w_gl w' = w_gl w ++ cs /\
    fx_gbuffers_alloc (r_fx (w_r w')) = true /\
    forall s, gb_meshes s cs = map (fun c => mesh_id (rc_mesh c)) (List.filter (gbuffer_drawn (w_r w) cam) calls).
Proof.
  intros Hm Hr Hirr. eexists _, _. split; [by apply renderGBuffers_deferred|].
  split; [done|]. split; [done|]. intros s.
  rewrite !gb_meshes_app, (gb_meshes_no_mesh _ (gbuffer_clear_cmds _ _)) by apply gbuffer_clear_no_mesh.
  rewrite (gb_meshes_no_mesh _ (gbuffer_decal_cmds _ _)) by apply gbuffer_decal_no_mesh.
  rewrite app_nil_r, app_nil_l, <- flat_map_if_single.
  apply gb_meshes_flat_map. intros c s'. unfold gbuffer_drawn. rewrite bool_decide_not.
  destruct (call_in_frustum cam c), (bool_decide (mesh_num_vertices _ = 0)); cbn [andb negb];
    [done| |done|done].
  rewrite gb_meshes_deferred_mesh by exact (irr_cmds_uniform w b ics Hirr). reflexivity.
Qed.

(** A list of command lists each of which draws [d] once, in the render
    state it started in, and leaves that state as it found it. *)
Lemma draws_flat_map_fixed {X} (f : X -> list GLCmd) (d : DrawSrc) xs s :
  (forall x s, x ∈ xs -> exists st, draws_from s (f x) = [(st, d)] /\ gl_fixed st = gl_fixed s /\
                                   gl_fixed (gl_run s (f x)) = gl_fixed s) ->
  length (draws_from s (flat_map f xs)) = length xs /\
  Forall (fun sd => snd sd = d /\ gl_fixed (fst sd) = gl_fixed s) (draws_from s (flat_map f xs)) /\
  gl_fixed (gl_run s (flat_map f xs)) = gl_fixed s.
Proof.
  revert s. induction xs as [|x xs IH]; intros s Hf; [done|]. cbn [flat_map].
  destruct (Hf x s) as (st & Hd & Hst & Hrun); [set_solver|].
  destruct (IH (gl_run s (f x))) as (Hl & Hall & Hfix); [intros; apply Hf; set_solver|].
  rewrite draws_from_app, gl_run_app, Hd, Hfix. cbn. rewrite Hrun in Hall.
  split; [by rewrite Hl|]. split; [by constructor|]. done.
Qed.

Lemma upload_uniform id model l lin g cs :
  uploadLightParams id model l lin g = inr cs -> Forall is_uniform cs.
Proof. intros Hu. apply (uniform_avoids_spec pass_names), (upload_avoids _ _ _ _ _ _ Hu). Qed.

Lemma sphere_cmds_draw cam w p s : light_ok w p ->
  exists st, draws_from s (sphere_cmds cam w p) = [(st, DrawSphere)] /\ gl_fixed st = gl_fixed s /\
             gl_fixed (gl_run s (sphere_cmds cam w p)) = gl_fixed s.
Proof.
  intros (id & e & l & Hd & Hf). destruct (upload_ok id (e_model e) l true (r_hdr_gamma (w_r w)) Hf) as [cs Hu].
  unfold sphere_cmds. rewrite Hd, Hu. cbv zeta.
  match goal with |- context [?us ++ cs ++ ?tl] => rewrite (app_assoc us cs tl) end.
  assert (Hus : Forall is_uniform ([Uniform "u_viewprojection" (UMat (cam_viewproj cam));
    Uniform "u_model" (UMat (mat_scale3 (mat_translate mat_identity (mat_translation (e_model e)))
      (vec3 (l_max_distance l) (l_max_distance l) (l_max_distance l))))] ++ cs)).
  { apply Forall_app. split; [by repeat constructor|]. by eapply upload_uniform. }
  destruct (run_uniforms s _ Hus) as [Hd0 Hfx].
  rewrite draws_from_app, gl_run_app, Hd0. eexists. split; [reflexivity|]. split; [exact Hfx|rewrite gl_run_app; exact Hfx].
Qed.

Lemma sphere_pass_emit cam w p cs : light_ok w p ->
  sphere_pass cam p (emitted w cs) = inr (tt, emitted (emitted w cs) (sphere_cmds cam w p)).
Proof.
  intros (id & e & l & Hd & Hf). destruct (upload_ok id (e_model e) l true (r_hdr_gamma (w_r w)) Hf) as [us Hu].
  unfold sphere_pass, mget, mbind. change (deref_light (emitted w cs) p "light") with (deref_light w p "light").
  rewrite Hd. unfold emit_or_fail, emit, mmodify. cbn [w_r emitted]. rewrite Hu.
  unfold sphere_cmds. rewrite Hd, Hu. by rewrite !emitted_app.
Qed.
Lemma gs_on_blend_func s a b k : gs_on (gl_step s (BlendFunc a b)) k = gs_on s k.
Proof. done. Qed.

Lemma gs_on_front_face s b k : gs_on (gl_step s (FrontFaceCW b)) k = gs_on s k.
Proof. done. Qed.

Lemma gs_on_disabled s k : gs_on (gl_step s (Disable k)) k = false.
Proof. rewrite gs_on_disable. by rewrite bool_decide_eq_false_2 by tauto. Qed.

Lemma multi_sphere_setup_state s cam r :
  let s1 := gl_run s (multi_sphere_setup cam r) in
  draws_from s (multi_sphere_setup cam r) = [] /\ gs_on s1 CAP_BLEND = true /\
  gs_on s1 CAP_CULL_FACE = true /\ gs_blend_func s1 = (GL_ONE, GL_ONE).
Proof.
  cbv zeta. unfold multi_sphere_setup. rewrite draws_from_app, gl_run_app.
  destruct (run_uniforms (gl_run s [Enable CAP_BLEND; BlendFunc GL_ONE GL_ONE; Enable CAP_CULL_FACE])
    [Uniform "u_ambient_light" (UVec3 vzero); Uniform "u_emissive" (UBool false);
     Uniform "u_back" (UBool false); Uniform "u_light_eq" (UInt (light_eq_code (r_light_eq r)));
     Uniform "u_camera_position" (UVec3 (cam_eye cam)); Uniform "u_pcf" (UBool (r_pcf r))])
    as [Hd Hf]; [by repeat constructor|].
  rewrite Hd, !(gs_on_fixed _ _ _ Hf). apply gl_fixed_eq in Hf as (_ & -> & _).
  cbn [gl_run foldl]. rewrite !gs_on_enable, gs_on_blend_func, gs_on_enable. done.
Qed.

Lemma renderMultiPassSphere_run cam w : Forall (light_ok w) (r_lights (w_r w)) ->
  renderMultiPassSphere cam w =
    inr (tt, emitted w (multi_sphere_setup cam (w_r w) ++ flat_map (sphere_cmds cam w) (r_lights (w_r w)) ++
                        [ShaderOff; Disable CAP_DEPTH_TEST; Disable CAP_BLEND; FrontFaceCW false])).
Proof.
  intros Hl. unfold renderMultiPassSphere. do 2 mstep.
  erewrite mbind_step by (apply mfor_each_emit; intros p cs Hp; apply sphere_pass_emit;
                          exact (proj1 (Forall_forall _ _) Hl p Hp)).
  unfold emit, mmodify. by rewrite !emitted_app, app_assoc.
Qed.

(** C26. The second deferred pass, on lights that all dereference and whose
    shadow maps exist: [renderMultiPassSphere] succeeds and draws exactly
    one light volume (a sphere) per light of [lights], each with additive
    blending and face culling on, and leaves blending and the depth test
    off. *)
Theorem renderMultiPassSphere_spheres cam w :
  Forall (light_ok w) (r_lights (w_r w)) ->
  exists w' cs, renderMultiPassSphere cam w = inr (tt, w') /\ w_gl w' = w_gl w ++ cs /\
    forall s, length (draws_from s cs) = length (r_lights (w_r w)) /\
      Forall (fun sd => snd sd = DrawSphere /\ gs_on (fst sd) CAP_BLEND = true /\
                        gs_on (fst sd) CAP_CULL_FACE = true /\ gs_blend_func (fst sd) = (GL_ONE, GL_ONE))
             (draws_from s cs) /\
      gs_on (gl_run s cs) CAP_BLEND = false /\ gs_on (gl_run s cs) CAP_DEPTH_TEST = false.
Proof.
  intros Hl. eexists _, _. split; [by apply renderMultiPassSphere_run|]. split; [done|]. intros s.
  destruct (multi_sphere_setup_state s cam (w_r w)) as (Hd0 & Hb & Hc & Hbf).
  destruct (draws_flat_map_fixed (sphere_cmds cam w) DrawSphere (r_lights (w_r w))
              (gl_run s (multi_sphere_setup cam (w_r w)))) as (Hlen & Hall & _).
  { intros p s' Hp. apply sphere_cmds_draw. exact (proj1 (Forall_forall _ _) Hl p Hp). }
  rewrite !draws_from_app, Hd0, !gl_run_app. cbn [app draws_from]. rewrite app_nil_r.
  split; [exact Hlen|]. split.
  - eapply Forall_impl; [exact Hall|]. intros [st d] [Hd Hst]; cbn [fst snd] in Hd, Hst |- *. subst d.
    rewrite (gs_on_fixed _ _ _ Hst), (gs_on_fixed _ _ _ Hst). apply gl_fixed_eq in Hst as (_ & -> & _). exact (conj eq_refl (conj Hb (conj Hc Hbf))).
  - cbn [gl_run foldl]. rewrite !gs_on_front_face. split; [apply gs_on_disabled|].
    rewrite gs_on_disable, gs_on_disabled. apply andb_false_r.
Qed.
(** What the volumetric pass reads of the renderer. *)
Definition vol_fields (r : Renderer) : bool * Ptr := (r_volumetric r, r_directional_light r).

Section DeferredFrame.
Variables (X : Type) (f : Renderer -> X).
Hypothesis Hf : forall r x, f (set_fx x r) = f r.

(** The stages of [renderDeferred] before the alpha pass change the
    renderer only in its post-processing state. *)
Lemma mpres_deferred_prefix calls cam :
  mpres (r_agree f) (renderGBuffers calls cam) /\ (forall n d, mpres (r_agree f) (ssao_apply n d cam)) /\
  mpres (r_agree f) deferred_sun /\ mpres (r_agree f) (renderMultiPassSphere cam).
Proof.
  unfold renderGBuffers, ssao_apply, deferred_sun, renderMultiPassSphere, sphere_pass, render_visible.
  repeat split; intros; mpres_solve.
Qed.
End DeferredFrame.

Lemma mpres_deferred_suffix cam :
  mpres grows (volumetricDirectional cam) /\ mpres grows (renderProbes cam) /\ mpres grows (renderReflectionProbes cam).
Proof.
  unfold volumetricDirectional, volume_light, renderProbes, renderReflectionProbes, reflection_probe_pass.
  repeat split; mpres_solve.
Qed.

Lemma mpres_alpha_forward_vol calls cam : mpres (r_agree vol_fields) (alpha_forward calls cam).
Proof. unfold alpha_forward, render_visible. mpres_solve. Qed.

Lemma volumetricDirectional_no_sun cam w :
  r_directional_light (w_r w) = PNull -> volumetricDirectional cam w = inl (NullDeref "directional_light").
Proof. intros Hd. unfold volumetricDirectional. do 2 mstep. cbv zeta. by rewrite Hd. Qed.

(** With [volumetric] on and a null [directional_light], [renderDeferred]
    never completes: whatever the earlier passes do, the volumetric pass
    dereferences the null pointer. *)
Lemma renderDeferred_volumetric_no_sun calls cam w :
  r_volumetric (w_r w) = true -> r_directional_light (w_r w) = PNull ->
  exists f, renderDeferred calls cam w = inl f.
Proof.
  intros Hv Hd. destruct (mpres_deferred_prefix _ vol_fields (fun _ _ => eq_refl) calls cam) as (Hg & Hs & Hsun & Hsph).
  pose proof (mpres_alpha_forward_vol calls cam) as Ha.
  assert (Hvd : vol_fields (w_r w) = (true, PNull)) by (unfold vol_fields; congruence). clear Hv Hd.
  unfold renderDeferred.
  apply (mbind_fault (r_agree vol_fields)); [exact Hg|]. intros _ w1 Hw1. mstep.
  apply (mbind_fault (r_agree vol_fields)); [destruct (r_activate_ssao _); mpres_solve; apply Hs|].
  intros ao w2 Hw2.
  do 3 (apply (mbind_fault (r_agree vol_fields)); [mpres_solve|intros _ ? ?]; try mstep).
  apply (mbind_fault (r_agree vol_fields)); [exact Hsun|intros _ w3 Hw3].
  do 2 (apply (mbind_fault (r_agree vol_fields)); [mpres_solve|intros _ ? ?]; try mstep).
  apply (mbind_fault (r_agree vol_fields)); [exact Hsph|intros _ w4 Hw4]. mstep.
  apply (mbind_fault (r_agree vol_fields)); [destruct (r_dithering _); [mpres_solve|exact Ha]|intros _ w5 Hw5].
  mstep. unfold r_agree in *.
  match goal with |- context [r_volumetric (w_r ?wk)] =>
    assert (Hk : vol_fields (w_r wk) = (true, PNull)) by congruence end.
  unfold vol_fields in Hk. injection Hk as -> Hk.
  eexists. apply mbind_fail. by apply volumetricDirectional_no_sun.
Qed.
(** The commands of [SSAO::apply] on the G-buffer normal and depth
    textures. *)
Lemma ssao_apply_run cam w :
  let w1 := set_r (fun r => set_fx (fx_filtered (r_fx r)) r) w in
  let f := r_fx (w_r w1) in
  let blur := r_ssao_blur (w_r w) in
  ssao_apply (TexGBuffer 1) TexGBufferDepth cam w =
    inr (if blur then TexSSAO 1 else TexSSAO 0,
         emitted w1
           ([Bind FboSSAO; ShaderOn "ssao";
             Uniform "u_inverse_viewprojection" (UMat (mat_inverse (cam_viewproj cam)));
             Uniform "u_normal_texture" (UTex (TexGBuffer 1) 1); Uniform "u_depth_texture" (UTex TexGBufferDepth 4);
             Uniform "u_iRes" (UVec2 (1 / inject_Z (w_width w)) (1 / inject_Z (w_height w)));
             Uniform "u_viewprojection" (UMat (cam_viewproj cam));
             Uniform "u_points" (UVec3Arr (fx_ssao_points f)); Uniform "u_samples" (UInt (fx_ssao_samples f));
             Uniform "u_ssao_plus" (UBool (fx_ssao_plus f)); Uniform "u_bias" (UFloat (fx_ssao_bias f));
             Draw DrawQuad] ++
            (if blur then [ShaderOn "ssao_blur"; Uniform "u_ssao" (UTex (TexSSAO 0) 0); Draw DrawQuad; ShaderOff]
             else []) ++ [Unbind FboSSAO])).
Proof. reflexivity. Qed.

(** C28. [SSAO::apply] as [renderDeferred] calls it: the occlusion draw
    samples only the G-buffers, but with [blur] on the blur draw samples
    [ssao_fbo]'s first texture while [ssao_fbo] is the bound target, a
    read of the texture being written; the result is the second texture
    with blur and the first without. *)
Theorem ssao_feedback cam w t w' :
  ssao_apply (TexGBuffer 1) TexGBufferDepth cam w = inr (t, w') ->
  exists cs, w_gl w' = w_gl w ++ cs /\ t = (if r_ssao_blur (w_r w) then TexSSAO 1 else TexSSAO 0) /\
    forall s, (fun sd => feedbackb sd.1) <$> draws_from s cs = if r_ssao_blur (w_r w) then [false; true] else [false].
Proof.
  rewrite ssao_apply_run. intros [= <- <-]. eexists. split; [reflexivity|]. split; [reflexivity|].
  intros s. destruct (r_ssao_blur (w_r w)); vm_compute; reflexivity.
Qed.
Lemma alpha_forward_lights calls cam w w' :
  alpha_forward calls cam w = inr (tt, w') ->
  r_lights (w_r w') = r_lights (w_r w) ++ sun_list (r_directional_light (w_r w)).
Proof.
  unfold alpha_forward. intros Hrun. mstep_in Hrun.
  assert (Hl : mpres (r_agree r_lights) (mfor_each calls (fun c =>
    if decide (mat_alpha_mode (rc_material c) = NO_ALPHA) then mret tt
    else render_visible cam (fun _ => DEFERRED_ALPHA) c))) by (unfold render_visible; mpres_solve).
  revert Hrun. destruct (r_directional_light (w_r w)); intros Hrun; mstep_in Hrun; rewrite (Hl _ _ _ Hrun); cbn.
  - by rewrite app_nil_r.
  - done.
  - done.
Qed.

(** What the alpha pass reads and writes of the renderer. *)
Definition lights_fields (r : Renderer) : list Ptr * bool * Ptr := (r_lights r, r_dithering r, r_directional_light r).

(** C29. A frame of the deferred pipeline mutates the light list: when it
    completes, [lights] has gained [directional_light] (unless it is null)
    exactly when [dithering] is off, the alpha forward pass having pushed
    it; every other pass leaves [lights] alone. *)
Theorem renderDeferred_lights calls cam w w' :
  renderDeferred calls cam w = inr (tt, w') ->
  r_lights (w_r w') =
    r_lights (w_r w) ++ (if r_dithering (w_r w) then [] else sun_list (r_directional_light (w_r w))).
Proof.
  intros Hrun. unfold renderDeferred in Hrun.
  destruct (mpres_deferred_prefix _ lights_fields (fun _ _ => eq_refl) calls cam) as (Hg & Hs & Hsun & Hsph).
  destruct (mpres_deferred_suffix cam) as (Hv & Hp & Hr).
  apply (mbind_inr_mpres (r_agree lights_fields)) in Hrun as (_ & w1 & Hw1 & Hrun); [|exact Hg]. mstep_in Hrun.
  apply (mbind_inr_mpres (r_agree lights_fields)) in Hrun as (ao & w2 & Hw2 & Hrun); [|destruct (r_activate_ssao _); mpres_solve; apply Hs].
  do 3 (apply (mbind_inr_mpres (r_agree lights_fields)) in Hrun as (? & ? & ? & Hrun); [|mpres_solve]; try mstep_in Hrun).
  apply (mbind_inr_mpres (r_agree lights_fields)) in Hrun as (_ & w3 & Hw3 & Hrun); [|exact Hsun].
  do 2 (apply (mbind_inr_mpres (r_agree lights_fields)) in Hrun as (? & ? & ? & Hrun); [|mpres_solve]; try mstep_in Hrun).
  apply (mbind_inr_mpres (r_agree lights_fields)) in Hrun as (_ & w4 & Hw4 & Hrun); [|exact Hsph]. mstep_in Hrun.
  apply mbind_inr_inv in Hrun as ([] & w5 & Hw5 & Hrun). mstep_in Hrun.
  match type of Hrun with ?m _ = _ => assert (Hsuf : mpres grows m) by mpres_solve end.
  destruct (Hsuf _ _ _ Hrun) as [cs ->]. cbn [w_r emitted]. clear Hrun Hsuf.
  unfold r_agree in *.
  match type of Hw5 with context [r_dithering (w_r ?wk)] =>
    assert (Hk : lights_fields (w_r wk) = lights_fields (w_r w)) by congruence end.
  unfold lights_fields in Hk. injection Hk as El Ed Es. rewrite Ed in Hw5.
  destruct (r_dithering (w_r w)).
  - injection Hw5 as <-. by rewrite El, app_nil_r.
  - apply alpha_forward_lights in Hw5. by rewrite Hw5, El, Es.
Qed.
End DeferredProofs.

(** ** Witnesses *)

Definition ex_deferred_calls : list (@RenderCall World1) := [ex_call NO_ALPHA 1; ex_call BLEND 2].

(** The opaque call is drawn into the G-buffers, the blended one is not. *)
Lemma gbuffer_draws_witness :
  exists w' cs, renderGBuffers ex_deferred_calls cam1_default (ex_world DEFERRED SINGLE []) = inr (tt, w') /\
    w_gl w' = [] ++ cs /\ fx_gbuffers_alloc (r_fx (w_r w')) = true /\ gb_meshes ex_gl_state cs = [0].
Proof.
  destruct (@gbuffer_draws World1 ex_deferred_calls cam1_default (ex_world DEFERRED SINGLE []) false [])
    as (w' & cs & Hr & Hg & Ha & Hd); [reflexivity|reflexivity|reflexivity|].
  exists w', cs. split; [exact Hr|]. split; [exact Hg|]. split; [exact Ha|].
  rewrite (Hd ex_gl_state). vm_refl.
Defined.

Definition ex_sphere_world : @World World1 :=
  ex_world_lights DEFERRED MULTI (ex_spots 2) [PEnt 0; PEnt 1] 0 [].

(** Two point-of-light volumes for two lights. *)
Lemma renderMultiPassSphere_spheres_witness :
  exists w' cs, renderMultiPassSphere cam1_default ex_sphere_world = inr (tt, w') /\
    w_gl w' = [] ++ cs /\ length (draws_from ex_gl_state cs) = 2.
Proof.
  destruct (@renderMultiPassSphere_spheres World1 cam1_default ex_sphere_world) as (w' & cs & Hr & Hg & Hd).
  - repeat constructor; (eexists _, _, _; split; [reflexivity|intros _; eexists; reflexivity]).
  - exists w', cs. split; [exact Hr|]. split; [exact Hg|]. apply (Hd ex_gl_state).
Defined.

Definition ex_deferred_world (volumetric ssao_blur : bool) : @World World1 :=
  {| w_r := {| r_render_mode := DEFERRED; r_light_mode := MULTI; r_light_eq := PHONG; r_pcf := false;
               r_depth_viewport := false; r_dithering := false; r_show_gbuffers := false; r_show_omr := false;
               r_activate_ssao := false; r_hdr_active := false; r_activate_irr := false;
               r_irr_3lerp := false; r_reflections := false; r_show_probes := false; r_volumetric := volumetric;
               r_show_reflection_probes := false; r_depth_light := 0; r_shadow_count := 0;
               r_hdr_gamma := 1; r_blur_iterations := 0; r_calls := ex_deferred_calls; r_lights := [];
               r_reflection_probes := []; r_grid := PNull; r_directional_light := PNull;
               r_probes_texture := None; r_atlas := None; r_ssao_blur := ssao_blur;
               r_reflections_calculated := false; r_fx := ex_fx |};
     w_scene := ex_scene []; w_nodes := ∅; w_quality := LOW; w_width := 800; w_height := 600; w_gl := [] |}.

(** With blur on, the second of the two draws reads its own target. *)
Lemma ssao_feedback_witness :
  exists t w' cs, @ssao_apply World1 (TexGBuffer 1) TexGBufferDepth cam1_default (ex_deferred_world false true) = inr (t, w') /\
    w_gl w' = [] ++ cs /\ t = TexSSAO 1 /\ (fun sd => feedbackb sd.1) <$> draws_from ex_gl_state cs = [false; true].
Proof.
  destruct (@ssao_apply World1 (TexGBuffer 1) TexGBufferDepth cam1_default (ex_deferred_world false true))
    as [f|[t w']] eqn:E; [discriminate|].
  destruct (@ssao_feedback World1 _ _ _ _ E) as (cs & Hg & Ht & Hd).
  exists t, w', cs. split; [reflexivity|]. split; [exact Hg|]. split; [exact Ht|]. exact (Hd ex_gl_state).
Defined.

Definition ex_sun_world : @World World1 :=
  set_r (set_directional (PEnt 0)) (ex_world DEFERRED MULTI [ex_light_entity DIRECTIONAL 0 true true]).

(** Without dithering the frame leaves the sun in [lights]. *)
Lemma renderDeferred_lights_witness :
  exists w', renderDeferred [] cam1_default ex_sun_world = inr (tt, w') /\ r_lights (w_r w') = [PEnt 0].
Proof.
  destruct (@renderDeferred World1 [] cam1_default ex_sun_world) as [f|[[] w']] eqn:E; [discriminate|].
  exists w'. split; [reflexivity|]. rewrite (renderDeferred_lights _ _ _ _ E). reflexivity.
Defined.
