(* ===== verification/Application.v ===== *)
(** * The application's handlers that reconfigure the renderer

    [src/src/application.cpp]: the three combo boxes of
    [Application::renderDebugGUI] that change the quality tier, the render
    mode and the light mode (256-300), the depth-viewport label (318-324),
    and the renderer keys of [Application::onKeyDown] (436-451); with
    [Renderer::renderShadowmaps] and [Renderer::renderAtlas]
    (renderer.cpp:1262-1328), the debug views that read the light that key
    [1] selects.  [ImGui::Combo] writes the chosen item into the field and
    returns [true] when an item is picked; a handler here is the code that
    runs when it returned [true], after the write.

    The handlers run in [Renderer.World] (the renderer's fields, the scene
    its light pointers designate and [Application::instance->quality]); the
    application's own flags ([render_debug], [must_exit]) are the record
    [App].  [app_step] is one user event, and [reachable] the states a run
    of events reaches from the constructors.

    Theorems: the three combo handlers on every branch, their faults
    included ([onQualityChanged_spec], [onQualityChanged_deferred_no_sun],
    [onLightModeChanged_spec]); the mode invariant of every reachable state,
    by induction on runs ([reachable_mode_ok]); that every configuration
    the invariant allows is reached from any state by picks that never
    fault ([modes_controllable]); and the stale
    [depth_light] index that a later fetch leaves out of bounds
    ([depth_light_stale]). *)

From S2P Require Import Prelude Enums Geometry RenderCall GL Scene Traversal Renderer Fetch Shadows Shading.

Section AppModel.
Context `{Geometry} `{!CallSorter}.

(** [light->shadow_fbo = fbo] *)
Definition light_set_fbo (fbo : option Z) (l : LightEntity) : LightEntity :=
  {| l_color := l_color l; l_intensity := l_intensity l; l_light_type := l_light_type l;
     l_max_distance := l_max_distance l; l_cone_angle := l_cone_angle l;
     l_area_size := l_area_size l; l_spot_exp := l_spot_exp l; l_bias := l_bias l;
     l_cast_shadows := l_cast_shadows l; l_uvs := l_uvs l; l_camera := l_camera l;
     l_shadow_fbo := fbo |}.

(** The body of the loop of application.cpp:263-272: a spot or directional
    light's [shadow_fbo] is destroyed and recreated at the new resolution.
    Both [lights[i]] and its [shadow_fbo] are dereferenced unchecked. *)
Definition regen_shadow_fbo (q : eQuality) (p : Ptr) : M World unit :=
  w <- mget ;;
  match deref_light w p "renderer->lights[i]" with
  | inl f => mfail f
  | inr (id, _, l) =>
      if bool_decide (l_light_type l = SPOT \/ l_light_type l = DIRECTIONAL) then
        match l_shadow_fbo l with
        | None => mfail (NullDeref "renderer->lights[i]->shadow_fbo")
        | Some _ => mmodify (store_light id (light_set_fbo (Some (shadow_res q)) l))
        end
      else mret tt
  end.

(** [if (renderer->atlas) { renderer->atlas->~FBO(); renderer->atlas = NULL; }] *)
Definition drop_atlas : M World unit :=
  w <- mget ;;
  match r_atlas (w_r w) with
  | Some _ => mmodify (set_r (set_atlas None))
  | None => mret tt
  end.

(** The quality combo (application.cpp:257-278), after it wrote [q]. *)
Definition onQualityChanged (q : eQuality) : M World unit :=
  mmodify (set_quality q) ;;;
  w <- mget ;;
  (if decide (r_render_mode (w_r w) = DEFERRED)
   then mmodify (set_r (set_lights (r_lights (w_r w) ++ [r_directional_light (w_r w)])))
   else mret tt) ;;;
  w <- mget ;;
  mfor_each (r_lights (w_r w)) (regen_shadow_fbo q) ;;;
  drop_atlas.

(** The render-mode combo (application.cpp:281-286). *)
Definition onRenderModeChanged (m : eRenderMode) : M World unit :=
  mmodify (set_r (set_render_mode m)) ;;;
  if decide (m = DEFERRED) then mmodify (set_r (set_light_mode MULTI)) else mret tt.

(** The light-mode combo, shown only in [FORWARD] (application.cpp:288-301).
    The guard is [light_mode == MULTI || atlas]: switching to [MULTI]
    destroys the atlas whether or not there is one. *)
Definition onLightModeChanged (lm : eLightMode) : M World unit :=
  mmodify (set_r (set_light_mode lm)) ;;;
  w <- mget ;;
  if bool_decide (lm = MULTI) || bool_decide (is_Some (r_atlas (w_r w))) then
    match r_atlas (w_r w) with
    | Some _ => mmodify (set_r (set_atlas None))
    | None => mfail (NullDeref "renderer->atlas")
    end
  else mret tt.

(** The label of the depth viewport (application.cpp:318-324):
    [lights[depth_light]->name], read without a bound check. *)
Definition depth_viewport_label (w : World) : Fault + string :=
  let r := w_r w in
  if r_depth_viewport r then
    match r_lights r !! r_depth_light r with
    | None => inl (OutOfBounds "renderer->lights[renderer->depth_light]")
    | Some p =>
        match deref_light w p "renderer->lights[renderer->depth_light]" with
        | inl f => inl f
        | inr (_, e, _) => inr ("Depth Buffer of light: " ++ e_name e)%string
        end
    end
  else inr "No Depth Buffer light selected for viewport".

(** The entries of the arrays of [renderAtlas] (renderer.cpp:1273-1283):
    the shadow-casting non-point lights, in order, each written at index
    [c] of arrays of [max_lights] entries without a bound check. *)
Fixpoint atlas_view_entries (w : World) (c : nat) (ls : list Ptr) : Fault + list ((Q * Q) * Z) :=
  match ls with
  | [] => inr []
  | p :: ls' =>
      match deref_light w p "l" with
      | inl f => inl f
      | inr (_, _, l) =>
          if bool_decide (l_light_type l = POINT) || negb (l_cast_shadows l)
          then atlas_view_entries w c ls'
          else if decide (max_lights <= c) then inl (OutOfBounds "nearfars[c]")
          else match atlas_view_entries w (S c) ls' with
               | inl f => inl f
               | inr xs => inr (((cam_near (l_camera l), cam_far (l_camera l)),
                                 light_type_code (l_light_type l)) :: xs)
               end
      end
  end.

(** [Renderer::renderAtlas] (renderer.cpp:1262-1299): the atlas in the
    lower-left quarter of the window.  [w * 0.5 - offset] is converted to
    [int] by truncation. *)
Definition renderAtlas : M World unit :=
  w <- mget ;;
  match atlas_view_entries w 0 (r_lights (w_r w)) with
  | inl f => mfail f
  | inr xs =>
      emit [Disable CAP_BLEND; ShaderOn "atlas";
            Uniform "u_camera_nearfars" (UVec2Arr (fst <$> xs));
            Uniform "u_light_types" (UIntArr (snd <$> xs));
            Uniform "u_total_lights" (UInt (Z.of_nat (length xs)));
            Viewport 30 30 (Z.quot (w_width w - 60) 2) (Z.quot (w_height w - 60) 2)] ;;;
      match r_atlas (w_r w) with
      | None => mfail (NullDeref "atlas->depth_texture")
      | Some _ => emit (to_viewport TexAtlas ++ [ShaderOff; Viewport 0 0 (w_width w) (w_height w)])
      end
  end.

(** The depth map of [lights[depth_light]] (renderer.cpp:1305-1323), after
    the deferred directional light was appended. *)
Definition shadowmap_view (w : World) : M World unit :=
  let r := w_r w in
  match r_lights r !! r_depth_light r with
  | None => mfail (OutOfBounds "lights[depth_light]")
  | Some p =>
      match deref_light w p "light" with
      | inl f => mfail f
      | inr (id, _, l) =>
          if negb (l_cast_shadows l) then mret tt else
          emit [Viewport 20 20 (w_width w / 4) (w_height w / 4); ShaderOn "depth";
                Uniform "u_cam_type" (UInt (if decide (l_light_type l = DIRECTIONAL) then 0 else 1));
                Uniform "u_camera_nearfar" (UVec2 (cam_near (l_camera l)) (cam_far (l_camera l)))] ;;;
          match l_shadow_fbo l with
          | None => mfail (NullDeref "light->shadow_fbo")
          | Some _ => emit (to_viewport (TexShadow id))
          end
      end
  end.

(** [Renderer::renderShadowmaps] (renderer.cpp:1301-1328).  The early
    [return] for a light that casts no shadows skips the atlas branch,
    whose guard ([SINGLE]) excludes the first one anyway. *)
Definition renderShadowmaps : M World unit :=
  w <- mget ;;
  let r := w_r w in
  (if bool_decide (r_lights r ≠ []) && r_depth_viewport r && bool_decide (r_light_mode r = MULTI) then
     (if decide (r_render_mode r = DEFERRED)
      then mmodify (set_r (set_lights (r_lights r ++ [r_directional_light r]))) else mret tt) ;;;
     w' <- mget ;;
     shadowmap_view w'
   else mret tt) ;;;
  w <- mget ;;
  let r := w_r w in
  if bool_decide (r_light_mode r = SINGLE) && r_depth_viewport r && bool_decide (0 < r_shadow_count r)%Z
  then renderAtlas else mret tt.

(** The application's own state: [render_debug], [must_exit]. *)
Record App := {
  a_world : World;
  a_render_debug : bool;
  a_must_exit : bool
}.

(** The keys of [onKeyDown] that act on the renderer or the application
    flags; [f] (camera), [F5] (shader reload), [F6] (scene reload) and
    [4]/[5] (probe bakes) are not modelled. *)
Inductive Key := SDLK_ESCAPE | SDLK_F1 | SDLK_1 | SDLK_2 | SDLK_3.

Definition with_world (a : App) (w : World) : App :=
  {| a_world := w; a_render_debug := a_render_debug a; a_must_exit := a_must_exit a |}.

Definition on_r (a : App) (f : Renderer -> Renderer) : App := with_world a (set_r f (a_world a)).

(** [Application::onKeyDown] (application.cpp:436-451), the modelled keys. *)
Definition onKeyDown (k : Key) (a : App) : App :=
  let r := w_r (a_world a) in
  match k with
  | SDLK_ESCAPE => {| a_world := a_world a; a_render_debug := a_render_debug a; a_must_exit := true |}
  | SDLK_F1 => {| a_world := a_world a; a_render_debug := negb (a_render_debug a); a_must_exit := a_must_exit a |}
  | SDLK_1 =>
      if bool_decide (0 < length (r_lights r))
      then on_r a (set_depth_light ((r_depth_light r + 1) mod length (r_lights r)))
      else a
  | SDLK_2 => on_r a (set_show_gbuffers (negb (r_show_gbuffers r)))
  | SDLK_3 => on_r a (set_show_omr (negb (r_show_omr r)))
  end.

(** A user event: a picked combo item or a key press.  The light-mode
    combo exists only in [FORWARD] (application.cpp:288). *)
(** The items of the render-mode and light-mode combos
    (application.cpp:282, 292). *)
Definition combo_render_modes : list eRenderMode := [FORWARD; DEFERRED].
Definition combo_light_modes : list eLightMode := [SINGLE; MULTI].

Inductive Event :=
| EvQuality (q : eQuality)
| EvRenderMode (m : eRenderMode)
| EvLightMode (lm : eLightMode)
| EvKey (k : Key)
| EvDepthViewport (b : bool)             (** the checkbox of application.cpp:317 *)
| EvFetch (fuel : nat) (cam : Camera).   (** the fetch that opens a frame (renderer.cpp:481) *)

Definition run_world (m : M World unit) (a : App) : Fault + App :=
  match m (a_world a) with
  | inl f => inl f
  | inr (_, w) => inr (with_world a w)
  end.

Definition app_step (a : App) (ev : Event) : Fault + App :=
  match ev with
  | EvQuality q => run_world (onQualityChanged q) a
  | EvRenderMode m =>
      if decide (m ∈ combo_render_modes) then run_world (onRenderModeChanged m) a else inr a
  | EvLightMode lm =>
      if decide (r_render_mode (w_r (a_world a)) = FORWARD /\ lm ∈ combo_light_modes)
      then run_world (onLightModeChanged lm) a else inr a
  | EvKey k => inr (onKeyDown k a)
  | EvDepthViewport b => inr (on_r a (set_depth_viewport b))
  | EvFetch fuel cam => run_world (fetchSceneEntities fuel cam true true true true) a
  end.

(** A run of events, stopping at the first fault. *)
Fixpoint app_run (a : App) (evs : list Event) : Fault + App :=
  match evs with
  | [] => inr a
  | ev :: evs' => match app_step a ev with inl f => inl f | inr a' => app_run a' evs' end
  end.

(** What [Renderer::Renderer] (renderer.cpp:19-100) leaves in the fields
    the handlers read: DEFERRED, MULTI, [depth_light = 0], no atlas. *)
Definition app_initial (a : App) : Prop :=
  let r := w_r (a_world a) in
  r_render_mode r = DEFERRED /\ r_light_mode r = MULTI /\ r_depth_light r = 0 /\ r_atlas r = None.

(** The states a run of user events and fetches reaches. *)
Inductive reachable : App -> Prop :=
| reach_init a : app_initial a -> reachable a
| reach_step a ev a' : reachable a -> app_step a ev = inr a' -> reachable a'.

End AppModel.

(** ** Views used by the statements *)

Section AppViews.
Context `{Geometry}.

(** The modes the renderer can be in: those the combos offer, and MULTI
    whenever DEFERRED. *)
Definition mode_ok (r : Renderer) : Prop :=
  r_render_mode r ∈ combo_render_modes /\ r_light_mode r ∈ combo_light_modes /\
  (r_render_mode r = DEFERRED -> r_light_mode r = MULTI).

(** What the quality loop makes of an entity it visits. *)
Definition regen_entity (q : eQuality) (e : Entity) : Entity :=
  match e_data e with
  | ELight l =>
      if bool_decide (l_light_type l = SPOT \/ l_light_type l = DIRECTIONAL)
      then {| e_name := e_name e; e_model := e_model e; e_visible := e_visible e;
              e_data := ELight (light_set_fbo (Some (shadow_res q)) l) |}
      else e
  | _ => e
  end.

(** The list the quality loop runs over. *)
Definition quality_lights (r : Renderer) : list Ptr :=
  r_lights r ++ (if decide (r_render_mode r = DEFERRED) then [r_directional_light r] else []).

(** A pointer the quality loop can visit without a fault. *)
Definition regen_ok (w : World) (p : Ptr) : Prop :=
  exists id e l, deref_light w p "light" = inr (id, e, l) /\
    (l_light_type l = SPOT \/ l_light_type l = DIRECTIONAL -> is_Some (l_shadow_fbo l)).

(** The entity list after the loop visited the pointers [D]. *)
Definition regen_sel (q : eQuality) (D : list Ptr) (id : nat) (e : Entity) : Entity :=
  if bool_decide (PEnt id ∈ D) then regen_entity q e else e.

End AppViews.

Section AppProofs.
Context `{Geometry} `{!CallSorter}.

Lemma store_light_entities w id e l :
  scn_entities (w_scene w) !! id = Some e ->
  scn_entities (w_scene (store_light id l w)) =
    <[id := {| e_name := e_name e; e_model := e_model e; e_visible := e_visible e; e_data := ELight l |}]>
      (scn_entities (w_scene w)).
Proof. intros He. unfold store_light. cbn. by rewrite He. Qed.

Lemma light_set_fbo_idem x y l : light_set_fbo x (light_set_fbo y l) = light_set_fbo x l.
Proof. done. Qed.

Lemma regen_entity_idem q e : regen_entity q (regen_entity q e) = regen_entity q e.
Proof.
  unfold regen_entity. destruct (e_data e) eqn:Ed; try (by rewrite Ed).
  case_bool_decide as Ht; cbn; [|by rewrite Ed, bool_decide_false].
  by rewrite bool_decide_true.
Qed.

Lemma imap_regen_sel_cons q D E0 id e :
  E0 !! id = Some e ->
  <[id := regen_entity q e]> (imap (regen_sel q D) E0) = imap (regen_sel q (PEnt id :: D)) E0.
Proof.
  intros He. apply list_eq. intros i. destruct (decide (i = id)) as [->|Hne].
  - rewrite list_lookup_insert_eq by (rewrite length_imap; by eapply lookup_lt_Some).
    rewrite list_lookup_imap, He. cbn. unfold regen_sel. by rewrite bool_decide_true by set_solver.
  - rewrite list_lookup_insert_ne by done. rewrite !list_lookup_imap.
    destruct (E0 !! i); cbn; [|done]. unfold regen_sel. f_equal.
    assert (PEnt i ∈ PEnt id :: D <-> PEnt i ∈ D) as Hiff.
    { rewrite elem_of_cons. split; [intros [[= ?]|?]; [congruence|done]|auto]. }
    by rewrite (bool_decide_ext _ _ Hiff).
Qed.

(** One iteration of the quality loop on a pointer it can visit. *)
Lemma regen_step q D w0 s p :
  regen_ok w0 p ->
  scn_entities (w_scene s) = imap (regen_sel q D) (scn_entities (w_scene w0)) ->
  exists s', regen_shadow_fbo q p s = inr (tt, s') /\
    scn_entities (w_scene s') = imap (regen_sel q (p :: D)) (scn_entities (w_scene w0)) /\
    w_r s' = w_r s /\ w_quality s' = w_quality s.
Proof.
  intros (id & e & l & Hd & Hf) Hs. apply deref_light_inv in Hd as (-> & He & Hl).
  rewrite <- (imap_regen_sel_cons q D _ id e He), <- Hs.
  assert (Hid : scn_entities (w_scene s) !! id = Some (regen_sel q D id e))
    by (rewrite Hs, list_lookup_imap, He; done).
  destruct e as [n m v d]; cbn in Hl; subst d. unfold regen_sel, regen_entity in *. cbn [e_data] in *.
  unfold regen_shadow_fbo, mbind, mget, deref_light.
  destruct (decide (l_light_type l = SPOT \/ l_light_type l = DIRECTIONAL)) as [Ht|Ht].
  - rewrite (bool_decide_true _ Ht) in *. destruct (Hf Ht) as [fb Hfb].
    destruct (bool_decide (PEnt id ∈ D)); rewrite Hid; cbn; rewrite ?(bool_decide_true _ Ht), ?Hfb; cbn;
      (eexists; split; [done|]); rewrite (store_light_entities _ _ _ _ Hid); auto.
  - rewrite (bool_decide_false _ Ht) in *.
    destruct (bool_decide (PEnt id ∈ D)); rewrite Hid; cbn; rewrite ?(bool_decide_false _ Ht);
      (eexists; split; [done|]); (split; [|done]); symmetry; by apply list_insert_id.
Qed.

Lemma regen_sel_ext q D1 D2 E : (forall p, p ∈ D1 <-> p ∈ D2) ->
  imap (regen_sel q D1) E = imap (regen_sel q D2) E.
Proof.
  intros Hiff. apply imap_ext. intros id e _. unfold regen_sel.
  by rewrite (bool_decide_ext _ _ (Hiff (PEnt id))).
Qed.

Lemma imap_regen_sel_nil q E : imap (regen_sel q []) E = E.
Proof.
  apply list_eq. intros i. rewrite list_lookup_imap. destruct (E !! i); [|done].
  cbn. unfold regen_sel. by rewrite bool_decide_false by set_solver.
Qed.

(** The quality loop over pointers it can all visit. *)
Lemma regen_loop q w0 xs : forall D s,
  Forall (regen_ok w0) xs ->
  scn_entities (w_scene s) = imap (regen_sel q D) (scn_entities (w_scene w0)) ->
  exists s', mfor_each xs (regen_shadow_fbo q) s = inr (tt, s') /\
    scn_entities (w_scene s') = imap (regen_sel q (rev xs ++ D)) (scn_entities (w_scene w0)) /\
    w_r s' = w_r s /\ w_quality s' = w_quality s.
Proof.
  induction xs as [|p xs IH]; intros D s Hok Hs; [by exists s|].
  apply Forall_cons in Hok as [Hp Hok].
  destruct (regen_step q D w0 s p Hp Hs) as (s1 & H1 & Hs1 & Hr1 & Hq1).
  destruct (IH (p :: D) s1 Hok Hs1) as (s2 & H2 & Hs2 & Hr2 & Hq2).
  exists s2. cbn [mfor_each]. rewrite (mbind_step _ _ _ _ _ H1), H2.
  split; [done|]. split; [|split; congruence].
  rewrite Hs2. apply regen_sel_ext. intros x. cbn [rev]. by rewrite <- app_assoc.
Qed.

Lemma drop_atlas_spec s :
  exists s', drop_atlas s = inr (tt, s') /\ r_atlas (w_r s') = None /\
    r_lights (w_r s') = r_lights (w_r s) /\ w_scene s' = w_scene s /\ w_quality s' = w_quality s.
Proof. unfold drop_atlas, mbind, mget, mmodify. destruct (r_atlas (w_r s)) eqn:E; eexists; eauto. Qed.

Lemma regen_shadow_fbo_r q p s s' : regen_shadow_fbo q p s = inr (tt, s') -> w_r s' = w_r s.
Proof. unfold regen_shadow_fbo, mbind, mget, mmodify, mret, mfail. repeat case_match; by intros; simplify_eq. Qed.

Lemma regen_loop_r q xs s s' : mfor_each xs (regen_shadow_fbo q) s = inr (tt, s') -> w_r s' = w_r s.
Proof.
  intros Hl. rewrite <- (foldl_const (w_r s) xs).
  apply (mfor_each_proj w_r (fun _ r => r) xs (regen_shadow_fbo q) s s'); [|exact Hl].
  intros ???? . apply regen_shadow_fbo_r.
Qed.

Lemma onQualityChanged_modes q w w' : onQualityChanged q w = inr (tt, w') ->
  r_render_mode (w_r w') = r_render_mode (w_r w) /\ r_light_mode (w_r w') = r_light_mode (w_r w).
Proof.
  unfold onQualityChanged. do 2 mstep. cbn [w_r set_quality].
  destruct (decide _); do 2 mstep; unfold mbind;
    destruct (mfor_each _ _ _) as [|[[] s1]] eqn:Hl; try discriminate; apply regen_loop_r in Hl;
    unfold drop_atlas, mbind, mget, mmodify, mret; destruct (r_atlas (w_r s1)); intros [= <-]; cbn; by rewrite Hl.
Qed.

(** Every event keeps the renderer in a mode the combos offer, and in
    MULTI whenever DEFERRED. *)
Lemma app_step_mode_ok a ev a' :
  app_step a ev = inr a' -> mode_ok (w_r (a_world a)) -> mode_ok (w_r (a_world a')).
Proof.
  unfold app_step, run_world. destruct ev as [q|m|lm|k|b|fuel cam].
  - destruct (onQualityChanged q _) as [|[[] w']] eqn:E; [discriminate|]. intros [= <-].
    apply onQualityChanged_modes in E as [E1 E2]. unfold mode_ok. cbn. by rewrite E1, E2.
  - case_decide as Hm; [|by intros [= <-]]. unfold onRenderModeChanged.
    destruct (decide (m = DEFERRED)) as [->|Hn]; cbn; intros [= <-]; unfold mode_ok; cbn;
      [set_solver|]. intros (_ & Hl & _). split; [done|]. split; [done|]. by intros ->.
  - case_decide as Hg; [|by intros [= <-]]. destruct Hg as [Hf Hlm]. unfold onLightModeChanged. do 2 mstep.
    cbn [w_r set_r set_light_mode with_config r_atlas].
    intros Hrun _. unfold mode_ok.
    destruct (_ || _), (r_atlas (w_r (a_world a))); cbn in Hrun; simplify_eq; cbn; rewrite Hf;
      (split; [set_solver|]); (split; [done|]); discriminate.
  - intros [= <-]. destruct k; cbn; [done|done| |done..]. by case_bool_decide.
  - by intros [= <-].
  - destruct (fetchSceneEntities _ _ _ _ _ _ _) as [|[[] w']] eqn:E; [discriminate|]. intros [= <-].
    apply fetch_config in E. unfold config in E. injection E as E1 E2 _ _ _.
    unfold mode_ok. cbn. by rewrite E1, E2.
Qed.

Lemma app_run_reachable a evs a' : reachable a -> app_run a evs = inr a' -> reachable a'.
Proof.
  revert a. induction evs as [|ev evs IH]; intros a Ha; cbn; [by intros [= <-]|].
  destruct (app_step a ev) as [|a1] eqn:E; [discriminate|]. apply IH. by eapply reach_step.
Qed.

End AppProofs.

Section AppTheorems.
Context `{Geometry} `{!CallSorter}.

(** C21. When every light the quality loop visits is a light, and each spot
    or directional one owns a shadow map, picking quality [q] succeeds: the
    quality becomes [q], the lights in DEFERRED mode get the directional
    light appended, the atlas is released, and exactly the spot and
    directional lights in that list get a new shadow map of side
    [1024 * 2^q]; every other entity, and so every light the fetch left out
    of [lights], keeps its shadow map. *)
Theorem onQualityChanged_spec q w :
  Forall (regen_ok w) (quality_lights (w_r w)) ->
  exists w', onQualityChanged q w = inr (tt, w') /\
    w_quality w' = q /\ r_lights (w_r w') = quality_lights (w_r w) /\ r_atlas (w_r w') = None /\
    scn_entities (w_scene w') = imap (regen_sel q (quality_lights (w_r w))) (scn_entities (w_scene w)).
Proof.
  intros Hok. unfold onQualityChanged, quality_lights in *.
  do 2 mstep. cbn [w_r set_quality].
  destruct (decide (r_render_mode (w_r w) = DEFERRED)); do 2 mstep.
  all: match goal with |- context [mbind (mfor_each ?xs _) _ ?s0] =>
         destruct (regen_loop q w xs [] s0) as (s1 & H1 & Hs1 & Hr1 & Hq1) end;
       [cbn; rewrite ?app_nil_r in *; done|cbn; by rewrite imap_regen_sel_nil|].
  all: mrun H1; destruct (drop_atlas_spec s1) as (s2 & H2 & Ha & Hl & Hsc & Hq2); rewrite H2.
  all: eexists; split; [done|]; rewrite Hq2, Hq1, Ha, Hl, Hr1, Hsc, Hs1; cbn; rewrite ?app_nil_r.
  all: split; [done|]; split; [done|]; split; [done|]; apply regen_sel_ext; intros x; rewrite ?app_nil_r, !list_elem_of_In, <- in_rev; done.
Qed.

(** C23. In DEFERRED mode with no directional light in view (the fetch
    leaves [directional_light] null), picking any quality appends the null
    pointer to [lights] and the loop dereferences it. *)
Theorem onQualityChanged_deferred_no_sun q w :
  r_render_mode (w_r w) = DEFERRED -> r_directional_light (w_r w) = PNull ->
  Forall (regen_ok w) (r_lights (w_r w)) ->
  onQualityChanged q w = inl (NullDeref "renderer->lights[i]").
Proof.
  intros Hm Hd Hok. unfold onQualityChanged. do 2 mstep. cbn [w_r set_quality].
  rewrite decide_True by done. do 2 mstep. cbn [w_r set_r set_lights with_lists r_lights].
  rewrite Hd. unfold mbind at 1. rewrite mfor_each_app.
  match goal with |- context [mbind (mfor_each ?xs _) _ ?s0] =>
    destruct (regen_loop q w xs [] s0) as (s1 & H1 & _) end; [done|cbn; by rewrite imap_regen_sel_nil|].
  unfold mbind. by rewrite H1.
Qed.

(** C22. The light-mode combo on every branch: picking MULTI when there is
    no atlas (the state of every run that never rendered in SINGLE mode)
    destroys the null atlas; otherwise the mode is set, the atlas is
    released, and nothing else changes. *)
Theorem onLightModeChanged_spec lm w :
  (lm = MULTI -> r_atlas (w_r w) = None ->
   onLightModeChanged lm w = inl (NullDeref "renderer->atlas")) /\
  (lm ≠ MULTI \/ is_Some (r_atlas (w_r w)) ->
   onLightModeChanged lm w =
     inr (tt, set_r (set_atlas None) (set_r (set_light_mode lm) w))).
Proof.
  unfold onLightModeChanged. split.
  - intros -> Ha. do 2 mstep. cbn. by rewrite Ha.
  - intros Hc. do 2 mstep. cbn [w_r set_r set_light_mode with_config r_atlas].
    destruct (r_atlas (w_r w)) eqn:Ha.
    + by rewrite orb_true_r.
    + destruct Hc as [Hc|[? [=]]]. rewrite bool_decide_false by done. cbn.
      f_equal. f_equal. unfold set_r. f_equal. unfold set_atlas, set_light_mode, with_config. cbn.
      by rewrite Ha.
Qed.

(** C20. In every state a run of user events and fetches reaches from the
    constructor, the renderer is in a render mode and a light mode the
    combos offer (never DEFERRED_ALPHA, never BRUH), and DEFERRED mode is
    always paired with MULTI lights: the light-mode combo that could break
    it is shown only in FORWARD mode. *)
Theorem reachable_mode_ok a : reachable a -> mode_ok (w_r (a_world a)).
Proof.
  induction 1 as [a (Hm & Hl & _)|a ev a' _ IH Hstep].
  - unfold mode_ok. rewrite Hm, Hl. set_solver.
  - by apply (app_step_mode_ok a ev a').
Qed.

(** C24. Key [1] selects a light of [lights] for the depth viewport
    ([depth_light < lights.size()]), but the fetch that opens the next frame
    rebuilds [lights] and leaves [depth_light] alone: when fewer lights
    survive the culling, [renderShadowmaps] (depth viewport, MULTI,
    FORWARD) reads [lights[depth_light]] past the end of the vector. *)
Theorem depth_light_stale fuel cam a w' :
  0 < length (r_lights (w_r (a_world a))) ->
  r_depth_light (w_r (a_world (onKeyDown SDLK_1 a))) < length (r_lights (w_r (a_world a))) /\
  (fetchSceneEntities fuel cam true true true true (a_world (onKeyDown SDLK_1 a)) = inr (tt, w') ->
   r_depth_viewport (w_r (a_world a)) = true -> r_light_mode (w_r (a_world a)) = MULTI ->
   r_render_mode (w_r (a_world a)) = FORWARD ->
   r_lights (w_r w') ≠ [] -> length (r_lights (w_r w')) <= r_depth_light (w_r (a_world (onKeyDown SDLK_1 a))) ->
   renderShadowmaps w' = inl (OutOfBounds "lights[depth_light]")).
Proof.
  intros Hn. cbn [onKeyDown]. rewrite bool_decide_true by done. split.
  - cbn. apply Nat.mod_upper_bound. lia.
  - intros Hf Hv Hl Hm Hne Hlen. apply fetch_config in Hf. unfold config in Hf. cbn in Hf.
    injection Hf as Em El Ed Ev _. unfold renderShadowmaps. mstep.
    rewrite bool_decide_true by done. rewrite Ev, El, Em, Hv, Hl, Hm. cbn.
    destruct (decide (FORWARD = DEFERRED)); [discriminate|].
    rewrite bool_decide_true by done. apply mbind_fail. do 2 mstep.
    unfold shadowmap_view. rewrite lookup_ge_None_2 by (rewrite Ed; cbn in Hlen; lia). done.
Qed.

Lemma app_step_render_mode a m :
  m ∈ combo_render_modes ->
  exists a', app_step a (EvRenderMode m) = inr a' /\ r_render_mode (w_r (a_world a')) = m /\
    r_light_mode (w_r (a_world a')) = if decide (m = DEFERRED) then MULTI else r_light_mode (w_r (a_world a)).
Proof.
  intros Hm. cbn [app_step]. rewrite decide_True by done. unfold run_world, onRenderModeChanged.
  destruct (decide (m = DEFERRED)); eexists; (split; [reflexivity|]); done.
Qed.

Lemma app_step_single a :
  r_render_mode (w_r (a_world a)) = FORWARD ->
  exists a', app_step a (EvLightMode SINGLE) = inr a' /\ r_render_mode (w_r (a_world a')) = FORWARD /\
    r_light_mode (w_r (a_world a')) = SINGLE.
Proof.
  intros Hm. cbn [app_step]. rewrite decide_True by (split; [done|set_solver]).
  unfold run_world, onLightModeChanged. do 2 mstep. cbn [w_r set_r set_light_mode with_config r_atlas].
  destruct (r_atlas (w_r (a_world a))); cbn; eexists; (split; [reflexivity|]); done.
Qed.

(** C31. Every configuration the invariant of [reachable_mode_ok] allows
    can be reached from any state by combo picks that never fault:
    DEFERRED/MULTI by one pick, FORWARD/MULTI through DEFERRED (whose
    handler resets the light mode), and FORWARD/SINGLE by a light-mode pick
    after that.  The detour is needed: picking MULTI directly in
    FORWARD/SINGLE faults when no atlas exists ([onLightModeChanged_spec]). *)
Theorem modes_controllable a rm lm :
  rm ∈ combo_render_modes -> lm ∈ combo_light_modes -> (rm = DEFERRED -> lm = MULTI) ->
  exists evs a', app_run a evs = inr a' /\
    r_render_mode (w_r (a_world a')) = rm /\ r_light_mode (w_r (a_world a')) = lm.
Proof.
  intros Hrm Hlm Hok.
  destruct (app_step_render_mode a DEFERRED) as (a1 & H1 & Hm1 & Hl1); [set_solver|].
  destruct (app_step_render_mode a1 FORWARD) as (a2 & H2 & Hm2 & Hl2); [set_solver|].
  destruct (app_step_single a2 Hm2) as (a3 & H3 & Hm3 & Hl3).
  unfold combo_render_modes, combo_light_modes in *.
  destruct (decide (rm = DEFERRED)) as [->|Hne].
  - rewrite (Hok eq_refl). exists [EvRenderMode DEFERRED], a1. cbn [app_run]. by rewrite H1.
  - assert (rm = FORWARD) as -> by set_solver.
    assert (lm = SINGLE \/ lm = MULTI) as [->| ->] by set_solver.
    + exists [EvRenderMode DEFERRED; EvRenderMode FORWARD; EvLightMode SINGLE], a3. cbn [app_run]. by rewrite H1, H2, H3.
    + exists [EvRenderMode DEFERRED; EvRenderMode FORWARD], a2. cbn [app_run]. rewrite H1, H2. split; [done|].
      split; [done|]. rewrite Hl2, Hl1. done.
Qed.

End AppTheorems.

(** ** Witnesses on the one-dimensional world *)

Definition ex_app (w : @World World1) : @App World1 :=
  {| a_world := w; a_render_debug := false; a_must_exit := false |}.

(** Two spot lights owning shadow maps and a point light; the fetch kept
    the first spot light and the point light in [lights]; an atlas exists. *)
Definition ex_quality_world : @World World1 :=
  set_r (set_atlas (Some 2048%Z))
    (ex_world_lights FORWARD MULTI
       [ex_light_entity SPOT 0 true true; ex_light_entity SPOT 50 true true;
        ex_light_entity POINT 3 true false] [PEnt 0; PEnt 2] 1 []).

Ltac regen_ok_solve :=
  match goal with |- Forall ?P ?l => let l' := eval vm_compute in l in change (Forall P l') end;
  repeat (constructor; [do 3 eexists; split; [reflexivity|];
                        intros Ht; first [eexists; reflexivity | destruct Ht as [Ht|Ht]; discriminate]|]);
  constructor.

Lemma onQualityChanged_spec_witness :
  exists w', onQualityChanged HIGH ex_quality_world = inr (tt, w') /\ r_atlas (w_r w') = None /\
    (l_shadow_fbo <$> omap light_of (scn_entities (w_scene w'))) = [Some 4096%Z; Some 1024%Z; None].
Proof.
  destruct (onQualityChanged_spec (H:=World1) HIGH ex_quality_world) as (w' & Hrun & _ & _ & Ha & He);
    [regen_ok_solve|].
  exists w'. split; [exact Hrun|]. split; [exact Ha|]. rewrite He. vm_compute. reflexivity.
Defined.

Lemma onQualityChanged_deferred_no_sun_witness :
  onQualityChanged MEDIUM (ex_world_lights DEFERRED MULTI [ex_light_entity SPOT 0 true true] [PEnt 0] 1 [])
    = inl (NullDeref "renderer->lights[i]").
Proof. apply (onQualityChanged_deferred_no_sun (H:=World1)); [reflexivity|reflexivity|regen_ok_solve]. Defined.

(** The renderer as the constructor leaves it. *)
Definition ex_app0 : @App World1 := ex_app (ex_world DEFERRED MULTI []).

Lemma onLightModeChanged_spec_witness :
  app_run ex_app0 [EvRenderMode FORWARD] = inr (ex_app (set_r (set_render_mode FORWARD) (ex_world DEFERRED MULTI []))) /\
  onLightModeChanged MULTI (set_r (set_render_mode FORWARD) (ex_world DEFERRED MULTI []))
    = inl (NullDeref "renderer->atlas").
Proof. split; [reflexivity|]. by apply (proj1 (onLightModeChanged_spec (H:=World1) MULTI _)). Defined.

Definition ex_events : list (@Event World1) :=
  [EvRenderMode FORWARD; EvLightMode SINGLE; EvQuality LOW; EvKey SDLK_2; EvFetch 1 cam1_default].

(** The state those events reach from the constructor. *)
Definition ex_reached : @App World1 :=
  Eval vm_compute in match app_run ex_app0 ex_events with inr a => a | inl _ => ex_app0 end.

Lemma reachable_mode_ok_witness :
  app_run ex_app0 ex_events = inr ex_reached /\
  r_light_mode (w_r (a_world ex_reached)) = SINGLE /\ mode_ok (w_r (a_world ex_reached)).
Proof.
  assert (Hrun : app_run ex_app0 ex_events = inr ex_reached) by (vm_refl).
  split; [exact Hrun|]. split; [vm_refl|].
  apply reachable_mode_ok, (app_run_reachable ex_app0 ex_events); [|exact Hrun].
  apply reach_init. repeat split.
Defined.

(** A camera that sees only [[-50, 50]]. *)
Definition ex_narrow_cam : Camera1 :=
  {| eye1 := vzero; lo1 := -50; hi1 := 50; left1 := -1; right1 := 1; vtx1 := 0; vty1 := 0 |}%Q.

(** Two point lights, at 0 and at 500; both in view of the default camera. *)
Definition ex_two_lights_app : @App World1 :=
  ex_app (ex_world FORWARD MULTI [ex_light_entity POINT 0 true false; ex_light_entity POINT 500 true false]).

(** The state after ticking the depth viewport and one frame seeing both
    lights, and the world after key [1] and the next frame's fetch through
    the narrow camera. *)
Definition ex_stale_app : @App World1 :=
  Eval vm_compute in
  match app_run ex_two_lights_app [EvDepthViewport true; @EvFetch World1 1 cam1_default] with
  | inr a => a | inl _ => ex_two_lights_app
  end.

Definition ex_stale_world : @World World1 :=
  Eval vm_compute in
  match fetchSceneEntities 1 ex_narrow_cam true true true true (a_world (onKeyDown SDLK_1 ex_stale_app)) with
  | inr (_, w) => w | inl _ => a_world ex_stale_app
  end.

Lemma depth_light_stale_witness :
  app_run ex_two_lights_app [EvDepthViewport true; @EvFetch World1 1 cam1_default] = inr ex_stale_app /\
  r_lights (w_r (a_world ex_stale_app)) = [PEnt 0; PEnt 1] /\
  fetchSceneEntities 1 ex_narrow_cam true true true true (a_world (onKeyDown SDLK_1 ex_stale_app))
    = inr (tt, ex_stale_world) /\
  renderShadowmaps ex_stale_world = inl (OutOfBounds "lights[depth_light]").
Proof.
  split; [vm_refl|]. split; [vm_refl|].
  split; [vm_refl|].
  apply (proj2 (depth_light_stale (H:=World1) 1 ex_narrow_cam ex_stale_app ex_stale_world
                  ltac:(vm_compute; auto)));
    [vm_refl..|vm_compute; discriminate|vm_compute; auto].
Defined.

(** From FORWARD/SINGLE without an atlas, FORWARD/MULTI is reached by the
    detour through DEFERRED. *)
Lemma modes_controllable_witness :
  exists evs a', app_run (ex_app (ex_world FORWARD SINGLE [])) evs = inr a' /\
    r_render_mode (w_r (a_world a')) = FORWARD /\ r_light_mode (w_r (a_world a')) = MULTI.
Proof. apply (modes_controllable (H:=World1)); [set_solver|set_solver|discriminate]. Defined.
