(* ===== verification/Frame.v ===== *)
(** * One frame: [Renderer::renderScene] and [Renderer::renderToFBO]

    [renderScene] (renderer.cpp:473-513) clears the screen, runs the fetch
    ([Fetch.fetchSceneEntities] with every part on), the shadow pass of the
    light mode ([Shadows.renderShadows]) and then the pipeline of the render
    mode: the forward [Shading.renderCalls] inside [illumination_fbo], or
    [Deferred.renderDeferred].  [renderToFBO] (277-411) is the frame the
    application draws ([Application::render], application.cpp:115): the
    scene, the post-processing chain ([PostFX.renderPostFX], which also
    records [prev_vp]), the G-buffer debug view [showGbuffers] (1330-1380)
    and the shadow-map debug views ([Application.renderShadowmaps]).

    [Texture::toViewport(shader)] is [GL.to_viewport] as everywhere else:
    the texture drawn with the program bound at that point; the framework's
    own [screen] shader is [PostFX.to_viewport_screen].

    Theorem: [renderToFBO_volumetric_no_sun], every frame in DEFERRED mode
    with the volumetric pass on faults when the scene has no visible
    directional light: the fetch leaves [directional_light] null, no pass
    before the volumetric one sets it, and that pass dereferences it. *)

From S2P Require Import Prelude Enums Geometry RenderCall GL Scene Traversal Renderer Fetch Shadows Shading PostFX Deferred Application.

Section FrameModel.
Context `{Geometry} `{!CallSorter}.

(** [width * 0.5] passed to [glViewport]'s [GLint]: truncated. *)
Definition half (z : Z) : Z := Z.quot z 2.

(** [Renderer::showGbuffers] (renderer.cpp:1330-1380): four quarter-screen
    views, of the material channels with [show_omr] and of bloom, normals,
    extra and depth otherwise. *)
Definition showGbuffers (cam : Camera) : M World unit :=
  w <- mget ;;
  let r := w_r w in
  let wd := w_width w in
  let ht := w_height w in
  emit (if r_show_omr r then
          [Viewport 0 0 (half wd) (half ht)] ++ to_viewport (TexGBuffer 2) ++
          [Viewport (half wd) (half ht) (half wd) (half ht)] ++ to_viewport (TexGBuffer 1) ++
          [Viewport 0 (half ht) (half wd) (half ht)] ++ to_viewport (TexGBuffer 0) ++
          [Viewport (half wd) 0 (half wd) (half ht)] ++
          (if r_activate_ssao r then to_viewport_screen (if r_ssao_blur r then TexSSAO 1 else TexSSAO 0)
           else [])
        else
          [ShaderOn "hdr"; Uniform "u_hdr" (UBool false);
           Viewport 0 0 (half wd) (half ht)] ++ to_viewport TexBloom ++
          [Viewport (half wd) (half ht) (half wd) (half ht)] ++ to_viewport (TexGBuffer 1) ++
          [Viewport (half wd) 0 (half wd) (half ht)] ++ to_viewport_screen (TexGBuffer 2) ++
          [Viewport 0 (half ht) (half wd) (half ht); ShaderOn "depth";
           Uniform "u_camera_nearfar" (UVec2 (cam_near cam) (cam_far cam))] ++
          to_viewport TexIllumDepth).

(** [Renderer::renderScene]; [fuel] bounds the prefab traversal of the
    fetch. *)
Definition renderScene (fuel : nat) (cam : Camera) : M World unit :=
  emit [Clear true true] ;;;
  fetchSceneEntities fuel cam true true true true ;;;
  renderShadows ;;;
  w <- mget ;;
  match r_render_mode (w_r w) with
  | FORWARD =>
      emit [Bind FboIllum] ;;;
      renderCalls (r_calls (w_r w)) cam FORWARD ;;;
      emit [Unbind FboIllum; Disable CAP_BLEND; Disable CAP_DEPTH_TEST]
  | DEFERRED => renderDeferred (r_calls (w_r w)) cam
  | DEFERRED_ALPHA => mret tt
  end.

(** [Renderer::renderToFBO]; [time] is [getTime()]. *)
Definition renderToFBO (fuel : nat) (cam : Camera) (time : Q) : M World unit :=
  renderScene fuel cam ;;;
  renderPostFX cam time ;;;
  w <- mget ;;
  (if bool_decide (r_render_mode (w_r w) = DEFERRED) && r_show_gbuffers (w_r w) then showGbuffers cam
   else mret tt) ;;;
  renderShadowmaps.

End FrameModel.

Section FrameProofs.
Context `{Geometry} `{!CallSorter}.

(** What the volumetric pass and the pipeline choice read. *)
Definition frame_fields (r : Renderer) : eRenderMode * (bool * Ptr) := (r_render_mode r, vol_fields r).

Lemma mpres_atlas_loop c ls : mpres (r_agree frame_fields) (atlas_loop c ls).
Proof.
  revert c. induction ls as [|p ls IH]; intros c; cbn; [apply (mpres_ret (r_agree frame_fields))|].
  unfold atlas_light. mpres_solve.
Qed.
#[local] Hint Resolve mpres_atlas_loop : mpres.

(** The shadow pass writes the lights' cameras and the atlas, never the
    render mode, the volumetric flag or the directional light. *)
Lemma mpres_renderShadows : mpres (r_agree frame_fields) renderShadows.
Proof. unfold renderShadows, shadowMapping, renderToAtlas. mpres_solve. Qed.

(** No visible directional light: the fetch leaves [directional_light]
    null. *)
Lemma spec_directional_none mode xs :
  Forall (fun ie => directional_light_of ie.2 = false) xs -> spec_directional mode PNull xs = PNull.
Proof.
  intros Hxs. unfold spec_directional. destruct (decide _); [|done].
  assert (filter (fun ie => directional_light_of ie.2 = true) xs = []) as ->; [|done].
  induction Hxs as [|x xs Hx _ IH]; [done|]. rewrite filter_cons_False; [done|]. by rewrite Hx.
Qed.

Lemma enumerate_Forall {A} (P : A -> Prop) xs : Forall P xs -> Forall (fun ie => P ie.2) (enumerate xs).
Proof.
  rewrite !Forall_forall. intros HP [i x] Hix%enumerate_lookup. apply HP. by eapply list_elem_of_lookup_2.
Qed.

(** C27. In DEFERRED mode with the volumetric pass on, a frame of a scene
    without a visible directional light never completes: the fetch leaves
    [directional_light] null, neither it nor the shadow pass nor the
    deferred passes before the volumetric one change the mode, the flag or
    the pointer, and [volumetricDirectional] dereferences it.  (Unless an
    earlier stage faults first.) *)
Theorem renderToFBO_volumetric_no_sun fuel cam time w :
  r_render_mode (w_r w) = DEFERRED -> r_volumetric (w_r w) = true ->
  Forall (fun e => directional_light_of e = false) (scn_entities (w_scene w)) ->
  exists f, renderToFBO fuel cam time w = inl f.
Proof.
  intros Hm Hv Hnd. unfold renderToFBO.
  enough (exists f, renderScene fuel cam w = inl f) as [f Hf] by (exists f; by apply mbind_fail).
  unfold renderScene. mstep.
  destruct (fetchSceneEntities fuel cam true true true true (emitted w [Clear true true]))
    as [f|[[] w2]] eqn:E; [exists f; by apply mbind_fail|]. rewrite (mbind_step _ _ _ _ _ E).
  destruct (fetch_light_fields _ _ _ _ _ _ _ E) as (_ & Hd & _). cbn [w_r w_scene emitted] in Hd.
  rewrite Hm, spec_directional_none in Hd by exact (enumerate_Forall (fun e => directional_light_of e = false) _ Hnd).
  pose proof (mpres_fetch_agree _ (fun r => (r_render_mode r, r_volumetric r)) (fun _ _ _ _ _ _ _ => eq_refl)
    _ _ _ _ _ _ _ _ _ E) as H2.
  apply (mbind_fault (r_agree frame_fields)); [exact mpres_renderShadows|]. intros _ w3 H3. mstep.
  unfold r_agree, frame_fields, vol_fields in H2, H3. cbn [w_r emitted] in H2.
  injection H2 as E1 E2. injection H3 as E3 E4 E5.
  assert (Hm3 : r_render_mode (w_r w3) = DEFERRED) by congruence.
  assert (Hv3 : r_volumetric (w_r w3) = true) by congruence.
  assert (Hd3 : r_directional_light (w_r w3) = PNull) by congruence.
  rewrite Hm3. by apply renderDeferred_volumetric_no_sun.
Qed.

End FrameProofs.

(** ** Witness *)

(** A scene with one spot light and no sun, in DEFERRED mode with the
    volumetric pass on. *)
Definition ex_frame_world : @World World1 :=
  let w := ex_deferred_world true false in
  {| w_r := w_r w; w_scene := ex_scene [ex_light_entity SPOT 5 true false]; w_nodes := ∅;
     w_quality := LOW; w_width := 800; w_height := 600; w_gl := [] |}.

Lemma renderToFBO_volumetric_no_sun_witness :
  (exists f, renderToFBO 0 cam1_default 0 ex_frame_world = inl f) /\
  renderToFBO 0 cam1_default 0 ex_frame_world = inl (NullDeref "directional_light").
Proof.
  split; [|vm_refl].
  apply (@renderToFBO_volumetric_no_sun World1 _); [reflexivity|reflexivity|repeat constructor].
Defined.
