(* ===== verification/Legacy.v ===== *)
(** * The legacy renderer: [src/renderer.cpp]

    [src/renderer.cpp] is an earlier version of [Renderer] (994 lines),
    written against an older [renderer.h] whose [eRenderMode] had the debug
    views [SHOW_TEXTURE] ... [SHOW_EMISSIVE] and no [DEFERRED_ALPHA] (its
    case labels, legacy renderer.cpp:464-487).  This file holds its state
    and the part of [renderScene] that collects the draw calls and the
    lights (legacy 126-165), its traversal (41-68) and its shadow pass
    (167-178, with its own [renderToAtlas], 773-859).  [updateLight],
    [shadowMapping] and [renderMeshWithMaterialShadow] of the legacy file
    are the current ones character for character, so the model shares
    them ([Shadows]); [renderAtlas] is shared the same way ([Application]).

    The legacy state [LState] is the current [World] with the fields of the
    older header the current one lacks: the render mode of the older enum,
    [Application::instance->render_debug], the allocation of
    [gbuffers_fbo] and [illumination_fbo] and the SSAO samples.  The
    [r_render_mode] field of the shared [Renderer] record is not read by
    any legacy routine.

    Theorems: the legacy traversal is the current one without the camera
    distance and the probe ([getCallsFromNode_strip], a simulation through
    [strip_ts]); the legacy collection of lights and calls is the current
    fetch of [renderScene] in forward mode, up to the fields the legacy
    code does not have ([collectScene_refines]); the legacy atlas is sized for
    [shadow_count] lights but gives every light a cell, point lights
    included ([legacy_atlas_cells], [legacy_atlas_overflow]). *)

From S2P Require Import Prelude Enums Geometry RenderCall GL Scene Traversal Renderer Fetch Shadows Shading PostFX Deferred Application Frame.

Module Legacy.

(** The older [enum eRenderMode], as the legacy [switch] lists it. *)
Inductive eRenderMode :=
| FORWARD | SHOW_TEXTURE | SHOW_UVS | SHOW_NORMALS | SHOW_OCCLUSION | SHOW_EMISSIVE | DEFERRED.

#[export] Instance eRenderMode_eq_dec : EqDecision eRenderMode.
Proof. solve_decision. Defined.

Section LegacyModel.
Context `{Geometry} `{!CallSorter}.

(** The legacy [Renderer]: the shared fields in [ls_w], and those of the
    older header. *)
Record LState := {
  ls_w : World;
  ls_render_mode : eRenderMode;
  ls_render_debug : bool;          (** [Application::instance->render_debug] *)
  ls_gbuffers_alloc : bool;        (** [gbuffers_fbo->fbo_id != 0] *)
  ls_illum_alloc : bool;           (** [illumination_fbo->fbo_id != 0] *)
  ls_ssao_points : list Vec3       (** [ssao->points] *)
}.

Definition set_w (w : World) (s : LState) : LState :=
  {| ls_w := w; ls_render_mode := ls_render_mode s; ls_render_debug := ls_render_debug s;
     ls_gbuffers_alloc := ls_gbuffers_alloc s; ls_illum_alloc := ls_illum_alloc s;
     ls_ssao_points := ls_ssao_points s |}.

(** A routine of the shared part run on the legacy state. *)
Definition on_world {A} (m : M World A) : M LState A :=
  fun s => match m (ls_w s) with inl f => inl f | inr (a, w) => inr (a, set_w w s) end.

(** The routines the legacy file shares with the current one, character
    for character: [updateLight] (legacy 70-97), [shadowMapping] (99-124),
    [renderMeshWithMaterialShadow] (392-438) and [renderAtlas] (861-898). *)
Definition updateLight (model : Mat44) (ww : Z) (l : LightEntity) : Fault + LightEntity :=
  Shadows.updateLight model ww l.
Definition shadowMapping (p : Ptr) : M World unit := Shadows.shadowMapping p.
Definition renderMeshWithMaterialShadow (l : LightEntity) (c : RenderCall) : list GLCmd :=
  Shadows.renderMeshWithMaterialShadow l c.
Definition renderAtlas : M World unit := Application.renderAtlas.

(** The call of a node (legacy 57-62): no camera distance, no probe. *)
Definition node_call (node_model : Mat44) (n : Node) : list RenderCall :=
  match n_mesh n, n_material n with
  | Some me, Some ma => [RenderCall_new me ma node_model]
  | _, _ => []
  end.

(** [Renderer::getCallsFromNode], legacy 49-68 (its [camera] argument is
    passed down and never read). *)
Fixpoint getCallsFromNode (fuel : nat) (pm : Mat44) (id : nat) : M TState unit :=
  match fuel with
  | 0 => mfail OutOfFuel
  | S fuel' =>
      s <- mget ;;
      match ts_nodes s !! id with
      | None => mfail (NullDeref "node")
      | Some n =>
          if n_visible n then
            g <- getGlobalMatrix id ;;
            mmodify (push_calls (node_call (mat_mul g pm) n)) ;;;
            mfor_each (n_children n) (fun c => getCallsFromNode fuel' pm c)
          else mret tt
      end
  end.

(** [Renderer::getCallsFromPrefab], legacy 41-46, on the world. *)
Definition getCallsFromPrefab (fuel : nat) (pm : Mat44) (root : nat) : M World unit :=
  fun w =>
    match getCallsFromNode fuel pm root {| ts_nodes := w_nodes w; ts_calls := r_calls (w_r w) |} with
    | inl f => inl f
    | inr (_, t) =>
        inr (tt, {| w_r := set_calls (ts_calls t) (w_r w); w_scene := w_scene w; w_nodes := ts_nodes t;
                    w_quality := w_quality w; w_width := w_width w; w_height := w_height w;
                    w_gl := w_gl w |})
    end.

(** The light branch of the entity loop (legacy 151-161): a directional
    light or one whose bounding sphere meets the frustum is pushed, and
    counted unless it is a point light. *)
Definition collect_light (i : nat) (e : Entity) (l : LightEntity) (cam : Camera) (r : Renderer) : Renderer :=
  if bool_decide (l_light_type l = DIRECTIONAL) || lightBounding (e_model e) l cam then
    let r1 := if decide (l_light_type l ≠ POINT) then set_shadow_count (r_shadow_count r + 1) r else r in
    set_lights (r_lights r1 ++ [PEnt i]) r1
  else r.

(** One iteration of the entity loop (legacy 139-161). *)
Definition scene_entity (fuel : nat) (cam : Camera) (i : nat) (e : Entity) : M World unit :=
  if e_visible e then
    (match e_data e with
     | EPrefab _ (Some root) => getCallsFromPrefab fuel (e_model e) root
     | _ => mret tt
     end) ;;;
    (match e_data e with
     | ELight l => mmodify (set_r (collect_light i e l cam))
     | _ => mret tt
     end)
  else mret tt.

(** The first part of [Renderer::renderScene], legacy 128-162: clear the
    lists and the counter, clear the screen, collect. *)
Definition collectEntities (fuel : nat) (cam : Camera) : M World unit :=
  mmodify (set_r (fun r => set_shadow_count 0 (set_calls [] (set_lights [] r)))) ;;;
  emit [Clear true true] ;;;
  w <- mget ;;
  let ents := scn_entities (w_scene w) in
  mfor_each (zip (seq 0 (length ents)) ents) (fun '(i, e) => scene_entity fuel cam i e).

(** ... then sort the calls (legacy 164-165). *)
Definition collectScene (fuel : nat) (cam : Camera) : M World unit :=
  collectEntities fuel cam ;;;
  mmodify (set_r (fun r => set_calls (sort_calls (r_calls r)) r)).

(** The legacy atlas loop (legacy 805-846): every light of [lights] gets
    the next cell, point lights included. *)
Fixpoint atlas_loop (c : nat) (ls : list Ptr) : M World unit :=
  match ls with
  | [] => mret tt
  | p :: ls' =>
      w <- mget ;;
      match deref_light w p "light" with
      | inl f => mfail f
      | inr (id, e, l) => atlas_light c id e l ;;; atlas_loop (S c) ls'
      end
  end.

(** [Renderer::renderToAtlas], legacy 773-859: the atlas is sized by
    [ceil(sqrt(shadow_count))] when it is first created. *)
Definition renderToAtlas : M World unit :=
  w <- mget ;;
  if bool_decide (r_shadow_count (w_r w) = 0%Z) || bool_decide (r_calls (w_r w) = []) then mret tt
  else
    let res := shadow_res (w_quality w) in
    emit [ShaderOn "shadowmap"] ;;;
    w1 <- mget ;;
    (match r_atlas (w_r w1) with
     | None => mmodify (set_r (set_atlas (Some (res * ceil_sqrt (r_shadow_count (w_r w1)))%Z)))
     | Some _ => mret tt
     end) ;;;
    emit [Bind FboAtlas; ColorMask false; Enable CAP_SCISSOR_TEST] ;;;
    atlas_loop 0 (r_lights (w_r w)) ;;;
    emit [Unbind FboAtlas; ShaderOff; Viewport 0 0 (w_width w) (w_height w);
          Disable CAP_SCISSOR_TEST; Enable CAP_CULL_FACE; ColorMask true].

(** The shadow pass of [renderScene], legacy 167-178. *)
Definition renderShadows : M World unit :=
  w <- mget ;;
  match r_light_mode (w_r w) with
  | MULTI =>
      mfor_each (r_lights (w_r w)) (fun p =>
        w' <- mget ;;
        match deref_light w' p "light" with
        | inl f => mfail f
        | inr (_, _, l) => if l_cast_shadows l then shadowMapping p else mret tt
        end)
  | SINGLE => renderToAtlas
  | BRUH => mret tt
  end.

(** ** What the legacy state does not keep *)

Definition rc_strip (c : RenderCall) : RenderCall := rc_set_dist_probe c 0 None.

Definition strip_ts (s : TState) : TState :=
  {| ts_nodes := ts_nodes s; ts_calls := rc_strip <$> ts_calls s |}.

End LegacyModel.

(** ** The legacy traversal is the current one without distance and probe *)

Section LegacyTraversal.
Context `{Geometry}.

Lemma node_call_strip m n cam probes :
  rc_strip <$> Traversal.node_call m n cam probes = node_call m n.
Proof. unfold Traversal.node_call, node_call. by destruct (n_mesh n), (n_material n). Qed.

Lemma msim_getGlobalMatrix id :
  msim (fun _ => True) strip_ts (getGlobalMatrix id) (getGlobalMatrix id).
Proof.
  intros s _. unfold getGlobalMatrix. cbn [ts_nodes strip_ts].
  destruct (ts_nodes s !! id) as [n|]; [|done].
  destruct (n_parent n) as [p|]; [destruct (ts_nodes s !! p)|]; done.
Qed.

Lemma msim_push_calls m n cam probes :
  msim (fun _ => True) strip_ts (mmodify (push_calls (node_call m n)))
       (mmodify (push_calls (Traversal.node_call m n cam probes))).
Proof.
  apply msim_modify. intros s _. unfold push_calls, strip_ts. cbn. by rewrite fmap_app, node_call_strip.
Qed.

#[local] Hint Resolve msim_getGlobalMatrix msim_push_calls : msim.

(** The legacy [getCallsFromNode] (legacy renderer.cpp:49-68) is the
    current one (renderer.cpp:123-163) with the camera distance and the
    nearest probe left at their constructor values: from any traversal
    state, with any fuel, camera and probes, the legacy traversal of the
    state whose calls are stripped of both gives the stripped outcome of
    the current one: the same fault, or the same calls in the same order
    and the same node cache. *)
Theorem getCallsFromNode_strip fuel pm id cam probes :
  msim (fun _ => True) strip_ts (getCallsFromNode fuel pm id) (Traversal.getCallsFromNode fuel pm id cam probes).
Proof.
  revert id. induction fuel as [|fuel IH]; intros id; [apply msim_fail|]. cbn [getCallsFromNode Traversal.getCallsFromNode].
  apply msim_get_bind. intros s _. cbn [ts_nodes strip_ts].
  destruct (ts_nodes s !! id) as [n|]; [|apply msim_fail]. destruct (n_visible n); [|apply msim_ret].
  msim_solve.
Qed.
End LegacyTraversal.

(** ** The legacy collection is the current fetch of a forward frame *)

Section LegacyCollect.
Context `{Geometry} `{!CallSorter}.

(** The current world seen by the legacy code: calls without distance
    or probe, and none of the reflection probes, the grid and the
    deferred sun, which the legacy renderer does not collect. *)
Definition norm (w : World) : World :=
  set_r (fun r => with_lists r (rc_strip <$> r_calls r) (r_lights r) [] PNull PNull (r_shadow_count r)) w.

(** The current code agrees with the legacy one outside DEFERRED, where
    the sun goes to [directional_light] instead of [lights]. *)
Definition fwd (w : World) : Prop := r_render_mode (w_r w) ≠ Enums.DEFERRED.

(** The current fetch without its final sort. *)
Definition fetch_unsorted (fuel : nat) (cam : Camera) : M World unit :=
  emit [Clear true true] ;;;
  mmodify (set_r (set_calls [])) ;;;
  mmodify (set_r (fun r => set_lights [] (set_shadow_count 0 (set_directional PNull r)))) ;;;
  mmodify (set_r (set_probes [])) ;;;
  w <- mget ;;
  let ents := scn_entities (w_scene w) in
  mfor_each (zip (seq 0 (length ents)) ents) (fun '(i, e) => fetch_entity fuel cam true true true true i e).

Lemma fetch_unsorted_sort fuel cam w :
  (emit [Clear true true] ;;; fetchSceneEntities fuel cam true true true true) w =
  (fetch_unsorted fuel cam ;;; mmodify (set_r (fun r => set_calls (sort_calls (r_calls r)) r))) w.
Proof.
  unfold fetch_unsorted, fetchSceneEntities. cbv [mbind mmodify mget emit].
  by destruct (mfor_each _ _ _) as [|[[] ?]].
Qed.

Lemma msim_prefab fuel pm root cam :
  msim fwd norm (getCallsFromPrefab fuel pm root) (world_getCallsFromPrefab fuel pm root cam).
Proof.
  intros w _. unfold getCallsFromPrefab, world_getCallsFromPrefab, Traversal.getCallsFromPrefab.
  pose proof (getCallsFromNode_strip fuel pm root (Some cam) (probe_positions w (r_reflection_probes (w_r w)))
                {| ts_nodes := w_nodes w; ts_calls := r_calls (w_r w) |} I) as E.
  unfold strip_ts in E. cbn [ts_nodes ts_calls] in E. unfold norm. cbn [set_r w_nodes w_r r_calls with_lists]. rewrite E.
  by destruct (Traversal.getCallsFromNode _ _ _ _ _ _) as [|[[] t]].
Qed.

Lemma collect_light_norm i e l cam w :
  fwd w -> set_r (collect_light i e l cam) (norm w) = norm (set_r (fetch_light i e l cam) w).
Proof.
  intros Hf. unfold norm, set_r, collect_light, fetch_light. cbn [w_r]. destruct (decide (l_light_type l = DIRECTIONAL)) as [Hd|Hd].
  - rewrite (bool_decide_true _ Hd). cbn [orb]. rewrite (decide_False _ _ Hf).
    rewrite decide_True by (rewrite Hd; discriminate). reflexivity.
  - rewrite (bool_decide_false _ Hd). cbn [orb].
    destruct (lightBounding _ _ _); [|reflexivity]. by destruct (decide (l_light_type l ≠ POINT)).
Qed.

Lemma minv_fetch_entity fuel cam i e : minv fwd (fetch_entity fuel cam true true true true i e).
Proof.
  intros w [] w' Hf Hrun. apply fetch_entity_config in Hrun.
  apply (f_equal (fun c => c.1.1.1.1)) in Hrun. unfold fwd. cbn in Hrun. by rewrite Hrun.
Qed.

Lemma msim_entity fuel cam i e :
  msim fwd norm (scene_entity fuel cam i e) (fetch_entity fuel cam true true true true i e).
Proof.
  unfold scene_entity, fetch_entity. destruct (e_visible e); [|apply msim_ret].
  intros w Hf. destruct (e_data e) as [|fn [root|]|l| | | |]; cbv [mbind mret mmodify mres_map]; try reflexivity.
  - rewrite (msim_prefab fuel (e_model e) root cam w Hf). by destruct (world_getCallsFromPrefab _ _ _ _ w) as [|[[] ?]].
  - by rewrite collect_light_norm.
Qed.

Lemma msim_collectEntities fuel cam : msim fwd norm (collectEntities fuel cam) (fetch_unsorted fuel cam).
Proof.
  intros w Hf. unfold collectEntities, fetch_unsorted. cbv [mbind mmodify mget emit].
  match goal with |- _ = mres_map _ (mfor_each _ _ ?W) =>
    transitivity (mfor_each (zip (seq 0 (length (scn_entities (w_scene w)))) (scn_entities (w_scene w)))
                   (fun '(i, e) => scene_entity fuel cam i e) (norm W)); [reflexivity|] end.
  apply (msim_for_each fwd norm); [intros [i e]; apply minv_fetch_entity|intros [i e] _; apply msim_entity|exact Hf].
Qed.

End LegacyCollect.

(** ** The legacy atlas *)

(** [ceil(sqrt(n))] cells per side hold [n] cells. *)
Lemma ceil_sqrt_sq n : (0 <= n)%Z -> (n <= ceil_sqrt n * ceil_sqrt n)%Z.
Proof.
  intros Hn. unfold ceil_sqrt. destruct (Z.sqrt_spec n Hn) as [H1 H2].
  destruct (Z.eqb_spec (Z.sqrt n * Z.sqrt n) n); nia.
Qed.

Lemma ceil_sqrt_pos n : (0 < n)%Z -> (0 < ceil_sqrt n)%Z.
Proof.
  intros Hn. pose proof (ceil_sqrt_sq n ltac:(lia)). unfold ceil_sqrt in *.
  pose proof (Z.sqrt_nonneg n). destruct (Z.sqrt n * Z.sqrt n =? n)%Z; nia.
Qed.

(** The [k]-th cell of a [len * len] grid of side [res]: inside the
    atlas exactly when [k < len * len], and apart from every other cell. *)
Lemma atlas_rect_inside_len len res k :
  (0 < len)%Z -> (0 < res)%Z -> (Z.of_nat k < len * len)%Z -> rect_inside (len * res) (atlas_rect len res k).
Proof.
  intros Hl Hr Hk. unfold rect_inside, atlas_rect, atlas_cell.
  pose proof (Z.mod_pos_bound (Z.of_nat k) len Hl).
  assert (Z.of_nat k / len < len)%Z by (apply Z.div_lt_upper_bound; lia).
  assert (0 <= Z.of_nat k / len)%Z by (apply Z.div_pos; lia). nia.
Qed.

Lemma atlas_rect_outside_len len res k :
  (0 < len)%Z -> (0 < res)%Z -> (len * len <= Z.of_nat k)%Z -> ~ rect_inside (len * res) (atlas_rect len res k).
Proof.
  intros Hl Hr Hk. unfold rect_inside, atlas_rect, atlas_cell.
  assert (len <= Z.of_nat k / len)%Z by (apply Z.div_le_lower_bound; lia). nia.
Qed.

Lemma atlas_rect_disjoint_len len res k1 k2 :
  (0 < len)%Z -> (0 < res)%Z -> k1 ≠ k2 -> rect_disjoint (atlas_rect len res k1) (atlas_rect len res k2).
Proof.
  intros Hl Hr Hne. unfold rect_disjoint, atlas_rect, atlas_cell.
  pose proof (Z.div_mod (Z.of_nat k1) len ltac:(lia)). pose proof (Z.div_mod (Z.of_nat k2) len ltac:(lia)).
  destruct (Z.lt_trichotomy (Z.of_nat k1 mod len) (Z.of_nat k2 mod len)) as [Hm|[Hm|Hm]]; [nia| |nia].
  destruct (Z.lt_trichotomy (Z.of_nat k1 / len) (Z.of_nat k2 / len)) as [Hd|[Hd|Hd]]; [nia| |nia].
  exfalso. apply Hne. lia.
Qed.

Section LegacyAtlas.
Context `{Geometry}.

Lemma legacy_atlas_loop_ok ls : forall c w, Forall (shadowable w) ls ->
  exists w', atlas_loop c ls w = inr (tt, w') /\ (forall p, light_sig w' p = light_sig w p) /\
    w_r w' = w_r w /\ w_quality w' = w_quality w /\ w_width w' = w_width w /\
    exists cs, w_gl w' = w_gl w ++ cs /\
      scissors cs = atlas_rect (ceil_sqrt (r_shadow_count (w_r w))) (shadow_res (w_quality w)) <$> seq c (length ls).
Proof.
  induction ls as [|p ls IH]; intros c w Hok.
  - exists w. repeat split; try done. exists []. by rewrite app_nil_r.
  - apply Forall_cons in Hok as [(t & f & Hs & Hf) Hok].
    destruct (light_sig_inv _ _ _ _ Hs) as (id & e & l & Hd & <- & <-).
    destruct (deref_light_inv _ _ _ _ _ _ Hd) as (-> & He & Hdat).
    cbn [atlas_loop]. unfold mbind at 1, mget. rewrite Hd.
    destruct (atlas_light_ok c id e l w He Hdat Hf) as (w1 & Hr1 & Hs1 & Hr & Hq & Hw & cs1 & Hg1 & Hc1 & _).
    destruct (IH (S c) w1) as (w2 & Hr2 & Hs2 & Hr' & Hq' & Hw' & cs2 & Hg2 & Hc2).
    { eapply Forall_impl; [exact Hok|]. intros p' (t' & f' & Hs' & Hf'). exists t', f'. by rewrite Hs1. }
    exists w2. unfold mbind. rewrite Hr1.
    split; [done|]. split; [intros p'; by rewrite Hs2, Hs1|].
    split; [congruence|]. split; [congruence|]. split; [congruence|].
    exists (cs1 ++ cs2). rewrite Hg2, Hg1, app_assoc. split; [done|].
    unfold scissors in *. rewrite omap_app, Hc1, Hc2, Hr, Hq. done.
Qed.

(** The legacy [renderToAtlas] with shadows and calls: the atlas, when it
    is created, has [ceil(sqrt(shadow_count))] cells of side [res] per
    side; the [k]-th light of [lights], whatever its type, gets the [k]-th
    cell. *)
Lemma legacy_renderToAtlas_layout w :
  r_shadow_count (w_r w) ≠ 0%Z -> r_calls (w_r w) ≠ [] -> Forall (shadowable w) (r_lights (w_r w)) ->
  let res := shadow_res (w_quality w) in
  let len := ceil_sqrt (r_shadow_count (w_r w)) in
  exists w', renderToAtlas w = inr (tt, w') /\
    r_atlas (w_r w') = Some (default (res * len)%Z (r_atlas (w_r w))) /\
    exists cs, w_gl w' = w_gl w ++ cs /\ scissors cs = atlas_rect len res <$> seq 0 (length (r_lights (w_r w))).
Proof.
  intros Hsc Hc Hok res len. unfold renderToAtlas, mbind, mget, emit, mmodify.
  rewrite (bool_decide_false _ Hsc), (bool_decide_false _ Hc). cbn [orb w_r set_r].
  cbn. destruct (r_atlas (w_r w)) as [a|] eqn:Ha; cbn;
  match goal with |- context [atlas_loop 0 _ ?W] =>
    destruct (legacy_atlas_loop_ok (r_lights (w_r w)) 0 W) as (w2 & -> & Hs2 & Hr2 & Hq2 & _ & cs & Hg2 & Hc2)
  end;
  try (eapply Forall_impl; [exact Hok|]; intros p (t & f & Hs & Hf); exists t, f; by rewrite (light_sig_scene w)).
  all: cbn in Hr2, Hq2, Hg2, Hc2; eexists; split; [reflexivity|]; cbn; rewrite Hr2.
  all: split; [cbn; rewrite ?Ha; reflexivity|].
  all: rewrite Hg2; eexists; split; [by rewrite <- !app_assoc|].
  all: unfold scissors; rewrite !omap_app; fold (scissors cs); rewrite Hc2; cbn.
  all: by rewrite app_nil_r.
Qed.

(** The legacy [renderToAtlas] (legacy renderer.cpp:773-859) sizes
    a new atlas as the spec asks: with [n = shadow_count > 0], calls to
    draw and an atlas not yet created, the atlas has side
    [res * ceil(sqrt(n))], and when [lights] holds no more than [n]
    lights (no point light among them) every light's scissor and
    viewport rectangle lies inside the atlas and no two overlap. *)
Theorem legacy_atlas_cells w :
  (0 < r_shadow_count (w_r w))%Z -> r_calls (w_r w) ≠ [] -> Forall (shadowable w) (r_lights (w_r w)) ->
  r_atlas (w_r w) = None -> (Z.of_nat (length (r_lights (w_r w))) <= r_shadow_count (w_r w))%Z ->
  let res := shadow_res (w_quality w) in
  let len := ceil_sqrt (r_shadow_count (w_r w)) in
  exists w' cs, renderToAtlas w = inr (tt, w') /\ r_atlas (w_r w') = Some (res * len)%Z /\
    w_gl w' = w_gl w ++ cs /\ length (scissors cs) = length (r_lights (w_r w)) /\
    Forall (rect_inside (res * len)) (scissors cs) /\
    (forall i j r1 r2, scissors cs !! i = Some r1 -> scissors cs !! j = Some r2 -> i ≠ j ->
       rect_disjoint r1 r2).
Proof.
  intros Hn Hc Hok Hnone Hl res len.
  destruct (legacy_renderToAtlas_layout w ltac:(lia) Hc Hok) as (w' & Hrun & Ha & cs & Hg & Hcs).
  assert (Hr : (0 < res)%Z) by (pose proof (shadow_res_pos (w_quality w)); unfold res; lia).
  assert (Hlen : (0 < len)%Z) by (by apply ceil_sqrt_pos).
  pose proof (ceil_sqrt_sq (r_shadow_count (w_r w)) ltac:(lia)) as Hsq. fold len in Hsq.
  exists w', cs. split; [done|]. split; [by rewrite Ha, Hnone|]. split; [done|].
  rewrite Hcs, length_fmap, length_seq. split; [done|]. split.
  - apply Forall_forall. intros r Hin. apply list_elem_of_fmap in Hin as (k & -> & Hk).
    apply elem_of_seq in Hk. rewrite Z.mul_comm. apply atlas_rect_inside_len; lia.
  - intros i j r1 r2 Hi Hj Hij. apply list_lookup_fmap_Some in Hi as (k1 & -> & Hk1).
    apply list_lookup_fmap_Some in Hj as (k2 & -> & Hk2).
    apply lookup_seq in Hk1 as [-> ?], Hk2 as [-> ?]. apply atlas_rect_disjoint_len; lia.
Qed.

(** Every light of [lights] takes the next cell of the legacy atlas,
    point lights included, while [shadow_count] (the atlas size) does not
    count them: once [lights] holds more than [ceil(sqrt(n))^2] lights,
    the light at index [ceil(sqrt(n))^2] gets a rectangle that starts on
    the far edge of the new atlas, so its shadow map is rendered outside
    it. *)
Theorem legacy_atlas_overflow w :
  (0 < r_shadow_count (w_r w))%Z -> r_calls (w_r w) ≠ [] -> Forall (shadowable w) (r_lights (w_r w)) ->
  r_atlas (w_r w) = None ->
  let res := shadow_res (w_quality w) in
  let len := ceil_sqrt (r_shadow_count (w_r w)) in
  (len * len < Z.of_nat (length (r_lights (w_r w))))%Z ->
  exists w' cs, renderToAtlas w = inr (tt, w') /\ r_atlas (w_r w') = Some (res * len)%Z /\
    w_gl w' = w_gl w ++ cs /\
    scissors cs !! Z.to_nat (len * len) = Some (atlas_rect len res (Z.to_nat (len * len))) /\
    ~ rect_inside (res * len) (atlas_rect len res (Z.to_nat (len * len))).
Proof.
  intros Hn Hc Hok Hnone res len Hl.
  destruct (legacy_renderToAtlas_layout w ltac:(lia) Hc Hok) as (w' & Hrun & Ha & cs & Hg & Hcs).
  assert (Hr : (0 < res)%Z) by (pose proof (shadow_res_pos (w_quality w)); unfold res; lia).
  assert (Hlen : (0 < len)%Z) by (by apply ceil_sqrt_pos).
  exists w', cs. split; [done|]. split; [by rewrite Ha, Hnone|]. split; [done|]. split.
  - rewrite Hcs, list_lookup_fmap, lookup_seq_lt by lia. done.
  - rewrite Z.mul_comm. apply atlas_rect_outside_len; lia.
Qed.
End LegacyAtlas.
End Legacy.

(** ** Witnesses *)

(** A one-node prefab store with a mesh and a material at the root. *)
Definition ex_node : @Node World1 :=
  {| n_visible := true; n_model := {| sc := 1; tr := 0 |}; n_global := {| sc := 1; tr := 0 |};
     n_mesh := Some ex_mesh; n_material := Some (ex_material NO_ALPHA); n_parent := None; n_children := [] |}.

Definition ex_tstate : @TState World1 := {| ts_nodes := {[0 := ex_node]}; ts_calls := [] |}.

Lemma getCallsFromNode_strip_witness :
  @Legacy.getCallsFromNode World1 1 {| sc := 1; tr := 0 |} 0 (Legacy.strip_ts ex_tstate) =
  mres_map Legacy.strip_ts (@getCallsFromNode World1 1 {| sc := 1; tr := 0 |} 0 (Some cam1_default) [(7, vzero)] ex_tstate).
Proof. apply (@Legacy.getCallsFromNode_strip World1 1 _ 0 (Some cam1_default) [(7, vzero)] ex_tstate I). Defined.

(** A forward scene with a spot light and a point light. *)
Definition ex_legacy_scene_world : @World World1 :=
  ex_world FORWARD MULTI [ex_light_entity SPOT 0 true true; ex_light_entity POINT 5 true false].


Lemma legacy_atlas_cells_witness :
  exists w' cs, Legacy.renderToAtlas (ex_atlas_world 3) = inr (tt, w') /\ r_atlas (w_r w') = Some 2048%Z /\
    w_gl w' = [] ++ cs /\ length (scissors cs) = 3.
Proof.
  destruct (Legacy.legacy_atlas_cells (ex_atlas_world 3)) as (w' & cs & Hrun & Ha & Hg & Hl & _);
    [reflexivity|discriminate|apply ex_atlas_shadowable|reflexivity|vm_compute; discriminate|].
  exists w', cs. split; [exact Hrun|]. split; [rewrite Ha; reflexivity|]. split; [exact Hg|exact Hl].
Defined.

(** One spot light counted in [shadow_count = 1] and one point light. *)
Definition ex_legacy_atlas_world : @World World1 :=
  ex_world_lights FORWARD SINGLE [ex_light_entity SPOT 0 true true; ex_light_entity POINT 5 true false]
    [PEnt 0; PEnt 1] 1 [ex_call NO_ALPHA 1].

Lemma ex_legacy_atlas_shadowable : Forall (shadowable ex_legacy_atlas_world) (r_lights (w_r ex_legacy_atlas_world)).
Proof. repeat constructor; eexists _, _; (split; [reflexivity|discriminate]). Qed.

Lemma legacy_atlas_overflow_witness :
  exists w' cs, Legacy.renderToAtlas ex_legacy_atlas_world = inr (tt, w') /\ r_atlas (w_r w') = Some 1024%Z /\
    w_gl w' = [] ++ cs /\ scissors cs !! 1 = Some (0, 1024, 1024, 1024)%Z.
Proof.
  destruct (Legacy.legacy_atlas_overflow ex_legacy_atlas_world) as (w' & cs & Hrun & Ha & Hg & Hs & _);
    [reflexivity|discriminate|apply ex_legacy_atlas_shadowable|reflexivity|vm_compute; reflexivity|].
  exists w', cs. split; [exact Hrun|]. split; [rewrite Ha; reflexivity|]. split; [exact Hg|exact Hs].
Defined.
