(* ===== verification/LegacyShading.v ===== *)
(** * The legacy renderer's shading: [src/renderer.cpp]

    [renderMeshWithMaterial] (legacy renderer.cpp:441-578),
    [renderMultiPass] (580-643), [renderSinglePass] (716-771),
    [renderMultiPassSphere] (645-714) and [renderForward] (208-222) of the
    legacy file, on its state [Legacy.LState].  They differ from the
    current ones ([Shading], [Deferred]) in what they upload: no gamma
    correction, no irradiance or reflection uniforms, the tone-mapping
    constants of the multi pass, and [u_metallic]/[u_roughness] zeroed
    when the material has no metallic-roughness texture.  The single pass
    fills the same 100-entry arrays with the same unchecked loop
    ([Shading.pack_lights]) and reads [atlas->depth_texture] whatever the
    shadow count, so it dereferences a null atlas when [renderToAtlas]
    never created one.

    This file holds definitions only; the theorems about them are in
    [LegacyFrame]: the light-volume loop draws one sphere per light
    ([legacy_deferred_pops]) and the single pass dereferences the null
    atlas ([legacy_single_null_atlas]). *)

From S2P Require Import Prelude Enums Geometry RenderCall GL Scene Traversal Renderer Fetch Shadows Shading PostFX Deferred Application Frame Legacy.

Module LegacyShading.
Import Legacy.

Section LegacyShadingModel.
Context `{Geometry}.

(** Submit commands from the legacy state. *)
Definition lemit (cs : list GLCmd) : M LState unit := on_world (emit cs).

(** The shader of a render mode and light mode (legacy 464-488); [None]
    is a [NULL] shader. *)
Definition shader_of (m : Legacy.eRenderMode) (lm : eLightMode) : option string :=
  match m with
  | Legacy.FORWARD => match lm with MULTI => Some "light_multi" | SINGLE => Some "light_single" | BRUH => None end
  | SHOW_TEXTURE => Some "texture"
  | SHOW_UVS => Some "uvs"
  | SHOW_NORMALS => Some "normals"
  | SHOW_OCCLUSION => Some "occlusion"
  | SHOW_EMISSIVE => Some "emissive"
  | Legacy.DEFERRED => Some "gbuffers"
  end.

(** The uniforms of [renderMeshWithMaterial] up to [u_alpha_cutoff]
    (legacy 493-534); a missing texture is replaced by the white one (the
    black one for normals) before it is uploaded. *)
Definition material_cmds (r : Renderer) (sc : Scene) (c : RenderCall) (cam : Camera) : list GLCmd :=
  let m := rc_material c in
  let mid := mesh_id (rc_mesh c) in
  let tex (b : bool) (slot : nat) (dflt : Tex) := if b then TexMaterial mid slot else dflt in
  [Uniform "u_viewprojection" (UMat (cam_viewproj cam));
   Uniform "u_camera_position" (UVec3 (cam_eye cam));
   Uniform "u_model" (UMat (rc_model c));
   Uniform "u_color" (UVec4 (mat_color m).1 (mat_color m).2);
   Uniform "u_emissive" (UVec3 (mat_emissive m));
   Uniform "u_ambient_light" (UVec3 (scn_ambient sc));
   Uniform "u_light_eq" (UInt (light_eq_code (r_light_eq r)))] ++
  (if mat_has_met_rough_texture m
   then [Uniform "u_metallic" (UFloat (mat_metallic m)); Uniform "u_roughness" (UFloat (mat_roughness m))]
   else [Uniform "u_metallic" (UFloat 0); Uniform "u_roughness" (UFloat 0)]) ++
  [Uniform "u_texture" (UTex (tex (mat_has_color_texture m) 0 TexWhite) 0);
   Uniform "u_texture_em" (UTex (tex (mat_has_emissive_texture m) 1 TexWhite) 1);
   Uniform "u_texture_metallic_roughness" (UTex (tex (mat_has_met_rough_texture m) 2 TexWhite) 2);
   Uniform "u_texture_normals" (UTex (tex (mat_has_normal_texture m) 3 TexBlack) 3);
   Uniform "u_alpha_cutoff" (UFloat (alpha_cutoff_of m))].

(** The shadow uniforms of a light (legacy 607-614, 680-687): the shadow
    map is read through [shadow_fbo]. *)
Definition light_shadow_cmds (id : nat) (l : LightEntity) (pcf : bool) : Fault + list GLCmd :=
  if l_cast_shadows l then
    match l_shadow_fbo l with
    | None => inl (NullDeref "light->shadow_fbo->depth_texture")
    | Some _ => inr [Uniform "shadowmap" (UTex (TexShadow id) 8);
                     Uniform "u_shadow_viewproj" (UMat (cam_viewproj (l_camera l)));
                     Uniform "u_pcf" (UBool pcf)]
    end
  else inr [].

(** The remaining light uniforms (legacy 632-638, 696-702). *)
Definition light_common_cmds (model : Mat44) (l : LightEntity) : list GLCmd :=
  [Uniform "u_shadows" (UBool (l_cast_shadows l));
   Uniform "u_light_position" (UVec3 (mat_translation model));
   Uniform "u_light_color" (UVec3 (l_color l));
   Uniform "u_light_maxdist" (UFloat (l_max_distance l));
   Uniform "u_light_type" (UInt (light_type_code (l_light_type l)));
   Uniform "u_light_intensity" (UFloat (l_intensity l));
   Uniform "u_shadow_bias" (UFloat (l_bias l))].

Definition spot_cmds (model : Mat44) (l : LightEntity) : list GLCmd :=
  [Uniform "u_light_cutoff" (UFloat (fcos_deg (l_cone_angle l)));
   Uniform "u_light_vector" (UVec3 (mat_front model));
   Uniform "u_light_exp" (UFloat (l_spot_exp l))].

(** The uniforms of one light of the multi-pass loop (legacy 606-638). *)
Definition multi_light_cmds (id : nat) (model : Mat44) (l : LightEntity) (pcf : bool) : Fault + list GLCmd :=
  match light_shadow_cmds id l pcf with
  | inl f => inl f
  | inr cs =>
      inr (cs ++ (match l_light_type l with
                  | SPOT => spot_cmds model l
                  | DIRECTIONAL => [Uniform "u_light_vector" (UVec3 (mat_front model))]
                  | _ => []
                  end) ++ light_common_cmds model l)
  end.

(** The state of pass [i > 0] (legacy 594-604). *)
Definition later_pass_cmds (m : Material) (mode : Legacy.eRenderMode) : list GLCmd :=
  (if decide (mat_alpha_mode m ≠ BLEND) then [Enable CAP_BLEND] else []) ++
  (if decide (mat_alpha_mode m = BLEND) then [BlendFunc GL_SRC_ALPHA GL_ONE] else []) ++
  [Uniform "u_ambient_light" (UVec3 vzero)] ++
  (if decide (mode = Legacy.DEFERRED)
   then [Uniform "u_emissive" (UBool false); Enable CAP_BLEND; BlendFunc GL_ONE GL_ONE]
   else [Uniform "u_emissive" (UVec3 vzero)]).

(** One pass of the loop: light [lights[i]]. *)
Definition multi_pass (me : Mesh) (m : Material) (ip : nat * Ptr) : M LState unit :=
  let '(i, p) := ip in
  s <- mget ;;
  let w := ls_w s in
  match deref_light w p "light" with
  | inl f => mfail f
  | inr (id, e, l) =>
      lemit (if decide (i = 0) then [] else later_pass_cmds m (ls_render_mode s)) ;;;
      on_world (emit_or_fail (multi_light_cmds id (e_model e) l (r_pcf (w_r w)))) ;;;
      lemit [Draw (DrawMesh (mesh_id me))]
  end.

(** [Renderer::renderMultiPass], legacy 580-643. *)
Definition renderMultiPass (me : Mesh) (m : Material) : M LState unit :=
  lemit [DepthFunc GL_LEQUAL; Uniform "u_scale" (UFloat 3); Uniform "u_average_lum" (UFloat 1);
         Uniform "u_lumwhite2" (UFloat 2); Uniform "u_igamma" (UFloat (3 # 2))] ;;;
  s <- mget ;;
  let ls := r_lights (w_r (ls_w s)) in
  mfor_each (zip (seq 0 (length ls)) ls) (multi_pass me m).

(** The arrays and scalars of [renderSinglePass] (legacy 736-768): the
    colours are uploaded as they are. *)
Definition single_pass_cmds (r : Renderer) (xs : list (nat * Entity * LightEntity)) : list GLCmd :=
  [Uniform "u_shadow_viewproj" (UMatArr ((fun x => cam_viewproj (l_camera x.2)) <$> xs));
   Uniform "u_light_position" (UVec3Arr ((fun x => mat_point (e_model x.1.2) vzero) <$> xs));
   Uniform "u_light_color" (UVec3Arr ((fun x => l_color x.2) <$> xs));
   Uniform "u_light_vector" (UVec3Arr ((fun x => mat_front (e_model x.1.2)) <$> xs));
   Uniform "u_light_uvs" (UVec3Arr ((fun x => l_uvs x.2) <$> xs));
   Uniform "u_light_maxdist" (UFloatArr ((fun x => l_max_distance x.2) <$> xs));
   Uniform "u_light_type" (UIntArr ((fun x => light_type_code (l_light_type x.2)) <$> xs));
   Uniform "u_light_intensity" (UFloatArr ((fun x => l_intensity x.2) <$> xs));
   Uniform "u_light_cutoff" (UFloatArr ((fun x => fcos_deg (l_cone_angle x.2)) <$> xs));
   Uniform "u_light_exp" (UFloatArr ((fun x => l_spot_exp x.2) <$> xs));
   Uniform "u_shadows" (UIntArr ((fun x => if l_cast_shadows x.2 then 1%Z else 0%Z) <$> xs));
   Uniform "u_shadow_bias" (UFloatArr ((fun x => l_bias x.2) <$> xs));
   Uniform "u_num_lights" (UInt (Z.of_nat (length (r_lights r))));
   Uniform "u_shadow_count" (UInt (r_shadow_count r));
   Uniform "u_pcf" (UBool (r_pcf r))].

(** [Renderer::renderSinglePass], legacy 716-771: [atlas->depth_texture]
    is read unconditionally. *)
Definition renderSinglePass (me : Mesh) : M World unit :=
  w <- mget ;;
  match pack_lights w 0 (r_lights (w_r w)) with
  | inl f => mfail f
  | inr xs =>
      emit (single_pass_cmds (w_r w) xs) ;;;
      match r_atlas (w_r w) with
      | Some _ => emit [Uniform "u_texture_atlas" (UTex TexAtlas 8); Draw (DrawMesh (mesh_id me))]
      | None => mfail (NullDeref "atlas->depth_texture")
      end
  end.

(** [Renderer::renderMeshWithMaterial], legacy 441-578. *)
Definition renderMeshWithMaterial (c : RenderCall) (cam : Camera) : M LState unit :=
  let me := rc_mesh c in
  let m := rc_material c in
  if bool_decide (mesh_num_vertices me = 0) then mret tt else
  lemit [cull_cmd m] ;;;
  s <- mget ;;
  let w := ls_w s in
  let r := w_r w in
  match shader_of (ls_render_mode s) (r_light_mode r) with
  | None => mret tt
  | Some sh =>
      lemit (ShaderOn sh :: material_cmds r (w_scene w) c cam) ;;;
      (if bool_decide (ls_render_mode s = Legacy.FORWARD /\ r_light_mode r = MULTI) then
         lemit (multi_blend_cmds m) ;;;
         (if bool_decide (r_lights r = []) then
            lemit [Uniform "u_light_type" (UInt (light_type_code NO_LIGHT)); Draw (DrawMesh (mesh_id me))]
          else renderMultiPass me m)
       else if bool_decide (ls_render_mode s = Legacy.FORWARD /\ r_light_mode r = SINGLE) then
         lemit (if decide (mat_alpha_mode m = BLEND)
                then [Enable CAP_BLEND; BlendFunc GL_SRC_ALPHA GL_ONE_MINUS_SRC_ALPHA] else []) ;;;
         on_world (renderSinglePass me)
       else lemit [Draw (DrawMesh (mesh_id me))]) ;;;
      lemit [ShaderOff; Disable CAP_BLEND; DepthFunc GL_LESS]
  end.

(** [Renderer::renderForward], legacy 208-222: every call in the camera
    frustum. *)
Definition renderForward (calls : list RenderCall) (cam : Camera) : M LState unit :=
  mfor_each calls (fun c => if call_in_frustum cam c then renderMeshWithMaterial c cam else mret tt).

(** One light volume of [renderMultiPassSphere] (legacy 660-709). *)
Definition sphere_pass (cam : Camera) (p : Ptr) : M World unit :=
  w <- mget ;;
  match deref_light w p "light" with
  | inl f => mfail f
  | inr (id, e, l) =>
      let md := l_max_distance l in
      emit [Uniform "u_viewprojection" (UMat (cam_viewproj cam));
            Uniform "u_model" (UMat (mat_scale3 (mat_translate mat_identity (mat_translation (e_model e)))
                                                (vec3 md md md)))] ;;;
      emit_or_fail (match light_shadow_cmds id l (r_pcf (w_r w)) with
                    | inl f => inl f
                    | inr cs => inr (cs ++ spot_cmds (e_model e) l ++ light_common_cmds (e_model e) l)
                    end) ;;;
      emit [FrontFaceCW true; Draw DrawSphere]
  end.

(** [Renderer::renderMultiPassSphere], legacy 645-714. *)
Definition renderMultiPassSphere (cam : Camera) : M World unit :=
  w <- mget ;;
  emit [Enable CAP_BLEND; BlendFunc GL_ONE GL_ONE; Enable CAP_CULL_FACE;
        Uniform "u_ambient_light" (UVec3 vzero); Uniform "u_emissive" (UBool false);
        Uniform "u_back" (UBool false); Uniform "u_light_eq" (UInt (light_eq_code (r_light_eq (w_r w))));
        Uniform "u_camera_position" (UVec3 (cam_eye cam))] ;;;
  mfor_each (r_lights (w_r w)) (sphere_pass cam) ;;;
  emit [ShaderOff; Disable CAP_DEPTH_TEST; Disable CAP_BLEND; FrontFaceCW false].

End LegacyShadingModel.
End LegacyShading.
