(* ===== verification/LegacyFrame.v ===== *)
(** * The legacy renderer's frame: [src/renderer.cpp]

    [renderScene] (legacy renderer.cpp:126-206) composed of the collection
    and shadow pass of [Legacy] and the passes of [LegacyShading]; the
    legacy [renderDeferred] (224-390) with its [SSAO::apply] (946-994) and
    [showGbuffers] (900-922); the constructors [Renderer::Renderer]
    (19-39) and [SSAO::SSAO] (936-944); and [CubemapFromHDRE] (924-934).

    [renderDeferred] lights the G-buffer with one full-screen pass for the
    last light of [lights], taken as the directional light whatever its
    type ([lights.back()], then [lights.pop_back()]), and one sphere per
    remaining light.  [lights.back()] of an empty vector is undefined
    behaviour: the model faults with [OutOfBounds].  In [renderScene], the
    call [drawGrid()] under [if (render_debug)] is commented out, so the
    [if] guards the next statement, the depth view of
    [lights[depth_light]].

    Theorems: [legacy_deferred_no_lights] (a deferred frame with no light
    faults), [legacy_deferred_pops] (the deferred pass removes the last
    light from [lights] and draws one sphere per remaining light) and
    [legacy_single_null_atlas] (a SINGLE frame without shadowed lights
    dereferences the atlas it never created).  They rest on [runs], a
    deferred pass that completes without drawing a light volume and
    without touching the mode, the lights or the scene. *)

From S2P Require Import Prelude Enums Geometry RenderCall GL Scene Traversal Renderer Fetch Shadows Shading PostFX Deferred Application Frame Legacy LegacyShading.

Module LegacyFrame.
Import Legacy LegacyShading.

Section LegacyFrameModel.
Context `{Geometry} `{!CallSorter}.

Definition lmodify (f : LState -> LState) : M LState unit := mmodify f.

Definition set_allocs (gb il : bool) (s : LState) : LState :=
  {| ls_w := ls_w s; ls_render_mode := ls_render_mode s; ls_render_debug := ls_render_debug s;
     ls_gbuffers_alloc := gb; ls_illum_alloc := il; ls_ssao_points := ls_ssao_points s |}.

(** [SSAO::apply], legacy 946-994: the depth texture gets nearest/linear
    filtering, then one pass into the FBO of [output]; the normal buffer
    is not read. *)
Definition ssao_apply (normal depth output : Tex) (cam : Camera) : M LState unit :=
  on_world (mmodify (set_r (fun r => set_fx (fx_filtered (r_fx r)) r))) ;;;
  s <- mget ;;
  let w := ls_w s in
  lemit [Bind (FboOf output); ShaderOn "ssao";
         Uniform "u_inverse_viewprojection" (UMat (mat_inverse (cam_viewproj cam)));
         Uniform "u_depth_texture" (UTex depth 0);
         Uniform "u_iRes" (UVec2 (1 / inject_Z (w_width w)) (1 / inject_Z (w_height w)));
         Uniform "u_viewprojection" (UMat (cam_viewproj cam));
         Uniform "u_points" (UVec3Arr (ls_ssao_points s)); Draw DrawQuad; Unbind (FboOf output)].

(** The G-buffer textures and the reconstruction uniforms both deferred
    shaders get (legacy 309-320, 363-372). *)
Definition gbuffer_uniforms (cam : Camera) (w : World) : list GLCmd :=
  [Uniform "u_color_texture" (UTex (TexGBuffer 0) 0); Uniform "u_normal_texture" (UTex (TexGBuffer 1) 1);
   Uniform "u_extra_texture" (UTex (TexGBuffer 2) 2); Uniform "u_emissive_texture" (UTex (TexGBuffer 3) 3);
   Uniform "u_depth_texture" (UTex TexGBufferDepth 4);
   Uniform "u_inverse_viewprojection" (UMat (mat_inverse (cam_viewproj cam)));
   Uniform "u_iRes" (UVec2 (1 / inject_Z (w_width w)) (1 / inject_Z (w_height w)))].

(** [Renderer::showGbuffers], legacy 900-922: three colour targets with
    the screen shader and the depth with the [depth] shader. *)
Definition showGbuffers (cam : Camera) : M World unit :=
  w <- mget ;;
  let wd := w_width w in
  let ht := w_height w in
  emit ([Viewport 0 0 (half wd) (half ht)] ++ to_viewport_screen (TexGBuffer 0) ++
        [Viewport (half wd) 0 (half wd) (half ht)] ++ to_viewport_screen (TexGBuffer 1) ++
        [Viewport (half wd) (half ht) (half wd) (half ht)] ++ to_viewport_screen (TexGBuffer 2) ++
        [Viewport 0 (half ht) (half wd) (half ht); ShaderOn "depth";
         Uniform "u_camera_nearfar" (UVec2 (cam_near cam) (cam_far cam))] ++
        to_viewport TexGBufferDepth ++ [ShaderOff]).

(** The full-screen pass of the last light (legacy 338-355). *)
Definition directional_cmds (id : nat) (e : Entity) (l : LightEntity) (pcf : bool) : list GLCmd :=
  [Uniform "shadowmap" (UTex (TexShadow id) 8);
   Uniform "u_shadow_viewproj" (UMat (cam_viewproj (l_camera l)));
   Uniform "u_pcf" (UBool pcf);
   Uniform "u_light_vector" (UVec3 (mat_front (e_model e)))] ++
  light_common_cmds (e_model e) l ++ [Draw DrawQuad].

(** What follows the first full-screen pass (legacy 358-389). *)
Definition deferred_spheres (cam : Camera) : M LState unit :=
  s <- mget ;;
  lemit ([ShaderOn "deferred_ws"] ++ gbuffer_uniforms cam (ls_w s) ++
         [Uniform "u_scale" (UFloat 50); Uniform "u_average_lum" (UFloat (35 # 10));
          Uniform "u_lumwhite2" (UFloat 7); Uniform "u_igamma" (UFloat (22 # 10))]) ;;;
  on_world (renderMultiPassSphere cam) ;;;
  lemit [Disable CAP_DEPTH_TEST; Disable CAP_BLEND] ;;;
  s1 <- mget ;;
  (if r_show_gbuffers (w_r (ls_w s1)) then on_world (showGbuffers cam) else mret tt) ;;;
  lemit (to_viewport_screen TexAO).

(** The G-buffer half of [Renderer::renderDeferred] (legacy 226-298):
    allocate, clear the targets, fill them with the calls in the frustum,
    compute the ambient occlusion. *)
Definition deferred_gbuffer (calls : list RenderCall) (cam : Camera) : M LState unit :=
  lmodify (set_allocs true true) ;;;
  lemit [Bind FboGBuffers; DrawBuffer (Some 0); Clear true true; DrawBuffer (Some 1); Clear true false;
         DrawBuffer (Some 2); Clear true false; DrawBuffer None] ;;;
  mfor_each calls (fun c => if call_in_frustum cam c then renderMeshWithMaterial c cam else mret tt) ;;;
  lemit [Unbind FboGBuffers; Clear true true; Disable CAP_DEPTH_TEST; Disable CAP_BLEND] ;;;
  ssao_apply (TexGBuffer 1) TexGBufferDepth TexAO cam.

(** The lighting half (legacy 301-389): the first full-screen pass, then
    [lights.back()] as the directional light, popped from [lights]. *)
Definition deferred_lighting (cam : Camera) : M LState unit :=
  s <- mget ;;
  let w := ls_w s in
  lemit ([ShaderOn "deferred_multi"] ++ gbuffer_uniforms cam w ++
         [Uniform "u_ambient_light" (UVec3 (scn_ambient (w_scene w))); Uniform "u_emissive" (UBool true);
          Uniform "u_back" (UBool true); Uniform "u_scale" (UFloat 3); Uniform "u_average_lum" (UFloat 1);
          Uniform "u_lumwhite2" (UFloat 2); Uniform "u_igamma" (UFloat (22 # 10)); Draw DrawQuad]) ;;;
  match last (r_lights (w_r w)) with
  | None => mfail (OutOfBounds "lights.back()")
  | Some p =>
      on_world (mmodify (set_r (fun r => set_lights (removelast (r_lights r)) r))) ;;;
      s1 <- mget ;;
      match deref_light (ls_w s1) p "directional" with
      | inl f => mfail f
      | inr (id, e, l) =>
          match l_shadow_fbo l with
          | None => mfail (NullDeref "directional->shadow_fbo->depth_texture")
          | Some _ =>
              lemit (directional_cmds id e l (r_pcf (w_r (ls_w s1)))) ;;;
              deferred_spheres cam
          end
      end
  end.

(** [Renderer::renderDeferred], legacy 224-390. *)
Definition renderDeferred (calls : list RenderCall) (cam : Camera) : M LState unit :=
  deferred_gbuffer calls cam ;;; deferred_lighting cam.

(** The depth view of [lights[depth_light]] (legacy 190-203). *)
Definition depth_view : M LState unit :=
  s <- mget ;;
  let w := ls_w s in
  let r := w_r w in
  match r_lights r !! r_depth_light r with
  | None => mfail (OutOfBounds "lights[depth_light]")
  | Some p =>
      match deref_light w p "light" with
      | inl f => mfail f
      | inr (id, e, l) =>
          lemit [Viewport 20 20 (Z.quot (w_width w) 4) (Z.quot (w_height w) 4); ShaderOn "depth";
                 Uniform "u_cam_type" (UInt (if decide (l_light_type l = DIRECTIONAL) then 0 else 1));
                 Uniform "u_camera_nearfar" (UVec2 (cam_near (l_camera l)) (cam_far (l_camera l)))] ;;;
          match l_shadow_fbo l with
          | None => mfail (NullDeref "light->shadow_fbo->depth_texture")
          | Some _ => lemit (to_viewport (TexShadow id))
          end
      end
  end.

(** The passes of [Renderer::renderScene] after the collection, legacy
    167-205.  The [if (render_debug)] of line 186 guards the depth view. *)
Definition renderPasses (cam : Camera) : M LState unit :=
  on_world renderShadows ;;;
  s <- mget ;;
  (if decide (ls_render_mode s = Legacy.FORWARD) then renderForward (r_calls (w_r (ls_w s))) cam
   else mret tt) ;;;
  s1 <- mget ;;
  (if decide (ls_render_mode s1 = Legacy.DEFERRED) then renderDeferred (r_calls (w_r (ls_w s1))) cam
   else mret tt) ;;;
  s2 <- mget ;;
  let r := w_r (ls_w s2) in
  (if ls_render_debug s2 then
     if bool_decide (r_lights r ≠ []) && r_depth_viewport r && bool_decide (r_light_mode r = MULTI)
     then depth_view else mret tt
   else mret tt) ;;;
  s3 <- mget ;;
  let r3 := w_r (ls_w s3) in
  if bool_decide (r_light_mode r3 = SINGLE) && r_depth_viewport r3 && bool_decide (0 < r_shadow_count r3)%Z
  then on_world Legacy.renderAtlas else mret tt.

(** [Renderer::renderScene], legacy 126-206; [fuel] bounds the prefab
    traversal. *)
Definition renderScene (fuel : nat) (cam : Camera) : M LState unit :=
  on_world (collectScene fuel cam) ;;; renderPasses cam.

(** [light_eq] and [pcf], which only the constructor assigns. *)
Definition set_light_eq_pcf (q : eLightEq) (p : bool) (r : Renderer) : Renderer :=
  {| r_render_mode := r_render_mode r; r_light_mode := r_light_mode r; r_light_eq := q;
     r_pcf := p; r_depth_viewport := r_depth_viewport r; r_dithering := r_dithering r;
     r_show_gbuffers := r_show_gbuffers r; r_show_omr := r_show_omr r; r_activate_ssao := r_activate_ssao r;
     r_hdr_active := r_hdr_active r; r_activate_irr := r_activate_irr r;
     r_irr_3lerp := r_irr_3lerp r; r_reflections := r_reflections r;
     r_show_probes := r_show_probes r; r_volumetric := r_volumetric r;
     r_show_reflection_probes := r_show_reflection_probes r; r_depth_light := r_depth_light r;
     r_shadow_count := r_shadow_count r; r_hdr_gamma := r_hdr_gamma r;
     r_blur_iterations := r_blur_iterations r; r_calls := r_calls r; r_lights := r_lights r;
     r_reflection_probes := r_reflection_probes r; r_grid := r_grid r;
     r_directional_light := r_directional_light r; r_probes_texture := r_probes_texture r;
     r_atlas := r_atlas r; r_ssao_blur := r_ssao_blur r;
     r_reflections_calculated := r_reflections_calculated r; r_fx := r_fx r |}.

(** [Renderer::Renderer], legacy 19-39, on the fields it assigns (the
    vectors start empty; [shadow_count] is left uninitialised and keeps
    whatever [w] holds); [pts] are the points of
    [generateSpherePoints(64, 1.0f, false)] (utils.cpp, not under src/)
    that [SSAO::SSAO] (936-944) stores.  [gbuffers_fbo] and
    [illumination_fbo] are created empty. *)
Definition Renderer_new (w : World) (debug : bool) (pts : list Vec3) : LState :=
  {| ls_w := set_r (fun r => set_atlas None (set_lights [] (set_calls []
               (set_light_eq_pcf PHONG false (with_config r (r_render_mode r) MULTI 0 false false (r_show_omr r)))))) w;
     ls_render_mode := Legacy.FORWARD; ls_render_debug := debug;
     ls_gbuffers_alloc := false; ls_illum_alloc := false; ls_ssao_points := pts |}.

(** [GTR::CubemapFromHDRE], legacy 924-934: the result is [NULL] whether
    or not the file loads; the second component says whether the [HDRE]
    object is leaked (it is deleted only when loading fails). *)
Definition CubemapFromHDRE (loads : bool) : option Tex * bool :=
  if loads then (None, true) else (None, false).

End LegacyFrameModel.

(** ** Runs of the deferred passes *)

Lemma elem_of_removelast {A} (l : list A) x : x ∈ removelast l -> x ∈ l.
Proof.
  induction l as [|a l IH]; [done|]. destruct l as [|b l]; [cbn; intros Hx; by apply elem_of_nil in Hx|].
  change (x ∈ a :: removelast (b :: l) -> x ∈ a :: b :: l). rewrite !elem_of_cons.
  intros [->|Hx]; [by left|right; apply elem_of_cons, IH, Hx].
Qed.

Lemma length_removelast {A} (l : list A) : length (removelast l) = length l - 1.
Proof. induction l as [|a l IH]; [done|]. destruct l as [|b l]; [done|]. cbn in *. lia. Qed.

Section LegacyRuns.
Context `{Geometry} `{!CallSorter}.

Definition is_sphere (c : GLCmd) : bool := match c with Draw DrawSphere => true | _ => false end.

(** The light volumes a command list draws. *)
Definition spheres (cs : list GLCmd) : nat := length (List.filter is_sphere cs).

Lemma spheres_app cs1 cs2 : spheres (cs1 ++ cs2) = spheres cs1 + spheres cs2.
Proof. unfold spheres. by rewrite List.filter_app, length_app. Qed.

(** A step of the legacy frame that keeps the render mode, the lights and
    the scene, and appends commands that draw no light volume. *)
Definition quiet (s s' : LState) : Prop :=
  ls_render_mode s' = ls_render_mode s /\ r_lights (w_r (ls_w s')) = r_lights (w_r (ls_w s)) /\
  w_scene (ls_w s') = w_scene (ls_w s) /\
  exists cs, w_gl (ls_w s') = w_gl (ls_w s) ++ cs /\ spheres cs = 0.

#[export] Instance quiet_preorder : PreOrder quiet.
Proof.
  split.
  - intros s. do 3 (split; [done|]). exists []. by rewrite app_nil_r.
  - intros s1 s2 s3 (E1 & L1 & S1 & cs1 & G1 & N1) (E2 & L2 & S2 & cs2 & G2 & N2).
    do 3 (split; [congruence|]). exists (cs1 ++ cs2). rewrite G2, G1, app_assoc, spheres_app. split; [done|lia].
Qed.

Lemma quiet_emit s cs : spheres cs = 0 -> quiet s (set_w (emitted (ls_w s) cs) s).
Proof. intros Hc. do 3 (split; [done|]). by exists cs. Qed.

(** A step that writes neither the mode, the lights, the scene nor the
    trace. *)
Lemma quiet_frame s s' :
  ls_render_mode s' = ls_render_mode s -> r_lights (w_r (ls_w s')) = r_lights (w_r (ls_w s)) ->
  w_scene (ls_w s') = w_scene (ls_w s) -> w_gl (ls_w s') = w_gl (ls_w s) -> quiet s s'.
Proof. intros E1 E2 E3 E4. do 3 (split; [done|]). exists []. by rewrite E4, app_nil_r. Qed.

(** In DEFERRED mode, [m] completes and is quiet. *)
Definition runs (m : M LState unit) : Prop :=
  forall s, ls_render_mode s = Legacy.DEFERRED -> exists s', m s = inr (tt, s') /\ quiet s s'.

Lemma runs_ret : runs (mret tt).
Proof. intros s _. exists s. split; [done|reflexivity]. Qed.

Lemma runs_lemit cs : spheres cs = 0 -> runs (lemit cs).
Proof. intros Hc s _. eexists. split; [reflexivity|]. by apply quiet_emit. Qed.

Lemma runs_bind m k : runs m -> runs k -> runs (m ;;; k).
Proof.
  intros Hm Hk s Hs. destruct (Hm s Hs) as (s1 & E1 & Q1).
  destruct (Hk s1) as (s2 & E2 & Q2); [by rewrite (proj1 Q1)|].
  exists s2. unfold mbind. rewrite E1. split; [done|]. by transitivity s1.
Qed.

Lemma runs_get k :
  (forall s, ls_render_mode s = Legacy.DEFERRED -> exists s', k s s = inr (tt, s') /\ quiet s s') ->
  runs (mbind mget k).
Proof. intros Hk s Hs. exact (Hk s Hs). Qed.

Lemma runs_for_each {X} (xs : list X) (b : X -> M LState unit) :
  (forall x, runs (b x)) -> runs (mfor_each xs b).
Proof. intros Hb. induction xs as [|x xs IH]; cbn; [apply runs_ret|]. by apply runs_bind. Qed.

(** A run's first step, peeled off a sequence. *)
Lemma runs_seq {B} m (k : unit -> M LState B) s :
  ls_render_mode s = Legacy.DEFERRED -> runs m -> exists s', quiet s s' /\ mbind m k s = k tt s'.
Proof. intros Hs Hm. destruct (Hm s Hs) as (s1 & E1 & Q1). exists s1. split; [done|]. unfold mbind. by rewrite E1. Qed.

(** Count the light volumes of a command list whose shape depends on
    booleans: split on the innermost tests first. *)
Ltac spheres_solve :=
  unfold spheres, cull_cmd; cbn;
  repeat (match goal with |- context [if ?b then _ else _] =>
            lazymatch b with context [if _ then _ else _] => fail | _ => destruct b end end; cbn);
  reflexivity.

Ltac runs_solve :=
  repeat match goal with
  | |- runs (mbind _ _) => apply runs_bind
  | |- runs (mfor_each _ _) => apply runs_for_each; intros ?
  | |- runs (lemit _) => apply runs_lemit; spheres_solve
  | |- runs (mret _) => apply runs_ret
  | |- runs (if ?b then _ else _) => destruct b
  end.

(** In DEFERRED mode a call only fills the G-buffer: [gbuffers] shader,
    material uniforms, one draw. *)
Lemma runs_renderMeshWithMaterial c cam : runs (renderMeshWithMaterial c cam).
Proof.
  unfold renderMeshWithMaterial. destruct (bool_decide _); [apply runs_ret|].
  apply runs_bind; [apply runs_lemit; spheres_solve|]. apply runs_get. intros s Hs. rewrite Hs. cbn [shader_of].
  rewrite !bool_decide_false by (intros [? _]; discriminate). cbv iota.
  assert (Hr : runs (lemit (ShaderOn "gbuffers" :: material_cmds (w_r (ls_w s)) (w_scene (ls_w s)) c cam) ;;;
                     lemit [Draw (DrawMesh (mesh_id (rc_mesh c)))] ;;; lemit [ShaderOff; Disable CAP_BLEND; DepthFunc GL_LESS]))
    by runs_solve.
  exact (Hr s Hs).
Qed.

Lemma runs_ssao_apply n d o cam : runs (ssao_apply n d o cam).
Proof.
  unfold ssao_apply. apply runs_bind.
  - intros s _. eexists. split; [reflexivity|]. by apply quiet_frame.
  - apply runs_get. intros s Hs. eexists. split; [reflexivity|]. by apply quiet_emit.
Qed.

Lemma runs_deferred_gbuffer calls cam : runs (deferred_gbuffer calls cam).
Proof.
  unfold deferred_gbuffer. apply runs_bind; [intros s Hs; eexists; split; [reflexivity|]; by apply quiet_frame|].
  runs_solve; auto using runs_renderMeshWithMaterial, runs_ssao_apply.
Qed.

(** The legacy [renderDeferred] (legacy renderer.cpp:224-390) takes
    [lights.back()] as the directional light without testing [lights]:
    in DEFERRED mode with no light in [lights], whatever the calls, the
    G-buffer and SSAO passes complete and the frame then reads the last
    element of an empty vector. *)
Theorem legacy_deferred_no_lights calls cam s :
  ls_render_mode s = Legacy.DEFERRED -> r_lights (w_r (ls_w s)) = [] ->
  renderDeferred calls cam s = inl (OutOfBounds "lights.back()").
Proof.
  intros Hm Hl. unfold renderDeferred.
  destruct (runs_seq _ (fun _ => deferred_lighting cam) s Hm (runs_deferred_gbuffer calls cam))
    as (s1 & (_ & L1 & _) & ->).
  unfold deferred_lighting. cbv [mbind mget lemit on_world emit mmodify]. by rewrite L1, Hl.
Qed.

(** A light whose pointer designates a light entity, with a shadow map
    when it casts shadows. *)
Definition light_ready (w : World) (p : Ptr) : Prop :=
  exists id e l, deref_light w p "light" = inr (id, e, l) /\ (l_cast_shadows l = true -> is_Some (l_shadow_fbo l)).

Lemma deref_light_scene w w' p what : w_scene w' = w_scene w -> deref_light w' p what = deref_light w p what.
Proof. intros E. unfold deref_light. by rewrite E. Qed.

Lemma light_ready_scene w w' p : w_scene w' = w_scene w -> light_ready w' p -> light_ready w p.
Proof. intros E (id & e & l & Hd & Hf). exists id, e, l. by rewrite <- (deref_light_scene w w' p _ E). Qed.

Lemma sphere_pass_run cam p w :
  light_ready w p -> exists cs, sphere_pass cam p w = inr (tt, emitted w cs) /\ spheres cs = 1.
Proof.
  intros (id & e & l & Hd & Hf). unfold sphere_pass. cbv [mbind mget emit mmodify emit_or_fail light_shadow_cmds].
  rewrite Hd. destruct (l_cast_shadows l) eqn:Hc; [destruct (Hf eq_refl) as [x ->]|];
    eexists; (split; [rewrite !emitted_app; reflexivity|spheres_solve]).
Qed.

Lemma sphere_loop_run cam ps : forall w, Forall (light_ready w) ps ->
  exists cs, mfor_each ps (sphere_pass cam) w = inr (tt, emitted w cs) /\ spheres cs = length ps.
Proof.
  induction ps as [|p ps IH]; intros w Hps.
  - exists []. by rewrite emitted_nil.
  - apply Forall_cons in Hps as [Hp Hps]. destruct (sphere_pass_run cam p w Hp) as (cs1 & E1 & N1).
    destruct (IH (emitted w cs1) Hps) as (cs2 & E2 & N2).
    exists (cs1 ++ cs2). cbn [mfor_each]. unfold mbind. rewrite E1, E2, emitted_app, spheres_app. split; [done|cbn; lia].
Qed.

(** The legacy [renderMultiPassSphere] draws one volume per light. *)
Lemma legacy_spheres_run cam w :
  Forall (light_ready w) (r_lights (w_r w)) ->
  exists cs, renderMultiPassSphere cam w = inr (tt, emitted w cs) /\ spheres cs = length (r_lights (w_r w)).
Proof.
  intros Hok. unfold renderMultiPassSphere. cbv [mbind mget emit mmodify].
  match goal with |- context [mfor_each ?ps (sphere_pass cam) ?W] =>
    destruct (sphere_loop_run cam ps W Hok) as (cs & -> & Hc) end.
  eexists. split; [rewrite !emitted_app; reflexivity|]. rewrite !spheres_app, Hc. cbn. lia.
Qed.

(** Count the volumes of a trace built by appending command lists. *)
Ltac spheres_simpl :=
  rewrite ?spheres_app;
  repeat match goal with |- context [spheres ?l] =>
    lazymatch l with
    | w_gl _ => fail
    | _ => let E := fresh in assert (E : spheres l = 0) by spheres_solve; rewrite E; clear E
    end
  end.

Lemma quiet_spheres s s' : quiet s s' -> spheres (w_gl (ls_w s')) = spheres (w_gl (ls_w s)).
Proof. intros (_ & _ & _ & cs & -> & Hc). rewrite spheres_app, Hc. lia. Qed.

(** The light volumes of the deferred pass and what follows them. *)
Lemma deferred_spheres_run cam s :
  Forall (light_ready (ls_w s)) (r_lights (w_r (ls_w s))) ->
  exists s', deferred_spheres cam s = inr (tt, s') /\ r_lights (w_r (ls_w s')) = r_lights (w_r (ls_w s)) /\
    spheres (w_gl (ls_w s')) = spheres (w_gl (ls_w s)) + length (r_lights (w_r (ls_w s))).
Proof.
  intros Hok. unfold deferred_spheres. cbv [mbind mget lemit on_world emit mmodify].
  match goal with |- context [renderMultiPassSphere cam ?W] =>
    destruct (legacy_spheres_run cam W Hok) as (cs & -> & Hc) end.
  unfold showGbuffers. cbv [mbind mget emit mmodify].
  destruct (r_show_gbuffers _); (eexists; split; [reflexivity|]; split; [reflexivity|]);
    cbn [set_w ls_w emitted w_gl w_r r_lights]; rewrite ?spheres_app, Hc; spheres_simpl; cbn [set_w ls_w emitted w_r]; lia.
Qed.

(** On a legacy deferred frame whose lights are all usable and
    whose last light has a shadow map, [renderDeferred] completes,
    removes that last light from [lights] (whatever its type: it is lit
    once as the directional light of the full-screen pass) and draws one
    light volume for each of the others, so the frame's later passes and
    the next frame see one light fewer. *)
Theorem legacy_deferred_pops calls cam s p id e l :
  ls_render_mode s = Legacy.DEFERRED -> Forall (light_ready (ls_w s)) (r_lights (w_r (ls_w s))) ->
  last (r_lights (w_r (ls_w s))) = Some p -> deref_light (ls_w s) p "light" = inr (id, e, l) ->
  is_Some (l_shadow_fbo l) ->
  exists s', renderDeferred calls cam s = inr (tt, s') /\
    r_lights (w_r (ls_w s')) = removelast (r_lights (w_r (ls_w s))) /\
    spheres (w_gl (ls_w s')) = spheres (w_gl (ls_w s)) + (length (r_lights (w_r (ls_w s))) - 1).
Proof.
  intros Hm Hok Hp Hd [x Hx]. unfold renderDeferred.
  destruct (runs_seq _ (fun _ => deferred_lighting cam) s Hm (runs_deferred_gbuffer calls cam))
    as (s1 & Q1 & ->). pose proof (quiet_spheres _ _ Q1) as N1. destruct Q1 as (M1 & L1 & S1 & _).
  unfold deferred_lighting. cbv [mbind mget lemit on_world emit mmodify]. rewrite L1, Hp.
  rewrite (deref_light_scene (ls_w s)) by exact S1. rewrite (deref_light_what _ _ "light" "directional" _ Hd), Hx.
  match goal with |- context [deferred_spheres cam ?S] => destruct (deferred_spheres_run cam S) as (s2 & -> & L2 & N2) end.
  - cbn [set_w ls_w set_r emitted w_r set_lights with_lists r_lights]. rewrite L1.
    apply Forall_forall. intros q Hq. apply (light_ready_scene _ (ls_w s)); [exact (eq_sym S1)|].
    apply (proj1 (Forall_forall _ _) Hok). by apply elem_of_removelast in Hq.
  - exists s2. split; [done|]. rewrite L2. cbn [set_w ls_w set_r emitted w_r set_lights with_lists r_lights w_gl].
    rewrite L1. split; [done|]. rewrite N2. cbn [set_w ls_w set_r emitted w_r set_lights with_lists r_lights w_gl].
    rewrite !spheres_app. spheres_simpl. rewrite L1, N1, length_removelast. lia.
Qed.
End LegacyRuns.

(** ** The single pass without an atlas *)

Section LegacySingle.
Context `{Geometry} `{!CallSorter}.

(** A mesh drawn in FORWARD/SINGLE mode before any atlas exists, with the
    light arrays in bounds, reads [atlas->depth_texture] through null. *)
Lemma legacy_mesh_null_atlas c cam s :
  ls_render_mode s = Legacy.FORWARD -> r_light_mode (w_r (ls_w s)) = SINGLE -> r_atlas (w_r (ls_w s)) = None ->
  Forall (fun p => exists x, deref_light (ls_w s) p "light" = inr x) (r_lights (w_r (ls_w s))) ->
  length (r_lights (w_r (ls_w s))) <= max_lights -> mesh_num_vertices (rc_mesh c) ≠ 0 ->
  renderMeshWithMaterial c cam s = inl (NullDeref "atlas->depth_texture").
Proof.
  intros Hm Hl Ha Hok Hn Hv. unfold renderMeshWithMaterial. rewrite bool_decide_false by done.
  cbv [mbind mget lemit on_world emit mmodify set_w emitted]. cbn [ls_render_mode ls_w w_r]. rewrite Hm, Hl. cbn [shader_of].
  rewrite bool_decide_false by (intros [_ ?]; discriminate). rewrite bool_decide_true by done.
  unfold renderSinglePass. cbv [mbind mget emit mmodify emitted].
  match goal with |- context [pack_lights ?W 0 ?ls] =>
    destruct (proj1 (pack_lights_spec W 0 ls Hok)) as (xs & -> & _); [cbn; lia|] end.
  cbn [w_r ls_w r_atlas]. by rewrite Ha.
Qed.

(** The forward pass after the shadow pass of such a frame faults on the
    first call in the frustum with a mesh. *)
Lemma legacy_forward_null_atlas calls cam s :
  ls_render_mode s = Legacy.FORWARD -> r_light_mode (w_r (ls_w s)) = SINGLE -> r_atlas (w_r (ls_w s)) = None ->
  Forall (fun p => exists x, deref_light (ls_w s) p "light" = inr x) (r_lights (w_r (ls_w s))) ->
  length (r_lights (w_r (ls_w s))) <= max_lights ->
  Exists (fun c => call_in_frustum cam c = true /\ mesh_num_vertices (rc_mesh c) ≠ 0) calls ->
  renderForward calls cam s = inl (NullDeref "atlas->depth_texture").
Proof.
  intros Hm Hl Ha Hok Hn Hex. unfold renderForward.
  induction Hex as [c l [Hf Hv]|c l Hex IH]; cbn [mfor_each]; unfold mbind.
  - rewrite Hf. by rewrite legacy_mesh_null_atlas.
  - destruct (call_in_frustum cam c) eqn:Hf; [|exact IH].
    destruct (decide (mesh_num_vertices (rc_mesh c) = 0)) as [Hv|Hv].
    + unfold renderMeshWithMaterial. rewrite bool_decide_true by done. exact IH.
    + by rewrite legacy_mesh_null_atlas.
Qed.

(** In the legacy renderer, SINGLE light mode with no light counted
    in [shadow_count] (only point lights, or none, in view) never creates
    the atlas: the shadow pass's [renderToAtlas] returns at once (legacy
    renderer.cpp:776), and the passes of [renderScene] then fault in
    [renderForward] at the first call in the frustum with a mesh, whose
    [renderSinglePass] reads [atlas->depth_texture] (line 767) through the
    null pointer. *)
Theorem legacy_single_null_atlas cam s :
  ls_render_mode s = Legacy.FORWARD -> r_light_mode (w_r (ls_w s)) = SINGLE ->
  r_shadow_count (w_r (ls_w s)) = 0%Z -> r_atlas (w_r (ls_w s)) = None ->
  Forall (fun p => exists x, deref_light (ls_w s) p "light" = inr x) (r_lights (w_r (ls_w s))) ->
  length (r_lights (w_r (ls_w s))) <= max_lights ->
  Exists (fun c => call_in_frustum cam c = true /\ mesh_num_vertices (rc_mesh c) ≠ 0) (r_calls (w_r (ls_w s))) ->
  renderPasses cam s = inl (NullDeref "atlas->depth_texture").
Proof.
  intros Hm Hl Hsc Ha Hok Hn Hex.
  assert (E : on_world renderShadows s = inr (tt, s)).
  { unfold on_world, renderShadows, renderToAtlas, mbind, mget. rewrite Hl, Hsc. cbn. by destruct s. }
  unfold renderPasses, mbind at 1. rewrite E. unfold mbind, mget. rewrite Hm, decide_True by done.
  by rewrite legacy_forward_null_atlas.
Qed.
End LegacySingle.
End LegacyFrame.

(** ** Witnesses *)

Definition ex_lstate (m : Legacy.eRenderMode) (w : @World World1) : @Legacy.LState World1 :=
  {| Legacy.ls_w := w; Legacy.ls_render_mode := m; Legacy.ls_render_debug := false;
     Legacy.ls_gbuffers_alloc := false; Legacy.ls_illum_alloc := false; Legacy.ls_ssao_points := [] |}.

Lemma legacy_deferred_no_lights_witness :
  LegacyFrame.renderDeferred [ex_call NO_ALPHA 1] cam1_default (ex_lstate Legacy.DEFERRED (ex_world FORWARD MULTI []))
    = inl (OutOfBounds "lights.back()").
Proof. apply (LegacyFrame.legacy_deferred_no_lights (H:=World1)); reflexivity. Defined.

(** Two shadow-casting spot lights in [lights]. *)
Definition ex_two_spots_world : @World World1 :=
  ex_world_lights FORWARD MULTI [ex_light_entity SPOT 0 true true; ex_light_entity SPOT 5 true true]
    [PEnt 0; PEnt 1] 2 [ex_call NO_ALPHA 1].

Lemma legacy_deferred_pops_witness :
  exists s', LegacyFrame.renderDeferred [ex_call NO_ALPHA 1] cam1_default (ex_lstate Legacy.DEFERRED ex_two_spots_world)
    = inr (tt, s') /\ r_lights (w_r (Legacy.ls_w s')) = [PEnt 0] /\ LegacyFrame.spheres (w_gl (Legacy.ls_w s')) = 1.
Proof.
  edestruct (LegacyFrame.legacy_deferred_pops (H:=World1) [ex_call NO_ALPHA 1] cam1_default
               (ex_lstate Legacy.DEFERRED ex_two_spots_world) (PEnt 1) 1) as (s' & Hrun & Hl & Hs);
    [reflexivity| |reflexivity|reflexivity|eexists; reflexivity|].
  - repeat constructor; (eexists _, _, _; split; [reflexivity|intros _; eexists; reflexivity]).
  - exists s'. split; [exact Hrun|]. split; [exact Hl|]. rewrite Hs. reflexivity.
Defined.

(** A point light only: [shadow_count] stays 0 and no atlas is made. *)
Definition ex_single_world : @World World1 :=
  ex_world_lights FORWARD SINGLE [ex_light_entity POINT 0 true false] [PEnt 0] 0 [ex_call NO_ALPHA 1].

Lemma legacy_single_null_atlas_witness :
  LegacyFrame.renderPasses cam1_default (ex_lstate Legacy.FORWARD ex_single_world)
    = inl (NullDeref "atlas->depth_texture").
Proof.
  apply (LegacyFrame.legacy_single_null_atlas (H:=World1)); try reflexivity.
  - repeat constructor. eexists. reflexivity.
  - vm_compute. lia.
  - constructor. split; [vm_compute; reflexivity|discriminate].
Defined.
