(* ===== verification/Resize.v ===== *)
(** * Window resize and the render targets: [Application::onResize]

    [Application::onResize] (src/src/application.cpp:510-577) stores the
    new window size and rebuilds the window-sized render targets of the
    renderer by hand: for each one, an explicit destructor call
    [x->~FBO()], a fresh [new FBO()] and [create] (or [setTextures]).
    The targets are created by [Renderer::Renderer]
    (src/src/renderer.cpp:62-111, with [SSAO::SSAO], 1441-1446) and the
    G-buffers and decal targets on the first deferred frame
    ([renderGBuffers], 196-210).

    This file models the lifetime of each render target as a [Slot]: a
    fresh [FBO] with [fbo_id == 0] ([SEmpty]), one with its textures
    ([SAlive], each texture with its size and pixel format), or an object
    whose destructor has been called ([SDestroyed]).  A member call on a
    destroyed object, reading [fbo_id] included, is the fault
    [UseAfterDestroy].  The window size is the [World]'s [w_width] and
    [w_height] ([Application::instance->window_width]); the camera's
    [aspect] is a field of the state.

    Theorems: [resize_faults] (from every state the program reaches,
    [onResize] calls [setTextures] on the [decals_fbo] it has just
    destroyed, since it is the one target not followed by [new FBO()])
    and [resize_targets_spec] (what the resize does to each target before
    that: the new size everywhere but the SSAO target, which keeps the
    constructor's size, and half-float illumination and albedo buffers
    where the constructor and [renderGBuffers] made 32-bit float ones). *)

From S2P Require Import Prelude Enums Geometry RenderCall GL Scene Traversal Renderer.

Module Resize.

(** The pixel formats of the code's [create] and [Texture] calls
    (format and type); [DEPTH_FBO] is the depth texture [FBO::create]
    adds (framework code, not under src/). *)
Inductive PixFmt :=
| RGBA_FLOAT | RGBA_HALF | RGBA_UBYTE | RGB_FLOAT | RGB_HALF | RGB_UBYTE
| LUMINANCE_UBYTE | DEPTH_UINT | DEPTH_FBO.

#[export] Instance PixFmt_eq_dec : EqDecision PixFmt.
Proof. solve_decision. Defined.

(** A texture: [new Texture(w, h, format, type)]. *)
Record TexDesc := mkTex { td_w : Z; td_h : Z; td_fmt : PixFmt }.

#[export] Instance TexDesc_eq_dec : EqDecision TexDesc.
Proof. solve_decision. Defined.

(** The object an [FBO*] member points to. *)
Inductive Slot :=
| SEmpty                                           (** [new FBO()]: [fbo_id == 0] *)
| SAlive (colors : list TexDesc) (depth : option TexDesc)
| SDestroyed.                                      (** after [->~FBO()] *)

#[export] Instance Slot_eq_dec : EqDecision Slot.
Proof. solve_decision. Defined.

(** The [FBO*] members of [Renderer] (renderer.h) and [SSAO]. *)
Inductive RT :=
| RT_gbuffers | RT_decals | RT_illumination | RT_illumination_blurred
| RT_irr | RT_reflections | RT_bloom | RT_ssao.

#[export] Instance RT_eq_dec : EqDecision RT.
Proof. solve_decision. Defined.

Definition rt_name (t : RT) : string :=
  match t with
  | RT_gbuffers => "gbuffers_fbo" | RT_decals => "decals_fbo"
  | RT_illumination => "illumination_fbo" | RT_illumination_blurred => "illumination_fbo_blurred"
  | RT_irr => "irr_fbo" | RT_reflections => "reflections_fbo" | RT_bloom => "bloom_fbo"
  | RT_ssao => "ssao->ssao_fbo"
  end.

(** The targets, and the [ping] and [pong] textures. *)
Record Targets := mkTargets {
  tg_gbuffers : Slot; tg_decals : Slot; tg_illumination : Slot; tg_illumination_blurred : Slot;
  tg_irr : Slot; tg_reflections : Slot; tg_bloom : Slot; tg_ssao : Slot;
  tg_ping : TexDesc; tg_pong : TexDesc
}.

Definition tg_slot (tg : Targets) (t : RT) : Slot :=
  match t with
  | RT_gbuffers => tg_gbuffers tg | RT_decals => tg_decals tg
  | RT_illumination => tg_illumination tg | RT_illumination_blurred => tg_illumination_blurred tg
  | RT_irr => tg_irr tg | RT_reflections => tg_reflections tg | RT_bloom => tg_bloom tg
  | RT_ssao => tg_ssao tg
  end.

Definition tg_update (t : RT) (v : Slot) (tg : Targets) : Targets :=
  let '(mkTargets g d i ib ir rf bl ss pi po) := tg in
  match t with
  | RT_gbuffers => mkTargets v d i ib ir rf bl ss pi po
  | RT_decals => mkTargets g v i ib ir rf bl ss pi po
  | RT_illumination => mkTargets g d v ib ir rf bl ss pi po
  | RT_illumination_blurred => mkTargets g d i v ir rf bl ss pi po
  | RT_irr => mkTargets g d i ib v rf bl ss pi po
  | RT_reflections => mkTargets g d i ib ir v bl ss pi po
  | RT_bloom => mkTargets g d i ib ir rf v ss pi po
  | RT_ssao => mkTargets g d i ib ir rf bl v pi po
  end.

(** The methods of [FBO] the code calls, on the object they are called
    on. *)
Definition fbo_destroy (what : string) (sl : Slot) : Fault + Slot :=
  match sl with SDestroyed => inl (UseAfterDestroy what) | _ => inr SDestroyed end.

Definition fbo_create (w h : Z) (n : nat) (fmt : PixFmt) (depth : bool) (what : string) (sl : Slot) : Fault + Slot :=
  match sl with
  | SDestroyed => inl (UseAfterDestroy what)
  | _ => inr (SAlive (repeat (mkTex w h fmt) n) (if depth then Some (mkTex w h DEPTH_FBO) else None))
  end.

Definition fbo_set_textures (cs : list TexDesc) (d : option TexDesc) (what : string) (sl : Slot) : Fault + Slot :=
  match sl with SDestroyed => inl (UseAfterDestroy what) | _ => inr (SAlive cs d) end.

(** [fbo->fbo_id != 0]. *)
Definition fbo_id_nonzero (what : string) (sl : Slot) : Fault + bool :=
  match sl with SDestroyed => inl (UseAfterDestroy what) | SEmpty => inr false | SAlive _ _ => inr true end.

(** The textures [Renderer::Renderer] and [SSAO::SSAO] create for a
    window of [w] by [h] (renderer.cpp:62-111, 1441-1446): the G-buffer
    and decal FBOs are empty; [window_width * 0.5] is truncated to an
    [int] by the [Texture] constructor. *)
Definition Renderer_targets (w h : Z) : Targets :=
  {| tg_gbuffers := SEmpty; tg_decals := SEmpty;
     tg_illumination := SAlive [mkTex w h RGBA_FLOAT] (Some (mkTex w h DEPTH_FBO));
     tg_illumination_blurred := SAlive [mkTex w h RGBA_FLOAT] None;
     tg_irr := SAlive [mkTex 64 64 RGB_FLOAT] None;
     tg_reflections := SAlive [mkTex w h RGB_UBYTE] None;
     tg_bloom := SAlive [mkTex w h RGBA_FLOAT] None;
     tg_ssao := SAlive [mkTex (Z.quot w 2) (Z.quot h 2) LUMINANCE_UBYTE;
                        mkTex (Z.quot w 2) (Z.quot h 2) LUMINANCE_UBYTE] None;
     tg_ping := mkTex w h RGBA_FLOAT; tg_pong := mkTex w h RGBA_FLOAT |}.

Section ResizeModel.
Context `{Geometry}.

(** The application and renderer state the resize reads and writes. *)
Record RState := {
  rs_world : World;
  rs_change_res : bool;            (** [Application::change_res] *)
  rs_cam_aspect : Q;               (** [camera->aspect] *)
  rs_targets : Targets
}.

Definition set_targets (tg : Targets) (s : RState) : RState :=
  {| rs_world := rs_world s; rs_change_res := rs_change_res s; rs_cam_aspect := rs_cam_aspect s;
     rs_targets := tg |}.

Definition set_world (w : World) (s : RState) : RState :=
  {| rs_world := w; rs_change_res := rs_change_res s; rs_cam_aspect := rs_cam_aspect s;
     rs_targets := rs_targets s |}.

(** A method call [t->m(...)] on the object [t] points to. *)
Definition on_slot (t : RT) (m : string -> Slot -> Fault + Slot) : M RState unit :=
  fun s => match m (rt_name t) (tg_slot (rs_targets s) t) with
           | inl f => inl f
           | inr v => inr (tt, set_targets (tg_update t v (rs_targets s)) s)
           end.

(** [t = new FBO()]: the member points to a fresh object (the old one
    leaks). *)
Definition renew (t : RT) : M RState unit := on_slot t (fun _ _ => inr SEmpty).

(** [t->fbo_id != 0]. *)
Definition fbo_id_of (t : RT) : M RState bool :=
  fun s => match fbo_id_nonzero (rt_name t) (tg_slot (rs_targets s) t) with
           | inl f => inl f
           | inr b => inr (b, s)
           end.

(** [t->~FBO(); t = new FBO(); t->create(...)]. *)
Definition recreate (t : RT) (w h : Z) (fmt : PixFmt) (depth : bool) : M RState unit :=
  on_slot t fbo_destroy ;;; renew t ;;; on_slot t (fbo_create w h 1 fmt depth).

(** The allocation at the start of [Renderer::renderGBuffers]
    (renderer.cpp:196-210), with [w] and [h] the window size
    [renderDeferred] passes (613-616). *)
Definition renderGBuffers_alloc : M RState unit :=
  b <- fbo_id_of RT_gbuffers ;;
  if b then mret tt else
  s <- mget ;;
  let w := w_width (rs_world s) in
  let h := w_height (rs_world s) in
  on_slot RT_gbuffers (fbo_set_textures [mkTex w h RGBA_FLOAT; mkTex w h RGBA_UBYTE; mkTex w h RGBA_HALF;
                                         mkTex w h RGB_HALF] (Some (mkTex w h DEPTH_UINT))) ;;;
  on_slot RT_decals (fbo_set_textures [mkTex w h RGBA_FLOAT; mkTex w h RGBA_UBYTE; mkTex w h RGBA_HALF] None).

(** The window size and the camera aspect (application.cpp:514-517);
    [change_res == true;] compares and discards, so [change_res] is not
    written. *)
Definition set_window (wd ht : Z) (s : RState) : RState :=
  {| rs_world := {| w_r := w_r (rs_world s); w_scene := w_scene (rs_world s); w_nodes := w_nodes (rs_world s);
                    w_quality := w_quality (rs_world s); w_width := wd; w_height := ht;
                    w_gl := w_gl (rs_world s) |};
     rs_change_res := rs_change_res s; rs_cam_aspect := inject_Z wd / inject_Z ht;
     rs_targets := rs_targets s |}.

Definition set_ping_pong (t : TexDesc) (s : RState) : RState :=
  let '(mkTargets g d i ib ir rf bl ss _ _) := rs_targets s in
  set_targets (mkTargets g d i ib ir rf bl ss t t) s.

(** [Application::onResize] up to the decal target (application.cpp:
    510-570); the two SSAO textures of 538-540 are created and never
    used. *)
Definition resize_targets (wd ht : Z) : M RState unit :=
  mmodify (set_window wd ht) ;;;
  b <- fbo_id_of RT_gbuffers ;;
  (if b then
     on_slot RT_gbuffers fbo_destroy ;;; renew RT_gbuffers ;;;
     on_slot RT_gbuffers (fbo_set_textures [mkTex wd ht RGBA_HALF; mkTex wd ht RGBA_UBYTE; mkTex wd ht RGBA_HALF;
                                            mkTex wd ht RGB_HALF] (Some (mkTex wd ht DEPTH_UINT)))
   else mret tt) ;;;
  recreate RT_illumination wd ht RGBA_HALF true ;;;
  recreate RT_illumination_blurred wd ht RGBA_FLOAT false ;;;
  recreate RT_reflections wd ht RGB_UBYTE false ;;;
  recreate RT_bloom wd ht RGBA_FLOAT false ;;;
  mmodify (set_ping_pong (mkTex wd ht RGBA_FLOAT)).

(** The decal target (application.cpp:571-576): destroyed, then given
    new textures without a [new FBO()] in between. *)
Definition resize_decals (wd ht : Z) : M RState unit :=
  on_slot RT_decals fbo_destroy ;;;
  on_slot RT_decals (fbo_set_textures [mkTex wd ht RGBA_FLOAT; mkTex wd ht RGBA_UBYTE; mkTex wd ht RGBA_HALF] None).

(** [Application::onResize], application.cpp:510-577. *)
Definition onResize (wd ht : Z) : M RState unit :=
  resize_targets wd ht ;;; resize_decals wd ht.

(** The states of a running program: the constructor's targets for the
    window size, then first deferred frames ([renderGBuffers_alloc]) and
    any change of the rest of the world (the other passes, the handlers),
    which do not touch the target objects. *)
Inductive reachable : RState -> Prop :=
| reach_init s : rs_targets s = Renderer_targets (w_width (rs_world s)) (w_height (rs_world s)) -> reachable s
| reach_alloc s s' : reachable s -> renderGBuffers_alloc s = inr (tt, s') -> reachable s'
| reach_world s w : reachable s -> reachable (set_world w s).

End ResizeModel.

(** ** Lifetimes *)

Section ResizeProofs.
Context `{Geometry}.

(** No target member points to a destroyed object. *)
Definition live (tg : Targets) : Prop := forall t, tg_slot tg t ≠ SDestroyed.

Lemma tg_slot_update tg t t' v :
  tg_slot (tg_update t v tg) t' = if decide (t' = t) then v else tg_slot tg t'.
Proof. destruct tg, t, t'; reflexivity. Qed.

Lemma tg_update_twice tg t v1 v2 : tg_update t v2 (tg_update t v1 tg) = tg_update t v2 tg.
Proof. destruct tg, t; reflexivity. Qed.

Lemma live_update tg t v : live tg -> v ≠ SDestroyed -> live (tg_update t v tg).
Proof. intros Hl Hv t'. rewrite tg_slot_update. case_decide; auto. Qed.

Lemma set_targets_twice tg1 tg2 s : set_targets tg2 (set_targets tg1 s) = set_targets tg2 s.
Proof. done. Qed.

Lemma on_slot_ok t m s v :
  m (rt_name t) (tg_slot (rs_targets s) t) = inr v ->
  on_slot t m s = inr (tt, set_targets (tg_update t v (rs_targets s)) s).
Proof. unfold on_slot. by intros ->. Qed.

(** [x->~FBO(); x = new FBO(); x->create(...)] on a live target leaves
    the new textures, whatever it held. *)
Lemma recreate_ok t w h fmt d s :
  tg_slot (rs_targets s) t ≠ SDestroyed ->
  recreate t w h fmt d s =
    inr (tt, set_targets (tg_update t (SAlive [mkTex w h fmt] (if d then Some (mkTex w h DEPTH_FBO) else None))
                                    (rs_targets s)) s).
Proof.
  intros Hl. unfold recreate, renew, mbind, on_slot.
  assert (E : fbo_destroy (rt_name t) (tg_slot (rs_targets s) t) = inr SDestroyed) by (by destruct (tg_slot _ t)).
  rewrite E. cbn [rs_targets set_targets]. rewrite !tg_slot_update, !decide_True by done. cbn.
  by rewrite !tg_update_twice.
Qed.

Lemma live_init w h : live (Renderer_targets w h).
Proof. by intros []. Qed.

Lemma alloc_live s s' : live (rs_targets s) -> renderGBuffers_alloc s = inr (tt, s') -> live (rs_targets s').
Proof.
  intros Hl. unfold renderGBuffers_alloc, fbo_id_of, mbind, mget, on_slot.
  pose proof (Hl RT_gbuffers) as Hg. pose proof (Hl RT_decals) as Hd.
  destruct (rs_targets s) as [g d i ib ir rf bl ss pi po] eqn:E; cbn in Hg, Hd |- *.
  destruct g; try done; cbn; [|by intros [= <-]; rewrite E].
  rewrite E. cbn. destruct d; try done; cbn; intros [= <-]; cbn.
  all: intros t; pose proof (Hl t) as Ht; by destruct t.
Qed.

Lemma reachable_live s : reachable s -> live (rs_targets s).
Proof.
  induction 1 as [s Hi|s s' _ IH Ha|s w _ IH].
  - rewrite Hi. apply live_init.
  - exact (alloc_live s s' IH Ha).
  - exact IH.
Qed.

(** ** The resize *)

(** The G-buffer textures [onResize] makes (application.cpp:523-531). *)
Definition resized_gbuffers (wd ht : Z) : Slot :=
  SAlive [mkTex wd ht RGBA_HALF; mkTex wd ht RGBA_UBYTE; mkTex wd ht RGBA_HALF; mkTex wd ht RGB_HALF]
         (Some (mkTex wd ht DEPTH_UINT)).

(** C40. Up to the decal target, [onResize] (application.cpp:510-570)
    from any state whose targets are live completes, stores the new
    window size and aspect, leaves [change_res] as it was ([==] instead
    of [=]) and the renderer's fields untouched, rebuilds the G-buffers
    at the new size only if they were allocated (in half float, where
    [renderGBuffers] uses 32-bit float albedo), rebuilds the
    illumination target in half float (the constructor's is 32-bit
    float), the blurred, reflection and bloom targets and [ping]/[pong]
    at the new size, and leaves the irradiance, decal and SSAO targets as
    they were: the SSAO target keeps the size of the window it was
    created for. *)
Theorem resize_targets_spec wd ht s : live (rs_targets s) ->
  exists s', resize_targets wd ht s = inr (tt, s') /\
    w_width (rs_world s') = wd /\ w_height (rs_world s') = ht /\ rs_cam_aspect s' = (inject_Z wd / inject_Z ht)%Q /\
    rs_change_res s' = rs_change_res s /\ w_r (rs_world s') = w_r (rs_world s) /\
    tg_gbuffers (rs_targets s') =
      (if decide (tg_gbuffers (rs_targets s) = SEmpty) then SEmpty else resized_gbuffers wd ht) /\
    tg_illumination (rs_targets s') = SAlive [mkTex wd ht RGBA_HALF] (Some (mkTex wd ht DEPTH_FBO)) /\
    tg_illumination_blurred (rs_targets s') = SAlive [mkTex wd ht RGBA_FLOAT] None /\
    tg_reflections (rs_targets s') = SAlive [mkTex wd ht RGB_UBYTE] None /\
    tg_bloom (rs_targets s') = SAlive [mkTex wd ht RGBA_FLOAT] None /\
    tg_ping (rs_targets s') = mkTex wd ht RGBA_FLOAT /\ tg_pong (rs_targets s') = mkTex wd ht RGBA_FLOAT /\
    tg_decals (rs_targets s') = tg_decals (rs_targets s) /\ tg_irr (rs_targets s') = tg_irr (rs_targets s) /\
    tg_ssao (rs_targets s') = tg_ssao (rs_targets s).
Proof.
  intros Hl. destruct s as [w cr asp [g d i ib ir rf bl ss pi po]].
  pose proof (Hl RT_gbuffers) as Hg. pose proof (Hl RT_illumination) as Hi.
  pose proof (Hl RT_illumination_blurred) as Hib. pose proof (Hl RT_reflections) as Hrf.
  pose proof (Hl RT_bloom) as Hbl. cbn in Hg, Hi, Hib, Hrf, Hbl.
  cbv [resize_targets mbind mmodify fbo_id_of on_slot renew mret set_window set_ping_pong].
  destruct g; try done; cbn -[recreate].
  all: repeat (rewrite recreate_ok by (cbn; done); cbn -[recreate]).
  all: eexists; split; [reflexivity|]; cbn; repeat split.
Qed.

(** C39. From every state the program reaches, [onResize] ends in
    undefined behaviour: [decals_fbo->~FBO()] (application.cpp:571) is
    not followed by [decals_fbo = new FBO()] as the other targets' are,
    so [decals_fbo->setTextures] (576) is called on the destroyed
    object, whatever the new size and whether or not a deferred frame
    ever allocated the decal textures. *)
Theorem resize_faults wd ht s : reachable s -> onResize wd ht s = inl (UseAfterDestroy "decals_fbo").
Proof.
  intros Hr. pose proof (reachable_live s Hr) as Hl.
  destruct (resize_targets_spec wd ht s Hl) as (s' & Hrun & _ & _ & _ & _ & _ & _ & _ & _ & _ & _ & _ & _ & Hd & _).
  unfold onResize. rewrite (mbind_step _ _ _ _ _ Hrun).
  unfold resize_decals, mbind, on_slot. pose proof (Hl RT_decals) as Hd0. cbn [tg_slot rt_name] in Hd0 |- *.
  destruct (rs_targets s'). cbn in Hd |- *. rewrite Hd.
  destruct (tg_decals (rs_targets s)); [| |done]; reflexivity.
Qed.

End ResizeProofs.
End Resize.

(** ** Witnesses *)

(** The constructor's targets for an 800x600 window. *)
Definition ex_resize_state : @Resize.RState World1 :=
  {| Resize.rs_world := ex_world DEFERRED MULTI []; Resize.rs_change_res := false;
     Resize.rs_cam_aspect := 4 # 3; Resize.rs_targets := Resize.Renderer_targets 800 600 |}.

(** ... after the first deferred frame has allocated the G-buffers. *)
Definition ex_resize_alloc : @Resize.RState World1 :=
  match Resize.renderGBuffers_alloc ex_resize_state with inr (_, s) => s | inl _ => ex_resize_state end.

Lemma ex_resize_alloc_reachable : Resize.reachable ex_resize_alloc.
Proof. apply (Resize.reach_alloc ex_resize_state); [apply Resize.reach_init; reflexivity|reflexivity]. Qed.

Lemma resize_faults_witness :
  Resize.onResize 1024 768 ex_resize_alloc = inl (UseAfterDestroy "decals_fbo").
Proof. apply (Resize.resize_faults (H:=World1)). exact ex_resize_alloc_reachable. Defined.

Lemma resize_targets_spec_witness :
  exists s', Resize.resize_targets 1024 768 ex_resize_alloc = inr (tt, s') /\
    Resize.tg_gbuffers (Resize.rs_targets s') = Resize.resized_gbuffers 1024 768 /\
    Resize.tg_ssao (Resize.rs_targets s') =
      Resize.SAlive [Resize.mkTex 400 300 Resize.LUMINANCE_UBYTE; Resize.mkTex 400 300 Resize.LUMINANCE_UBYTE] None.
Proof.
  destruct (Resize.resize_targets_spec (H:=World1) 1024 768 ex_resize_alloc
              (Resize.reachable_live _ ex_resize_alloc_reachable))
    as (s' & Hrun & _ & _ & _ & _ & _ & Hg & _ & _ & _ & _ & _ & _ & _ & _ & Hss).
  exists s'. split; [exact Hrun|]. split; [rewrite Hg; reflexivity|]. rewrite Hss. reflexivity.
Defined.
