(* ===== verification/Probes.v ===== *)
(** * Probe bakes: [updateProbes], [extractProbe], [updateReflectionProbes]

    The irradiance bake [Renderer::updateProbes] (src/src/renderer.cpp:
    1623-1666) refreshes the grid's inverse model, creates
    [probes_texture] with one row per probe the first time it runs, and
    for every probe of the grid places it ([IrradianceGrid::updateProbe])
    and bakes it ([extractProbe], 1592-1621): six renders of the scene
    with [renderCalls] into [irr_fbo], one per cubemap face, from the
    probe's position, read back and reduced to spherical harmonics.  The
    coefficients of all probes are then uploaded to [probes_texture] and
    its filters set to nearest.  The reflection bake
    [Renderer::updateReflectionProbes] (1701-1735) renders the six faces
    of every reflection probe into its cubemap through
    [reflections_fbo] and builds the cubemap's mipmaps.

    Two collaborators are outside src/: the table [cubemapFaceNormals]
    and [computeSH] with the read-back [FloatImage::fromTexture] (the
    pixels are what the GPU rasterises from the commands drawn into
    [irr_fbo]).  They are the parameters of the section: a face's image
    is the list of commands drawn into the target between its bind and
    its unbind.  The [Camera cam] local to each bake is threaded through
    its loops, as the code reuses it; [cam.enable()] (which sets
    [Camera::current]) is not modelled.

    [Texture::upload] reads [width * height] pixels from its argument:
    [probes_texture] has as many rows as the grid had probes at the first
    bake, so a later bake of a grid with fewer probes reads past the end
    of [sh_data] ([OutOfBounds]) and one with more probes uploads only the
    first rows.

    Theorems: [updateProbes_spec] (what a bake does on every branch of
    the row count, when the face renders complete) and
    [updateReflectionProbes_faces] (the faces and mipmaps of a reflection
    bake, in order), and [reflection_bake_feedback]: the reflection bake
    draws with reflections on, so a visible call whose probe is the
    probe being baked binds that probe's cubemap as
    [u_environment_texture] while a face of the same cubemap is the
    render target.  [renders_ok_unlit] gives the renders' completion
    for an unlit [MULTI] renderer whose calls have probes. *)

From S2P Require Import Prelude Enums Geometry RenderCall GL Scene Traversal Renderer Shading.

Module Probes.

Section ProbeModel.
Context `{Geometry}.

(** [cubemapFaceNormals[i]] (framework): right, up and front of face [i]. *)
Context (cubemapFaceNormals : nat -> Vec3 * Vec3 * Vec3).
(** [computeSH] of the six images read back from the faces. *)
Context (computeSH : list (list GLCmd) -> SH).

Definition vadd (a b : Vec3) : Vec3 :=
  let '(x, y, z) := a in let '(x', y', z') := b in (x + x', y + y', z + z')%Q.

(** [Camera cam; cam.setPerspective(90, 1, 0.1, 1000);] *)
Definition bake_camera : Camera := cam_set_perspective cam_default 90 1 (1 # 10) 1000.

(** [cam.lookAt(eye, eye + front, up)] for face [i]. *)
Definition face_look (cam : Camera) (eye : Vec3) (i : nat) : Camera :=
  let '(_, up, front) := cubemapFaceNormals i in cam_look_at cam eye (vadd eye front) up.

(** One face: bind the target, render the calls in the forward
    pipeline, unbind; the result is what was drawn into the target. *)
Definition render_face (calls : list RenderCall) (target : Target) (cam : Camera) : M World (list GLCmd) :=
  w0 <- mget ;;
  emit [Bind target] ;;;
  renderCalls calls cam FORWARD ;;;
  w1 <- mget ;;
  emit [Unbind target] ;;;
  mret (drop (S (length (w_gl w0))) (w_gl w1)).

(** The face loop of [extractProbe] (1600-1617), faces [i .. i+n-1]. *)
Fixpoint extract_faces (calls : list RenderCall) (eye : Vec3) (cam : Camera) (i n : nat)
    : M World (list (list GLCmd)) :=
  match n with
  | 0 => mret []
  | S n' =>
      let cam' := face_look cam eye i in
      img <- render_face calls FboIrr cam' ;;
      imgs <- extract_faces calls eye cam' (S i) n' ;;
      mret (img :: imgs)
  end.

(** [Renderer::extractProbe], 1592-1621: [p->sh = computeSH(images)]. *)
Definition extractProbe (p : ProbeEntity) (calls : list RenderCall) : M World ProbeEntity :=
  imgs <- extract_faces calls (mat_translation (p_model p)) bake_camera 0 6 ;;
  mret {| p_model := p_model p; p_local := p_local p; p_index := p_index p; p_sh := computeSH imgs |}.

(** The [grid] pointer. *)
Definition grid_entity (w : World) (p : Ptr) : Fault + (nat * Entity * IrradianceGrid) :=
  match p with
  | PEnt id =>
      match scn_entities (w_scene w) !! id with
      | Some e => match e_data e with EGrid g => inr (id, e, g) | _ => inl (NullDeref "grid") end
      | None => inl (NullDeref "grid")
      end
  | _ => inl (NullDeref "grid")
  end.

(** Write the grid back through its pointer. *)
Definition store_grid (id : nat) (g : IrradianceGrid) (w : World) : World :=
  let s := w_scene w in
  let es := scn_entities s in
  let es' := match es !! id with
             | Some e => <[id := {| e_name := e_name e; e_model := e_model e;
                                   e_visible := e_visible e; e_data := EGrid g |}]> es
             | None => es
             end in
  {| w_r := w_r w;
     w_scene := {| scn_background := scn_background s; scn_ambient := scn_ambient s;
                   scn_cam_eye := scn_cam_eye s; scn_cam_center := scn_cam_center s;
                   scn_cam_fov := scn_cam_fov s; scn_environment := scn_environment s;
                   scn_filename := scn_filename s; scn_entities := es' |};
     w_nodes := w_nodes w; w_quality := w_quality w; w_width := w_width w; w_height := w_height w;
     w_gl := w_gl w |}.

(** [grid->probes[i]] changed in place. *)
Definition grid_set_probe (i : nat) (p : ProbeEntity) (g : IrradianceGrid) : IrradianceGrid :=
  {| g_probes := <[i := p]> (g_probes g); g_inv_model := g_inv_model g; g_dim := g_dim g;
     g_probe_scale := g_probe_scale g |}.

(** [probes_texture = new Texture(9, rows, GL_RGB, GL_FLOAT)]. *)
Definition set_probes_texture (t : option nat) (r : Renderer) : Renderer :=
  {| r_render_mode := r_render_mode r; r_light_mode := r_light_mode r; r_light_eq := r_light_eq r;
     r_pcf := r_pcf r; r_depth_viewport := r_depth_viewport r; r_dithering := r_dithering r;
     r_show_gbuffers := r_show_gbuffers r; r_show_omr := r_show_omr r; r_activate_ssao := r_activate_ssao r;
     r_hdr_active := r_hdr_active r; r_activate_irr := r_activate_irr r;
     r_irr_3lerp := r_irr_3lerp r; r_reflections := r_reflections r;
     r_show_probes := r_show_probes r; r_volumetric := r_volumetric r;
     r_show_reflection_probes := r_show_reflection_probes r; r_depth_light := r_depth_light r;
     r_shadow_count := r_shadow_count r; r_hdr_gamma := r_hdr_gamma r;
     r_blur_iterations := r_blur_iterations r; r_calls := r_calls r; r_lights := r_lights r;
     r_reflection_probes := r_reflection_probes r; r_grid := r_grid r;
     r_directional_light := r_directional_light r; r_probes_texture := t;
     r_atlas := r_atlas r; r_ssao_blur := r_ssao_blur r;
     r_reflections_calculated := r_reflections_calculated r; r_fx := r_fx r |}.

(** The probe loop of [updateProbes] (1645-1653) from probe [i]: place
    the probe, bake it with the renderer's [calls], keep its
    coefficients for [sh_data[i]]. *)
Fixpoint bake_loop (id : nat) (i n : nat) : M World (list SH) :=
  match n with
  | 0 => mret []
  | S n' =>
      w <- mget ;;
      match grid_entity w (PEnt id) with
      | inl f => mfail f
      | inr (_, e, g) =>
          match g_probes g !! i with
          | None => mfail (OutOfBounds "grid->probes[i]")
          | Some p =>
              let p1 := IrradianceGrid_updateProbe (e_model e) (g_probe_scale g) p in
              mmodify (store_grid id (grid_set_probe i p1 g)) ;;;
              p2 <- extractProbe p1 (r_calls (w_r w)) ;;
              w2 <- mget ;;
              match grid_entity w2 (PEnt id) with
              | inl f => mfail f
              | inr (_, _, g2) =>
                  mmodify (store_grid id (grid_set_probe i p2 g2)) ;;;
                  shs <- bake_loop id (S i) n' ;;
                  mret (p_sh p2 :: shs)
              end
          end
      end
  end.

(** [probes_texture->upload(GL_RGB, GL_FLOAT, false, (uint8* )sh_data)]
    (1655): the texture's [rows] rows are read from the [n]-entry array
    [sh_data]. *)
Definition upload_probes (rows : nat) (shs : list SH) : M World unit :=
  if bool_decide (length shs < rows) then mfail (OutOfBounds "sh_data")
  else emit [Upload TexProbes (take rows shs); TexNearest TexProbes].

(** [Renderer::updateProbes], 1623-1666. *)
Definition updateProbes : M World unit :=
  w <- mget ;;
  match r_grid (w_r w) with
  | PNull => mret tt
  | gp =>
      match grid_entity w gp with
      | inl f => mfail f
      | inr (id, e, g) =>
          mmodify (store_grid id (IrradianceGrid_updateGrid (e_model e) g)) ;;;
          let n := length (g_probes g) in
          (match r_probes_texture (w_r w) with
           | None => mmodify (set_r (set_probes_texture (Some n)))
           | Some _ => mret tt
           end) ;;;
          shs <- bake_loop id 0 n ;;
          w1 <- mget ;;
          upload_probes (default n (r_probes_texture (w_r w1))) shs
      end
  end.

(** The face loop of [updateReflectionProbes] (1714-1730) for the
    probe entity [pid]: [reflections_fbo->setTexture(probe->cubemap, i)]
    and its bind are the target [FboReflections pid i]. *)
Fixpoint reflection_faces (calls : list RenderCall) (pid : nat) (eye : Vec3) (cam : Camera) (i n : nat)
    : M World Camera :=
  match n with
  | 0 => mret cam
  | S n' =>
      let cam' := face_look cam eye i in
      render_face calls (FboReflections pid i) cam' ;;;
      reflection_faces calls pid eye cam' (S i) n'
  end.

(** The probe loop of [updateReflectionProbes] (1709-1734). *)
Fixpoint reflection_loop (ps : list nat) (cam : Camera) : M World unit :=
  match ps with
  | [] => mret tt
  | pid :: ps' =>
      w <- mget ;;
      match scn_entities (w_scene w) !! pid with
      | Some e =>
          match e_data e with
          | EReflectionProbe =>
              cam' <- reflection_faces (r_calls (w_r w)) pid (mat_translation (e_model e)) cam 0 6 ;;
              emit [GenMipmaps (TexCubemap pid)] ;;;
              reflection_loop ps' cam'
          | _ => mfail (NullDeref "probe->cubemap")
          end
      | None => mfail (NullDeref "probe->cubemap")
      end
  end.

(** [Renderer::updateReflectionProbes], 1701-1735 (its [std::cout] is
    not modelled). *)
Definition updateReflectionProbes : M World unit :=
  w <- mget ;;
  reflection_loop (r_reflection_probes (w_r w)) bake_camera.

End ProbeModel.
(** ** The bakes, when their renders complete *)

Section ProbeProofs.
Context `{Geometry}.
Context (cubemapFaceNormals : nat -> Vec3 * Vec3 * Vec3).
Context (computeSH : list (list GLCmd) -> SH).

Lemma mpres_renderCalls calls cam p : mpres grows (renderCalls calls cam p).
Proof. unfold renderCalls. mpres_solve. Qed.

(** [mgrows_in E]: the run [E : m s = inr (a, s')] of a statement that
    only extends the trace gives [s' = emitted s cs]. *)
Ltac mgrows_in E :=
  lazymatch type of E with
  | ?m ?s = inr _ => let Hm := fresh in assert (Hm : mpres grows m) by mpres_solve;
                     destruct (Hm _ _ _ E) as [? ->]; clear Hm
  end.

(** Without lights, in the [MULTI] mode, a forward draw completes when
    the call has a probe or reflections are off. *)
Lemma renderMeshWithMaterial_unlit c cam w :
  r_light_mode (w_r w) = MULTI -> r_lights (w_r w) = [] ->
  (r_reflections (w_r w) = true -> is_Some (rc_probe c)) ->
  exists w', renderMeshWithMaterial c cam FORWARD w = inr (tt, w').
Proof.
  intros Hm Hl Hp. unfold renderMeshWithMaterial. case_bool_decide; [by eexists|].
  unfold mbind at 1 2, emit at 1, mmodify, mget. cbn [w_r emitted]. rewrite Hm, Hl.
  destruct (r_reflections (w_r w)); [destruct (Hp eq_refl) as [p ->]|]; eexists; reflexivity.
Qed.

(** The forward render of [calls] completes from every world with the
    renderer [r], whatever the camera. *)
Definition renders_ok (calls : list RenderCall) (r : Renderer) : Prop :=
  forall cam w, w_r w = r -> exists w', renderCalls calls cam FORWARD w = inr (tt, w').

Lemma renders_ok_nil r : renders_ok [] r.
Proof. intros cam w _. eexists. reflexivity. Qed.

(** ... and then it only submits commands. *)
Lemma renders_ok_emitted calls r cam w :
  renders_ok calls r -> w_r w = r -> exists cs, renderCalls calls cam FORWARD w = inr (tt, emitted w cs).
Proof.
  intros Hok Hr. destruct (Hok cam w Hr) as (w' & E).
  destruct (mpres_renderCalls calls cam FORWARD w tt w' E) as [cs ->]. eauto.
Qed.

(** ... hence so does the forward render of calls that have probes. *)
Lemma renders_ok_unlit calls r :
  r_light_mode r = MULTI -> r_lights r = [] ->
  (r_reflections r = true -> Forall (fun c => is_Some (rc_probe c)) calls) -> renders_ok calls r.
Proof.
  intros Hm Hl Hp cam w <-. unfold renderCalls, mbind at 1, mget. mstep.
  match goal with |- exists w', mfor_each ?xs ?body ?s = _ =>
    destruct (mfor_each_inv (fun w1 => w_r w1 = w_r w) xs body s eq_refl) as (w' & E & _); [|by exists w'] end.
  intros c w1 Hc Hw1. destruct (Shadows.call_in_frustum cam c); [|by eexists].
  destruct (renderMeshWithMaterial_unlit c cam w1) as (w2 & E); [congruence..| |].
  - rewrite Hw1. intros Hr. exact (proj1 (Forall_forall _ _) (Hp Hr) c Hc).
  - exists w2. split; [done|]. mgrows_in E. exact Hw1.
Qed.

(** The cameras of faces [i .. i+n-1], each looking from [eye]. *)
Fixpoint face_cams (cam : Camera) (eye : Vec3) (i n : nat) : list Camera :=
  match n with
  | 0 => []
  | S n' => let cam' := face_look cubemapFaceNormals cam eye i in cam' :: face_cams cam' eye (S i) n'
  end.

(** [img] is what the forward render of [calls] from [cam] draws, from
    some world with the renderer [r]. *)
Definition face_image (calls : list RenderCall) (r : Renderer) (cam : Camera) (img : list GLCmd) : Prop :=
  exists w, w_r w = r /\ renderCalls calls cam FORWARD w = inr (tt, emitted w img).

Definition face_trace (t : Target) (img : list GLCmd) : list GLCmd := Bind t :: img ++ [Unbind t].

Lemma emitted_emitted w cs1 cs2 : emitted (emitted w cs1) cs2 = emitted w (cs1 ++ cs2).
Proof. unfold emitted. cbn. by rewrite app_assoc. Qed.

Lemma render_face_ok calls t cam w :
  renders_ok calls (w_r w) ->
  exists img, render_face calls t cam w = inr (img, emitted w (face_trace t img)) /\
    face_image calls (w_r w) cam img.
Proof.
  intros Hok. destruct (renders_ok_emitted calls (w_r w) cam (emitted w [Bind t]) Hok eq_refl) as (cs & E).
  exists cs. unfold render_face, mbind, mget, emit, mmodify. rewrite E. split.
  - rewrite !emitted_emitted. unfold mret. cbn [w_gl emitted].
    rewrite app_assoc, drop_app_length' by (rewrite length_app; cbn; lia). done.
  - exists (emitted w [Bind t]). done.
Qed.

Lemma extract_faces_ok calls eye n : forall cam i w, renders_ok calls (w_r w) ->
  exists imgs, extract_faces cubemapFaceNormals calls eye cam i n w =
      inr (imgs, emitted w (flat_map (face_trace FboIrr) imgs)) /\
    Forall2 (face_image calls (w_r w)) (face_cams cam eye i n) imgs.
Proof.
  induction n as [|n IH]; intros cam i w Hok.
  - exists []. split; [|constructor]. cbn. unfold mret, emitted. by destruct w; rewrite app_nil_r.
  - cbn [extract_faces face_cams].
    destruct (render_face_ok calls FboIrr (face_look cubemapFaceNormals cam eye i) w Hok) as (img & E1 & Hi).
    destruct (IH (face_look cubemapFaceNormals cam eye i) (S i) (emitted w (face_trace FboIrr img)) Hok)
      as (imgs & E2 & His).
    exists (img :: imgs). rewrite (mbind_step _ _ _ _ _ E1), (mbind_step _ _ _ _ _ E2).
    split; [|by constructor]. unfold mret. by rewrite emitted_emitted.
Qed.

Lemma extractProbe_ok p calls w : renders_ok calls (w_r w) ->
  exists imgs, extractProbe cubemapFaceNormals computeSH p calls w =
      inr ({| p_model := p_model p; p_local := p_local p; p_index := p_index p; p_sh := computeSH imgs |},
           emitted w (flat_map (face_trace FboIrr) imgs)) /\
    Forall2 (face_image calls (w_r w)) (face_cams bake_camera (mat_translation (p_model p)) 0 6) imgs.
Proof.
  intros Hok. destruct (extract_faces_ok calls (mat_translation (p_model p)) 6 bake_camera 0 w Hok)
    as (imgs & E & Hi).
  exists imgs. unfold extractProbe. by rewrite (mbind_step _ _ _ _ _ E).
Qed.

(** [p'] is probe [p] placed by [updateProbe] and baked from the six
    faces seen from its new position. *)
Definition baked (calls : list RenderCall) (r : Renderer) (model : Mat44) (ps : Z) (p p' : ProbeEntity) : Prop :=
  let p1 := IrradianceGrid_updateProbe model ps p in
  p_model p' = p_model p1 /\ p_local p' = p_local p /\ p_index p' = p_index p /\
  exists imgs, p_sh p' = computeSH imgs /\
    Forall2 (face_image calls r) (face_cams bake_camera (mat_translation (p_model p1)) 0 6) imgs.

Definition grid_with_probes (ps : list ProbeEntity) (g : IrradianceGrid) : IrradianceGrid :=
  {| g_probes := ps; g_inv_model := g_inv_model g; g_dim := g_dim g; g_probe_scale := g_probe_scale g |}.

Definition entity_with_grid (e : Entity) (g : IrradianceGrid) : Entity :=
  {| e_name := e_name e; e_model := e_model e; e_visible := e_visible e; e_data := EGrid g |}.

Lemma grid_entity_inv w id p e g : grid_entity w p = inr (id, e, g) ->
  p = PEnt id /\ scn_entities (w_scene w) !! id = Some e /\ e_data e = EGrid g.
Proof.
  unfold grid_entity. destruct p as [| |i]; try discriminate.
  destruct (_ !! i) as [e'|] eqn:E; [|discriminate]. destruct (e_data e') eqn:D; try discriminate.
  intros [= <- <- <-]. auto.
Qed.

Lemma grid_entity_store w id e g g' : grid_entity w (PEnt id) = inr (id, e, g) ->
  grid_entity (store_grid id g' w) (PEnt id) = inr (id, entity_with_grid e g', g').
Proof.
  intros Hg. destruct (grid_entity_inv _ _ _ _ _ Hg) as (_ & He & _).
  unfold grid_entity, store_grid. cbn [w_scene scn_entities]. rewrite He, list_lookup_insert, decide_True by (split; [done|by eapply lookup_lt_Some]). reflexivity.
Qed.

Lemma grid_entity_emitted w cs p : grid_entity (emitted w cs) p = grid_entity w p.
Proof. done. Qed.

Lemma store_grid_emitted id g w cs : store_grid id g (emitted w cs) = emitted (store_grid id g w) cs.
Proof. done. Qed.

Lemma grid_entity_eta w id e g : grid_entity w (PEnt id) = inr (id, e, g) ->
  grid_entity w (PEnt id) = inr (id, entity_with_grid e (grid_with_probes (g_probes g) g), grid_with_probes (g_probes g) g).
Proof.
  intros Hg. destruct (grid_entity_inv _ _ _ _ _ Hg) as (_ & _ & Hd).
  rewrite Hg. destruct e, g; cbn in *. by subst.
Qed.

(** The probe loop from probe [i] to the end: every probe placed and
    baked in order, the rest of the world untouched but for the trace. *)
Lemma bake_loop_ok id n : forall i w e g,
  grid_entity w (PEnt id) = inr (id, e, g) -> i + n = length (g_probes g) ->
  renders_ok (r_calls (w_r w)) (w_r w) ->
  exists ps' w', bake_loop cubemapFaceNormals computeSH id i n w = inr (map p_sh ps', w') /\
    Forall2 (baked (r_calls (w_r w)) (w_r w) (e_model e) (g_probe_scale g)) (drop i (g_probes g)) ps' /\
    w_r w' = w_r w /\
    grid_entity w' (PEnt id) =
      inr (id, entity_with_grid e (grid_with_probes (take i (g_probes g) ++ ps') g),
           grid_with_probes (take i (g_probes g) ++ ps') g) /\
    exists cs, w_gl w' = w_gl w ++ cs.
Proof.
  induction n as [|n IH]; intros i w e g Hg Hlen Hok.
  - exists [], w. split; [done|]. rewrite drop_ge, take_ge, app_nil_r by lia.
    split; [constructor|]. split; [done|]. split; [by apply grid_entity_eta|]. exists []. by rewrite app_nil_r.
  - destruct (lookup_lt_is_Some_2 (g_probes g) i) as [p Hp]; [lia|].
    set (p1 := IrradianceGrid_updateProbe (e_model e) (g_probe_scale g) p).
    set (g1 := grid_set_probe i p1 g).
    set (w1 := store_grid id g1 w).
    destruct (extractProbe_ok p1 (r_calls (w_r w)) w1 Hok) as (imgs & Ex & Hi).
    set (p2 := {| p_model := p_model p1; p_local := p_local p1; p_index := p_index p1; p_sh := computeSH imgs |}).
    set (g3 := grid_set_probe i p2 g1).
    set (w3 := store_grid id g3 (emitted w1 (flat_map (face_trace FboIrr) imgs))).
    assert (Hg1 := grid_entity_store w id e g g1 Hg).
    assert (Hg3 : grid_entity w3 (PEnt id) = inr (id, entity_with_grid (entity_with_grid e g1) g3, g3)).
    { unfold w3. apply (grid_entity_store _ id (entity_with_grid e g1) g1). by rewrite grid_entity_emitted. }
    assert (Hl3 : S i + n = length (g_probes g3)) by (cbn; rewrite !length_insert; lia).
    destruct (IH (S i) w3 _ g3 Hg3 Hl3 Hok) as (ps'' & w' & E3 & HF & Hr & Hg' & cs & Hc).
    exists (p2 :: ps''), w'. cbn [bake_loop]. unfold mbind at 1, mget. rewrite Hg. cbv beta iota. rewrite Hp.
    unfold mbind at 1, mmodify. fold w1. rewrite (mbind_step _ _ _ _ _ Ex).
    unfold mbind at 1. cbv beta. rewrite grid_entity_emitted. unfold w1. rewrite Hg1. cbv beta iota.
    unfold mbind at 1. cbv beta. rewrite (mbind_step _ _ _ _ _ E3). split; [done|].
    assert (Hd : drop (S i) (g_probes g3) = drop (S i) (g_probes g)).
    { cbn. rewrite !drop_insert_lt by lia. done. }
    assert (Ht : take (S i) (g_probes g3) = take i (g_probes g) ++ [p2]).
    { rewrite (take_S_r _ _ p2).
      - cbn. rewrite !take_insert_ge by lia. done.
      - cbn. apply list_lookup_insert_eq. rewrite length_insert. by eapply lookup_lt_Some. }
    split; [|split; [done|split]].
    + rewrite (drop_S _ p) by done. constructor; [|by rewrite <- Hd].
      do 3 (split; [done|]). by exists imgs.
    + rewrite Hg', Ht, <- app_assoc. reflexivity.
    + exists (flat_map (face_trace FboIrr) imgs ++ cs). rewrite Hc, app_assoc. reflexivity.
Qed.

(** The renderer during a bake: [probes_texture] created for [n]
    probes if it was not yet. *)
Definition bake_renderer (n : nat) (r : Renderer) : Renderer :=
  match r_probes_texture r with None => set_probes_texture (Some n) r | Some _ => r end.

Lemma bake_renderer_calls n r : r_calls (bake_renderer n r) = r_calls r.
Proof. unfold bake_renderer. by destruct (r_probes_texture r). Qed.

(** C33. [updateProbes] (renderer.cpp:1623-1666) on a renderer whose
    [grid] points to an irradiance grid of [n] probes, when the forward
    renders of its faces complete: [probes_texture] has [rows] rows, [n]
    if this is the first bake and the probe count of the first bake
    otherwise.  With [rows > n] the upload reads past the end of the
    [n]-entry [sh_data] ([OutOfBounds]).  Otherwise the bake completes:
    the grid's inverse model is refreshed, every probe is placed by
    [updateProbe] and given the coefficients [computeSH] makes of the six
    faces rendered from its new position (face [i] with the camera
    turned by [cubemapFaceNormals[i]]), in the grid's order, the texture
    keeps its [rows] rows and the trace ends with the upload of the first
    [rows] probes' coefficients, so with [rows < n] the last probes are
    baked but never reach the texture. *)
Theorem updateProbes_spec w id e g :
  r_grid (w_r w) = PEnt id -> grid_entity w (PEnt id) = inr (id, e, g) ->
  let n := length (g_probes g) in
  let rows := default n (r_probes_texture (w_r w)) in
  renders_ok (r_calls (w_r w)) (bake_renderer n (w_r w)) ->
  (n < rows -> updateProbes cubemapFaceNormals computeSH w = inl (OutOfBounds "sh_data")) /\
  (rows <= n -> exists ps' w', updateProbes cubemapFaceNormals computeSH w = inr (tt, w') /\
     r_probes_texture (w_r w') = Some rows /\
     Forall2 (baked (r_calls (w_r w)) (bake_renderer n (w_r w)) (e_model e) (g_probe_scale g)) (g_probes g) ps' /\
     grid_entity w' (PEnt id) =
       inr (id, entity_with_grid e (grid_with_probes ps' (IrradianceGrid_updateGrid (e_model e) g)),
            grid_with_probes ps' (IrradianceGrid_updateGrid (e_model e) g)) /\
     exists cs, w_gl w' = w_gl w ++ cs ++ [Upload TexProbes (take rows (map p_sh ps')); TexNearest TexProbes]).
Proof.
  intros Hr Hg n rows Hok.
  set (g1 := IrradianceGrid_updateGrid (e_model e) g).
  set (w2 := match r_probes_texture (w_r w) with
             | None => set_r (set_probes_texture (Some n)) (store_grid id g1 w)
             | Some _ => store_grid id g1 w end).
  assert (E2 : (mmodify (store_grid id g1) ;;;
                (match r_probes_texture (w_r w) with
                 | None => mmodify (set_r (set_probes_texture (Some n)))
                 | Some _ => mret tt end)) w = inr (tt, w2)).
  { unfold w2. destruct (r_probes_texture (w_r w)); reflexivity. }
  assert (Hg2 : grid_entity w2 (PEnt id) = inr (id, entity_with_grid e g1, g1)).
  { unfold w2. destruct (r_probes_texture (w_r w)); exact (grid_entity_store w id e g g1 Hg). }
  assert (Hw2 : w_r w2 = bake_renderer n (w_r w)) by (unfold w2, bake_renderer; by destruct (r_probes_texture (w_r w))).
  assert (Hok2 : renders_ok (r_calls (w_r w2)) (w_r w2)).
  { by rewrite Hw2, bake_renderer_calls. }
  destruct (bake_loop_ok id n 0 w2 _ g1 Hg2 eq_refl Hok2) as (ps' & w' & E3 & HF & Hr' & Hg' & cs & Hc).
  assert (Hlen : length (map p_sh ps') = n) by (rewrite length_map; symmetry; apply (Forall2_length _ _ _ HF)).
  assert (Ht : r_probes_texture (w_r w') = Some rows).
  { rewrite Hr', Hw2. unfold bake_renderer, rows. destruct (r_probes_texture (w_r w)) eqn:Et; by rewrite ?Et. }
  assert (Hrun : updateProbes cubemapFaceNormals computeSH w =
                 upload_probes rows (map p_sh ps') w').
  { unfold updateProbes, mbind at 1, mget. rewrite Hr, Hg. cbv beta iota.
    rewrite <- mbind_assoc, (mbind_step _ _ _ _ _ E2), (mbind_step _ _ _ _ _ E3).
    unfold mbind, mget. by rewrite Ht. }
  rewrite Hrun. unfold upload_probes. rewrite Hlen. split.
  - intros Hlt. by rewrite bool_decide_true.
  - intros Hle. rewrite bool_decide_false by lia. exists ps', (emitted w' [Upload TexProbes (take rows (map p_sh ps')); TexNearest TexProbes]).
    split; [done|]. split; [done|]. split.
    + rewrite Hw2, bake_renderer_calls, drop_0 in HF. exact HF.
    + split; [rewrite grid_entity_emitted, Hg'; reflexivity|].
      exists cs. cbn. rewrite Hc. unfold w2. destruct (r_probes_texture (w_r w)); cbn; by rewrite <- app_assoc.
Qed.

(** The commands of the faces [i ..] of reflection probe [pid]. *)
Definition faces_trace (pid i : nat) (imgs : list (list GLCmd)) : list GLCmd :=
  concat (zip_with (fun k img => face_trace (FboReflections pid k) img) (seq i (length imgs)) imgs).

(** ... and of the whole probe, with its mipmaps. *)
Definition probe_trace (pid : nat) (imgs : list (list GLCmd)) : list GLCmd :=
  faces_trace pid 0 imgs ++ [GenMipmaps (TexCubemap pid)].

Lemma reflection_faces_ok calls pid eye n : forall cam i w, renders_ok calls (w_r w) ->
  exists imgs cam', reflection_faces cubemapFaceNormals calls pid eye cam i n w =
      inr (cam', emitted w (faces_trace pid i imgs)) /\
    Forall2 (face_image calls (w_r w)) (face_cams cam eye i n) imgs.
Proof.
  induction n as [|n IH]; intros cam i w Hok.
  - exists [], cam. split; [|constructor]. cbn. unfold mret, emitted. by destruct w; rewrite app_nil_r.
  - cbn [reflection_faces face_cams].
    destruct (render_face_ok calls (FboReflections pid i) (face_look cubemapFaceNormals cam eye i) w Hok)
      as (img & E1 & Hi).
    destruct (IH (face_look cubemapFaceNormals cam eye i) (S i)
                 (emitted w (face_trace (FboReflections pid i) img)) Hok) as (imgs & cam' & E2 & His).
    exists (img :: imgs), cam'. rewrite (mbind_step _ _ _ _ _ E1), E2.
    split; [|by constructor]. by rewrite emitted_emitted.
Qed.

(** The entity [pid] is a reflection probe. *)
Definition refl_probe (w : World) (pid : nat) : Prop :=
  exists e, scn_entities (w_scene w) !! pid = Some e /\ e_data e = EReflectionProbe.

(** [imgs] are the six faces of probe [pid], seen from its position
    with the bake's camera turned face by face from some state [cam0]. *)
Definition probe_faces (calls : list RenderCall) (w : World) (pid : nat) (imgs : list (list GLCmd)) : Prop :=
  exists e cam0, scn_entities (w_scene w) !! pid = Some e /\
    Forall2 (face_image calls (w_r w)) (face_cams cam0 (mat_translation (e_model e)) 0 6) imgs.

(** One iteration of the probe loop on a reflection-probe entity: its
    six faces, seen from the probe's position, then its mipmaps. *)
Lemma reflection_loop_cons pid ps cam w e :
  scn_entities (w_scene w) !! pid = Some e -> e_data e = EReflectionProbe ->
  renders_ok (r_calls (w_r w)) (w_r w) ->
  exists imgs cam', reflection_loop cubemapFaceNormals (pid :: ps) cam w =
      reflection_loop cubemapFaceNormals ps cam' (emitted w (probe_trace pid imgs)) /\
    Forall2 (face_image (r_calls (w_r w)) (w_r w)) (face_cams cam (mat_translation (e_model e)) 0 6) imgs.
Proof.
  intros He Hd Hok.
  destruct (reflection_faces_ok (r_calls (w_r w)) pid (mat_translation (e_model e)) 6 cam 0 w Hok)
    as (imgs & cam' & E1 & Hi).
  exists imgs, cam'. split; [|exact Hi]. cbn [reflection_loop]. unfold mbind at 1, mget. rewrite He, Hd.
  rewrite (mbind_step _ _ _ _ _ E1). unfold mbind at 1, emit, mmodify, probe_trace.
  by rewrite emitted_emitted.
Qed.

Lemma reflection_loop_ok ps : forall cam w,
  Forall (refl_probe w) ps -> renders_ok (r_calls (w_r w)) (w_r w) ->
  exists imgss, reflection_loop cubemapFaceNormals ps cam w =
      inr (tt, emitted w (concat (zip_with probe_trace ps imgss))) /\
    Forall2 (probe_faces (r_calls (w_r w)) w) ps imgss.
Proof.
  induction ps as [|pid ps IH]; intros cam w Hps Hok.
  - exists []. split; [|constructor]. cbn. unfold mret, emitted. by destruct w; rewrite app_nil_r.
  - apply Forall_cons in Hps as [(e & He & Hd) Hps].
    destruct (reflection_loop_cons pid ps cam w e He Hd Hok) as (imgs & cam' & E1 & Hi).
    destruct (IH cam' (emitted w (probe_trace pid imgs)) Hps Hok) as (imgss & E2 & His).
    exists (imgs :: imgss). rewrite E1, E2, emitted_emitted. split; [done|].
    constructor; [by exists e, cam|]. exact His.
Qed.

Lemma emitted_inj w cs1 cs2 : emitted w cs1 = emitted w cs2 -> cs1 = cs2.
Proof. intros E%(f_equal w_gl). exact (app_inv_head _ _ _ E). Qed.

(** A forward draw of a call whose probe is [p], with reflections on,
    samples the cubemap of [p] (renderer.cpp:905-908). *)
Lemma renderMeshWithMaterial_env c cam w w' p :
  mesh_num_vertices (rc_mesh c) ≠ 0 -> r_light_mode (w_r w) ≠ BRUH -> r_reflections (w_r w) = true ->
  rc_probe c = Some p -> renderMeshWithMaterial c cam FORWARD w = inr (tt, w') ->
  exists cs1 cs2, w' = emitted w (cs1 ++ Uniform "u_environment_texture" (UTex (TexCubemap p) 11) :: cs2).
Proof.
  intros Hv Hlm Hrefl Hp. unfold renderMeshWithMaterial. rewrite bool_decide_false by done.
  unfold mbind at 1 2, emit at 1, mmodify, mget. cbn [w_r emitted].
  destruct (shader_of FORWARD (r_light_mode (w_r w))) eqn:Hs; [|by destruct (r_light_mode (w_r w))].
  rewrite Hrefl, Hp. intros E. do 2 mstep_in E. mgrows_in E. rewrite !emitted_emitted.
  match goal with |- exists _ _, emitted w (?a ++ ?b ++ [_] ++ ?x) = _ => exists (a ++ b), x end.
  by rewrite <- app_assoc.
Qed.

Lemma emitted_mid w a cs1 u cs2 b :
  exists d1 d2, emitted (emitted (emitted w a) (cs1 ++ u :: cs2)) b = emitted w (d1 ++ u :: d2).
Proof. exists (a ++ cs1), (cs2 ++ b). rewrite !emitted_emitted. f_equal. by rewrite <- !app_assoc. Qed.

(** ... and so does the forward render of the calls, when that call is
    among them and in the camera's frustum. *)
Lemma renderCalls_env calls cam w w' c p :
  c ∈ calls -> Shadows.call_in_frustum cam c = true -> mesh_num_vertices (rc_mesh c) ≠ 0 ->
  r_light_mode (w_r w) ≠ BRUH -> r_reflections (w_r w) = true -> rc_probe c = Some p ->
  renderCalls calls cam FORWARD w = inr (tt, w') ->
  exists cs1 cs2, w' = emitted w (cs1 ++ Uniform "u_environment_texture" (UTex (TexCubemap p) 11) :: cs2).
Proof.
  intros (l1 & l2 & ->)%list_elem_of_split Hf Hv Hlm Hrefl Hp E.
  unfold renderCalls, mbind at 1, mget in E. mstep_in E.
  rewrite mfor_each_app in E. apply mbind_inr_inv in E as ([] & w2 & E1 & E2). mgrows_in E1.
  cbn [mfor_each] in E2. apply mbind_inr_inv in E2 as ([] & w3 & E3 & E4). mgrows_in E4.
  rewrite Hf in E3. apply renderMeshWithMaterial_env with (p := p) in E3 as (cs1 & cs2 & ->); [|done..].
  rewrite (emitted_emitted w). apply emitted_mid.
Qed.

(** A face image samples the cubemap of [p] when a call with the probe
    [p] is visible from the face's camera. *)
Lemma face_image_env calls r cam img c p :
  face_image calls r cam img -> c ∈ calls -> Shadows.call_in_frustum cam c = true ->
  mesh_num_vertices (rc_mesh c) ≠ 0 -> r_light_mode r ≠ BRUH -> r_reflections r = true ->
  rc_probe c = Some p -> Uniform "u_environment_texture" (UTex (TexCubemap p) 11) ∈ img.
Proof.
  intros (w & <- & E) Hc Hf Hv Hlm Hrefl Hp.
  destruct (renderCalls_env calls cam w _ c p Hc Hf Hv Hlm Hrefl Hp E) as (cs1 & cs2 & ->%emitted_inj).
  set_solver.
Qed.

Lemma faces_trace_cons pid i img imgs :
  faces_trace pid i (img :: imgs) = face_trace (FboReflections pid i) img ++ faces_trace pid (S i) imgs.
Proof. reflexivity. Qed.

(** Face [k] of the faces [i ..] is bound as the target face [i + k]. *)
Lemma faces_trace_lookup pid imgs : forall i k img, imgs !! k = Some img ->
  exists pre post, faces_trace pid i imgs = pre ++ face_trace (FboReflections pid (i + k)) img ++ post.
Proof.
  induction imgs as [|img0 imgs IH]; intros i k img Hk; [done|]. rewrite faces_trace_cons.
  destruct k as [|k]; cbn in Hk.
  - injection Hk as ->. exists [], (faces_trace pid (S i) imgs). by rewrite Nat.add_0_r.
  - destruct (IH (S i) k img Hk) as (pre & post & ->).
    exists (face_trace (FboReflections pid i) img0 ++ pre), post.
    rewrite Nat.add_succ_r. by rewrite <- app_assoc.
Qed.

(** C7. [updateReflectionProbes] (renderer.cpp:1701-1735) renders
    each reflection probe's cubemap with the forward pipeline over all
    the render calls, including the calls that sample that very cubemap
    ([u_environment_texture], 905-908): when a visible call of the scene
    has the first probe as its [probe], the commands drawn into face [k]
    of that probe's cubemap bind the cubemap being rendered as the
    environment texture. *)
Theorem reflection_bake_feedback w pid ps e c k cam :
  r_reflection_probes (w_r w) = pid :: ps ->
  scn_entities (w_scene w) !! pid = Some e -> e_data e = EReflectionProbe ->
  Forall (refl_probe w) ps -> renders_ok (r_calls (w_r w)) (w_r w) ->
  r_reflections (w_r w) = true -> r_light_mode (w_r w) ≠ BRUH ->
  c ∈ r_calls (w_r w) -> rc_probe c = Some pid -> mesh_num_vertices (rc_mesh c) ≠ 0 ->
  face_cams bake_camera (mat_translation (e_model e)) 0 6 !! k = Some cam -> Shadows.call_in_frustum cam c = true ->
  exists pre img post, updateReflectionProbes cubemapFaceNormals w =
      inr (tt, emitted w (pre ++ face_trace (FboReflections pid k) img ++ post)) /\
    Uniform "u_environment_texture" (UTex (TexCubemap pid) 11) ∈ img.
Proof.
  intros Hps He Hd Hrest Hok Hrefl Hlm Hc Hp Hv Hk Hf.
  unfold updateReflectionProbes, mbind at 1, mget. rewrite Hps.
  destruct (reflection_loop_cons pid ps bake_camera w e He Hd Hok) as (imgs & cam' & E1 & Hi).
  destruct (Forall2_lookup_l _ _ _ _ _ Hi Hk) as (img & Himg & Hface).
  destruct (faces_trace_lookup pid imgs 0 k img Himg) as (pre & post & Ht).
  destruct (reflection_loop_ok ps cam' (emitted w (probe_trace pid imgs)) Hrest Hok) as (imgss & E2 & _).
  exists pre, img, (post ++ [GenMipmaps (TexCubemap pid)] ++ concat (zip_with probe_trace ps imgss)).
  rewrite E1, E2, emitted_emitted. unfold probe_trace. rewrite Ht. split; [by rewrite <- !app_assoc|].
  eapply face_image_env; eauto.
Qed.

(** C34. [updateReflectionProbes] (renderer.cpp:1701-1735) on a
    renderer whose [reflection_probes] are reflection-probe entities,
    when the forward renders complete: the bake completes, changes
    nothing but the trace, and the trace gets, probe after probe in the
    order of [reflection_probes], the six faces [i = 0 .. 5] of the
    probe's cubemap, each bound as [reflections_fbo]'s target face [i],
    rendered from the probe's position with the camera turned by
    [cubemapFaceNormals[i]], then the cubemap's mipmaps. *)
Theorem updateReflectionProbes_faces w :
  Forall (refl_probe w) (r_reflection_probes (w_r w)) -> renders_ok (r_calls (w_r w)) (w_r w) ->
  exists imgss, updateReflectionProbes cubemapFaceNormals w =
      inr (tt, emitted w (concat (zip_with probe_trace (r_reflection_probes (w_r w)) imgss))) /\
    Forall2 (probe_faces (r_calls (w_r w)) w) (r_reflection_probes (w_r w)) imgss.
Proof.
  intros Hps Hok. destruct (reflection_loop_ok _ bake_camera w Hps Hok) as (imgss & E & Hi).
  exists imgss. unfold updateReflectionProbes, mbind, mget. by rewrite E.
Qed.

End ProbeProofs.

(** ** Frame conditions: the bakes leave the renderer's fields alone,
    [probes_texture] apart *)

Section ProbeFrame.
Context `{Geometry}.
Context (cubemapFaceNormals : nat -> Vec3 * Vec3 * Vec3) (computeSH : list (list GLCmd) -> SH).
Context {X : Type} (f : Renderer -> X).

#[local] Hint Resolve mpres_renderCalls : mpres.

Lemma mpres_render_face calls t cam : mpres (r_agree f) (render_face calls t cam).
Proof. unfold render_face. mpres_solve. Qed.
#[local] Hint Resolve mpres_render_face : mpres.

Lemma mpres_extract_faces calls eye n : forall cam i, mpres (r_agree f) (extract_faces cubemapFaceNormals calls eye cam i n).
Proof. induction n as [|n IH]; intros cam i; cbn [extract_faces]; mpres_solve. Qed.
#[local] Hint Resolve mpres_extract_faces : mpres.

Lemma mpres_bake_loop id n : forall i, mpres (r_agree f) (bake_loop cubemapFaceNormals computeSH id i n).
Proof. induction n as [|n IH]; intros i; cbn [bake_loop]; unfold extractProbe; mpres_solve. Qed.
#[local] Hint Resolve mpres_bake_loop : mpres.

Lemma mpres_updateProbes : (forall r t, f (set_probes_texture t r) = f r) ->
  mpres (r_agree f) (updateProbes cubemapFaceNormals computeSH).
Proof. intros Hf. unfold updateProbes, upload_probes. mpres_solve. Qed.

Lemma mpres_reflection_faces calls pid eye n : forall cam i,
  mpres (r_agree f) (reflection_faces cubemapFaceNormals calls pid eye cam i n).
Proof. induction n as [|n IH]; intros cam i; cbn [reflection_faces]; mpres_solve. Qed.
#[local] Hint Resolve mpres_reflection_faces : mpres.

Lemma mpres_reflection_loop ps : forall cam, mpres (r_agree f) (reflection_loop cubemapFaceNormals ps cam).
Proof. induction ps as [|pid ps IH]; intros cam; cbn [reflection_loop]; mpres_solve. Qed.
#[local] Hint Resolve mpres_reflection_loop : mpres.

Lemma mpres_updateReflectionProbes : mpres (r_agree f) (updateReflectionProbes cubemapFaceNormals).
Proof. unfold updateReflectionProbes. mpres_solve. Qed.

End ProbeFrame.

End Probes.

(** ** Witnesses *)

Definition ex_face_normals (_ : nat) : Vec3 * Vec3 * Vec3 := (vzero, vzero, vzero).
Definition ex_computeSH (imgs : list (list (@GLCmd World1))) : SH := [vec3 (inject_Z (Z.of_nat (length imgs))) 0 0].

Definition ex_probe : @ProbeEntity World1 :=
  {| p_model := mat_identity; p_local := vzero; p_index := 0; p_sh := [] |}.

(** A grid of two probes at entity 0. *)
Definition ex_grid_entity : @Entity World1 :=
  {| e_name := "grid"; e_model := mat_identity; e_visible := true;
     e_data := EGrid {| g_probes := [ex_probe; ex_probe]; g_inv_model := mat_identity; g_dim := (2, 1, 1);
                        g_probe_scale := 5 |} |}.

(** ... baked before, when the grid had four probes. *)
Definition ex_probe_world : @World World1 :=
  let w := ex_world FORWARD MULTI [ex_grid_entity] in
  set_r (fun r => Probes.set_probes_texture (Some 4) (set_grid (PEnt 0) r)) w.

Lemma updateProbes_spec_witness :
  Probes.updateProbes ex_face_normals ex_computeSH ex_probe_world = inl (OutOfBounds "sh_data").
Proof.
  destruct (Probes.updateProbes_spec (H:=World1) ex_face_normals ex_computeSH ex_probe_world 0 ex_grid_entity
              _ eq_refl eq_refl (Probes.renders_ok_nil _)) as [Hf _].
  apply Hf. cbn. lia.
Defined.

(** One reflection probe at entity 0. *)
Definition ex_refl_world : @World World1 :=
  let w := ex_world FORWARD MULTI [{| e_name := "probe"; e_model := mat_identity; e_visible := true;
                                       e_data := EReflectionProbe |}] in
  set_r (set_probes [0]) w.

Lemma updateReflectionProbes_faces_witness :
  exists imgss, Probes.updateReflectionProbes ex_face_normals ex_refl_world =
      inr (tt, emitted ex_refl_world (concat (zip_with Probes.probe_trace [0] imgss))) /\
    length imgss = 1.
Proof.
  destruct (Probes.updateReflectionProbes_faces (H:=World1) ex_face_normals ex_refl_world)
    as (imgss & E & Hf).
  - repeat constructor. eexists. split; reflexivity.
  - apply Probes.renders_ok_nil.
  - exists imgss. split; [exact E|]. exact (eq_sym (Forall2_length _ _ _ Hf)).
Defined.

(** A reflective renderer whose one call is shaded with the probe at
    entity 0, the reflection probe it bakes. *)
Definition ex_refl_entity : @Entity World1 :=
  {| e_name := "probe"; e_model := mat_identity; e_visible := true; e_data := EReflectionProbe |}.
Definition ex_feedback_call : @RenderCall World1 := rc_set_dist_probe (ex_call NO_ALPHA 1) 1 (Some 0).
Definition ex_feedback_world : @World World1 :=
  {| w_r := set_calls [ex_feedback_call] (set_probes [0] ex_reflective_renderer);
     w_scene := ex_scene [ex_refl_entity]; w_nodes := ∅; w_quality := LOW;
     w_width := 800; w_height := 600; w_gl := [] |}.

Lemma reflection_bake_feedback_witness :
  exists pre img post, Probes.updateReflectionProbes ex_face_normals ex_feedback_world =
      inr (tt, emitted ex_feedback_world (pre ++ Probes.face_trace (FboReflections 0 0) img ++ post)) /\
    Uniform "u_environment_texture" (UTex (TexCubemap 0) 11) ∈ img.
Proof.
  apply (Probes.reflection_bake_feedback (H:=World1) ex_face_normals ex_feedback_world 0 [] ex_refl_entity
           ex_feedback_call 0 (Probes.face_look ex_face_normals Probes.bake_camera vzero 0));
    try reflexivity.
  - constructor.
  - apply Probes.renders_ok_unlit; [reflexivity|reflexivity|]. intros _. constructor; [by eexists|constructor].
  - discriminate.
  - left.
  - discriminate.
Defined.
