(* ===== verification/Gui.v ===== *)
(** * The debug panel: [Application::renderDebugGUI]

    [Application::renderDebugGUI] (src/src/application.cpp:249-433) draws
    the ImGui panel once per frame and applies what the user did to its
    widgets in the same call, in the order of the code: the quality,
    render-mode and light-mode combos (the handlers of [Application]),
    then the light equation, the post-processing sliders, the depth
    viewport, PCF and HDR, and in DEFERRED mode the SSAO, irradiance,
    reflection and volumetric controls, whose checkboxes start the probe
    bakes of [Probes]; then the wireframe flag, the two scene colours and
    the entity list, where each open tree node runs the entity's
    [renderInMenu] (scene.cpp: visibility, model matrix, and for a light
    the controls of its type, colour, intensity, bias and distance) and a
    clicked node becomes [selected_entity].

    The user's actions in one frame are a [PanelInput]: for a checkbox
    whether it was clicked ([ImGui::Checkbox] flips the flag and returns
    [true]), for a slider or a combo the value picked, if any.  A widget
    the code does not draw in that frame (the HDR sliders with HDR off,
    the deferred block in FORWARD mode) ignores its input.
    [generateSpherePoints] (not under src/) is a parameter, as are the two
    collaborators of the bakes.

    [ImGui::ColorEdit4] edits four consecutive floats: on the
    [Vector3 background_color] of [Scene] the fourth is the first float
    of the field after it, [ambient_light] (scene.h:147-148).  The model
    keeps that layout: the alpha of the background colour is written to
    the red channel of the ambient light.  The fourth float after
    [ambient_light] is the start of [main_camera], which the model does
    not hold; the ambient edit is taken on its three channels.  The
    light's "Color" is [ColorEdit4] on [color.v] too, whose fourth float
    is [intensity] (scene.h:111-112).

    Theorems: [panel_ssao_blur_plus] (the SSAO block keeps [blur] only
    with [plus] on, from every state, so the blur pass of [SSAO::apply]
    never runs without SSAO+ after a frame of the panel in DEFERRED mode
    with SSAO on, and the panel preserves the property in every mode) and
    [colorEdit4_alias] (editing the background colour writes its alpha
    into the ambient light's red channel, and a light's colour its alpha
    into the light's intensity). *)

From S2P Require Import Prelude Enums Geometry RenderCall GL Scene Traversal Renderer Fetch Shadows Shading PostFX Deferred Application Probes.

Module Gui.

Section GuiInput.
Context `{Geometry}.

(** What the user did in the menu of one entity (scene.cpp:163-172,
    360-387): the "Visible" checkbox, the model matrix edited by
    [ImGuiMatrix44], and the light's controls. *)
Record EntityMenu := {
  em_visible : bool; em_model : option Mat44;
  em_area : option Q; em_cast_shadows : bool; em_cone : option Q; em_spot_exp : option Q;
  em_color : option (Vec3 * Q);             (** the four floats "Color" writes back *)
  em_intensity : option Q; em_bias : option Q; em_max_dist : option Q
}.

(** What the user did to each widget in one frame. *)
Record PanelInput := {
  pi_quality : option eQuality;             (** "Quality Settings" *)
  pi_render_mode : option eRenderMode;      (** "Render Mode" *)
  pi_light_mode : option eLightMode;        (** "Light Mode" (FORWARD only) *)
  pi_light_eq : option eLightEq;            (** "Light Equation" *)
  pi_bloom_th : option Q; pi_bloom_soft_th : option Q; pi_blur_iterations : option Z;
  pi_min_dof : option Q; pi_max_dof : option Q; pi_focal : option Q;
  pi_grain : option Q; pi_lens : option Q;
  pi_depth_viewport : bool; pi_pcf : bool; pi_hdr : bool;
  pi_hdr_scale : option Q; pi_hdr_avg : option Q; pi_hdr_white : option Q; pi_hdr_gamma : option Q;
  pi_dithering : bool; pi_ssao : bool; pi_ssao_plus : bool; pi_ssao_blur : bool;
  pi_ssao_intensity : option Q; pi_ssao_samples : option Z; pi_ssao_bias : option Q;
  pi_irr : bool; pi_trilinear : bool; pi_show_probes : bool;
  pi_reflections : bool; pi_show_reflection_probes : bool;
  pi_volumetric : bool; pi_air_density : option Q;
  pi_wireframe : bool;
  pi_bg : option (Vec3 * Q);                (** the four floats "BG color" writes back *)
  pi_ambient : option Vec3;                 (** "Ambient Light", its three channels *)
  pi_menus : list (option EntityMenu);      (** entity [k]'s tree node, when open *)
  pi_clicked : option nat                   (** the entity whose node was clicked *)
}.

End GuiInput.

(** The renderer's flags the panel writes. *)
Record Toggles := {
  t_light_eq : eLightEq; t_pcf : bool; t_dithering : bool; t_ssao : bool; t_hdr : bool;
  t_irr : bool; t_irr3 : bool; t_reflections : bool; t_show_probes : bool; t_volumetric : bool;
  t_show_refl : bool; t_ssao_blur : bool; t_refl_calc : bool; t_hdr_gamma : Q;
  t_depth_viewport : bool; t_blur_iterations : Z
}.

(** The post-processing and SSAO parameters the panel writes. *)
Record FxGui := {
  x_bloom_th : Q; x_bloom_soft_th : Q; x_min_dof : Q; x_max_dof : Q; x_focal : Q; x_grain : Q;
  x_lens : Q; x_hdr_scale : Q; x_hdr_avg : Q; x_hdr_white : Q; x_ssao_intensity : Q;
  x_ssao_samples : Z; x_ssao_plus : bool; x_ssao_bias : Q; x_ssao_points : list Vec3; x_air : Q
}.

Section GuiModel.
Context `{Geometry}.
Context (cubemapFaceNormals : nat -> Vec3 * Vec3 * Vec3) (computeSH : list (list GLCmd) -> SH).
(** [generateSpherePoints(num, radius, hemi)] (utils, not under src/). *)
Context (generateSpherePoints : Z -> Q -> bool -> list Vec3).

Definition toggles_of (r : Renderer) : Toggles :=
  {| t_light_eq := r_light_eq r; t_pcf := r_pcf r; t_dithering := r_dithering r; t_ssao := r_activate_ssao r;
     t_hdr := r_hdr_active r; t_irr := r_activate_irr r; t_irr3 := r_irr_3lerp r;
     t_reflections := r_reflections r; t_show_probes := r_show_probes r; t_volumetric := r_volumetric r;
     t_show_refl := r_show_reflection_probes r; t_ssao_blur := r_ssao_blur r;
     t_refl_calc := r_reflections_calculated r; t_hdr_gamma := r_hdr_gamma r;
     t_depth_viewport := r_depth_viewport r; t_blur_iterations := r_blur_iterations r |}.

Definition fxgui_of (f : FxState) : FxGui :=
  {| x_bloom_th := fx_bloom_th f; x_bloom_soft_th := fx_bloom_soft_th f; x_min_dof := fx_min_dist_dof f;
     x_max_dof := fx_max_dist_dof f; x_focal := fx_focal_dist f; x_grain := fx_noise_amount f;
     x_lens := fx_lens_dist f; x_hdr_scale := fx_hdr_scale f; x_hdr_avg := fx_hdr_average_lum f;
     x_hdr_white := fx_hdr_white_balance f; x_ssao_intensity := fx_ssao_intensity f;
     x_ssao_samples := fx_ssao_samples f; x_ssao_plus := fx_ssao_plus f; x_ssao_bias := fx_ssao_bias f;
     x_ssao_points := fx_ssao_points f; x_air := fx_air_density f |}.

Definition with_fxgui (x : FxGui) (f : FxState) : FxState :=
  {| fx_hdr_scale := x_hdr_scale x; fx_hdr_average_lum := x_hdr_avg x;
     fx_hdr_white_balance := x_hdr_white x; fx_air_density := x_air x;
     fx_bloom_th := x_bloom_th x; fx_bloom_soft_th := x_bloom_soft_th x;
     fx_focal_dist := x_focal x; fx_min_dist_dof := x_min_dof x;
     fx_max_dist_dof := x_max_dof x; fx_noise_amount := x_grain x;
     fx_lens_dist := x_lens x; fx_ssao_intensity := x_ssao_intensity x;
     fx_prev_vp := fx_prev_vp f; fx_gbuffers_alloc := fx_gbuffers_alloc f;
     fx_ssao_samples := x_ssao_samples x; fx_ssao_plus := x_ssao_plus x;
     fx_ssao_bias := x_ssao_bias x; fx_ssao_points := x_ssao_points x;
     fx_depth_filtered := fx_depth_filtered f |}.

Definition with_gui (t : Toggles) (x : FxGui) (r : Renderer) : Renderer :=
  {| r_render_mode := r_render_mode r; r_light_mode := r_light_mode r; r_light_eq := t_light_eq t;
     r_pcf := t_pcf t; r_depth_viewport := t_depth_viewport t; r_dithering := t_dithering t;
     r_show_gbuffers := r_show_gbuffers r; r_show_omr := r_show_omr r; r_activate_ssao := t_ssao t;
     r_hdr_active := t_hdr t; r_activate_irr := t_irr t;
     r_irr_3lerp := t_irr3 t; r_reflections := t_reflections t;
     r_show_probes := t_show_probes t; r_volumetric := t_volumetric t;
     r_show_reflection_probes := t_show_refl t; r_depth_light := r_depth_light r;
     r_shadow_count := r_shadow_count r; r_hdr_gamma := t_hdr_gamma t;
     r_blur_iterations := t_blur_iterations t; r_calls := r_calls r; r_lights := r_lights r;
     r_reflection_probes := r_reflection_probes r; r_grid := r_grid r;
     r_directional_light := r_directional_light r; r_probes_texture := r_probes_texture r;
     r_atlas := r_atlas r; r_ssao_blur := t_ssao_blur t;
     r_reflections_calculated := t_refl_calc t; r_fx := with_fxgui x (r_fx r) |}.

(** [ImGui::Checkbox(label, &flag)]: the flag flipped when clicked. *)
Definition checkbox (clicked flag : bool) : bool := if clicked then negb flag else flag.

(** The light equation (a combo of [PHONG], [DIRECT_LAMB] and
    [DIRECT_BURLEY]), the sliders, the depth viewport, PCF and HDR
    (application.cpp:303-338). *)
Definition panel_common (i : PanelInput) (t : Toggles) (x : FxGui) : Toggles * FxGui :=
  let hdr := checkbox (pi_hdr i) (t_hdr t) in
  let shown (o : option Q) (v : Q) := if hdr then default v o else v in
  let eq := match pi_light_eq i with Some NO_EQ | None => t_light_eq t | Some q => q end in
  ({| t_light_eq := eq; t_pcf := checkbox (pi_pcf i) (t_pcf t);
      t_dithering := t_dithering t; t_ssao := t_ssao t; t_hdr := hdr; t_irr := t_irr t; t_irr3 := t_irr3 t;
      t_reflections := t_reflections t; t_show_probes := t_show_probes t; t_volumetric := t_volumetric t;
      t_show_refl := t_show_refl t; t_ssao_blur := t_ssao_blur t; t_refl_calc := t_refl_calc t;
      t_hdr_gamma := shown (pi_hdr_gamma i) (t_hdr_gamma t);
      t_depth_viewport := checkbox (pi_depth_viewport i) (t_depth_viewport t);
      t_blur_iterations := default (t_blur_iterations t) (pi_blur_iterations i) |},
   {| x_bloom_th := default (x_bloom_th x) (pi_bloom_th i);
      x_bloom_soft_th := default (x_bloom_soft_th x) (pi_bloom_soft_th i);
      x_min_dof := default (x_min_dof x) (pi_min_dof i); x_max_dof := default (x_max_dof x) (pi_max_dof i);
      x_focal := default (x_focal x) (pi_focal i); x_grain := default (x_grain x) (pi_grain i);
      x_lens := default (x_lens x) (pi_lens i);
      x_hdr_scale := shown (pi_hdr_scale i) (x_hdr_scale x); x_hdr_avg := shown (pi_hdr_avg i) (x_hdr_avg x);
      x_hdr_white := shown (pi_hdr_white i) (x_hdr_white x);
      x_ssao_intensity := x_ssao_intensity x; x_ssao_samples := x_ssao_samples x;
      x_ssao_plus := x_ssao_plus x; x_ssao_bias := x_ssao_bias x; x_ssao_points := x_ssao_points x;
      x_air := x_air x |}).

(** The dithering and SSAO controls (application.cpp:343-365). *)
Definition panel_ssao (i : PanelInput) (t : Toggles) (x : FxGui) : Toggles * FxGui :=
  let ssao := checkbox (pi_ssao i) (t_ssao t) in
  let t1 := {| t_light_eq := t_light_eq t; t_pcf := t_pcf t; t_dithering := checkbox (pi_dithering i) (t_dithering t);
               t_ssao := ssao; t_hdr := t_hdr t; t_irr := t_irr t; t_irr3 := t_irr3 t;
               t_reflections := t_reflections t; t_show_probes := t_show_probes t; t_volumetric := t_volumetric t;
               t_show_refl := t_show_refl t; t_ssao_blur := t_ssao_blur t; t_refl_calc := t_refl_calc t;
               t_hdr_gamma := t_hdr_gamma t; t_depth_viewport := t_depth_viewport t;
               t_blur_iterations := t_blur_iterations t |} in
  if negb ssao then (t1, x) else
  let plus := checkbox (pi_ssao_plus i) (x_ssao_plus x) in
  let blur1 := if plus then checkbox (pi_ssao_blur i) (t_ssao_blur t) else t_ssao_blur t in
  let samples := default (x_ssao_samples x) (pi_ssao_samples i) in
  let points := if pi_ssao_plus i || bool_decide (is_Some (pi_ssao_samples i))
                then generateSpherePoints samples 1 plus else x_ssao_points x in
  let blur := if negb plus then false else blur1 in
  ({| t_light_eq := t_light_eq t1; t_pcf := t_pcf t1; t_dithering := t_dithering t1; t_ssao := ssao;
      t_hdr := t_hdr t1; t_irr := t_irr t1; t_irr3 := t_irr3 t1; t_reflections := t_reflections t1;
      t_show_probes := t_show_probes t1; t_volumetric := t_volumetric t1; t_show_refl := t_show_refl t1;
      t_ssao_blur := blur; t_refl_calc := t_refl_calc t1; t_hdr_gamma := t_hdr_gamma t1;
      t_depth_viewport := t_depth_viewport t1; t_blur_iterations := t_blur_iterations t1 |},
   {| x_bloom_th := x_bloom_th x; x_bloom_soft_th := x_bloom_soft_th x; x_min_dof := x_min_dof x;
      x_max_dof := x_max_dof x; x_focal := x_focal x; x_grain := x_grain x; x_lens := x_lens x;
      x_hdr_scale := x_hdr_scale x; x_hdr_avg := x_hdr_avg x; x_hdr_white := x_hdr_white x;
      x_ssao_intensity := default (x_ssao_intensity x) (pi_ssao_intensity i);
      x_ssao_samples := samples; x_ssao_plus := plus;
      x_ssao_bias := default (x_ssao_bias x) (pi_ssao_bias i); x_ssao_points := points; x_air := x_air x |}).

(** Apply a change of the panel's fields to the renderer. *)
Definition on_gui (f : Toggles -> FxGui -> Toggles * FxGui) : M World unit :=
  mmodify (set_r (fun r => let '(t, x) := f (toggles_of r) (fxgui_of (r_fx r)) in with_gui t x r)).

Definition set_toggles (f : Toggles -> Toggles) : M World unit := on_gui (fun t x => (f t, x)).

(** One flag of [Toggles] changed. *)
Definition toggles_with (t : Toggles) (irr irr3 showp refl rc showr vol : bool) : Toggles :=
  {| t_light_eq := t_light_eq t; t_pcf := t_pcf t; t_dithering := t_dithering t; t_ssao := t_ssao t;
     t_hdr := t_hdr t; t_irr := irr; t_irr3 := irr3; t_reflections := refl; t_show_probes := showp;
     t_volumetric := vol; t_show_refl := showr; t_ssao_blur := t_ssao_blur t; t_refl_calc := rc;
     t_hdr_gamma := t_hdr_gamma t; t_depth_viewport := t_depth_viewport t;
     t_blur_iterations := t_blur_iterations t |}.

(** The irradiance controls (application.cpp:367-376): the bake runs
    when irradiance is on and the probe texture is missing or the box
    was just ticked. *)
Definition panel_irradiance (i : PanelInput) : M World unit :=
  set_toggles (fun t => toggles_with t (checkbox (pi_irr i) (t_irr t)) (t_irr3 t) (t_show_probes t)
                          (t_reflections t) (t_refl_calc t) (t_show_refl t) (t_volumetric t)) ;;;
  w <- mget ;;
  if r_activate_irr (w_r w) then
    (if bool_decide (r_probes_texture (w_r w) = None) || pi_irr i
     then Probes.updateProbes cubemapFaceNormals computeSH else mret tt) ;;;
    set_toggles (fun t => toggles_with t (t_irr t) (checkbox (pi_trilinear i) (t_irr3 t))
                            (checkbox (pi_show_probes i) (t_show_probes t))
                            (t_reflections t) (t_refl_calc t) (t_show_refl t) (t_volumetric t))
  else mret tt.

(** The reflection controls (application.cpp:378-389). *)
Definition panel_reflections (i : PanelInput) : M World unit :=
  set_toggles (fun t => toggles_with t (t_irr t) (t_irr3 t) (t_show_probes t)
                          (checkbox (pi_reflections i) (t_reflections t)) (t_refl_calc t) (t_show_refl t)
                          (t_volumetric t)) ;;;
  w <- mget ;;
  if r_reflections (w_r w) then
    (if pi_reflections i then
       set_toggles (fun t => toggles_with t (t_irr t) (t_irr3 t) (t_show_probes t) (t_reflections t) true
                               (t_show_refl t) (t_volumetric t)) ;;;
       Probes.updateReflectionProbes cubemapFaceNormals
     else mret tt) ;;;
    set_toggles (fun t => toggles_with t (t_irr t) (t_irr3 t) (t_show_probes t) (t_reflections t)
                            (t_refl_calc t) (checkbox (pi_show_reflection_probes i) (t_show_refl t))
                            (t_volumetric t))
  else mret tt.

(** The volumetric controls (application.cpp:391-395). *)
Definition panel_volumetric (i : PanelInput) : M World unit :=
  on_gui (fun t x =>
    let vol := checkbox (pi_volumetric i) (t_volumetric t) in
    (toggles_with t (t_irr t) (t_irr3 t) (t_show_probes t) (t_reflections t) (t_refl_calc t) (t_show_refl t) vol,
     if vol then {| x_bloom_th := x_bloom_th x; x_bloom_soft_th := x_bloom_soft_th x; x_min_dof := x_min_dof x;
                    x_max_dof := x_max_dof x; x_focal := x_focal x; x_grain := x_grain x; x_lens := x_lens x;
                    x_hdr_scale := x_hdr_scale x; x_hdr_avg := x_hdr_avg x; x_hdr_white := x_hdr_white x;
                    x_ssao_intensity := x_ssao_intensity x; x_ssao_samples := x_ssao_samples x;
                    x_ssao_plus := x_ssao_plus x; x_ssao_bias := x_ssao_bias x;
                    x_ssao_points := x_ssao_points x; x_air := default (x_air x) (pi_air_density i) |}
     else x)).

(** The scene colours (application.cpp:399-400) with [ColorEdit4]'s
    fourth float on the background written to [ambient_light.x]. *)
Definition set_colors (bg amb : Vec3) (s : Scene) : Scene :=
  {| scn_background := bg; scn_ambient := amb; scn_cam_eye := scn_cam_eye s;
     scn_cam_center := scn_cam_center s; scn_cam_fov := scn_cam_fov s;
     scn_environment := scn_environment s; scn_filename := scn_filename s; scn_entities := scn_entities s |}.

Definition set_scene (f : Scene -> Scene) (w : World) : World :=
  {| w_r := w_r w; w_scene := f (w_scene w); w_nodes := w_nodes w; w_quality := w_quality w;
     w_width := w_width w; w_height := w_height w; w_gl := w_gl w |}.

Definition color_edits (i : PanelInput) (s : Scene) : Scene :=
  let s1 := match pi_bg i with
            | Some (rgb, a) => let '(_, ay, az) := scn_ambient s in set_colors rgb (a, ay, az) s
            | None => s
            end in
  match pi_ambient i with Some rgb => set_colors (scn_background s1) rgb s1 | None => s1 end.

(** [BaseEntity::renderInMenu] (scene.cpp:163-172). *)
Definition BaseEntity_renderInMenu (m : EntityMenu) (e : Entity) : Entity :=
  {| e_name := e_name e; e_model := default (e_model e) (em_model m);
     e_visible := checkbox (em_visible m) (e_visible e); e_data := e_data e |}.

(** [LightEntity::renderInMenu] (scene.cpp:360-387): the controls of the
    light's type, then [ColorEdit4] on [color.v], whose fourth float is
    [intensity] (scene.h:111-112), then the intensity, bias and distance
    sliders. *)
Definition LightEntity_renderInMenu (m : EntityMenu) (l : LightEntity) : LightEntity :=
  let dir := bool_decide (l_light_type l = DIRECTIONAL) in
  let spot := bool_decide (l_light_type l = SPOT) in
  let '(col, inten) := default (l_color l, l_intensity l) (em_color m) in
  {| l_color := col; l_intensity := default inten (em_intensity m); l_light_type := l_light_type l;
     l_max_distance := default (l_max_distance l) (em_max_dist m);
     l_cone_angle := if spot then default (l_cone_angle l) (em_cone m) else l_cone_angle l;
     l_area_size := if dir then default (l_area_size l) (em_area m) else l_area_size l;
     l_spot_exp := if spot then default (l_spot_exp l) (em_spot_exp m) else l_spot_exp l;
     l_bias := default (l_bias l) (em_bias m);
     l_cast_shadows := if dir || spot then checkbox (em_cast_shadows m) (l_cast_shadows l) else l_cast_shadows l;
     l_uvs := l_uvs l; l_camera := l_camera l; l_shadow_fbo := l_shadow_fbo l |}.

(** The virtual [renderInMenu]: the base menu, and the light's controls
    for a light.  The prefab's node tree ([prefab->root.renderInMenu()],
    prefab.cpp) is not under src/ and is not modelled; the probe, grid
    and reflection probe menus are the base menu. *)
Definition renderInMenu (m : EntityMenu) (e : Entity) : Entity :=
  let e1 := BaseEntity_renderInMenu m e in
  match e_data e1 with
  | ELight l => {| e_name := e_name e1; e_model := e_model e1; e_visible := e_visible e1;
                   e_data := ELight (LightEntity_renderInMenu m l) |}
  | _ => e1
  end.

(** The entity list (application.cpp:411-429): every entity whose tree
    node is open runs its menu. *)
Definition entity_menus (ms : list (option EntityMenu)) (s : Scene) : Scene :=
  {| scn_background := scn_background s; scn_ambient := scn_ambient s; scn_cam_eye := scn_cam_eye s;
     scn_cam_center := scn_cam_center s; scn_cam_fov := scn_cam_fov s;
     scn_environment := scn_environment s; scn_filename := scn_filename s;
     scn_entities := imap (fun k e => match ms !! k with Some (Some m) => renderInMenu m e | _ => e end)
                          (scn_entities s) |}.

(** [if (ImGui::IsItemClicked(0)) selected_entity = entity;] *)
Definition select_entity (clicked : option nat) (n : nat) (sel : option nat) : option nat :=
  match clicked with Some k => if bool_decide (k < n) then Some k else sel | None => sel end.

(** The application's own state the panel writes: [render_wireframe] and
    [selected_entity] (an index into the scene's entities). *)
Record UiState := { ui_world : World; ui_wireframe : bool; ui_selected : option nat }.

(** The three combos (application.cpp:256-301), with their handlers;
    the light-mode combo is drawn in FORWARD mode only. *)
Definition gui_combos (i : PanelInput) : M World unit :=
  (match pi_quality i with Some q => onQualityChanged q | None => mret tt end) ;;;
  (match pi_render_mode i with
   | Some rm => if decide (rm ∈ combo_render_modes) then onRenderModeChanged rm else mret tt
   | None => mret tt end) ;;;
  w <- mget ;;
  if decide (r_render_mode (w_r w) = FORWARD) then
    match pi_light_mode i with
    | Some lm => if decide (lm ∈ combo_light_modes) then onLightModeChanged lm else mret tt
    | None => mret tt end
  else mret tt.

(** The controls drawn in DEFERRED mode only (application.cpp:341-396). *)
Definition deferred_block (i : PanelInput) : M World unit :=
  on_gui (panel_ssao i) ;;; panel_irradiance i ;;; panel_reflections i ;;; panel_volumetric i.

(** From the light equation to the deferred block (303-396), with the
    label of the depth viewport (319-325), which reads
    [lights[depth_light]]. *)
Definition gui_panel (i : PanelInput) : M World unit :=
  on_gui (panel_common i) ;;;
  w <- mget ;;
  (match depth_viewport_label w with inl f => mfail f | inr _ => mret tt end) ;;;
  if decide (r_render_mode (w_r w) = DEFERRED) then deferred_block i else mret tt.

(** [Application::renderDebugGUI], application.cpp 256-429 (the camera
    menu, 403-406, edits the camera, which is not part of the state). *)
Definition renderDebugGUI (i : PanelInput) (s : UiState) : Fault + UiState :=
  match (gui_combos i ;;; gui_panel i ;;; mmodify (set_scene (color_edits i)) ;;;
         mmodify (set_scene (entity_menus (pi_menus i)))) (ui_world s) with
  | inl f => inl f
  | inr (_, w) => inr {| ui_world := w; ui_wireframe := checkbox (pi_wireframe i) (ui_wireframe s);
                         ui_selected := select_entity (pi_clicked i) (length (scn_entities (w_scene w)))
                                          (ui_selected s) |}
  end.

End GuiModel.
(** ** The SSAO flags across a frame of the panel *)

Section GuiProofs.
Context `{Geometry}.
Context (cubemapFaceNormals : nat -> Vec3 * Vec3 * Vec3) (computeSH : list (list GLCmd) -> SH).
Context (generateSpherePoints : Z -> Q -> bool -> list Vec3).

(** [ssao->blur] only with [ssao->plus]. *)
Definition ssao_ok (r : Renderer) : Prop := r_ssao_blur r = true -> fx_ssao_plus (r_fx r) = true.

Definition ssao_f (r : Renderer) : bool * bool * bool := (r_ssao_blur r, fx_ssao_plus (r_fx r), r_activate_ssao r).
Definition mode_f (r : Renderer) : bool * bool * bool * eRenderMode := (ssao_f r, r_render_mode r).

Lemma ssao_ok_agree w w' : r_agree ssao_f w w' -> ssao_ok (w_r w) -> ssao_ok (w_r w').
Proof. unfold r_agree, ssao_f, ssao_ok. intros [= -> -> _]. done. Qed.

Lemma mpres_gui_combos i : mpres (r_agree ssao_f) (gui_combos i).
Proof.
  unfold gui_combos, onQualityChanged, onRenderModeChanged, onLightModeChanged, regen_shadow_fbo, drop_atlas.
  mpres_solve.
Qed.

Lemma mpres_panel_irradiance i : mpres (r_agree mode_f) (panel_irradiance cubemapFaceNormals computeSH i).
Proof.
  unfold panel_irradiance, set_toggles, on_gui. mpres_solve.
  apply Probes.mpres_updateProbes. done.
Qed.

Lemma mpres_panel_reflections i : mpres (r_agree mode_f) (panel_reflections cubemapFaceNormals i).
Proof.
  unfold panel_reflections, set_toggles, on_gui. mpres_solve. apply Probes.mpres_updateReflectionProbes.
Qed.

(** A panel block that leaves the SSAO switches alone keeps [mode_f]. *)
Lemma mpres_on_gui f :
  (forall t x, t_ssao (fst (f t x)) = t_ssao t /\ t_ssao_blur (fst (f t x)) = t_ssao_blur t /\
               x_ssao_plus (snd (f t x)) = x_ssao_plus x) ->
  mpres (r_agree mode_f) (on_gui f).
Proof.
  intros Hf w [] w' [= <-]. unfold r_agree, mode_f, ssao_f. cbn.
  destruct (f _ _) as [t x] eqn:E. cbn.
  destruct (Hf (toggles_of (w_r w)) (fxgui_of (r_fx (w_r w)))) as (H1 & H2 & H3).
  rewrite E in H1, H2, H3. cbn in *. by rewrite H1, H2, H3.
Qed.

Lemma mpres_panel_volumetric i : mpres (r_agree mode_f) (panel_volumetric i).
Proof. apply mpres_on_gui. intros t x. cbn. by destruct (checkbox _ _). Qed.

(** The SSAO block: when it leaves SSAO on, [blur] is off or [plus] on. *)
Lemma panel_ssao_run i w w' :
  on_gui (panel_ssao generateSpherePoints i) w = inr (tt, w') ->
  (ssao_ok (w_r w) \/ r_activate_ssao (w_r w') = true) ->
  ssao_ok (w_r w') /\ r_render_mode (w_r w') = r_render_mode (w_r w).
Proof.
  unfold on_gui, mmodify, set_r, panel_ssao, ssao_ok. intros [= <-]. cbn -[checkbox].
  destruct (checkbox (pi_ssao i) _); cbn -[checkbox].
  - destruct (checkbox (pi_ssao_plus i) _); cbn; intuition done.
  - intros [Hok|]; [|discriminate]. by split.
Qed.

Lemma agree_mode_ssao w w' : r_agree mode_f w w' -> r_agree ssao_f w w'.
Proof. intros Hm. exact (f_equal fst Hm). Qed.
#[local] Hint Resolve agree_mode_ssao ssao_ok_agree : core.

Lemma mpres_panel_common i : mpres (r_agree mode_f) (on_gui (panel_common i)).
Proof. apply mpres_on_gui. intros t x. unfold panel_common. cbn. by repeat split. Qed.

#[local] Hint Resolve mpres_panel_irradiance mpres_panel_reflections mpres_panel_volumetric : mpres.

(** The deferred block ends with [ssao_ok], from [ssao_ok] or with SSAO
    left on, and keeps the render mode. *)
Lemma deferred_block_run i w w' :
  deferred_block cubemapFaceNormals computeSH generateSpherePoints i w = inr (tt, w') ->
  (ssao_ok (w_r w) \/ r_activate_ssao (w_r w') = true) ->
  ssao_ok (w_r w') /\ r_render_mode (w_r w') = r_render_mode (w_r w).
Proof.
  unfold deferred_block. intros ([] & w1 & H1 & Hrest)%mbind_inr_inv Hpre.
  assert (Hag : r_agree mode_f w1 w').
  { enough (Hm : mpres (r_agree mode_f) (panel_irradiance cubemapFaceNormals computeSH i ;;;
                                          panel_reflections cubemapFaceNormals i ;;; panel_volumetric i))
      by exact (Hm _ _ _ Hrest).
    mpres_solve. }
  unfold r_agree, mode_f, ssao_f in Hag. injection Hag as Hb Hp Ha Hm.
  destruct (panel_ssao_run i w w1 H1) as [Hok Hm1].
  { rewrite <- Ha. exact Hpre. }
  split; [|congruence]. unfold ssao_ok in *. rewrite Hb, Hp. exact Hok.
Qed.

Lemma gui_panel_run i w w' :
  gui_panel cubemapFaceNormals computeSH generateSpherePoints i w = inr (tt, w') ->
  (ssao_ok (w_r w) \/ (r_render_mode (w_r w') = DEFERRED /\ r_activate_ssao (w_r w') = true)) ->
  ssao_ok (w_r w').
Proof.
  unfold gui_panel. intros ([] & w1 & H1 & Hrun)%mbind_inr_inv Hpre.
  pose proof (mpres_panel_common i _ _ _ H1) as Ag1.
  apply mbind_inr_inv in Hrun as (w2 & w3 & [= <- <-] & Hrun).
  apply mbind_inr_inv in Hrun as ([] & w4 & H4 & Hrun).
  destruct (depth_viewport_label w1); [discriminate|]. injection H4 as <-.
  destruct (decide _) as [Hd|Hd].
  - apply (deferred_block_run i w1 w' Hrun).
    destruct Hpre as [Hok|[_ Ha]]; [left; eauto|right; exact Ha].
  - injection Hrun as <-. destruct Hpre as [Hok|[Hm _]]; [eauto|].
    unfold r_agree, mode_f in Ag1. injection Ag1 as _ Hm1. congruence.
Qed.

(** A frame of the panel is the combos, the panel from the light
    equation on, the colour edits and the entity menus, in that order. *)
Lemma renderDebugGUI_inv i s s' :
  renderDebugGUI cubemapFaceNormals computeSH generateSpherePoints i s = inr s' ->
  exists w1 w2, gui_combos i (ui_world s) = inr (tt, w1) /\
    gui_panel cubemapFaceNormals computeSH generateSpherePoints i w1 = inr (tt, w2) /\
    ui_world s' = set_scene (entity_menus (pi_menus i)) (set_scene (color_edits i) w2) /\
    ui_wireframe s' = checkbox (pi_wireframe i) (ui_wireframe s).
Proof.
  unfold renderDebugGUI. case_match eqn:E; [discriminate|]. destruct p as [[] w'].
  intros [= <-].
  apply mbind_inr_inv in E as ([] & w1 & H1 & E). apply mbind_inr_inv in E as ([] & w2 & H2 & E).
  apply mbind_inr_inv in E as ([] & w3 & [= <-] & E). injection E as <-. by exists w1, w2.
Qed.

(** The entity at [k] after the menus: its menu applied, when open. *)
Lemma entity_menus_lookup ms s k :
  scn_entities (entity_menus ms s) !! k =
  (fun e => match ms !! k with Some (Some m) => renderInMenu m e | _ => e end) <$> scn_entities s !! k.
Proof. apply list_lookup_imap. Qed.

(** C35. The SSAO switches after a frame of [renderDebugGUI]
    (application.cpp:343-365): [ssao->blur] is on only with
    [ssao->plus], when it was so before the frame or when the frame
    leaves the renderer in DEFERRED mode with SSAO on.  The panel resets
    [blur] whenever [plus] is off, and no other widget or handler of the
    frame (the combos, the probe bakes) writes the three switches. *)
Theorem panel_ssao_blur_plus i s s' :
  renderDebugGUI cubemapFaceNormals computeSH generateSpherePoints i s = inr s' ->
  (ssao_ok (w_r (ui_world s)) \/
   (r_render_mode (w_r (ui_world s')) = DEFERRED /\ r_activate_ssao (w_r (ui_world s')) = true)) ->
  ssao_ok (w_r (ui_world s')).
Proof.
  intros (w1 & w2 & H1 & H2 & -> & _)%renderDebugGUI_inv Hpre. apply (gui_panel_run i w1 w2 H2).
  destruct Hpre as [Hok|Hd]; [left; exact (ssao_ok_agree _ _ (mpres_gui_combos i _ _ _ H1) Hok)|right; exact Hd].
Qed.

(** C36. [ImGui::ColorEdit4] writes four floats into a three-float
    [Vector3], so its alpha lands in the next member: after a frame of
    [renderDebugGUI], "BG color" edited (and the ambient light not) leaves
    the background with the three colour floats and the ambient light's
    red channel with the alpha (application.cpp:399, scene.h:147-148);
    a light's "Color" edited in its menu (and its "Intensity" slider not)
    leaves the light with the three colour floats and the alpha as its
    [intensity] (scene.cpp:382, scene.h:111-112). *)
Theorem colorEdit4_alias i s s' :
  renderDebugGUI cubemapFaceNormals computeSH generateSpherePoints i s = inr s' ->
  (forall rgb a, pi_bg i = Some (rgb, a) -> pi_ambient i = None ->
     scn_background (w_scene (ui_world s')) = rgb /\ vx (scn_ambient (w_scene (ui_world s'))) = a) /\
  (forall k m rgb a e l, pi_menus i !! k = Some (Some m) -> em_color m = Some (rgb, a) -> em_intensity m = None ->
     scn_entities (w_scene (ui_world s')) !! k = Some e -> e_data e = ELight l ->
     l_color l = rgb /\ l_intensity l = a).
Proof.
  intros (w1 & w2 & _ & _ & -> & _)%renderDebugGUI_inv. split.
  - intros rgb a Hbg Ham. cbn. unfold color_edits. rewrite Hbg, Ham.
    by destruct (scn_ambient (w_scene w2)) as [[??]?].
  - intros k m rgb a e l Hm Hc Hi. cbn [w_scene set_scene]. rewrite entity_menus_lookup, Hm.
    intros (e0 & _ & ->)%fmap_Some. unfold renderInMenu. cbn.
    destruct (e_data e0) as [| | l0 | | | |] eqn:Ed; cbn; intros Hd; try congruence.
    injection Hd as <-. unfold LightEntity_renderInMenu. rewrite Hc, Hi. done.
Qed.

End GuiProofs.

End Gui.

(** ** Witnesses *)

Definition ex_sphere_points (_ : Z) (_ : Q) (_ : bool) : list Vec3 := [].

(** A frame of the panel in which only SSAO's boxes, the background
    colour and the entity menus [ms] are touched. *)
Definition ex_gui_input (ssao plus blur : bool) (bg : option (Vec3 * Q)) (ms : list (option (@Gui.EntityMenu World1)))
    : @Gui.PanelInput World1 :=
  {| Gui.pi_quality := None; Gui.pi_render_mode := None; Gui.pi_light_mode := None; Gui.pi_light_eq := None;
     Gui.pi_bloom_th := None; Gui.pi_bloom_soft_th := None; Gui.pi_blur_iterations := None;
     Gui.pi_min_dof := None; Gui.pi_max_dof := None; Gui.pi_focal := None; Gui.pi_grain := None; Gui.pi_lens := None;
     Gui.pi_depth_viewport := false; Gui.pi_pcf := false; Gui.pi_hdr := false;
     Gui.pi_hdr_scale := None; Gui.pi_hdr_avg := None; Gui.pi_hdr_white := None; Gui.pi_hdr_gamma := None;
     Gui.pi_dithering := false; Gui.pi_ssao := ssao; Gui.pi_ssao_plus := plus; Gui.pi_ssao_blur := blur;
     Gui.pi_ssao_intensity := None; Gui.pi_ssao_samples := None; Gui.pi_ssao_bias := None;
     Gui.pi_irr := false; Gui.pi_trilinear := false; Gui.pi_show_probes := false;
     Gui.pi_reflections := false; Gui.pi_show_reflection_probes := false;
     Gui.pi_volumetric := false; Gui.pi_air_density := None; Gui.pi_wireframe := false;
     Gui.pi_bg := bg; Gui.pi_ambient := None; Gui.pi_menus := ms; Gui.pi_clicked := None |}.

Definition ex_ui : @Gui.UiState World1 :=
  {| Gui.ui_world := ex_world DEFERRED MULTI []; Gui.ui_wireframe := false; Gui.ui_selected := None |}.

(** The frame of the panel that ticks SSAO, SSAO+ and its blur. *)
Definition ex_ssao_frame : @Gui.UiState World1 :=
  Eval vm_compute in
  match Gui.renderDebugGUI ex_face_normals ex_computeSH ex_sphere_points (ex_gui_input true true true None []) ex_ui with
  | inr s => s | inl _ => ex_ui end.

Lemma panel_ssao_blur_plus_witness :
  Gui.renderDebugGUI ex_face_normals ex_computeSH ex_sphere_points (ex_gui_input true true true None []) ex_ui =
    inr ex_ssao_frame /\ Gui.ssao_ok (w_r (Gui.ui_world ex_ssao_frame)).
Proof.
  split; [vm_compute; reflexivity|].
  apply (Gui.panel_ssao_blur_plus (H:=World1) ex_face_normals ex_computeSH ex_sphere_points
           (ex_gui_input true true true None []) ex_ui); [vm_compute; reflexivity|].
  left. unfold Gui.ssao_ok. cbn. discriminate.
Defined.

(** The menu of a light with "Color" set to white, alpha 1/2. *)
Definition ex_light_menu : @Gui.EntityMenu World1 :=
  {| Gui.em_visible := false; Gui.em_model := None; Gui.em_area := None; Gui.em_cast_shadows := false;
     Gui.em_cone := None; Gui.em_spot_exp := None; Gui.em_color := Some (vec3 1 1 1, 1#2);
     Gui.em_intensity := None; Gui.em_bias := None; Gui.em_max_dist := None |}.

Definition ex_alias_input : @Gui.PanelInput World1 :=
  ex_gui_input false false false (Some (vec3 1 0 0, 1#2)) [Some ex_light_menu].

(** One spot light of intensity 1. *)
Definition ex_alias_ui : @Gui.UiState World1 :=
  {| Gui.ui_world := ex_world DEFERRED MULTI [ex_light_entity SPOT 0 true true]; Gui.ui_wireframe := false;
     Gui.ui_selected := None |}.

(** The frame that sets the background to red and the light to white,
    both with alpha 1/2. *)
Definition ex_alias_frame : @Gui.UiState World1 :=
  Eval vm_compute in
  match Gui.renderDebugGUI ex_face_normals ex_computeSH ex_sphere_points ex_alias_input ex_alias_ui with
  | inr s => s | inl _ => ex_alias_ui end.

Definition ex_alias_light : option (@LightEntity World1) :=
  match scn_entities (w_scene (Gui.ui_world ex_alias_frame)) with
  | [{| e_data := ELight l |}] => Some l | _ => None end.

Lemma colorEdit4_alias_witness :
  Gui.renderDebugGUI ex_face_normals ex_computeSH ex_sphere_points ex_alias_input ex_alias_ui = inr ex_alias_frame /\
  vx (scn_ambient (w_scene (Gui.ui_world ex_alias_frame))) = 1#2 /\
  option_map l_intensity ex_alias_light = Some (1#2).
Proof.
  assert (E : Gui.renderDebugGUI ex_face_normals ex_computeSH ex_sphere_points ex_alias_input ex_alias_ui =
              inr ex_alias_frame) by (vm_compute; reflexivity).
  destruct (Gui.colorEdit4_alias (H:=World1) ex_face_normals ex_computeSH ex_sphere_points
              ex_alias_input ex_alias_ui ex_alias_frame E) as [Hbg Hl].
  split; [exact E|]. split; [exact (proj2 (Hbg _ _ eq_refl eq_refl))|].
  destruct (Hl 0 ex_light_menu (vec3 1 1 1) (1#2) _ _ eq_refl eq_refl eq_refl eq_refl eq_refl) as [_ Hi].
  unfold ex_alias_light, ex_alias_frame. cbn -[l_intensity]. by rewrite Hi.
Defined.
