(* ===== verification/Main.v ===== *)
(** * The application's main loop

    The framework's main loop (main.cpp, not under [src/]) calls, per
    frame, [Application::render] (application.cpp:92-125), which draws the
    frame with [Renderer::renderToFBO], and then [renderDebugGUI]; between
    frames it dispatches the SDL events to [onKeyDown] (436-451),
    [onMouseButtonDown] (467-475) and [onMouseWheel] (481-508).  This file
    composes the frame ([Frame.renderToFBO]), the panel
    ([Gui.renderDebugGUI]), the keys ([Application.onKeyDown] and the
    probe bakes of keys [4] and [5], [Probes]) and the mouse handlers into
    one step relation [main_step] on [MainState], with the states a run
    reaches from the constructors ([main_reachable]); the constructors
    are [Renderer_new] ([Renderer::Renderer] with [SSAO::SSAO]) and the
    application's fields.

    Theorems: [gui_combos_refines] (the panel's three combos are a run of
    the combo events of [Application.app_step]), [main_reachable_ok]
    (every reachable state keeps the render and light modes the combos
    allow and [ssao->blur] only with [ssao->plus]), [cam_speed_trap]
    (once [cam_speed] is zero, no event changes it) and
    [grid_uninit_bake] (in a scene without an irradiance grid, [grid]
    stays uninitialised through every run, and key [4] reads it); the
    last rests on the frame relation [grid_frame], proved of every frame,
    panel, bake and key. *)

From S2P Require Import Prelude Enums Geometry RenderCall GL Scene Traversal Renderer Fetch Shadows Shading PostFX Deferred Application Frame Probes Gui.

Module Main.

(** ** The frame keeps the modes and the SSAO switches *)

Section FrameFields.
Context `{Geometry} `{!CallSorter}.

(** The fields the invariant of the loop reads. *)
Definition main_fields (r : Renderer) : eRenderMode * eLightMode * (bool * bool * bool) :=
  (r_render_mode r, r_light_mode r, Gui.ssao_f r).

Lemma mpres_atlas_loop_main c ls : mpres (r_agree main_fields) (atlas_loop c ls).
Proof.
  revert c. induction ls as [|p ls IH]; intros c; cbn; [apply (mpres_ret (r_agree main_fields))|].
  unfold atlas_light. mpres_solve.
Qed.
#[local] Hint Resolve mpres_atlas_loop_main Probes.mpres_renderCalls : mpres.

Lemma mpres_renderScene_main fuel cam : mpres (r_agree main_fields) (renderScene fuel cam).
Proof.
  unfold renderScene. mpres_solve.
  - apply mpres_fetch_agree. done.
  - unfold renderShadows, shadowMapping, renderToAtlas. mpres_solve.
  - destruct (mpres_deferred_suffix cam) as (Hv & Hp & Hr).
    unfold renderDeferred, renderGBuffers, ssao_apply, deferred_sun, renderMultiPassSphere, sphere_pass,
      alpha_forward, render_visible. mpres_solve.
Qed.

#[local] Hint Resolve mpres_renderScene_main : mpres.

(** A frame writes the lists, the atlas, the lights' cameras and the
    post-processing state, never the modes or the SSAO switches. *)
Lemma mpres_renderToFBO_main fuel cam time : mpres (r_agree main_fields) (renderToFBO fuel cam time).
Proof.
  unfold renderToFBO, renderPostFX, showGbuffers, renderShadowmaps, shadowmap_view, renderAtlas. mpres_solve.
Qed.

End FrameFields.
(** ** The loop *)

Section MainModel.
Context `{Geometry} `{!CallSorter}.
Context (cubemapFaceNormals : nat -> Vec3 * Vec3 * Vec3) (computeSH : list (list GLCmd) -> SH).
Context (generateSpherePoints : Z -> Q -> bool -> list Vec3).

(** The application's state: the renderer, the scene and [render_debug],
    [must_exit] ([App]), with [render_wireframe], the global
    [selected_entity] (an index into the scene's entities),
    [mouse_locked] and the global [cam_speed] (application.cpp:24-29). *)
Record MainState := {
  ms_app : App;
  ms_wireframe : bool;
  ms_selected : option nat;
  ms_mouse_locked : bool;
  ms_cam_speed : Q
}.

(** The keys of [onKeyDown]: those of [Application.onKeyDown], and [4]
    and [5], which run the probe bakes (application.cpp:447-448). *)
Inductive MainKey := KeyApp (k : Key) | SDLK_4 | SDLK_5.

Inductive MouseButton := SDL_BUTTON_LEFT | SDL_BUTTON_MIDDLE | SDL_BUTTON_RIGHT.

(** An event of the loop: a frame drawn and its panel, a key, a mouse
    button or the wheel.  [blocked] is [ImGui::IsAnyWindowHovered()]. *)
Inductive MainEvent :=
| EvFrame (fuel : nat) (cam : Camera) (time : Q) (i : Gui.PanelInput)
| EvMainKey (k : MainKey)
| EvMouseButtonDown (b : MouseButton)
| EvMouseWheel (y : Z) (blocked : bool).

Definition with_app (s : MainState) (a : App) : MainState :=
  {| ms_app := a; ms_wireframe := ms_wireframe s; ms_selected := ms_selected s; ms_mouse_locked := ms_mouse_locked s;
     ms_cam_speed := ms_cam_speed s |}.

Definition on_app (s : MainState) (r : Fault + App) : Fault + MainState :=
  match r with inl f => inl f | inr a => inr (with_app s a) end.

(** [Application::render] and then [renderDebugGUI] on the same world. *)
Definition main_frame (fuel : nat) (cam : Camera) (time : Q) (i : Gui.PanelInput) (s : MainState)
    : Fault + MainState :=
  let a := ms_app s in
  match renderToFBO fuel cam time (a_world a) with
  | inl f => inl f
  | inr (_, w) =>
      match Gui.renderDebugGUI cubemapFaceNormals computeSH generateSpherePoints i
              {| Gui.ui_world := w; Gui.ui_wireframe := ms_wireframe s; Gui.ui_selected := ms_selected s |} with
      | inl f => inl f
      | inr u => inr {| ms_app := with_world a (Gui.ui_world u); ms_wireframe := Gui.ui_wireframe u;
                        ms_selected := Gui.ui_selected u;
                        ms_mouse_locked := ms_mouse_locked s; ms_cam_speed := ms_cam_speed s |}
      end
  end.

(** [Application::onKeyDown] (436-451). *)
Definition main_onKeyDown (k : MainKey) (s : MainState) : Fault + MainState :=
  match k with
  | KeyApp k' => inr (with_app s (onKeyDown k' (ms_app s)))
  | SDLK_4 => on_app s (run_world (Probes.updateProbes cubemapFaceNormals computeSH) (ms_app s))
  | SDLK_5 => on_app s (run_world (Probes.updateReflectionProbes cubemapFaceNormals) (ms_app s))
  end.

(** [Application::onMouseButtonDown] (467-475): the middle button
    toggles [mouse_locked]. *)
Definition onMouseButtonDown (b : MouseButton) (s : MainState) : MainState :=
  match b with
  | SDL_BUTTON_MIDDLE =>
      {| ms_app := ms_app s; ms_wireframe := ms_wireframe s; ms_selected := ms_selected s;
         ms_mouse_locked := negb (ms_mouse_locked s);
         ms_cam_speed := ms_cam_speed s |}
  | _ => s
  end.

(** [Application::onMouseWheel] (481-508): with the mouse locked,
    [cam_speed *= 1 + (event.y * 0.1)]; otherwise the camera distance
    changes (the camera is not part of the state). *)
Definition onMouseWheel (y : Z) (blocked : bool) (s : MainState) : MainState :=
  if negb blocked && negb (Z.eqb y 0) && ms_mouse_locked s then
    {| ms_app := ms_app s; ms_wireframe := ms_wireframe s; ms_selected := ms_selected s;
       ms_mouse_locked := ms_mouse_locked s; ms_cam_speed := ms_cam_speed s * (1 + inject_Z y * (1 # 10)) |}
  else s.

Definition main_step (s : MainState) (ev : MainEvent) : Fault + MainState :=
  match ev with
  | EvFrame fuel cam time i => main_frame fuel cam time i s
  | EvMainKey k => main_onKeyDown k s
  | EvMouseButtonDown b => inr (onMouseButtonDown b s)
  | EvMouseWheel y blocked => inr (onMouseWheel y blocked s)
  end.

Fixpoint main_run (s : MainState) (evs : list MainEvent) : Fault + MainState :=
  match evs with
  | [] => inr s
  | ev :: evs' => match main_step s ev with inl f => inl f | inr s' => main_run s' evs' end
  end.

(** The fields of [class SSAO] (renderer.h:37-53); its FBOs are the
    render targets of [Resize]. *)
Record SSAOState := {
  ss_samples : Z; ss_intensity : Q; ss_plus : bool; ss_bias : Q; ss_blur : bool; ss_points : list Vec3
}.

(** [SSAO::SSAO(points_num, ssao_plus)] (renderer.cpp:1431-1449). *)
Definition SSAO_new (points_num : Z) (ssao_plus : bool) : SSAOState :=
  {| ss_samples := points_num; ss_intensity := 1; ss_plus := ssao_plus; ss_bias := 5 # 1000;
     ss_blur := true; ss_points := generateSpherePoints points_num 1 ssao_plus |}.

(** [Renderer::Renderer] (renderer.cpp:19-64): the fields it assigns, and
    [ssao = new SSAO(64, true)].  It leaves [shadow_count], [grid],
    [directional_light] and [prev_vp] unassigned: [shadow_count0] and
    [prev_vp0] are whatever they hold, and the two pointers are
    [PUninit]; the three vectors start empty. *)
Definition Renderer_new (shadow_count0 : Z) (prev_vp0 : Mat44) : Renderer :=
  let ssao := SSAO_new 64 true in
  {| r_render_mode := DEFERRED; r_light_mode := MULTI; r_light_eq := DIRECT_BURLEY;
     r_pcf := false; r_depth_viewport := false; r_dithering := false; r_show_gbuffers := false;
     r_show_omr := false; r_activate_ssao := true; r_hdr_active := true; r_activate_irr := false;
     r_irr_3lerp := false; r_reflections := false; r_show_probes := false; r_volumetric := false;
     r_show_reflection_probes := false; r_depth_light := 0; r_shadow_count := shadow_count0;
     r_hdr_gamma := 11 # 5; r_blur_iterations := 10; r_calls := []; r_lights := [];
     r_reflection_probes := []; r_grid := PUninit; r_directional_light := PUninit;
     r_probes_texture := None; r_atlas := None; r_ssao_blur := ss_blur ssao;
     r_reflections_calculated := false;
     r_fx := {| fx_hdr_scale := 1; fx_hdr_average_lum := 5 # 2; fx_hdr_white_balance := 10;
                fx_air_density := 2 # 1000; fx_bloom_th := 1; fx_bloom_soft_th := 1 # 2;
                fx_focal_dist := 500; fx_min_dist_dof := 100; fx_max_dist_dof := 500;
                fx_noise_amount := 1 # 2; fx_lens_dist := 1 # 2; fx_ssao_intensity := ss_intensity ssao;
                fx_prev_vp := prev_vp0; fx_gbuffers_alloc := false; fx_ssao_samples := ss_samples ssao;
                fx_ssao_plus := ss_plus ssao; fx_ssao_bias := ss_bias ssao; fx_ssao_points := ss_points ssao;
                fx_depth_filtered := false |} |}.

(** What the constructors leave: [Application::Application]
    (application.cpp:31-89: [render_debug] on, [must_exit] off, quality
    MEDIUM, no wireframe, mouse unlocked, no [selected_entity],
    [cam_speed = 10]) with the renderer of [Renderer_new]; the scene is
    any scene [Scene::load] produced. *)
Definition main_initial (s : MainState) : Prop :=
  let a := ms_app s in
  (exists sc0 vp0, w_r (a_world a) = Renderer_new sc0 vp0) /\
  a_render_debug a = true /\ a_must_exit a = false /\ w_quality (a_world a) = MEDIUM /\
  ms_wireframe s = false /\ ms_selected s = None /\ ms_mouse_locked s = false /\ ms_cam_speed s = 10%Q.

Inductive main_reachable : MainState -> Prop :=
| main_reach_init s : main_initial s -> main_reachable s
| main_reach_step s ev s' : main_reachable s -> main_step s ev = inr s' -> main_reachable s'.

(** The events of [Application.app_step] the panel's combos stand for. *)
Definition combo_events (i : Gui.PanelInput) : list Event :=
  option_list (EvQuality <$> Gui.pi_quality i) ++ option_list (EvRenderMode <$> Gui.pi_render_mode i) ++
  option_list (EvLightMode <$> Gui.pi_light_mode i).

End MainModel.

(** ** The panel's combos are the application's combo events *)

Section ComboRefinement.
Context `{Geometry} `{!CallSorter}.

Lemma run_world_seq (m k : M World unit) a :
  run_world (m ;;; k) a = match run_world m a with inl f => inl f | inr a' => run_world k a' end.
Proof. unfold run_world, mbind. by destruct (m (a_world a)) as [|[[] w]]. Qed.

Lemma run_world_get (k : World -> M World unit) a : run_world (w <- mget ;; k w) a = run_world (k (a_world a)) a.
Proof. done. Qed.

Lemma run_world_ret a : run_world (mret tt) a = inr a.
Proof. by destruct a. Qed.

Lemma app_run_app a e1 e2 :
  app_run a (e1 ++ e2) = match app_run a e1 with inl f => inl f | inr a' => app_run a' e2 end.
Proof.
  revert a. induction e1 as [|ev e1 IH]; intros a; [done|]. cbn.
  destruct (app_step a ev); [done|]. apply IH.
Qed.

Lemma app_run_single a ev : app_run a [ev] = app_step a ev.
Proof. cbn. by destruct (app_step a ev). Qed.

Lemma combo_quality i a :
  run_world (match Gui.pi_quality i with Some q => onQualityChanged q | None => mret tt end) a =
  app_run a (option_list (EvQuality <$> Gui.pi_quality i)).
Proof.
  destruct (Gui.pi_quality i) as [q|]; [|by rewrite run_world_ret].
  change (run_world (onQualityChanged q) a = app_run a [EvQuality q]). by rewrite app_run_single.
Qed.

Lemma combo_render_mode i a :
  run_world (match Gui.pi_render_mode i with
             | Some rm => if decide (rm ∈ combo_render_modes) then onRenderModeChanged rm else mret tt
             | None => mret tt end) a =
  app_run a (option_list (EvRenderMode <$> Gui.pi_render_mode i)).
Proof.
  destruct (Gui.pi_render_mode i) as [rm|]; [|by rewrite run_world_ret].
  change (app_run a (option_list (EvRenderMode <$> Some rm))) with (app_run a [EvRenderMode rm]). rewrite app_run_single. cbn [app_step].
  case_decide; [done|apply run_world_ret].
Qed.

Lemma combo_light_mode i a :
  run_world (w <- mget ;;
             if decide (r_render_mode (w_r w) = FORWARD) then
               match Gui.pi_light_mode i with
               | Some lm => if decide (lm ∈ combo_light_modes) then onLightModeChanged lm else mret tt
               | None => mret tt end
             else mret tt) a =
  app_run a (option_list (EvLightMode <$> Gui.pi_light_mode i)).
Proof.
  rewrite run_world_get.
  destruct (Gui.pi_light_mode i) as [lm|]; [|case_decide; by rewrite run_world_ret].
  change (app_run a (option_list (EvLightMode <$> Some lm))) with (app_run a [EvLightMode lm]). rewrite app_run_single. cbn [app_step].
  repeat case_decide; try apply run_world_ret; naive_solver.
Qed.

(** [renderDebugGUI]'s three combos (application.cpp:256-301) are the
    run of [Application.app_step] on the events of the items picked: the
    guards of the panel (the items offered, the light-mode combo only in
    FORWARD) are those of the event system. *)
Lemma gui_combos_refines i a : run_world (Gui.gui_combos i) a = app_run a (combo_events i).
Proof.
  unfold Gui.gui_combos, combo_events. rewrite run_world_seq, app_run_app, combo_quality.
  destruct (app_run a _) as [|a1]; [done|]. rewrite run_world_seq, app_run_app, combo_render_mode.
  destruct (app_run a1 _) as [|a2]; [done|]. apply combo_light_mode.
Qed.

End ComboRefinement.

(** ** The invariant of the loop *)

Section MainProofs.
Context `{Geometry} `{!CallSorter}.
Context (cubemapFaceNormals : nat -> Vec3 * Vec3 * Vec3) (computeSH : list (list GLCmd) -> SH).
Context (generateSpherePoints : Z -> Q -> bool -> list Vec3).

(** The modes the combos allow, and [ssao->blur] only with [ssao->plus]. *)
Definition main_ok (r : Renderer) : Prop := mode_ok r /\ Gui.ssao_ok r.

Definition modes (r : Renderer) : eRenderMode * eLightMode := (r_render_mode r, r_light_mode r).

Lemma main_ok_agree w w' : r_agree main_fields w w' -> main_ok (w_r w) -> main_ok (w_r w').
Proof.
  unfold r_agree, main_fields, Gui.ssao_f, main_ok, mode_ok, Gui.ssao_ok.
  intros [= -> -> -> -> _]. done.
Qed.

Lemma app_run_mode_ok a evs a' : app_run a evs = inr a' -> mode_ok (w_r (a_world a)) -> mode_ok (w_r (a_world a')).
Proof.
  revert a. induction evs as [|ev evs IH]; intros a; cbn; [by intros [= <-]|].
  destruct (app_step a ev) as [|a1] eqn:E; [discriminate|]. intros Hrun Hok.
  apply (IH a1 Hrun). exact (app_step_mode_ok a ev a1 E Hok).
Qed.

(** The combos keep the modes allowed, as the events they stand for do. *)
Lemma gui_combos_mode_ok i w w' :
  Gui.gui_combos i w = inr (tt, w') -> mode_ok (w_r w) -> mode_ok (w_r w').
Proof.
  intros E. set (a := {| a_world := w; a_render_debug := false; a_must_exit := false |}).
  assert (Hrun : app_run a (combo_events i) = inr (with_world a w')).
  { rewrite <- gui_combos_refines. unfold run_world. cbn [a_world a]. by rewrite E. }
  exact (app_run_mode_ok a _ _ Hrun).
Qed.

Lemma mpres_on_gui_modes f : mpres (r_agree modes) (Gui.on_gui f).
Proof. intros w [] w' [= <-]. unfold r_agree. cbn. by destruct (f _ _). Qed.
#[local] Hint Resolve mpres_on_gui_modes : mpres.

Lemma mpres_gui_panel_modes i : mpres (r_agree modes) (Gui.gui_panel cubemapFaceNormals computeSH generateSpherePoints i).
Proof.
  unfold Gui.gui_panel, Gui.deferred_block, Gui.panel_irradiance, Gui.panel_reflections, Gui.panel_volumetric,
    Gui.set_toggles.
  mpres_solve; [apply Probes.mpres_updateProbes; done|apply Probes.mpres_updateReflectionProbes].
Qed.

(** A frame of the panel keeps the invariant: the combos by
    [gui_combos_mode_ok], the SSAO block by its reset of [blur], and no
    other widget or bake writes the modes or the switches. *)
Lemma renderDebugGUI_ok i u u' :
  Gui.renderDebugGUI cubemapFaceNormals computeSH generateSpherePoints i u = inr u' ->
  main_ok (w_r (Gui.ui_world u)) -> main_ok (w_r (Gui.ui_world u')).
Proof.
  intros (w1 & w2 & H1 & H2 & -> & _)%Gui.renderDebugGUI_inv [Hm Hs]. cbn. split.
  - pose proof (mpres_gui_panel_modes i _ _ _ H2) as Hag. unfold r_agree, modes in Hag. injection Hag as E1 E2.
    pose proof (gui_combos_mode_ok i _ _ H1 Hm) as (Hr & Hl & Hd). unfold mode_ok. rewrite E1, E2. done.
  - apply (Gui.gui_panel_run _ _ _ i w1 w2 H2). left.
    exact (Gui.ssao_ok_agree _ _ (Gui.mpres_gui_combos i _ _ _ H1) Hs).
Qed.

Lemma onKeyDown_fields k a : main_fields (w_r (a_world (onKeyDown k a))) = main_fields (w_r (a_world a)).
Proof. destruct k; cbn; try done. by case_bool_decide. Qed.

Lemma main_step_ok s ev s' :
  main_step cubemapFaceNormals computeSH generateSpherePoints s ev = inr s' ->
  main_ok (w_r (a_world (ms_app s))) -> main_ok (w_r (a_world (ms_app s'))).
Proof.
  destruct ev as [fuel cam time i|[k| |]|b|y blocked]; cbn.
  - unfold main_frame. destruct (renderToFBO _ _ _ _) as [|[[] w]] eqn:E; [discriminate|].
    destruct (Gui.renderDebugGUI _ _ _ _ _) as [|u] eqn:Eu; [discriminate|]. intros [= <-] Hok. cbn.
    apply (renderDebugGUI_ok i _ _ Eu). cbn. exact (main_ok_agree _ _ (mpres_renderToFBO_main _ _ _ _ _ _ E) Hok).
  - intros [= <-]. cbn. apply main_ok_agree. unfold r_agree. apply onKeyDown_fields.
  - unfold on_app, run_world. destruct (Probes.updateProbes _ _ _) as [|[[] w]] eqn:E; [discriminate|].
    intros [= <-]. apply main_ok_agree. by apply (Probes.mpres_updateProbes _ _ main_fields (fun _ _ => eq_refl) _ _ _ E).
  - unfold on_app, run_world. destruct (Probes.updateReflectionProbes _ _) as [|[[] w]] eqn:E; [discriminate|].
    intros [= <-]. apply main_ok_agree. by apply (Probes.mpres_updateReflectionProbes _ main_fields _ _ _ E).
  - intros [= <-]. by destruct b.
  - intros [= <-]. unfold onMouseWheel. by case_match.
Qed.

Lemma main_step_speed s ev s' :
  main_step cubemapFaceNormals computeSH generateSpherePoints s ev = inr s' ->
  exists c, (ms_cam_speed s' == ms_cam_speed s * c)%Q.
Proof.
  intros E. enough (ms_cam_speed s' = ms_cam_speed s \/
                    exists c, ms_cam_speed s' = (ms_cam_speed s * c)%Q) as [->|[c ->]].
  { exists 1%Q. ring. } { by exists c. }
  revert E. destruct ev as [fuel cam time i|[k| |]|b|y blocked]; cbn.
  - unfold main_frame. repeat case_match; intros; simplify_eq; by left.
  - intros [= <-]. by left.
  - unfold on_app. case_match; intros; simplify_eq; by left.
  - unfold on_app. case_match; intros; simplify_eq; by left.
  - intros [= <-]. left. by destruct b.
  - intros [= <-]. unfold onMouseWheel. case_match; [right; by eexists|by left].
Qed.

(** C32. Every state the loop reaches from the constructors, through
    frames ([renderToFBO] then [renderDebugGUI]), keys (the probe bakes
    of [4] and [5] included) and mouse events, has the render and light
    modes the combos allow (MULTI whenever DEFERRED) and [ssao->blur] on
    only with [ssao->plus] (rule induction over the runs: a frame writes
    neither, the combos are the events of [Application.app_step], and
    the panel's SSAO block clears [blur] whenever [plus] is off). *)
Theorem main_reachable_ok s :
  main_reachable cubemapFaceNormals computeSH generateSpherePoints s -> main_ok (w_r (a_world (ms_app s))).
Proof.
  induction 1 as [s ((sc0 & vp0 & Hr) & _)|s ev s' _ IH E].
  - rewrite Hr. split; [|by intros _]. unfold mode_ok. cbn. split; [set_solver|]. split; [set_solver|done].
  - exact (main_step_ok s ev s' E IH).
Qed.

(** C37. [onMouseWheel] scales [cam_speed] by [1 + event.y * 0.1]
    (application.cpp:502): a wheel event of [-10] notches with the mouse
    locked sets it to zero, and from then on no event of the loop changes
    it, so the camera keys ([speed = seconds_elapsed * cam_speed * 25])
    no longer move the camera. *)
Theorem cam_speed_trap s evs s' :
  main_run cubemapFaceNormals computeSH generateSpherePoints s evs = inr s' ->
  (ms_cam_speed s == 0)%Q -> (ms_cam_speed s' == 0)%Q.
Proof.
  revert s. induction evs as [|ev evs IH]; intros s; cbn; [by intros [= <-]|].
  destruct (main_step _ _ _ s ev) as [|s1] eqn:E; [discriminate|]. intros Hrun Hz. apply (IH s1 Hrun).
  destruct (main_step_speed s ev s1 E) as [c ->]. rewrite Hz. ring.
Qed.

End MainProofs.

(** ** Without an irradiance grid, [grid] stays uninitialised *)

Section GridFrame.
Context `{Geometry} `{!CallSorter}.
Context (cubemapFaceNormals : nat -> Vec3 * Vec3 * Vec3) (computeSH : list (list GLCmd) -> SH).
Context (generateSpherePoints : Z -> Q -> bool -> list Vec3).

Definition is_grid (e : Entity) : bool := match e_data e with EGrid _ => true | _ => false end.

(** The scene holds no [IrradianceGrid] entity. *)
Definition no_grid (w : World) : Prop := Forall (fun e => is_grid e = false) (scn_entities (w_scene w)).

(** Without a grid in the scene, a step keeps it so and leaves [grid]
    alone. *)
Definition grid_frame (w w' : World) : Prop := no_grid w -> no_grid w' /\ r_grid (w_r w') = r_grid (w_r w).

#[local] Instance grid_frame_preorder : PreOrder grid_frame.
Proof.
  split; [by intros w Hw|]. intros w1 w2 w3 H12 H23 H1.
  destruct (H12 H1) as [H2 E12]. destruct (H23 H2) as [H3 E23]. split; [done|congruence].
Qed.

Lemma grid_frame_of (m : M World unit) :
  mpres (w_agree (fun w => scn_entities (w_scene w))) m -> mpres (r_agree r_grid) m -> mpres grid_frame m.
Proof. intros Hs Hr w [] w' E Hw. unfold no_grid. rewrite (Hs _ _ _ E). split; [done|exact (Hr _ _ _ E)]. Qed.

Lemma mpres_store_light_grid id l : mpres grid_frame (mmodify (store_light id l)).
Proof.
  apply mpres_modify. intros w Hw. split; [|done]. unfold no_grid, store_light. cbn.
  destruct (scn_entities (w_scene w) !! id) eqn:E; [|done]. by apply Forall_insert.
Qed.

Lemma mpres_grows_grid {A} (m : M World A) : mpres grows m -> mpres grid_frame m.
Proof. intros Hm w a w' E Hw. by destruct (Hm _ _ _ E) as [cs ->]. Qed.

Lemma mpres_set_r_grid g : (forall r, r_grid (g r) = r_grid r) -> mpres grid_frame (mmodify (set_r g)).
Proof. intros Hg. apply mpres_modify. intros w Hw. split; [done|apply Hg]. Qed.

Lemma mpres_set_scene_grid f :
  (forall sc, Forall (fun e => is_grid e = false) (scn_entities sc) ->
              Forall (fun e => is_grid e = false) (scn_entities (f sc))) ->
  mpres grid_frame (mmodify (Gui.set_scene f)).
Proof. intros Hf. apply mpres_modify. intros w Hw. split; [by apply Hf|done]. Qed.

Lemma fetch_entity_no_grid fuel cam fp fl fpr fg i e :
  is_grid e = false -> fetch_entity fuel cam fp fl fpr fg i e = fetch_entity fuel cam fp fl fpr false i e.
Proof. unfold is_grid, fetch_entity. intros He. destruct fg, (e_data e); done. Qed.

Lemma mpres_fetch_entity_grid fuel cam fp fl fpr i e :
  mpres (r_agree r_grid) (fetch_entity fuel cam fp fl fpr false i e).
Proof.
  unfold fetch_entity. mpres_solve.
  all: try (intros w [] w'; unfold world_getCallsFromPrefab; destruct (getCallsFromPrefab _ _ _ _ _ _) as [|[]];
            [discriminate|]; by intros [= <-]).
  apply mpres_set_r_agree. intros r. unfold fetch_light. repeat case_match; done.
Qed.

(** The fetch assigns [grid] only from an irradiance grid of the scene. *)
Lemma mpres_fetch_grid fuel cam fp fl fpr fg : mpres grid_frame (fetchSceneEntities fuel cam fp fl fpr fg).
Proof.
  intros w [] w' E Hw. pose proof (mpres_fetch_scene _ _ _ _ _ _ _ _ _ E) as Hs.
  split; [unfold no_grid; by rewrite Hs|].
  revert E. unfold fetchSceneEntities. do 3 mstep. mstep.
  set (w1 := set_r _ (set_r _ (set_r _ w))).
  match goal with |- context [mbind (mfor_each ?xs ?b) _ w1] =>
    destruct (mfor_each xs b w1) as [|[[] w2]] eqn:E2; [by rewrite (mbind_fail _ _ _ _ E2)|] end.
  rewrite (mbind_step _ _ _ _ _ E2). intros [= <-]. cbn.
  transitivity (r_grid (w_r w2)); [by case_match|].
  transitivity (r_grid (w_r w1)); [|unfold w1; cbn; by repeat case_match].
  refine (eq_trans (mfor_each_proj (fun s => r_grid (w_r s)) (fun _ p => p) _ _ w1 w2 _ E2) (foldl_const _ _)).
  intros [i e] s1 s2 Hin Hb. apply elem_of_zip_r in Hin.
  assert (He : is_grid e = false) by (exact (proj1 (Forall_forall _ _) Hw e Hin)).
  rewrite fetch_entity_no_grid in Hb by exact He. exact (mpres_fetch_entity_grid fuel cam fp fl fpr i e _ _ _ Hb).
Qed.

#[local] Hint Resolve mpres_store_light_grid mpres_fetch_grid : mpres.
#[local] Hint Extern 1 (mpres grid_frame (mmodify (set_r _))) =>
  apply mpres_set_r_grid; intros; reflexivity : mpres.
#[local] Hint Extern 3 (mpres grid_frame _) => apply mpres_grows_grid; solve [eauto with mpres] : mpres.
#[local] Hint Resolve Probes.mpres_renderCalls : mpres.

Lemma mpres_atlas_loop_grid c ls : mpres grid_frame (atlas_loop c ls).
Proof.
  revert c. induction ls as [|p ls IH]; intros c; cbn; [apply (mpres_ret grid_frame)|].
  unfold atlas_light. mpres_solve.
Qed.
#[local] Hint Resolve mpres_atlas_loop_grid : mpres.

(** A frame writes [grid] only through the fetch, and the scene only
    through the lights' shadow cameras. *)
Lemma mpres_renderToFBO_grid fuel cam time : mpres grid_frame (renderToFBO fuel cam time).
Proof.
  destruct (mpres_deferred_suffix cam) as (Hv & Hp & Hr).
  unfold renderToFBO, renderScene, renderShadows, shadowMapping, renderToAtlas, renderDeferred, renderGBuffers,
    ssao_apply, deferred_sun, renderMultiPassSphere, sphere_pass, alpha_forward, render_visible,
    renderPostFX, showGbuffers, renderShadowmaps, shadowmap_view, renderAtlas.
  mpres_solve.
Qed.

Lemma grid_entity_no_grid w p : no_grid w -> exists f, Probes.grid_entity w p = inl f.
Proof.
  intros Hw. unfold Probes.grid_entity. destruct p as [| |id]; [by eexists..|].
  destruct (scn_entities (w_scene w) !! id) as [e|] eqn:E; [|by eexists].
  pose proof (proj1 (Forall_lookup _ _) Hw id e E) as He. unfold is_grid in He.
  destruct (e_data e); try discriminate; by eexists.
Qed.

(** Without a grid, [updateProbes] returns at once or faults at [grid]. *)
Lemma mpres_updateProbes_grid : mpres grid_frame (Probes.updateProbes cubemapFaceNormals computeSH).
Proof.
  intros w [] w' E Hw. revert E. unfold Probes.updateProbes. mstep.
  destruct (grid_entity_no_grid w (r_grid (w_r w)) Hw) as [f Ef].
  destruct (r_grid (w_r w)) as [| |id] eqn:Eg; [unfold mret; intros [= <-]; by rewrite Eg|rewrite Ef; unfold mfail; intros ?; discriminate..].
Qed.

Lemma mpres_render_face_grid calls t cam : mpres grid_frame (Probes.render_face calls t cam).
Proof. unfold Probes.render_face. mpres_solve. Qed.
#[local] Hint Resolve mpres_render_face_grid : mpres.

Lemma mpres_reflection_faces_grid calls pid eye n : forall cam i,
  mpres grid_frame (Probes.reflection_faces cubemapFaceNormals calls pid eye cam i n).
Proof. induction n as [|n IH]; intros cam i; cbn [Probes.reflection_faces]; mpres_solve. Qed.
#[local] Hint Resolve mpres_reflection_faces_grid : mpres.

Lemma mpres_reflection_loop_grid ps : forall cam, mpres grid_frame (Probes.reflection_loop cubemapFaceNormals ps cam).
Proof. induction ps as [|pid ps IH]; intros cam; cbn [Probes.reflection_loop]; mpres_solve. Qed.
#[local] Hint Resolve mpres_reflection_loop_grid : mpres.

Lemma mpres_updateReflectionProbes_grid : mpres grid_frame (Probes.updateReflectionProbes cubemapFaceNormals).
Proof. unfold Probes.updateReflectionProbes. mpres_solve. Qed.
#[local] Hint Resolve mpres_updateProbes_grid mpres_updateReflectionProbes_grid : mpres.

#[local] Hint Extern 2 (mpres grid_frame (mmodify _)) => apply mpres_modify; intros; by split : mpres.

Lemma mpres_on_gui_grid f : mpres grid_frame (Gui.on_gui f).
Proof. unfold Gui.on_gui, mmodify. intros w [] w' [= <-] Hw. split; [done|]. cbn. by destruct (f _ _). Qed.
#[local] Hint Resolve mpres_on_gui_grid : mpres.

Lemma is_grid_renderInMenu m e : is_grid (Gui.renderInMenu m e) = is_grid e.
Proof. unfold is_grid, Gui.renderInMenu, Gui.BaseEntity_renderInMenu. cbn. by destruct (e_data e). Qed.

Lemma color_edits_entities i sc : scn_entities (Gui.color_edits i sc) = scn_entities sc.
Proof. unfold Gui.color_edits. by repeat case_match. Qed.

Lemma mpres_gui_combos_grid i : mpres grid_frame (Gui.gui_combos i).
Proof.
  unfold Gui.gui_combos, onQualityChanged, regen_shadow_fbo, drop_atlas, onRenderModeChanged, onLightModeChanged.
  mpres_solve.
Qed.

Lemma mpres_gui_panel_grid i :
  mpres grid_frame (Gui.gui_panel cubemapFaceNormals computeSH generateSpherePoints i).
Proof.
  unfold Gui.gui_panel, Gui.deferred_block, Gui.panel_irradiance, Gui.panel_reflections, Gui.panel_volumetric,
    Gui.set_toggles.
  mpres_solve.
Qed.

(** A frame of the panel: the scene keeps its kinds of entity, and
    [grid] is not written. *)
Lemma renderDebugGUI_grid i u u' :
  Gui.renderDebugGUI cubemapFaceNormals computeSH generateSpherePoints i u = inr u' ->
  grid_frame (Gui.ui_world u) (Gui.ui_world u').
Proof.
  intros (w1 & w2 & H1 & H2 & -> & _)%Gui.renderDebugGUI_inv.
  transitivity w1; [exact (mpres_gui_combos_grid i _ _ _ H1)|].
  transitivity w2; [exact (mpres_gui_panel_grid i _ _ _ H2)|].
  intros Hw. split; [|done]. unfold no_grid. apply Forall_lookup. intros k e Hk.
  cbn [w_scene Gui.set_scene] in Hk. rewrite Gui.entity_menus_lookup in Hk. apply fmap_Some in Hk as (e0 & Hk & ->).
  rewrite color_edits_entities in Hk.
  assert (He0 : is_grid e0 = false) by (exact (proj1 (Forall_lookup _ _) Hw k e0 Hk)).
  repeat case_match; rewrite ?is_grid_renderInMenu; done.
Qed.

Lemma main_step_grid s ev s' :
  main_step cubemapFaceNormals computeSH generateSpherePoints s ev = inr s' ->
  grid_frame (a_world (ms_app s)) (a_world (ms_app s')).
Proof.
  destruct ev as [fuel cam time i|[k| |]|b|y blocked]; cbn.
  - unfold main_frame. destruct (renderToFBO _ _ _ _) as [|[[] w]] eqn:E; [discriminate|].
    destruct (Gui.renderDebugGUI _ _ _ _ _) as [|u] eqn:Eu; [discriminate|]. intros [= <-]. cbn.
    transitivity w; [exact (mpres_renderToFBO_grid _ _ _ _ _ _ E)|exact (renderDebugGUI_grid i _ _ Eu)].
  - intros [= <-] Hw. cbn. destruct k; cbn; try case_bool_decide; by split.
  - unfold on_app, run_world. destruct (Probes.updateProbes _ _ _) as [|[[] w]] eqn:E; [discriminate|].
    intros [= <-]. exact (mpres_updateProbes_grid _ _ _ E).
  - unfold on_app, run_world. destruct (Probes.updateReflectionProbes _ _) as [|[[] w]] eqn:E; [discriminate|].
    intros [= <-]. exact (mpres_updateReflectionProbes_grid _ _ _ E).
  - intros [= <-]. destruct b; by split.
  - intros [= <-]. unfold onMouseWheel. case_match; by split.
Qed.

Lemma main_run_grid s evs s' :
  main_run cubemapFaceNormals computeSH generateSpherePoints s evs = inr s' ->
  grid_frame (a_world (ms_app s)) (a_world (ms_app s')).
Proof.
  revert s. induction evs as [|ev evs IH]; intros s; cbn; [by intros [= <-]|].
  destruct (main_step _ _ _ s ev) as [|s1] eqn:E; [discriminate|]. intros Hrun.
  transitivity (a_world (ms_app s1)); [exact (main_step_grid s ev s1 E)|exact (IH s1 Hrun)].
Qed.

(** C38. [Renderer::Renderer] never assigns [grid], and
    [fetchSceneEntities] assigns it only from a visible
    [IRRADIANCE_GRID] entity (renderer.cpp:448): from the constructors,
    in a scene without one, every run of the loop (frames, the panel,
    keys, mouse) leaves [grid] uninitialised, and key [4] then runs
    [updateProbes], whose [if (grid)] reads it (undefined behaviour;
    the panel's "Irradiance" box runs the same bake). *)
Theorem grid_uninit_bake s0 evs s :
  main_initial generateSpherePoints s0 -> no_grid (a_world (ms_app s0)) ->
  main_run cubemapFaceNormals computeSH generateSpherePoints s0 evs = inr s ->
  r_grid (w_r (a_world (ms_app s))) = PUninit /\
  main_step cubemapFaceNormals computeSH generateSpherePoints s (EvMainKey SDLK_4) = inl (NullDeref "grid").
Proof.
  intros ((sc0 & vp0 & Hr) & _) Hw Hrun.
  destruct (main_run_grid s0 evs s Hrun Hw) as [Hw' Hg]. rewrite Hg, Hr.
  split; [done|]. cbn. unfold on_app, run_world, Probes.updateProbes. mstep. rewrite Hg, Hr. cbn.
  destruct (grid_entity_no_grid (a_world (ms_app s)) PUninit Hw') as [f Ef].
  unfold Probes.grid_entity in Ef |- *. by injection Ef as <-.
Qed.

End GridFrame.

End Main.

(** ** Witnesses *)

(** The renderer as its constructor leaves it, in an empty scene. *)
Definition ex_main_world : @World World1 :=
  {| w_r := Main.Renderer_new ex_sphere_points 0 mat_identity; w_scene := ex_scene []; w_nodes := ∅;
     w_quality := MEDIUM; w_width := 800; w_height := 600; w_gl := [] |}.

Definition ex_main_state : @Main.MainState World1 :=
  {| Main.ms_app := {| a_world := ex_main_world; a_render_debug := true; a_must_exit := false |}; Main.ms_wireframe := false; Main.ms_selected := None;
     Main.ms_mouse_locked := false;
     Main.ms_cam_speed := 10 |}.

(** After key [3] (the occlusion view). *)
Definition ex_main_state1 : @Main.MainState World1 :=
  Eval vm_compute in
  match Main.main_step ex_face_normals ex_computeSH ex_sphere_points ex_main_state
          (Main.EvMainKey (Main.KeyApp SDLK_3)) with
  | inr s => s | inl _ => ex_main_state end.

Lemma main_reachable_ok_witness : Main.main_ok (w_r (a_world (Main.ms_app ex_main_state1))).
Proof.
  apply (Main.main_reachable_ok ex_face_normals ex_computeSH ex_sphere_points).
  apply (Main.main_reach_step _ _ _ ex_main_state (Main.EvMainKey (Main.KeyApp SDLK_3))).
  - apply Main.main_reach_init. split; [by exists 0%Z, mat_identity|]. repeat split.
  - vm_compute. reflexivity.
Defined.

(** Middle button, then the wheel ten notches towards the user. *)
Definition ex_trap_events : list (@Main.MainEvent World1) :=
  [Main.EvMouseButtonDown Main.SDL_BUTTON_MIDDLE; Main.EvMouseWheel (-10) false].

Definition ex_state_trapped : @Main.MainState World1 :=
  Eval vm_compute in
  match Main.main_run ex_face_normals ex_computeSH ex_sphere_points ex_main_state ex_trap_events with
  | inr s => s | inl _ => ex_main_state end.

(** Then the wheel forward, the mouse unlocked, and the wheel again. *)
Definition ex_later_events : list (@Main.MainEvent World1) :=
  [Main.EvMouseWheel 3 false; Main.EvMouseButtonDown Main.SDL_BUTTON_MIDDLE;
   Main.EvMouseWheel 2 false; Main.EvMouseButtonDown Main.SDL_BUTTON_MIDDLE; Main.EvMouseWheel 5 false].

Definition ex_state_later : @Main.MainState World1 :=
  Eval vm_compute in
  match Main.main_run ex_face_normals ex_computeSH ex_sphere_points ex_state_trapped ex_later_events with
  | inr s => s | inl _ => ex_state_trapped end.

Lemma cam_speed_trap_witness :
  Main.main_run ex_face_normals ex_computeSH ex_sphere_points ex_main_state ex_trap_events = inr ex_state_trapped /\
  Main.main_run ex_face_normals ex_computeSH ex_sphere_points ex_state_trapped ex_later_events = inr ex_state_later /\
  (Main.ms_cam_speed ex_state_later == 0)%Q.
Proof.
  split; [vm_compute; reflexivity|]. split; [vm_compute; reflexivity|].
  apply (Main.cam_speed_trap ex_face_normals ex_computeSH ex_sphere_points ex_state_trapped ex_later_events);
    vm_compute; reflexivity.
Defined.

(** Key [3], the middle button and key [5] (the reflection bake, with
    no reflection probe) in the empty scene. *)
Definition ex_grid_events : list (@Main.MainEvent World1) :=
  [Main.EvMainKey (Main.KeyApp SDLK_3); Main.EvMouseButtonDown Main.SDL_BUTTON_MIDDLE;
   Main.EvMainKey Main.SDLK_5].

Definition ex_grid_state : @Main.MainState World1 :=
  Eval vm_compute in
  match Main.main_run ex_face_normals ex_computeSH ex_sphere_points ex_main_state ex_grid_events with
  | inr s => s | inl _ => ex_main_state end.

Lemma grid_uninit_bake_witness :
  Main.main_run ex_face_normals ex_computeSH ex_sphere_points ex_main_state ex_grid_events = inr ex_grid_state /\
  Main.main_step ex_face_normals ex_computeSH ex_sphere_points ex_grid_state (Main.EvMainKey Main.SDLK_4) =
    inl (NullDeref "grid").
Proof.
  assert (E : Main.main_run ex_face_normals ex_computeSH ex_sphere_points ex_main_state ex_grid_events =
              inr ex_grid_state) by (vm_compute; reflexivity).
  split; [exact E|].
  apply (Main.grid_uninit_bake ex_face_normals ex_computeSH ex_sphere_points ex_main_state ex_grid_events
           ex_grid_state); [|constructor|exact E].
  split; [by exists 0%Z, mat_identity|]. repeat split.
Defined.
